(** * rlgl render batch and matrix stack: a shallow embedding of [src/rlgl.h]

    The development follows the C source function by function.  The global
    [RLGH] object is passed explicitly; C [int]s are integers in [Z] (signed
    overflow is undefined in C and is excluded by the range hypotheses of
    the theorems that need it); C [float]s and [double]s are IEEE-754
    binary32 and binary64 values computed with the executable reference
    implementation of the standard library ([SpecFloat]); arrays are lists
    indexed by [Z]; calls into the graphics device and the [TRACELOG] hook
    are recorded, in order, in an event trace. *)

From Stdlib Require Import ZArith List Bool Lia String.
From Stdlib Require Import Floats.SpecFloat.
From stdpp Require Import base list.
Import ListNotations.

Local Open Scope Z_scope.

(* ------------------------------------------------------------------ *)
(** ** Scalars *)

Module F32.
(** C [float]: binary32, round to nearest even. *)
Definition prec : Z := 24.
Definition emax : Z := 128.
Definition t := spec_float.

Definition add : t -> t -> t := SFadd prec emax.
Definition sub : t -> t -> t := SFsub prec emax.
Definition mul : t -> t -> t := SFmul prec emax.
Definition div : t -> t -> t := SFdiv prec emax.
Definition sqrt : t -> t := SFsqrt prec emax.
Definition neg : t -> t := SFopp.
Definition eqb : t -> t -> bool := SFeqb.

(** The literal of an integer value ([1.0f], [2.0f], [20000.0f], ...). *)
Definition of_Z (z : Z) : t := binary_normalize prec emax z 0 false.

Definition zero : t := S754_zero false.
Definition one : t := of_Z 1.
Definition two : t := of_Z 2.
End F32.

Module F64.
(** C [double]: binary64. *)
Definition prec : Z := 53.
Definition emax : Z := 1024.
Definition t := spec_float.

Definition sub : t -> t -> t := SFsub prec emax.
Definition of_Z (z : Z) : t := binary_normalize prec emax z 0 false.

(** The cast [(float)d]. *)
Definition to_f32 (d : t) : F32.t :=
  match d with
  | S754_finite s m e => binary_round F32.prec F32.emax s m e
  | _ => d
  end.
End F64.

Definition float : Type := F32.t.
Definition double : Type := F64.t.

(* ------------------------------------------------------------------ *)
(** ** Constants of the header *)

Definition RL_DEFAULT_BATCH_DRAWCALLS : Z := 256.
Definition RL_DEFAULT_BATCH_MAX_TEXTURE_UNITS : Z := 4.
Definition RL_MAX_MATRIX_STACK_SIZE : Z := 32.

Definition RL_MODELVIEW : Z := 5888.   (* 0x1700 *)
Definition RL_PROJECTION : Z := 5889.  (* 0x1701 *)
Definition RL_TEXTURE : Z := 5890.     (* 0x1702 *)

Definition RL_LINES : Z := 1.
Definition RL_TRIANGLES : Z := 4.
Definition RL_QUADS : Z := 7.

Definition RL_LOG_INFO : Z := 3.
Definition RL_LOG_WARNING : Z := 4.
Definition RL_LOG_ERROR : Z := 5.

(** [PI] is the literal [3.14159265358979323846f], that is the binary32
    value [0x40490FDB]. *)
Definition PI : float := S754_finite false 13176795 (-22).
Definition DEG2RAD : float := F32.div PI (F32.of_Z 180).

(* ------------------------------------------------------------------ *)
(** ** Arrays *)

Section Arrays.
Context {A : Type}.

Definition in_bounds (l : list A) (i : Z) : bool :=
  (0 <=? i) && (i <? Z.of_nat (length l)).

(** [a[i]] as an rvalue.  Reading outside the array is undefined in C;
    the model then yields the default [d]. *)
Definition aget (d : A) (l : list A) (i : Z) : A :=
  if in_bounds l i then nth (Z.to_nat i) l d else d.

(** [a[i] = v] for an index inside the array. *)
Definition aset (l : list A) (i : Z) (v : A) : list A :=
  if in_bounds l i then <[Z.to_nat i := v]> l else l.

(** A freshly allocated block of [n] cells holding [d]. *)
Definition alloc (n : Z) (d : A) : list A := replicate (Z.to_nat n) d.
End Arrays.

(** [for (int j = lo; j < lim; j += step) body], for [step >= 1].  The
    fuel [lim - lo] is never exhausted before the loop condition fails. *)
Fixpoint for_fuel {S : Type} (fuel : nat) (j lim step : Z)
    (body : Z -> S -> S) (s : S) : S :=
  match fuel with
  | O => s
  | Datatypes.S fuel' =>
      if j <? lim then for_fuel fuel' (j + step) lim step body (body j s)
      else s
  end.

Definition for_loop {S : Type} (lo lim step : Z) (body : Z -> S -> S) (s : S) : S :=
  for_fuel (Z.to_nat (lim - lo)) lo lim step body s.

Arguments for_loop : simpl never.

(* ------------------------------------------------------------------ *)
(** ** Types *)

(** [Matrix]: the fields are declared in the order of the C struct, so
    that a positional [Build_Matrix] reads like a C initializer list. *)
Record Matrix := {
  m0 : float; m4 : float; m8 : float; m12 : float;
  m1 : float; m5 : float; m9 : float; m13 : float;
  m2 : float; m6 : float; m10 : float; m14 : float;
  m3 : float; m7 : float; m11 : float; m15 : float
}.

(** A texture is an opaque device handle; [0] is the null handle. *)
Definition rlTexture := Z.

Record rlVertexBuffer := {
  elementCount : Z;
  vertices : list float;
  texcoords : list float;
  colors : list Z;
  indices : list Z
}.

Record rlDrawCall := {
  mode : Z;
  vertexCount : Z;
  vertexAlignment : Z;
  texture : rlTexture
}.

Record rlRenderBatch := {
  bufferCount : Z;
  currentBuffer : Z;
  vertexBuffer : list rlVertexBuffer;
  draws : list rlDrawCall;
  drawCounter : Z;
  currentDepth : float
}.

(** The target of [RLGH.State.currentMatrix]. *)
Inductive matrix_ptr := PtrModelview | PtrProjection | PtrTransform.

Record rlViewportRect := { vp_x : Z; vp_y : Z; vp_width : Z; vp_height : Z }.

Record rlState := {
  vertexCounter : Z;
  texcoordx : float; texcoordy : float;
  colorr : Z; colorg : Z; colorb : Z; colora : Z;
  currentMatrixMode : Z;
  currentMatrix : matrix_ptr;
  modelview : Matrix;
  projection : Matrix;
  transform : Matrix;
  transformRequired : bool;
  stack : list Matrix;
  stackCounter : Z;
  defaultTexture : rlTexture;
  activeTextureId : list rlTexture;
  stereoRender : bool;
  projectionStereo : list Matrix;
  viewOffsetStereo : list Matrix;
  framebufferWidth : Z;
  framebufferHeight : Z;
  Viewport : rlViewportRect
}.

(** What the functions do to the outside world. *)
Inductive event :=
| EvTraceLog (level : Z) (msg : string)
| EvStoreOutOfBounds (array : string) (index : Z)
| EvBufferSubData (attribute : Z) (elements : Z)
| EvUniformMatrix (mvp : Matrix)
| EvBindTexture (t : rlTexture)
| EvDrawArrays (mode offset count : Z)
| EvDrawElements (count byteOffset : Z).

(** [RLGH].  [currentBatch] is the batch the C pointer designates. *)
Record rlGraphicsData := {
  currentBatch : rlRenderBatch;
  State : rlState;
  trace : list event
}.

(* ------------------------------------------------------------------ *)
(** ** Field assignments

    [set_f v r] is the record [r] after the C assignment [r.f = v]. *)

Definition set_elementCount (v : _) (b : rlVertexBuffer) : rlVertexBuffer :=
  {| elementCount := v; vertices := vertices b; texcoords := texcoords b;
     colors := colors b; indices := indices b |}.

Definition set_vertices (v : _) (b : rlVertexBuffer) : rlVertexBuffer :=
  {| elementCount := elementCount b; vertices := v; texcoords := texcoords
     b; colors := colors b; indices := indices b |}.

Definition set_texcoords (v : _) (b : rlVertexBuffer) : rlVertexBuffer :=
  {| elementCount := elementCount b; vertices := vertices b; texcoords := v;
     colors := colors b; indices := indices b |}.

Definition set_colors (v : _) (b : rlVertexBuffer) : rlVertexBuffer :=
  {| elementCount := elementCount b; vertices := vertices b; texcoords :=
     texcoords b; colors := v; indices := indices b |}.

Definition set_indices (v : _) (b : rlVertexBuffer) : rlVertexBuffer :=
  {| elementCount := elementCount b; vertices := vertices b; texcoords :=
     texcoords b; colors := colors b; indices := v |}.

Definition set_mode (v : _) (d : rlDrawCall) : rlDrawCall :=
  {| mode := v; vertexCount := vertexCount d; vertexAlignment :=
     vertexAlignment d; texture := texture d |}.

Definition set_vertexCount (v : _) (d : rlDrawCall) : rlDrawCall :=
  {| mode := mode d; vertexCount := v; vertexAlignment := vertexAlignment d;
     texture := texture d |}.

Definition set_vertexAlignment (v : _) (d : rlDrawCall) : rlDrawCall :=
  {| mode := mode d; vertexCount := vertexCount d; vertexAlignment := v;
     texture := texture d |}.

Definition set_texture (v : _) (d : rlDrawCall) : rlDrawCall :=
  {| mode := mode d; vertexCount := vertexCount d; vertexAlignment :=
     vertexAlignment d; texture := v |}.

Definition set_bufferCount (v : _) (b : rlRenderBatch) : rlRenderBatch :=
  {| bufferCount := v; currentBuffer := currentBuffer b; vertexBuffer :=
     vertexBuffer b; draws := draws b; drawCounter := drawCounter b;
     currentDepth := currentDepth b |}.

Definition set_currentBuffer (v : _) (b : rlRenderBatch) : rlRenderBatch :=
  {| bufferCount := bufferCount b; currentBuffer := v; vertexBuffer :=
     vertexBuffer b; draws := draws b; drawCounter := drawCounter b;
     currentDepth := currentDepth b |}.

Definition set_vertexBuffer (v : _) (b : rlRenderBatch) : rlRenderBatch :=
  {| bufferCount := bufferCount b; currentBuffer := currentBuffer b;
     vertexBuffer := v; draws := draws b; drawCounter := drawCounter b;
     currentDepth := currentDepth b |}.

Definition set_draws (v : _) (b : rlRenderBatch) : rlRenderBatch :=
  {| bufferCount := bufferCount b; currentBuffer := currentBuffer b;
     vertexBuffer := vertexBuffer b; draws := v; drawCounter := drawCounter
     b; currentDepth := currentDepth b |}.

Definition set_drawCounter (v : _) (b : rlRenderBatch) : rlRenderBatch :=
  {| bufferCount := bufferCount b; currentBuffer := currentBuffer b;
     vertexBuffer := vertexBuffer b; draws := draws b; drawCounter := v;
     currentDepth := currentDepth b |}.

Definition set_currentDepth (v : _) (b : rlRenderBatch) : rlRenderBatch :=
  {| bufferCount := bufferCount b; currentBuffer := currentBuffer b;
     vertexBuffer := vertexBuffer b; draws := draws b; drawCounter :=
     drawCounter b; currentDepth := v |}.

Definition set_vertexCounter (v : _) (s : rlState) : rlState :=
  {| vertexCounter := v; texcoordx := texcoordx s; texcoordy := texcoordy s;
     colorr := colorr s; colorg := colorg s; colorb := colorb s; colora :=
     colora s; currentMatrixMode := currentMatrixMode s; currentMatrix :=
     currentMatrix s; modelview := modelview s; projection := projection s;
     transform := transform s; transformRequired := transformRequired s;
     stack := stack s; stackCounter := stackCounter s; defaultTexture :=
     defaultTexture s; activeTextureId := activeTextureId s; stereoRender :=
     stereoRender s; projectionStereo := projectionStereo s;
     viewOffsetStereo := viewOffsetStereo s; framebufferWidth :=
     framebufferWidth s; framebufferHeight := framebufferHeight s; Viewport
     := Viewport s |}.

Definition set_texcoordx (v : _) (s : rlState) : rlState :=
  {| vertexCounter := vertexCounter s; texcoordx := v; texcoordy :=
     texcoordy s; colorr := colorr s; colorg := colorg s; colorb := colorb
     s; colora := colora s; currentMatrixMode := currentMatrixMode s;
     currentMatrix := currentMatrix s; modelview := modelview s; projection
     := projection s; transform := transform s; transformRequired :=
     transformRequired s; stack := stack s; stackCounter := stackCounter s;
     defaultTexture := defaultTexture s; activeTextureId := activeTextureId
     s; stereoRender := stereoRender s; projectionStereo := projectionStereo
     s; viewOffsetStereo := viewOffsetStereo s; framebufferWidth :=
     framebufferWidth s; framebufferHeight := framebufferHeight s; Viewport
     := Viewport s |}.

Definition set_texcoordy (v : _) (s : rlState) : rlState :=
  {| vertexCounter := vertexCounter s; texcoordx := texcoordx s; texcoordy
     := v; colorr := colorr s; colorg := colorg s; colorb := colorb s;
     colora := colora s; currentMatrixMode := currentMatrixMode s;
     currentMatrix := currentMatrix s; modelview := modelview s; projection
     := projection s; transform := transform s; transformRequired :=
     transformRequired s; stack := stack s; stackCounter := stackCounter s;
     defaultTexture := defaultTexture s; activeTextureId := activeTextureId
     s; stereoRender := stereoRender s; projectionStereo := projectionStereo
     s; viewOffsetStereo := viewOffsetStereo s; framebufferWidth :=
     framebufferWidth s; framebufferHeight := framebufferHeight s; Viewport
     := Viewport s |}.

Definition set_colorr (v : _) (s : rlState) : rlState :=
  {| vertexCounter := vertexCounter s; texcoordx := texcoordx s; texcoordy
     := texcoordy s; colorr := v; colorg := colorg s; colorb := colorb s;
     colora := colora s; currentMatrixMode := currentMatrixMode s;
     currentMatrix := currentMatrix s; modelview := modelview s; projection
     := projection s; transform := transform s; transformRequired :=
     transformRequired s; stack := stack s; stackCounter := stackCounter s;
     defaultTexture := defaultTexture s; activeTextureId := activeTextureId
     s; stereoRender := stereoRender s; projectionStereo := projectionStereo
     s; viewOffsetStereo := viewOffsetStereo s; framebufferWidth :=
     framebufferWidth s; framebufferHeight := framebufferHeight s; Viewport
     := Viewport s |}.

Definition set_colorg (v : _) (s : rlState) : rlState :=
  {| vertexCounter := vertexCounter s; texcoordx := texcoordx s; texcoordy
     := texcoordy s; colorr := colorr s; colorg := v; colorb := colorb s;
     colora := colora s; currentMatrixMode := currentMatrixMode s;
     currentMatrix := currentMatrix s; modelview := modelview s; projection
     := projection s; transform := transform s; transformRequired :=
     transformRequired s; stack := stack s; stackCounter := stackCounter s;
     defaultTexture := defaultTexture s; activeTextureId := activeTextureId
     s; stereoRender := stereoRender s; projectionStereo := projectionStereo
     s; viewOffsetStereo := viewOffsetStereo s; framebufferWidth :=
     framebufferWidth s; framebufferHeight := framebufferHeight s; Viewport
     := Viewport s |}.

Definition set_colorb (v : _) (s : rlState) : rlState :=
  {| vertexCounter := vertexCounter s; texcoordx := texcoordx s; texcoordy
     := texcoordy s; colorr := colorr s; colorg := colorg s; colorb := v;
     colora := colora s; currentMatrixMode := currentMatrixMode s;
     currentMatrix := currentMatrix s; modelview := modelview s; projection
     := projection s; transform := transform s; transformRequired :=
     transformRequired s; stack := stack s; stackCounter := stackCounter s;
     defaultTexture := defaultTexture s; activeTextureId := activeTextureId
     s; stereoRender := stereoRender s; projectionStereo := projectionStereo
     s; viewOffsetStereo := viewOffsetStereo s; framebufferWidth :=
     framebufferWidth s; framebufferHeight := framebufferHeight s; Viewport
     := Viewport s |}.

Definition set_colora (v : _) (s : rlState) : rlState :=
  {| vertexCounter := vertexCounter s; texcoordx := texcoordx s; texcoordy
     := texcoordy s; colorr := colorr s; colorg := colorg s; colorb :=
     colorb s; colora := v; currentMatrixMode := currentMatrixMode s;
     currentMatrix := currentMatrix s; modelview := modelview s; projection
     := projection s; transform := transform s; transformRequired :=
     transformRequired s; stack := stack s; stackCounter := stackCounter s;
     defaultTexture := defaultTexture s; activeTextureId := activeTextureId
     s; stereoRender := stereoRender s; projectionStereo := projectionStereo
     s; viewOffsetStereo := viewOffsetStereo s; framebufferWidth :=
     framebufferWidth s; framebufferHeight := framebufferHeight s; Viewport
     := Viewport s |}.

Definition set_currentMatrixMode (v : _) (s : rlState) : rlState :=
  {| vertexCounter := vertexCounter s; texcoordx := texcoordx s; texcoordy
     := texcoordy s; colorr := colorr s; colorg := colorg s; colorb :=
     colorb s; colora := colora s; currentMatrixMode := v; currentMatrix :=
     currentMatrix s; modelview := modelview s; projection := projection s;
     transform := transform s; transformRequired := transformRequired s;
     stack := stack s; stackCounter := stackCounter s; defaultTexture :=
     defaultTexture s; activeTextureId := activeTextureId s; stereoRender :=
     stereoRender s; projectionStereo := projectionStereo s;
     viewOffsetStereo := viewOffsetStereo s; framebufferWidth :=
     framebufferWidth s; framebufferHeight := framebufferHeight s; Viewport
     := Viewport s |}.

Definition set_currentMatrix (v : _) (s : rlState) : rlState :=
  {| vertexCounter := vertexCounter s; texcoordx := texcoordx s; texcoordy
     := texcoordy s; colorr := colorr s; colorg := colorg s; colorb :=
     colorb s; colora := colora s; currentMatrixMode := currentMatrixMode s;
     currentMatrix := v; modelview := modelview s; projection := projection
     s; transform := transform s; transformRequired := transformRequired s;
     stack := stack s; stackCounter := stackCounter s; defaultTexture :=
     defaultTexture s; activeTextureId := activeTextureId s; stereoRender :=
     stereoRender s; projectionStereo := projectionStereo s;
     viewOffsetStereo := viewOffsetStereo s; framebufferWidth :=
     framebufferWidth s; framebufferHeight := framebufferHeight s; Viewport
     := Viewport s |}.

Definition set_modelview (v : _) (s : rlState) : rlState :=
  {| vertexCounter := vertexCounter s; texcoordx := texcoordx s; texcoordy
     := texcoordy s; colorr := colorr s; colorg := colorg s; colorb :=
     colorb s; colora := colora s; currentMatrixMode := currentMatrixMode s;
     currentMatrix := currentMatrix s; modelview := v; projection :=
     projection s; transform := transform s; transformRequired :=
     transformRequired s; stack := stack s; stackCounter := stackCounter s;
     defaultTexture := defaultTexture s; activeTextureId := activeTextureId
     s; stereoRender := stereoRender s; projectionStereo := projectionStereo
     s; viewOffsetStereo := viewOffsetStereo s; framebufferWidth :=
     framebufferWidth s; framebufferHeight := framebufferHeight s; Viewport
     := Viewport s |}.

Definition set_projection (v : _) (s : rlState) : rlState :=
  {| vertexCounter := vertexCounter s; texcoordx := texcoordx s; texcoordy
     := texcoordy s; colorr := colorr s; colorg := colorg s; colorb :=
     colorb s; colora := colora s; currentMatrixMode := currentMatrixMode s;
     currentMatrix := currentMatrix s; modelview := modelview s; projection
     := v; transform := transform s; transformRequired := transformRequired
     s; stack := stack s; stackCounter := stackCounter s; defaultTexture :=
     defaultTexture s; activeTextureId := activeTextureId s; stereoRender :=
     stereoRender s; projectionStereo := projectionStereo s;
     viewOffsetStereo := viewOffsetStereo s; framebufferWidth :=
     framebufferWidth s; framebufferHeight := framebufferHeight s; Viewport
     := Viewport s |}.

Definition set_transform (v : _) (s : rlState) : rlState :=
  {| vertexCounter := vertexCounter s; texcoordx := texcoordx s; texcoordy
     := texcoordy s; colorr := colorr s; colorg := colorg s; colorb :=
     colorb s; colora := colora s; currentMatrixMode := currentMatrixMode s;
     currentMatrix := currentMatrix s; modelview := modelview s; projection
     := projection s; transform := v; transformRequired := transformRequired
     s; stack := stack s; stackCounter := stackCounter s; defaultTexture :=
     defaultTexture s; activeTextureId := activeTextureId s; stereoRender :=
     stereoRender s; projectionStereo := projectionStereo s;
     viewOffsetStereo := viewOffsetStereo s; framebufferWidth :=
     framebufferWidth s; framebufferHeight := framebufferHeight s; Viewport
     := Viewport s |}.

Definition set_transformRequired (v : _) (s : rlState) : rlState :=
  {| vertexCounter := vertexCounter s; texcoordx := texcoordx s; texcoordy
     := texcoordy s; colorr := colorr s; colorg := colorg s; colorb :=
     colorb s; colora := colora s; currentMatrixMode := currentMatrixMode s;
     currentMatrix := currentMatrix s; modelview := modelview s; projection
     := projection s; transform := transform s; transformRequired := v;
     stack := stack s; stackCounter := stackCounter s; defaultTexture :=
     defaultTexture s; activeTextureId := activeTextureId s; stereoRender :=
     stereoRender s; projectionStereo := projectionStereo s;
     viewOffsetStereo := viewOffsetStereo s; framebufferWidth :=
     framebufferWidth s; framebufferHeight := framebufferHeight s; Viewport
     := Viewport s |}.

Definition set_stack (v : _) (s : rlState) : rlState :=
  {| vertexCounter := vertexCounter s; texcoordx := texcoordx s; texcoordy
     := texcoordy s; colorr := colorr s; colorg := colorg s; colorb :=
     colorb s; colora := colora s; currentMatrixMode := currentMatrixMode s;
     currentMatrix := currentMatrix s; modelview := modelview s; projection
     := projection s; transform := transform s; transformRequired :=
     transformRequired s; stack := v; stackCounter := stackCounter s;
     defaultTexture := defaultTexture s; activeTextureId := activeTextureId
     s; stereoRender := stereoRender s; projectionStereo := projectionStereo
     s; viewOffsetStereo := viewOffsetStereo s; framebufferWidth :=
     framebufferWidth s; framebufferHeight := framebufferHeight s; Viewport
     := Viewport s |}.

Definition set_stackCounter (v : _) (s : rlState) : rlState :=
  {| vertexCounter := vertexCounter s; texcoordx := texcoordx s; texcoordy
     := texcoordy s; colorr := colorr s; colorg := colorg s; colorb :=
     colorb s; colora := colora s; currentMatrixMode := currentMatrixMode s;
     currentMatrix := currentMatrix s; modelview := modelview s; projection
     := projection s; transform := transform s; transformRequired :=
     transformRequired s; stack := stack s; stackCounter := v;
     defaultTexture := defaultTexture s; activeTextureId := activeTextureId
     s; stereoRender := stereoRender s; projectionStereo := projectionStereo
     s; viewOffsetStereo := viewOffsetStereo s; framebufferWidth :=
     framebufferWidth s; framebufferHeight := framebufferHeight s; Viewport
     := Viewport s |}.

Definition set_activeTextureId (v : _) (s : rlState) : rlState :=
  {| vertexCounter := vertexCounter s; texcoordx := texcoordx s; texcoordy
     := texcoordy s; colorr := colorr s; colorg := colorg s; colorb :=
     colorb s; colora := colora s; currentMatrixMode := currentMatrixMode s;
     currentMatrix := currentMatrix s; modelview := modelview s; projection
     := projection s; transform := transform s; transformRequired :=
     transformRequired s; stack := stack s; stackCounter := stackCounter s;
     defaultTexture := defaultTexture s; activeTextureId := v; stereoRender
     := stereoRender s; projectionStereo := projectionStereo s;
     viewOffsetStereo := viewOffsetStereo s; framebufferWidth :=
     framebufferWidth s; framebufferHeight := framebufferHeight s; Viewport
     := Viewport s |}.

Definition set_defaultTexture (v : _) (s : rlState) : rlState :=
  {| vertexCounter := vertexCounter s; texcoordx := texcoordx s; texcoordy
     := texcoordy s; colorr := colorr s; colorg := colorg s; colorb :=
     colorb s; colora := colora s; currentMatrixMode := currentMatrixMode s;
     currentMatrix := currentMatrix s; modelview := modelview s; projection
     := projection s; transform := transform s; transformRequired :=
     transformRequired s; stack := stack s; stackCounter := stackCounter s;
     defaultTexture := v; activeTextureId := activeTextureId s; stereoRender
     := stereoRender s; projectionStereo := projectionStereo s;
     viewOffsetStereo := viewOffsetStereo s; framebufferWidth :=
     framebufferWidth s; framebufferHeight := framebufferHeight s; Viewport
     := Viewport s |}.

Definition set_framebufferWidth (v : _) (s : rlState) : rlState :=
  {| vertexCounter := vertexCounter s; texcoordx := texcoordx s; texcoordy
     := texcoordy s; colorr := colorr s; colorg := colorg s; colorb :=
     colorb s; colora := colora s; currentMatrixMode := currentMatrixMode s;
     currentMatrix := currentMatrix s; modelview := modelview s; projection
     := projection s; transform := transform s; transformRequired :=
     transformRequired s; stack := stack s; stackCounter := stackCounter s;
     defaultTexture := defaultTexture s; activeTextureId := activeTextureId s; stereoRender
     := stereoRender s; projectionStereo := projectionStereo s;
     viewOffsetStereo := viewOffsetStereo s; framebufferWidth := v; framebufferHeight := framebufferHeight s; Viewport
     := Viewport s |}.

Definition set_framebufferHeight (v : _) (s : rlState) : rlState :=
  {| vertexCounter := vertexCounter s; texcoordx := texcoordx s; texcoordy
     := texcoordy s; colorr := colorr s; colorg := colorg s; colorb :=
     colorb s; colora := colora s; currentMatrixMode := currentMatrixMode s;
     currentMatrix := currentMatrix s; modelview := modelview s; projection
     := projection s; transform := transform s; transformRequired :=
     transformRequired s; stack := stack s; stackCounter := stackCounter s;
     defaultTexture := defaultTexture s; activeTextureId := activeTextureId s; stereoRender
     := stereoRender s; projectionStereo := projectionStereo s;
     viewOffsetStereo := viewOffsetStereo s; framebufferWidth :=
     framebufferWidth s; framebufferHeight := v; Viewport
     := Viewport s |}.

Definition set_Viewport (v : _) (s : rlState) : rlState :=
  {| vertexCounter := vertexCounter s; texcoordx := texcoordx s; texcoordy
     := texcoordy s; colorr := colorr s; colorg := colorg s; colorb :=
     colorb s; colora := colora s; currentMatrixMode := currentMatrixMode s;
     currentMatrix := currentMatrix s; modelview := modelview s; projection
     := projection s; transform := transform s; transformRequired :=
     transformRequired s; stack := stack s; stackCounter := stackCounter s;
     defaultTexture := defaultTexture s; activeTextureId := activeTextureId
     s; stereoRender := stereoRender s; projectionStereo := projectionStereo
     s; viewOffsetStereo := viewOffsetStereo s; framebufferWidth :=
     framebufferWidth s; framebufferHeight := framebufferHeight s; Viewport
     := v |}.

Definition set_stereoRender (v : _) (s : rlState) : rlState :=
  {| vertexCounter := vertexCounter s; texcoordx := texcoordx s; texcoordy
     := texcoordy s; colorr := colorr s; colorg := colorg s; colorb :=
     colorb s; colora := colora s; currentMatrixMode := currentMatrixMode s;
     currentMatrix := currentMatrix s; modelview := modelview s; projection
     := projection s; transform := transform s; transformRequired :=
     transformRequired s; stack := stack s; stackCounter := stackCounter s;
     defaultTexture := defaultTexture s; activeTextureId := activeTextureId
     s; stereoRender := v; projectionStereo := projectionStereo s;
     viewOffsetStereo := viewOffsetStereo s; framebufferWidth :=
     framebufferWidth s; framebufferHeight := framebufferHeight s; Viewport
     := Viewport s |}.

Definition set_projectionStereo (v : _) (s : rlState) : rlState :=
  {| vertexCounter := vertexCounter s; texcoordx := texcoordx s; texcoordy
     := texcoordy s; colorr := colorr s; colorg := colorg s; colorb :=
     colorb s; colora := colora s; currentMatrixMode := currentMatrixMode s;
     currentMatrix := currentMatrix s; modelview := modelview s; projection
     := projection s; transform := transform s; transformRequired :=
     transformRequired s; stack := stack s; stackCounter := stackCounter s;
     defaultTexture := defaultTexture s; activeTextureId := activeTextureId
     s; stereoRender := stereoRender s; projectionStereo := v;
     viewOffsetStereo := viewOffsetStereo s; framebufferWidth :=
     framebufferWidth s; framebufferHeight := framebufferHeight s; Viewport
     := Viewport s |}.

Definition set_viewOffsetStereo (v : _) (s : rlState) : rlState :=
  {| vertexCounter := vertexCounter s; texcoordx := texcoordx s; texcoordy
     := texcoordy s; colorr := colorr s; colorg := colorg s; colorb :=
     colorb s; colora := colora s; currentMatrixMode := currentMatrixMode s;
     currentMatrix := currentMatrix s; modelview := modelview s; projection
     := projection s; transform := transform s; transformRequired :=
     transformRequired s; stack := stack s; stackCounter := stackCounter s;
     defaultTexture := defaultTexture s; activeTextureId := activeTextureId
     s; stereoRender := stereoRender s; projectionStereo := projectionStereo
     s; viewOffsetStereo := v; framebufferWidth := framebufferWidth s;
     framebufferHeight := framebufferHeight s; Viewport := Viewport s |}.

Definition set_currentBatch (v : _) (g : rlGraphicsData) : rlGraphicsData :=
  {| currentBatch := v; State := State g; trace := trace g |}.

Definition set_State (v : _) (g : rlGraphicsData) : rlGraphicsData :=
  {| currentBatch := currentBatch g; State := v; trace := trace g |}.

Definition set_trace (v : _) (g : rlGraphicsData) : rlGraphicsData :=
  {| currentBatch := currentBatch g; State := State g; trace := v |}.

(** Updates of the nested parts of [RLGH]. *)
Definition upd_State (f : rlState -> rlState) (g : rlGraphicsData) : rlGraphicsData :=
  set_State (f (State g)) g.

Definition upd_batch (f : rlRenderBatch -> rlRenderBatch) (g : rlGraphicsData)
  : rlGraphicsData :=
  set_currentBatch (f (currentBatch g)) g.

Definition emit (e : event) (g : rlGraphicsData) : rlGraphicsData :=
  set_trace (trace g ++ [e]) g.

(** The [TRACELOG] hook. *)
Definition TRACELOG (level : Z) (msg : string) : rlGraphicsData -> rlGraphicsData :=
  emit (EvTraceLog level msg).

(* ------------------------------------------------------------------ *)
(** ** Auxiliary matrix math *)

Definition rlMatrixIdentity : Matrix :=
  Build_Matrix
    F32.one F32.zero F32.zero F32.zero
    F32.zero F32.one F32.zero F32.zero
    F32.zero F32.zero F32.one F32.zero
    F32.zero F32.zero F32.zero F32.one.

(** The zero-initialised [Matrix m = { 0 }]. *)
Definition matrix_zero : Matrix :=
  Build_Matrix
    F32.zero F32.zero F32.zero F32.zero
    F32.zero F32.zero F32.zero F32.zero
    F32.zero F32.zero F32.zero F32.zero
    F32.zero F32.zero F32.zero F32.zero.

Declare Scope f32_scope.
Delimit Scope f32_scope with f32.
Infix "+" := F32.add : f32_scope.
Infix "-" := F32.sub : f32_scope.
Infix "*" := F32.mul : f32_scope.
Infix "/" := F32.div : f32_scope.
Notation "- x" := (F32.neg x) : f32_scope.

Definition rlMatrixMultiply (left right : Matrix) : Matrix :=
  (let l := left in let r := right in
  {| m0 := m0 l * m0 r + m1 l * m4 r + m2 l * m8 r + m3 l * m12 r;
     m1 := m0 l * m1 r + m1 l * m5 r + m2 l * m9 r + m3 l * m13 r;
     m2 := m0 l * m2 r + m1 l * m6 r + m2 l * m10 r + m3 l * m14 r;
     m3 := m0 l * m3 r + m1 l * m7 r + m2 l * m11 r + m3 l * m15 r;
     m4 := m4 l * m0 r + m5 l * m4 r + m6 l * m8 r + m7 l * m12 r;
     m5 := m4 l * m1 r + m5 l * m5 r + m6 l * m9 r + m7 l * m13 r;
     m6 := m4 l * m2 r + m5 l * m6 r + m6 l * m10 r + m7 l * m14 r;
     m7 := m4 l * m3 r + m5 l * m7 r + m6 l * m11 r + m7 l * m15 r;
     m8 := m8 l * m0 r + m9 l * m4 r + m10 l * m8 r + m11 l * m12 r;
     m9 := m8 l * m1 r + m9 l * m5 r + m10 l * m9 r + m11 l * m13 r;
     m10 := m8 l * m2 r + m9 l * m6 r + m10 l * m10 r + m11 l * m14 r;
     m11 := m8 l * m3 r + m9 l * m7 r + m10 l * m11 r + m11 l * m15 r;
     m12 := m12 l * m0 r + m13 l * m4 r + m14 l * m8 r + m15 l * m12 r;
     m13 := m12 l * m1 r + m13 l * m5 r + m14 l * m9 r + m15 l * m13 r;
     m14 := m12 l * m2 r + m13 l * m6 r + m14 l * m10 r + m15 l * m14 r;
     m15 := m12 l * m3 r + m13 l * m7 r + m14 l * m11 r + m15 l * m15 r |})%f32.

(* ------------------------------------------------------------------ *)
(** ** Matrix operations *)

(** [*RLGH.State.currentMatrix] as an rvalue. *)
Definition deref_currentMatrix (s : rlState) : Matrix :=
  match currentMatrix s with
  | PtrModelview => modelview s
  | PtrProjection => projection s
  | PtrTransform => transform s
  end.

(** [*RLGH.State.currentMatrix = m]. *)
Definition assign_currentMatrix (m : Matrix) (s : rlState) : rlState :=
  match currentMatrix s with
  | PtrModelview => set_modelview m s
  | PtrProjection => set_projection m s
  | PtrTransform => set_transform m s
  end.

Definition rlMatrixMode (mode : Z) (g : rlGraphicsData) : rlGraphicsData :=
  let g :=
    if mode =? RL_PROJECTION then upd_State (set_currentMatrix PtrProjection) g
    else if mode =? RL_MODELVIEW then upd_State (set_currentMatrix PtrModelview) g
    else g in
  upd_State (set_currentMatrixMode mode) g.

(** [RLGH.State.stack[i] = m]; the array has [RL_MAX_MATRIX_STACK_SIZE]
    entries and the source does not check [i].  A store outside the
    array has no defined behaviour in C (in the structure it falls on
    [stackCounter] and the fields that follow it); the model records it
    as an event and gives it no effect on memory.  A trace with such an
    event marks a run that has left the behaviour described here: what a
    property says of a state is meant for runs without it
    ([stores_in_bounds] below). *)
Definition store_stack (i : Z) (m : Matrix) (g : rlGraphicsData) : rlGraphicsData :=
  if in_bounds (stack (State g)) i
  then upd_State (fun s => set_stack (aset (stack s) i m) s) g
  else emit (EvStoreOutOfBounds "RLGH.State.stack" i) g.

Definition rlPushMatrix (g : rlGraphicsData) : rlGraphicsData :=
  let g :=
    if stackCounter (State g) >=? RL_MAX_MATRIX_STACK_SIZE
    then TRACELOG RL_LOG_ERROR
           "RLGH: Matrix stack overflow (RL_MAX_MATRIX_STACK_SIZE)" g
    else g in
  let g :=
    if currentMatrixMode (State g) =? RL_MODELVIEW
    then upd_State (fun s => set_currentMatrix PtrTransform
                               (set_transformRequired true s)) g
    else g in
  let g := store_stack (stackCounter (State g)) (deref_currentMatrix (State g)) g in
  upd_State (fun s => set_stackCounter (stackCounter s + 1) s) g.

Definition rlPopMatrix (g : rlGraphicsData) : rlGraphicsData :=
  let g :=
    if stackCounter (State g) >? 0
    then upd_State (fun s =>
           let mat := aget rlMatrixIdentity (stack s) (stackCounter s - 1) in
           let s := assign_currentMatrix mat s in
           set_stackCounter (stackCounter s - 1) s) g
    else g in
  if (stackCounter (State g) =? 0) && (currentMatrixMode (State g) =? RL_MODELVIEW)
  then upd_State (fun s => set_transformRequired false
                             (set_currentMatrix PtrModelview s)) g
  else g.

Definition rlLoadIdentity (g : rlGraphicsData) : rlGraphicsData :=
  upd_State (assign_currentMatrix rlMatrixIdentity) g.

Definition matTranslation (x y z : float) : Matrix :=
  Build_Matrix
    F32.one F32.zero F32.zero x
    F32.zero F32.one F32.zero y
    F32.zero F32.zero F32.one z
    F32.zero F32.zero F32.zero F32.one.

Definition rlTranslatef (x y z : float) (g : rlGraphicsData) : rlGraphicsData :=
  upd_State (fun s =>
    assign_currentMatrix
      (rlMatrixMultiply (matTranslation x y z) (deref_currentMatrix s)) s) g.

Section Rotation.
(** [sinf] and [cosf] come from the C math library. *)
Variables sinf cosf : float -> float.

Definition matRotation (angle x y z : float) : Matrix :=
  (let lengthSquared := x * x + y * y + z * z in
   let normalize :=
     negb (F32.eqb lengthSquared F32.one) && negb (F32.eqb lengthSquared F32.zero) in
   let inverseLength := F32.one / F32.sqrt lengthSquared in
   let x := if normalize then x * inverseLength else x in
   let y := if normalize then y * inverseLength else y in
   let z := if normalize then z * inverseLength else z in
   let sinres := sinf (DEG2RAD * angle) in
   let cosres := cosf (DEG2RAD * angle) in
   let t := F32.one - cosres in
   {| m0 := x * x * t + cosres;
      m1 := y * x * t + z * sinres;
      m2 := z * x * t - y * sinres;
      m3 := F32.zero;
      m4 := x * y * t - z * sinres;
      m5 := y * y * t + cosres;
      m6 := z * y * t + x * sinres;
      m7 := F32.zero;
      m8 := x * z * t + y * sinres;
      m9 := y * z * t - x * sinres;
      m10 := z * z * t + cosres;
      m11 := F32.zero;
      m12 := F32.zero;
      m13 := F32.zero;
      m14 := F32.zero;
      m15 := F32.one |})%f32.

Definition rlRotatef (angle x y z : float) (g : rlGraphicsData) : rlGraphicsData :=
  upd_State (fun s =>
    assign_currentMatrix
      (rlMatrixMultiply (matRotation angle x y z) (deref_currentMatrix s)) s) g.
End Rotation.

Definition matScale (x y z : float) : Matrix :=
  Build_Matrix
    x F32.zero F32.zero F32.zero
    F32.zero y F32.zero F32.zero
    F32.zero F32.zero z F32.zero
    F32.zero F32.zero F32.zero F32.one.

Definition rlScalef (x y z : float) (g : rlGraphicsData) : rlGraphicsData :=
  upd_State (fun s =>
    assign_currentMatrix
      (rlMatrixMultiply (matScale x y z) (deref_currentMatrix s)) s) g.

(** [Matrix mat = { matf[0], matf[4], ... }]: field [mi] receives [matf[i]]. *)
Definition matrix_of_array (matf : list float) : Matrix :=
  let a := aget F32.zero matf in
  Build_Matrix
    (a 0) (a 4) (a 8) (a 12)
    (a 1) (a 5) (a 9) (a 13)
    (a 2) (a 6) (a 10) (a 14)
    (a 3) (a 7) (a 11) (a 15).

Definition rlMultMatrixf (matf : list float) (g : rlGraphicsData) : rlGraphicsData :=
  upd_State (fun s =>
    assign_currentMatrix
      (rlMatrixMultiply (deref_currentMatrix s) (matrix_of_array matf)) s) g.

Definition matFrustum (left right bottom top znear zfar : double) : Matrix :=
  (let rl := F64.to_f32 (F64.sub right left) in
   let tb := F64.to_f32 (F64.sub top bottom) in
   let fn := F64.to_f32 (F64.sub zfar znear) in
   let f := F64.to_f32 in
   {| m0 := (f znear * F32.two) / rl;
      m1 := F32.zero; m2 := F32.zero; m3 := F32.zero;
      m4 := F32.zero;
      m5 := (f znear * F32.two) / tb;
      m6 := F32.zero; m7 := F32.zero;
      m8 := (f right + f left) / rl;
      m9 := (f top + f bottom) / tb;
      m10 := (- (f zfar + f znear)) / fn;
      m11 := - F32.one;
      m12 := F32.zero; m13 := F32.zero;
      m14 := (- (f zfar * f znear * F32.two)) / fn;
      m15 := F32.zero |})%f32.

Definition rlFrustum (left right bottom top znear zfar : double)
    (g : rlGraphicsData) : rlGraphicsData :=
  upd_State (fun s =>
    assign_currentMatrix
      (rlMatrixMultiply (deref_currentMatrix s)
         (matFrustum left right bottom top znear zfar)) s) g.

Definition matOrtho (left right bottom top znear zfar : double) : Matrix :=
  (let rl := F64.to_f32 (F64.sub right left) in
   let tb := F64.to_f32 (F64.sub top bottom) in
   let fn := F64.to_f32 (F64.sub zfar znear) in
   let f := F64.to_f32 in
   {| m0 := F32.two / rl;
      m1 := F32.zero; m2 := F32.zero; m3 := F32.zero;
      m4 := F32.zero;
      m5 := F32.two / tb;
      m6 := F32.zero; m7 := F32.zero;
      m8 := F32.zero; m9 := F32.zero;
      m10 := (- F32.two) / fn;
      m11 := F32.zero;
      m12 := (- (f left + f right)) / rl;
      m13 := (- (f top + f bottom)) / tb;
      m14 := (- (f zfar + f znear)) / fn;
      m15 := F32.one |})%f32.

Definition rlOrtho (left right bottom top znear zfar : double)
    (g : rlGraphicsData) : rlGraphicsData :=
  upd_State (fun s =>
    assign_currentMatrix
      (rlMatrixMultiply (deref_currentMatrix s)
         (matOrtho left right bottom top znear zfar)) s) g.

Definition rlViewport (x y width height : Z) (g : rlGraphicsData) : rlGraphicsData :=
  upd_State (set_Viewport
    {| vp_x := x; vp_y := y; vp_width := width; vp_height := height |}) g.

Definition rlEnableStereoRender : rlGraphicsData -> rlGraphicsData :=
  upd_State (set_stereoRender true).

Definition rlDisableStereoRender : rlGraphicsData -> rlGraphicsData :=
  upd_State (set_stereoRender false).

Definition rlSetMatrixProjectionStereo (right left : Matrix)
  : rlGraphicsData -> rlGraphicsData :=
  upd_State (fun s =>
    set_projectionStereo (aset (aset (projectionStereo s) 0 right) 1 left) s).

Definition rlSetMatrixViewOffsetStereo (right left : Matrix)
  : rlGraphicsData -> rlGraphicsData :=
  upd_State (fun s =>
    set_viewOffsetStereo (aset (aset (viewOffsetStereo s) 0 right) 1 left) s).

Definition rlSetMatrixModelview (view : Matrix) : rlGraphicsData -> rlGraphicsData :=
  upd_State (set_modelview view).

Definition rlSetMatrixProjection (proj : Matrix) : rlGraphicsData -> rlGraphicsData :=
  upd_State (set_projection proj).

(* ------------------------------------------------------------------ *)
(** ** Render batch: access paths *)

Definition blank_draw : rlDrawCall :=
  {| mode := 0; vertexCount := 0; vertexAlignment := 0; texture := 0 |}.

Definition blank_buffer : rlVertexBuffer :=
  {| elementCount := 0; vertices := []; texcoords := []; colors := []; indices := [] |}.

(** [batch->draws[i]] and [batch->vertexBuffer[batch->currentBuffer]]. *)
Definition draw_at (b : rlRenderBatch) (i : Z) : rlDrawCall :=
  aget blank_draw (draws b) i.

Definition buffer_at (b : rlRenderBatch) (i : Z) : rlVertexBuffer :=
  aget blank_buffer (vertexBuffer b) i.

Definition current_buffer (b : rlRenderBatch) : rlVertexBuffer :=
  buffer_at b (currentBuffer b).

(** The entry under construction, [draws[drawCounter - 1]]. *)
Definition current_draw (b : rlRenderBatch) : rlDrawCall :=
  draw_at b (drawCounter b - 1).

(** An assignment through a pointer [drawcall = &batch->draws[i]] taken
    earlier: [i] is the index the pointer was computed from. *)
Definition store_draw (i : Z) (f : rlDrawCall -> rlDrawCall) (g : rlGraphicsData)
  : rlGraphicsData :=
  let b := currentBatch g in
  if in_bounds (draws b) i
  then set_currentBatch (set_draws (aset (draws b) i (f (draw_at b i))) b) g
  else emit (EvStoreOutOfBounds "batch.draws" i) g.

(** [a[i] = v] with the out-of-bounds case made observable.  A store
    outside the block has no defined behaviour in C (it falls on
    whatever the allocator placed behind the block); the model records
    it as an event and gives it no effect on memory, as for
    [store_stack]. *)
Definition store_checked {A : Type} (name : string) (l : list A) (i : Z) (v : A)
  : list A * list event :=
  if in_bounds l i then (aset l i v, []) else (l, [EvStoreOutOfBounds name i]).

(* ------------------------------------------------------------------ *)
(** ** rlLoadRenderBatch *)

Definition UINT_MODULUS : Z := 4294967296.
Definition INT_MAX : Z := 2147483647.

(** Conversion of an [int] expression to [unsigned int]. *)
Definition to_uint (z : Z) : Z := z mod UINT_MODULUS.

(** The value of an [int] expression whose exact value is [z]: 32 bits,
    two's complement, wrapping around on overflow as the compiled code
    does. *)
Definition to_int (z : Z) : Z := (z + (INT_MAX + 1)) mod UINT_MODULUS - (INT_MAX + 1).

(** The loop [for (int j = 0; j < (6*bufferElements); j += 6)] with its
    counter [k]. *)
Definition init_indices_body (j : Z) (st : Z * list Z) : Z * list Z :=
  let '(k, a) := st in
  let a := aset a j (to_uint (4 * k)) in
  let a := aset a (j + 1) (to_uint (4 * k + 1)) in
  let a := aset a (j + 2) (to_uint (4 * k + 2)) in
  let a := aset a (j + 3) (to_uint (4 * k)) in
  let a := aset a (j + 4) (to_uint (4 * k + 2)) in
  let a := aset a (j + 5) (to_uint (4 * k + 3)) in
  (k + 1, a).

Definition init_indices (bufferElements : Z) (a : list Z) : list Z :=
  snd (for_loop 0 (6 * bufferElements) 6 init_indices_body (0, a)).

Definition zero_fill {A : Type} (n : Z) (z : A) (a : list A) : list A :=
  for_loop 0 n 1 (fun j a => aset a j z) a.

(** The buffer that one iteration of the loop over the buffers sets up.
    Memory returned by [RL_MALLOC] is shown zeroed; every cell is
    overwritten by the loops that follow the allocation. *)
Definition new_vertex_buffer (bufferElements : Z) : rlVertexBuffer :=
  {| elementCount := bufferElements;
     vertices := zero_fill (3 * 4 * bufferElements) F32.zero
                   (alloc (bufferElements * 3 * 4) F32.zero);
     texcoords := zero_fill (2 * 4 * bufferElements) F32.zero
                    (alloc (bufferElements * 2 * 4) F32.zero);
     colors := zero_fill (4 * 4 * bufferElements) 0
                 (alloc (bufferElements * 4 * 4) 0);
     indices := init_indices bufferElements (alloc (bufferElements * 6) 0) |}.

Definition load_buffer_body (bufferElements : Z) (i : Z)
    (st : list rlVertexBuffer * rlGraphicsData) : list rlVertexBuffer * rlGraphicsData :=
  let '(vbs, g) := st in
  (aset vbs i (new_vertex_buffer bufferElements),
   upd_State (set_vertexCounter 0) g).

(** The device-side part of the function (creation of the vertex array
    and buffer objects) touches neither [batch] nor [RLGH] apart from the
    object ids, which the model does not keep. *)
Definition rlLoadRenderBatch (numBuffers bufferElements : Z) (g : rlGraphicsData)
  : rlRenderBatch * rlGraphicsData :=
  let '(vbs, g) :=
    for_loop 0 numBuffers 1 (load_buffer_body bufferElements)
      (alloc numBuffers blank_buffer, g) in
  let g := TRACELOG RL_LOG_INFO "RLGH: Render batch vertex buffers loaded successfully in RAM (CPU)" g in
  let g := TRACELOG RL_LOG_INFO "RLGH: Render batch vertex buffers loaded successfully in VRAM (GPU)" g in
  let ds :=
    for_loop 0 RL_DEFAULT_BATCH_DRAWCALLS 1
      (fun i ds => aset ds i
         {| mode := RL_QUADS; vertexCount := 0; vertexAlignment := 0;
            texture := defaultTexture (State g) |})
      (alloc RL_DEFAULT_BATCH_DRAWCALLS blank_draw) in
  ({| bufferCount := numBuffers;
      currentBuffer := 0;
      vertexBuffer := vbs;
      draws := ds;
      drawCounter := 1;
      currentDepth := F32.neg F32.one |}, g).

(* ------------------------------------------------------------------ *)
(** ** rlDrawRenderBatch *)

(** The loop over the draw calls; its state is the running
    [vertexOffset]. *)
Definition issue_draw_body (batch : rlRenderBatch) (i : Z)
    (st : Z * rlGraphicsData) : Z * rlGraphicsData :=
  let '(vertexOffset, g) := st in
  let d := draw_at batch i in
  let g := emit (EvBindTexture (texture d)) g in
  let g :=
    if (mode d =? RL_LINES) || (mode d =? RL_TRIANGLES)
    then emit (EvDrawArrays (mode d) vertexOffset (vertexCount d)) g
    else emit (EvDrawElements (Z.quot (vertexCount d) 4 * 6)
                 (Z.quot vertexOffset 4 * 6 * 4)) g in
  (vertexOffset + (vertexCount d + vertexAlignment d), g).

(** Binding of the additional sampler textures. *)
Definition bind_active_body (i : Z) (g : rlGraphicsData) : rlGraphicsData :=
  let t := aget 0 (activeTextureId (State g)) i in
  if t >? 0 then emit (EvBindTexture t) g else g.

Definition draw_eye_body (batch : rlRenderBatch) (eyeCount : Z) (matModelView : Matrix)
    (eye : Z) (g : rlGraphicsData) : rlGraphicsData :=
  let g :=
    if eyeCount =? 2 then
      let s := State g in
      let g := rlViewport (Z.quot (eye * framebufferWidth s) 2) 0
                 (Z.quot (framebufferWidth s) 2) (framebufferHeight s) g in
      let g := rlSetMatrixModelview
                 (rlMatrixMultiply matModelView
                    (aget rlMatrixIdentity (viewOffsetStereo s) eye)) g in
      rlSetMatrixProjection (aget rlMatrixIdentity (projectionStereo s) eye) g
    else g in
  if vertexCounter (State g) >? 0 then
    let matMVP := rlMatrixMultiply (modelview (State g)) (projection (State g)) in
    let g := emit (EvUniformMatrix matMVP) g in
    let g := for_loop 0 RL_DEFAULT_BATCH_MAX_TEXTURE_UNITS 1 bind_active_body g in
    let g := snd (for_loop 0 (drawCounter batch) 1 (issue_draw_body batch) (0, g)) in
    emit (EvBindTexture 0) g
  else g.

Definition reset_draw (defaultTex : rlTexture) (d : rlDrawCall) : rlDrawCall :=
  set_texture defaultTex (set_vertexCount 0 (set_mode RL_QUADS d)).

(** [rlDrawRenderBatch(batch)]: the batch is passed and returned, the
    rest of [RLGH] is threaded through. *)
Definition rlDrawRenderBatch (batch : rlRenderBatch) (g : rlGraphicsData)
  : rlRenderBatch * rlGraphicsData :=
  let vc := vertexCounter (State g) in
  let g :=
    if vc >? 0 then
      emit (EvBufferSubData 2 (vc * 4))
        (emit (EvBufferSubData 1 (vc * 2))
           (emit (EvBufferSubData 0 (vc * 3)) g))
    else g in
  let matProjection := projection (State g) in
  let matModelView := modelview (State g) in
  let eyeCount := if stereoRender (State g) then 2 else 1 in
  let g := for_loop 0 eyeCount 1 (draw_eye_body batch eyeCount matModelView) g in
  let g :=
    if eyeCount =? 2
    then rlViewport 0 0 (framebufferWidth (State g)) (framebufferHeight (State g)) g
    else g in
  let g := upd_State (set_vertexCounter 0) g in
  let batch := set_currentDepth (F32.neg F32.one) batch in
  let g := upd_State (set_projection matProjection) g in
  let g := upd_State (set_modelview matModelView) g in
  let batch :=
    for_loop 0 RL_DEFAULT_BATCH_DRAWCALLS 1
      (fun i b => set_draws
         (aset (draws b) i (reset_draw (defaultTexture (State g)) (draw_at b i))) b)
      batch in
  let g :=
    for_loop 0 RL_DEFAULT_BATCH_MAX_TEXTURE_UNITS 1
      (fun i g => upd_State (fun s => set_activeTextureId (aset (activeTextureId s) i 0) s) g)
      g in
  let batch := set_drawCounter 1 batch in
  let batch := set_currentBuffer (currentBuffer batch + 1) batch in
  let batch :=
    if currentBuffer batch >=? bufferCount batch then set_currentBuffer 0 batch
    else batch in
  (batch, g).

(** A call [rlDrawRenderBatch(RLGH.currentBatch)]. *)
Definition flush_current (g : rlGraphicsData) : rlGraphicsData :=
  let '(b, g) := rlDrawRenderBatch (currentBatch g) g in
  set_currentBatch b g.

Definition rlDrawRenderBatchActive : rlGraphicsData -> rlGraphicsData := flush_current.

(** [rlCheckRenderBatchLimit].  The name [vertex_buffer] of the condition
    is read as in [rlVertex3f]: the current buffer of the current batch.
    [drawcall] is computed before the draw and used after it. *)
Definition rlCheckRenderBatchLimit (vCount : Z) (g : rlGraphicsData)
  : bool * rlGraphicsData :=
  if vertexCounter (State g) + vCount >=? elementCount (current_buffer (currentBatch g)) * 4
  then
    let drawcall := drawCounter (currentBatch g) - 1 in
    let currentMode := mode (draw_at (currentBatch g) drawcall) in
    let currentTexture := texture (draw_at (currentBatch g) drawcall) in
    let g := flush_current g in
    let g := store_draw drawcall (set_mode currentMode) g in
    let g := store_draw drawcall (set_texture currentTexture) g in
    (true, g)
  else (false, g).

(* ------------------------------------------------------------------ *)
(** ** Vertex level operations *)

(** The alignment that closes a draw call of [count] vertices. *)
Definition alignment_for (mode count : Z) : Z :=
  if mode =? RL_LINES then (if count <? 4 then count else Z.rem count 4)
  else if mode =? RL_TRIANGLES then (if count <? 4 then 1 else 4 - Z.rem count 4)
  else 0.

(** The block shared by [rlBegin] and [rlSetTexture]: record the alignment
    on the entry [drawcall] and, unless the batch had to be drawn, open
    the next entry.  Returns the index [drawcall] designates afterwards. *)
Definition close_draw (drawcall vertex_count : Z) (g : rlGraphicsData)
  : Z * rlGraphicsData :=
  let align := alignment_for (mode (draw_at (currentBatch g) drawcall)) vertex_count in
  let g := store_draw drawcall (set_vertexAlignment align) g in
  let '(overflow, g) :=
    rlCheckRenderBatchLimit (vertexAlignment (draw_at (currentBatch g) drawcall)) g in
  if negb overflow then
    let g := upd_State (fun s =>
               set_vertexCounter
                 (vertexCounter s + vertexAlignment (draw_at (currentBatch g) drawcall)) s) g in
    let g := upd_batch (fun b => set_drawCounter (drawCounter b + 1) b) g in
    (drawCounter (currentBatch g) - 1, g)
  else (drawcall, g).

(** [rlBegin].  The local [vertex_count] is declared as
    [int vertex_count = vertex_count;]: it is initialised from itself, so
    its value is indeterminate; [vertex_count_init] is that value.  The
    assignment [vertex_count = 0] at the end of the function writes the
    local and has no effect on the batch. *)
Definition rlBegin (vertex_count_init : Z) (mode_ : Z) (g : rlGraphicsData)
  : rlGraphicsData :=
  let drawcall := drawCounter (currentBatch g) - 1 in
  if negb (mode (draw_at (currentBatch g) drawcall) =? mode_) then
    let vertex_count := vertex_count_init in
    let '(drawcall, g) :=
      if vertex_count >? 0 then close_draw drawcall vertex_count g
      else (drawcall, g) in
    let g :=
      if drawCounter (currentBatch g) >=? RL_DEFAULT_BATCH_DRAWCALLS
      then flush_current g else g in
    let g := store_draw drawcall (set_mode mode_) g in
    store_draw drawcall (set_texture (defaultTexture (State g))) g
  else g.

(** [1.0f/20000.0f] *)
Definition depthIncrement : float := F32.div F32.one (F32.of_Z 20000).

Definition rlEnd (g : rlGraphicsData) : rlGraphicsData :=
  upd_batch (fun b => set_currentDepth (F32.add (currentDepth b) depthIncrement) b) g.

(** [rlSetTexture(texture)]; [None] is the null pointer. *)
Definition rlSetTexture (texture_ : option rlTexture) (g : rlGraphicsData)
  : rlGraphicsData :=
  match texture_ with
  | None =>
      if vertexCounter (State g) >=? elementCount (current_buffer (currentBatch g)) * 4
      then flush_current g else g
  | Some t =>
      let drawcall := drawCounter (currentBatch g) - 1 in
      if negb (texture (draw_at (currentBatch g) drawcall) =? t) then
        let vertex_count := vertexCount (draw_at (currentBatch g) drawcall) in
        let '(drawcall, g) :=
          if vertex_count >? 0 then close_draw drawcall vertex_count g
          else (drawcall, g) in
        let g :=
          if drawCounter (currentBatch g) >=? RL_DEFAULT_BATCH_DRAWCALLS
          then flush_current g else g in
        let g := store_draw drawcall (set_texture t) g in
        store_draw drawcall (set_vertexCount 0) g
      else g
  end.

(** The first half of [rlVertex3f], up to the comment [// Add vertices]:
    the batch is drawn when the buffer is nearly full and the current
    draw call holds whole primitives only. *)
Definition rlVertex3f_limit (g : rlGraphicsData) : rlGraphicsData :=
  let b := currentBatch g in
  let drawcall := current_draw b in
  let vertex_counter := vertexCounter (State g) in
  let vertex_count := vertexCount drawcall in
  if vertex_counter >? elementCount (current_buffer b) * 4 - 4 then
    if (mode drawcall =? RL_LINES) && (Z.rem vertex_count 2 =? 0)
    then snd (rlCheckRenderBatchLimit (2 + 1) g)
    else if (mode drawcall =? RL_TRIANGLES) && (Z.rem vertex_count 3 =? 0)
    then snd (rlCheckRenderBatchLimit (3 + 1) g)
    else if (mode drawcall =? RL_QUADS) && (Z.rem vertex_count 4 =? 0)
    then snd (rlCheckRenderBatchLimit (4 + 1) g)
    else g
  else g.

(** The stores of one vertex at position [vertex_counter] of a buffer. *)
Definition write_vertex (s : rlState) (tx ty tz : float) (vertex_counter : Z)
    (vb : rlVertexBuffer) : rlVertexBuffer * list event :=
  let '(v, e0) := store_checked "vertices" (vertices vb) (3 * vertex_counter + 0) tx in
  let '(v, e1) := store_checked "vertices" v (3 * vertex_counter + 1) ty in
  let '(v, e2) := store_checked "vertices" v (3 * vertex_counter + 2) tz in
  let '(t, e3) := store_checked "texcoords" (texcoords vb) (2 * vertex_counter + 0) (texcoordx s) in
  let '(t, e4) := store_checked "texcoords" t (2 * vertex_counter + 1) (texcoordy s) in
  let '(c, e5) := store_checked "colors" (colors vb) (4 * vertex_counter + 0) (colorr s) in
  let '(c, e6) := store_checked "colors" c (4 * vertex_counter + 1) (colorg s) in
  let '(c, e7) := store_checked "colors" c (4 * vertex_counter + 2) (colorb s) in
  let '(c, e8) := store_checked "colors" c (4 * vertex_counter + 3) (colora s) in
  (set_colors c (set_texcoords t (set_vertices v vb)),
   e0 ++ e1 ++ e2 ++ e3 ++ e4 ++ e5 ++ e6 ++ e7 ++ e8).

(** The second half of [rlVertex3f]: the vertex is written at
    [RLGH.State.vertexCounter] and both counters advance. *)
Definition rlVertex3f_write (tx ty tz : float) (g : rlGraphicsData) : rlGraphicsData :=
  let b := currentBatch g in
  let drawcall := drawCounter b - 1 in
  let vertex_counter := vertexCounter (State g) in
  let '(vb, evs) := write_vertex (State g) tx ty tz vertex_counter (current_buffer b) in
  let g := upd_batch (fun b => set_vertexBuffer (aset (vertexBuffer b) (currentBuffer b) vb) b) g in
  let g := set_trace (trace g ++ evs) g in
  let g := upd_State (fun s => set_vertexCounter (vertexCounter s + 1) s) g in
  store_draw drawcall (fun d => set_vertexCount (vertexCount d + 1) d) g.

Definition rlVertex3f (x y z : float) (g : rlGraphicsData) : rlGraphicsData :=
  (let s := State g in
   let m := transform s in
   let tx := if transformRequired s then m0 m * x + m4 m * y + m8 m * z + m12 m else x in
   let ty := if transformRequired s then m1 m * x + m5 m * y + m9 m * z + m13 m else y in
   let tz := if transformRequired s then m2 m * x + m6 m * y + m10 m * z + m14 m else z in
   rlVertex3f_write tx ty tz (rlVertex3f_limit g))%f32.

Definition rlVertex2f (x y : float) (g : rlGraphicsData) : rlGraphicsData :=
  rlVertex3f x y (currentDepth (currentBatch g)) g.

Definition rlTexCoord2f (x y : float) : rlGraphicsData -> rlGraphicsData :=
  upd_State (fun s => set_texcoordy y (set_texcoordx x s)).

(** Conversion of an [int] expression to [unsigned char]. *)
Definition to_uchar (z : Z) : Z := z mod 256.

(** [rlColor4ub(x, y, z, w)]: the parameters are [unsigned char], so the
    arguments of a call are converted on the way in. *)
Definition rlColor4ub (x y z w : Z) : rlGraphicsData -> rlGraphicsData :=
  upd_State (fun s =>
    set_colora (to_uchar w)
      (set_colorb (to_uchar z) (set_colorg (to_uchar y) (set_colorr (to_uchar x) s)))).

(* ------------------------------------------------------------------ *)
(** ** Initialisation and call sequences *)

(** [static rlGraphicsData RLGH = { 0 };]: the state a program starts
    with.  ([currentMatrix] is a null pointer there; [rlglInit] assigns
    it before any use.) *)
Definition RLGH_zero : rlGraphicsData :=
  {| currentBatch :=
       {| bufferCount := 0; currentBuffer := 0; vertexBuffer := []; draws := [];
          drawCounter := 0; currentDepth := F32.zero |};
     State :=
       {| vertexCounter := 0;
          texcoordx := F32.zero; texcoordy := F32.zero;
          colorr := 0; colorg := 0; colorb := 0; colora := 0;
          currentMatrixMode := 0;
          currentMatrix := PtrModelview;
          modelview := matrix_zero;
          projection := matrix_zero;
          transform := matrix_zero;
          transformRequired := false;
          stack := alloc RL_MAX_MATRIX_STACK_SIZE matrix_zero;
          stackCounter := 0;
          defaultTexture := 0;
          activeTextureId := alloc RL_DEFAULT_BATCH_MAX_TEXTURE_UNITS 0;
          stereoRender := false;
          projectionStereo := alloc 2 matrix_zero;
          viewOffsetStereo := alloc 2 matrix_zero;
          framebufferWidth := 0;
          framebufferHeight := 0;
          Viewport := {| vp_x := 0; vp_y := 0; vp_width := 0; vp_height := 0 |} |};
     trace := [] |}.

(** The start of [rlglInit]: the default texture is stored and the result
    of loading it is logged. *)
Definition rlglInit_texture (white : rlTexture) (g : rlGraphicsData) : rlGraphicsData :=
  let g := upd_State (set_defaultTexture white) g in
  if negb (defaultTexture (State g) =? 0)
  then TRACELOG RL_LOG_INFO "TEXTURE: [ID %i] Default texture loaded successfully" g
  else TRACELOG RL_LOG_WARNING "TEXTURE: Failed to load default texture" g.

(** [rlglInit(width, height)], called on the state [g] of [RLGH].
    [RL_DEFAULT_BATCH_BUFFERS] and [RL_DEFAULT_BATCH_BUFFER_ELEMENTS] can
    be set by the build and are arguments here; [white] is the handle
    that [rlLoadTexture] returns for the default texture.  The default
    batch becomes the current one.  The function assigns the fields
    below and no other: the matrix mode, the stack counter, the
    transform flag and the sampler slots keep the values of [g].  A log
    event carries the format string of the [TRACELOG] call.  The
    device-side callees [rlLoadTexture] and [rlLoadShaderDefault] are
    represented by the handle [white]; what they log themselves, and the
    calls that set the default state of the device (depth test,
    blending, culling, clearing), are not part of the trace. *)
Definition rlglInit (BATCH_BUFFERS BATCH_BUFFER_ELEMENTS : Z) (white : rlTexture)
    (width height : Z) (g : rlGraphicsData) : rlGraphicsData :=
  let g := rlglInit_texture white g in
  let '(batch, g) := rlLoadRenderBatch BATCH_BUFFERS BATCH_BUFFER_ELEMENTS g in
  let g := set_currentBatch batch g in
  let g := upd_State (fun s =>
    set_stack (for_loop 0 RL_MAX_MATRIX_STACK_SIZE 1
                 (fun i st => aset st i rlMatrixIdentity) (stack s)) s) g in
  let g := upd_State (set_transform rlMatrixIdentity) g in
  let g := upd_State (set_projection rlMatrixIdentity) g in
  let g := upd_State (set_modelview rlMatrixIdentity) g in
  let g := upd_State (set_currentMatrix PtrModelview) g in
  let g := upd_State (set_framebufferWidth width) g in
  let g := upd_State (set_framebufferHeight height) g in
  TRACELOG RL_LOG_INFO "RLGH: Default OpenGL state initialized successfully" g.

(** The calls a client can make on the batch engine.  [OpBegin] carries
    the indeterminate value that [rlBegin] reads. *)
Inductive op :=
| OpBegin (vertex_count_init mode : Z)
| OpEnd
| OpVertex3f (x y z : float)
| OpTexCoord2f (x y : float)
| OpColor4ub (x y z w : Z)
| OpSetTexture (t : option rlTexture)
| OpCheckRenderBatchLimit (vCount : Z)
| OpDrawRenderBatchActive
| OpMatrixMode (mode : Z)
| OpPushMatrix
| OpPopMatrix
| OpLoadIdentity
| OpTranslatef (x y z : float)
| OpScalef (x y z : float)
| OpMultMatrixf (matf : list float)
| OpFrustum (left right bottom top znear zfar : double)
| OpOrtho (left right bottom top znear zfar : double).

Definition step (o : op) (g : rlGraphicsData) : rlGraphicsData :=
  match o with
  | OpBegin i m => rlBegin i m g
  | OpEnd => rlEnd g
  | OpVertex3f x y z => rlVertex3f x y z g
  | OpTexCoord2f x y => rlTexCoord2f x y g
  | OpColor4ub x y z w => rlColor4ub x y z w g
  | OpSetTexture t => rlSetTexture t g
  | OpCheckRenderBatchLimit n => snd (rlCheckRenderBatchLimit n g)
  | OpDrawRenderBatchActive => rlDrawRenderBatchActive g
  | OpMatrixMode m => rlMatrixMode m g
  | OpPushMatrix => rlPushMatrix g
  | OpPopMatrix => rlPopMatrix g
  | OpLoadIdentity => rlLoadIdentity g
  | OpTranslatef x y z => rlTranslatef x y z g
  | OpScalef x y z => rlScalef x y z g
  | OpMultMatrixf m => rlMultMatrixf m g
  | OpFrustum l r b t n f => rlFrustum l r b t n f g
  | OpOrtho l r b t n f => rlOrtho l r b t n f g
  end.

Definition run (ops : list op) (g : rlGraphicsData) : rlGraphicsData :=
  fold_left (fun g o => step o g) ops g.


(* ------------------------------------------------------------------ *)
(** ** Vocabulary of the properties *)

(** The matrix [RLGH.State.currentMatrix] points to. *)
Definition current_matrix (g : rlGraphicsData) : Matrix :=
  deref_currentMatrix (State g).

(** An operation [f] multiplies the current matrix by [X] with [X] as the
    left, respectively the right, operand of [rlMatrixMultiply]. *)
Definition multiplies_left (f : rlGraphicsData -> rlGraphicsData) (X : Matrix)
    (g : rlGraphicsData) : Prop :=
  current_matrix (f g) = rlMatrixMultiply X (current_matrix g).

Definition multiplies_right (f : rlGraphicsData -> rlGraphicsData) (X : Matrix)
    (g : rlGraphicsData) : Prop :=
  current_matrix (f g) = rlMatrixMultiply (current_matrix g) X.

(** [-1.0f], the depth a batch starts from. *)
Definition initialDepth : float := F32.neg F32.one.

(** The exact rational value of a finite binary32 number, as a fraction
    [num / 2^den_log2]. *)
Definition exact_scaled (scale : Z) (f : float) : Z :=
  match f with
  | S754_finite s m e => (if s then -1 else 1) * Z.pos m * 2 ^ (e + scale)
  | _ => 0
  end.

(** A context whose default batch has one buffer of [capacity] quads and
    whose default texture is the handle [9]: the first call of [rlglInit]
    of a program. *)
Definition context (capacity : Z) : rlGraphicsData :=
  rlglInit 1 capacity 9 640 480 RLGH_zero.

Definition a_vertex : op := OpVertex3f F32.one F32.two F32.zero.

(** A context in which [rlPushMatrix] has been called 32 times. *)
Definition full_stack_context : rlGraphicsData :=
  Nat.iter 32 rlPushMatrix (rlMatrixMode RL_MODELVIEW (context 1)).

(** The log of [rlglInit] about the default texture. *)
Definition texture_log (white : rlTexture) : event :=
  if white =? 0
  then EvTraceLog RL_LOG_WARNING "TEXTURE: Failed to load default texture"
  else EvTraceLog RL_LOG_INFO "TEXTURE: [ID %i] Default texture loaded successfully".

Definition stack_overflow_message : string :=
  "RLGH: Matrix stack overflow (RL_MAX_MATRIX_STACK_SIZE)".

(** [n] successive additions of the depth increment, each rounded to
    binary32. *)
Definition depth_after (n : nat) (d : float) : float :=
  Nat.iter n (fun d => F32.add d depthIncrement) d.

(** The texture slots after the loop that clears them. *)
Definition cleared_slots (l : list rlTexture) : list rlTexture :=
  for_loop 0 RL_DEFAULT_BATCH_MAX_TEXTURE_UNITS 1 (fun i l => aset l i 0) l.

(** [g'] differs from [g] at most in the fields that issuing the draw
    calls touches: viewport, modelview, projection and the trace. *)
Definition drawn_from (g g' : rlGraphicsData) : Prop :=
  exists vp mv pj tr,
    g' = set_trace tr
           (upd_State (fun s => set_Viewport vp (set_projection pj (set_modelview mv s))) g).

(** The batch after the section "Reset batch buffers" of
    [rlDrawRenderBatch], for the default texture [white]. *)
Definition reset_batch (white : rlTexture) (batch : rlRenderBatch) : rlRenderBatch :=
  let batch := set_currentDepth (F32.neg F32.one) batch in
  let batch :=
    for_loop 0 RL_DEFAULT_BATCH_DRAWCALLS 1
      (fun i b => set_draws (aset (draws b) i (reset_draw white (draw_at b i))) b)
      batch in
  let batch := set_drawCounter 1 batch in
  let batch := set_currentBuffer (currentBuffer batch + 1) batch in
  if currentBuffer batch >=? bufferCount batch then set_currentBuffer 0 batch
  else batch.

(** The renderer state after [rlDrawRenderBatch], up to the viewport. *)
Definition reset_state (vp : rlViewportRect) (s : rlState) : rlState :=
  set_Viewport vp
    (set_activeTextureId (cleared_slots (activeTextureId s))
       (set_vertexCounter 0 s)).

(** A context with stereo rendering on, eye matrices set, a texture bound
    to an auxiliary slot and three vertices pending. *)
Definition stereo_context : rlGraphicsData :=
  run [a_vertex; a_vertex; a_vertex]
    (upd_State (fun s => set_activeTextureId (aset (activeTextureId s) 1 7) s)
       (rlSetMatrixViewOffsetStereo
          (matTranslation F32.one F32.zero F32.zero)
          (matTranslation (F32.neg F32.one) F32.zero F32.zero)
          (rlSetMatrixProjectionStereo
             (matScale F32.two F32.one F32.one)
             (matScale F32.one F32.two F32.one)
             (rlEnableStereoRender (context 2))))).

(** The state [(batch', g')] that the specification promises after a
    draw of [batch] in [g]. *)
Definition is_reset (batch : rlRenderBatch) (g : rlGraphicsData)
    (batch' : rlRenderBatch) (g' : rlGraphicsData) : Prop :=
  vertexCounter (State g') = 0 /\
  (forall n c g0, currentDepth batch' = currentDepth (fst (rlLoadRenderBatch n c g0))) /\
  drawCounter batch' = 1 /\
  mode (current_draw batch') = RL_QUADS /\
  vertexCount (current_draw batch') = 0 /\
  texture (current_draw batch') = defaultTexture (State g') /\
  (forall (i : nat) d, draws batch' !! i = Some d ->
     mode d = RL_QUADS /\ vertexCount d = 0 /\ texture d = defaultTexture (State g')) /\
  activeTextureId (State g') = [0; 0; 0; 0] /\
  currentBuffer batch' = (currentBuffer batch + 1) mod bufferCount batch /\
  modelview (State g') = modelview (State g) /\
  projection (State g') = projection (State g).

(** The six indices of quad [k]: two triangles [0 1 2] and [0 2 3] on
    the vertices [4k .. 4k+3]. *)
Definition quad_indices_at (ind : list Z) (k : Z) : Prop :=
  ind !! Z.to_nat (6 * k) = Some (4 * k) /\
  ind !! Z.to_nat (6 * k + 1) = Some (4 * k + 1) /\
  ind !! Z.to_nat (6 * k + 2) = Some (4 * k + 2) /\
  ind !! Z.to_nat (6 * k + 3) = Some (4 * k) /\
  ind !! Z.to_nat (6 * k + 4) = Some (4 * k + 2) /\
  ind !! Z.to_nat (6 * k + 5) = Some (4 * k + 3).

(** The index arrays of the buffers of the current batch. *)
Definition index_arrays (g : rlGraphicsData) : list (list Z) :=
  map indices (vertexBuffer (currentBatch g)).

(** A context with three vertices pending in the default batch. *)
Definition pending_context : rlGraphicsData :=
  run [a_vertex; a_vertex; a_vertex] (context 2).

(** A client session on a batch of its own: drawing, a texture switch, a
    mode switch and a forced draw. *)
Definition sample_session : list op :=
  [a_vertex; a_vertex; a_vertex; a_vertex; OpSetTexture (Some 5);
   a_vertex; a_vertex; a_vertex; a_vertex; a_vertex;
   OpBegin 2 RL_LINES; a_vertex; a_vertex; OpEnd; OpDrawRenderBatchActive; a_vertex].

(** Two draw calls of one quad each, the second one bound to texture
    [5], in a buffer of two quads: the buffer is full. *)
Definition two_entries_full : rlGraphicsData :=
  run [a_vertex; a_vertex; a_vertex; a_vertex; OpSetTexture (Some 5);
       a_vertex; a_vertex; a_vertex; a_vertex] (context 2).

(** What a forced draw leaves behind when [g] has more than one draw
    call in use: entry 0 is current and is the default entry, and the
    saved mode and texture sit on the entry that was current before. *)
Definition restored_on_stale_entry (vCount : Z) (g : rlGraphicsData) : Prop :=
  let g' := snd (rlCheckRenderBatchLimit vCount g) in
  drawCounter (currentBatch g') = 1 /\
  mode (current_draw (currentBatch g')) = RL_QUADS /\
  texture (current_draw (currentBatch g')) = defaultTexture (State g) /\
  vertexCount (current_draw (currentBatch g')) = 0 /\
  mode (draw_at (currentBatch g') (drawCounter (currentBatch g) - 1))
    = mode (current_draw (currentBatch g)) /\
  texture (draw_at (currentBatch g') (drawCounter (currentBatch g) - 1))
    = texture (current_draw (currentBatch g)).

(** The entry that [rlBegin(mode)] is specified to leave open: the
    requested mode, no vertices, the default texture. *)
Definition opens_fresh_entry (mode_ : Z) (g' : rlGraphicsData) : Prop :=
  mode (current_draw (currentBatch g')) = mode_ /\
  vertexCount (current_draw (currentBatch g')) = 0 /\
  texture (current_draw (currentBatch g')) = defaultTexture (State g').

(** One quad in a buffer of one quad: the buffer is full. *)
Definition one_quad_full : rlGraphicsData :=
  run [a_vertex; a_vertex; a_vertex; a_vertex] (context 1).

(** A TRIANGLES draw call holding five vertices, in a buffer of four
    quads. *)
Definition five_triangle_vertices : rlGraphicsData :=
  run [OpBegin 0 RL_TRIANGLES; a_vertex; a_vertex; a_vertex; a_vertex; a_vertex]
      (context 4).

(** The device draw calls of a trace: [(mode, first, count)] for
    [glDrawArrays] and [(RL_QUADS, first vertex, vertex count)] for
    [glDrawElements], whose arguments count indices (6 per quad) and
    bytes (4 per index). *)
Definition issued_draws (tr : list event) : list (Z * Z * Z) :=
  flat_map (fun e =>
    match e with
    | EvDrawArrays m first count => [(m, first, count)]
    | EvDrawElements count byteOffset =>
        [(RL_QUADS, Z.quot byteOffset (6 * 4) * 4, Z.quot count 6 * 4)]
    | _ => []
    end) tr.

Definition out_of_bounds_stores (tr : list event) : list Z :=
  flat_map (fun e =>
    match e with EvStoreOutOfBounds _ i => [i] | _ => [] end) tr.

(** The alignment recorded on entry [i] of the draw-call table. *)
Definition alignment_at (g : rlGraphicsData) (i : Z) : Z :=
  vertexAlignment (draw_at (currentBatch g) i).

(** [one_quad_full], then [rlBegin(RL_TRIANGLES)] with the local reading
    [i], then one vertex. *)
Definition triangle_after_quad (i : Z) : rlGraphicsData :=
  step a_vertex (rlBegin i RL_TRIANGLES one_quad_full).

(* ------------------------------------------------------------------ *)
(** ** Invariants of the batch *)

Definition valid_mode (m : Z) : Prop :=
  m = RL_LINES \/ m = RL_TRIANGLES \/ m = RL_QUADS.

(** Vertices per primitive. *)
Definition group_size (m : Z) : Z :=
  if m =? RL_LINES then 2 else if m =? RL_TRIANGLES then 3 else 4.

(** The layout [rlLoadRenderBatch] gives a batch whose buffers hold
    [capacity] quads each: it never changes. *)
Definition layout (capacity : Z) (g : rlGraphicsData) : Prop :=
  let b := currentBatch g in
  Z.of_nat (length (draws b)) = RL_DEFAULT_BATCH_DRAWCALLS /\
  0 <= currentBuffer b < bufferCount b /\
  (forall i, 0 <= i < bufferCount b -> elementCount (buffer_at b i) = capacity) /\
  (forall j, 0 <= j < RL_DEFAULT_BATCH_DRAWCALLS -> valid_mode (mode (draw_at b j))).

(** A batch right after a draw: nothing pending. *)
Definition fresh (capacity : Z) (g : rlGraphicsData) : Prop :=
  layout capacity g /\
  vertexCounter (State g) = 0 /\
  drawCounter (currentBatch g) = 1 /\
  forall j, vertexCount (draw_at (currentBatch g) j) = 0.

(** The invariant between two calls.  The last clause is what keeps the
    writes inside the buffer: a primitive that has been started was
    started at least four vertices before the end. *)
Definition batch_inv (capacity : Z) (g : rlGraphicsData) : Prop :=
  let b := currentBatch g in
  let d := current_draw b in
  layout capacity g /\
  1 <= drawCounter b < RL_DEFAULT_BATCH_DRAWCALLS /\
  (forall j, drawCounter b <= j -> vertexCount (draw_at b j) = 0) /\
  0 <= vertexCounter (State g) <= 4 * capacity /\
  0 <= vertexCount d /\
  (0 < Z.rem (vertexCount d) (group_size (mode d)) ->
   vertexCounter (State g) - Z.rem (vertexCount d) (group_size (mode d))
     <= 4 * capacity - 4).

(** The calls for which the invariant is proved: every [rlBegin] is
    given one of the three modes and finds a positive value in its
    local. *)
Definition regular (o : op) : Prop :=
  match o with
  | OpBegin i m => 0 < i /\ valid_mode m
  | _ => True
  end.

(** Every vertex of the session [ops] is stored at a position inside the
    current buffer. *)
Fixpoint writes_in_buffer (ops : list op) (g : rlGraphicsData) : Prop :=
  match ops with
  | [] => True
  | o :: ops' =>
      match o with
      | OpVertex3f _ _ _ =>
          let g' := rlVertex3f_limit g in
          0 <= vertexCounter (State g')
            < elementCount (current_buffer (currentBatch g')) * 4
      | _ => True
      end /\
      writes_in_buffer ops' (step o g)
  end.

(** [g] and [g'] agree on everything the invariant looks at. *)
Definition same_view (g g' : rlGraphicsData) : Prop :=
  draws (currentBatch g') = draws (currentBatch g) /\
  drawCounter (currentBatch g') = drawCounter (currentBatch g) /\
  vertexBuffer (currentBatch g') = vertexBuffer (currentBatch g) /\
  currentBuffer (currentBatch g') = currentBuffer (currentBatch g) /\
  bufferCount (currentBatch g') = bufferCount (currentBatch g) /\
  vertexCounter (State g') = vertexCounter (State g).

(* ================================================================== *)
(** * Further functions *)

(* ------------------------------------------------------------------ *)
(** ** What the drawing calls leave alone *)

(** [g'] has the buffers of [g]. *)
Definition buffers_kept (g g' : rlGraphicsData) : Prop :=
  vertexBuffer (currentBatch g') = vertexBuffer (currentBatch g) /\
  bufferCount (currentBatch g') = bufferCount (currentBatch g).

(** [g'] differs from [g] in the fields of [RLGH.State] that drawing the
    batch sets, at most. *)
Definition drawing_state (g g' : rlGraphicsData) : Prop :=
  exists vc slots vp,
    State g' = set_Viewport vp (set_activeTextureId slots (set_vertexCounter vc (State g))).

(* ------------------------------------------------------------------ *)
(** ** The matrix stack *)

(** The matrix a [currentMatrix] pointer designates. *)
Definition matrix_at (p : matrix_ptr) (s : rlState) : Matrix :=
  match p with
  | PtrModelview => modelview s
  | PtrProjection => projection s
  | PtrTransform => transform s
  end.

(** The part of [RLGH.State] that the matrix functions work on. *)
Definition matrix_part (s : rlState)
  : Z * matrix_ptr * Matrix * Matrix * Matrix * list Matrix * Z * bool :=
  (currentMatrixMode s, currentMatrix s, modelview s, projection s, transform s,
   stack s, stackCounter s, transformRequired s).

(** Sequences of calls in which every [rlPopMatrix] closes an earlier
    [rlPushMatrix] of the sequence, every push is closed, at most [room]
    pushes are open at a time and [rlMatrixMode] is not called.  [depth]
    counts the pushes that are open. *)
Fixpoint nesting (room depth : nat) (ops : list op) : bool :=
  match ops with
  | [] => Nat.eqb depth 0
  | OpPushMatrix :: ops' =>
      match room with
      | O => false
      | Datatypes.S r => nesting r (Datatypes.S depth) ops'
      end
  | OpPopMatrix :: ops' =>
      match depth with
      | O => false
      | Datatypes.S d => nesting (Datatypes.S room) d ops'
      end
  | OpMatrixMode _ :: _ => false
  | _ :: ops' => nesting room depth ops'
  end.

Definition well_nested (room : nat) (ops : list op) : Prop :=
  nesting room 0 ops = true.

(** A scene drawn between a push and its pop, with an inner push. *)
Definition pushed_scene : list op :=
  [ OpTranslatef F32.one F32.two F32.zero; a_vertex;
    OpPushMatrix; OpScalef F32.two F32.two F32.one; a_vertex; a_vertex; OpPopMatrix;
    OpSetTexture (Some 5); a_vertex; OpLoadIdentity ].
(** The calls that are neither a push, a pop nor [rlMatrixMode] keep the
    stack, its counter, the matrix mode and the pointer, and change at most
    the matrix the pointer designates. *)
Definition stack_kept (g g' : rlGraphicsData) : Prop :=
  stack (State g') = stack (State g) /\
  stackCounter (State g') = stackCounter (State g) /\
  currentMatrixMode (State g') = currentMatrixMode (State g) /\
  currentMatrix (State g') = currentMatrix (State g) /\
  transformRequired (State g') = transformRequired (State g) /\
  forall p, p <> currentMatrix (State g) ->
    matrix_at p (State g') = matrix_at p (State g).

(** [g'] has the matrices, the stack counter, the matrix mode and the
    stack entries below the counter that [g] has. *)
Definition matrices_restored (g g' : rlGraphicsData) : Prop :=
  modelview (State g') = modelview (State g) /\
  projection (State g') = projection (State g) /\
  transform (State g') = transform (State g) /\
  stackCounter (State g') = stackCounter (State g) /\
  currentMatrixMode (State g') = currentMatrixMode (State g) /\
  forall i : nat, Z.of_nat i < stackCounter (State g) ->
    stack (State g') !! i = stack (State g) !! i.

(* ------------------------------------------------------------------ *)
(** ** Device calls of the shader and blending functions *)

(** The enumerants the source takes from the device headers, and
    [GL_enum_of v] for an [int] the program hands over as one. *)
Inductive gl_enum :=
| GL_SRC_ALPHA
| GL_ONE_MINUS_SRC_ALPHA
| GL_ONE
| GL_DST_COLOR
| GL_FUNC_ADD
| GL_FUNC_SUBTRACT
| GL_enum_of (value : Z).

Inductive gl_call :=
| GlUniform1i (location value : Z)
| GlUniformMatrix4fv (location count : Z) (transpose : bool) (value : list float)
| GlBlendFunc (sfactor dfactor : gl_enum)
| GlBlendEquation (mode : gl_enum)
| GlBlendFuncSeparate (srcRGB dstRGB srcAlpha dstAlpha : gl_enum)
| GlBlendEquationSeparate (modeRGB modeAlpha : gl_enum).

(** The array [float matfloat[16]] of [rlSetUniformMatrix]. *)
Definition matfloat (mat : Matrix) : list float :=
  [ m0 mat; m1 mat; m2 mat; m3 mat;
    m4 mat; m5 mat; m6 mat; m7 mat;
    m8 mat; m9 mat; m10 mat; m11 mat;
    m12 mat; m13 mat; m14 mat; m15 mat ].

Definition rlSetUniformMatrix (locIndex : Z) (mat : Matrix) : list gl_call :=
  [GlUniformMatrix4fv locIndex 1 false (matfloat mat)].

(** The array a device call uploads. *)
Definition uploaded_array (c : gl_call) : list float :=
  match c with
  | GlUniformMatrix4fv _ _ _ value => value
  | _ => []
  end.

(** *** rlSetUniformSampler *)

(** The first loop, which returns from the function when the texture is
    found: [true] stands for that return. *)
Definition sampler_active (textureId : Z) (s : rlState) : bool :=
  for_loop 0 RL_DEFAULT_BATCH_MAX_TEXTURE_UNITS 1
    (fun i found => found || (aget 0 (activeTextureId s) i =? textureId)) false.

(** The body of the second loop; the first component of the state is set
    by [break]. *)
Definition register_sampler_body (locIndex textureId : Z) (i : Z)
    (st : bool * list gl_call * rlGraphicsData) : bool * list gl_call * rlGraphicsData :=
  let '(stop, calls, g) := st in
  if stop then st
  else if aget 0 (activeTextureId (State g)) i =? 0 then
    (true,
     calls ++ [GlUniform1i locIndex (1 + i)],
     upd_State (fun s => set_activeTextureId (aset (activeTextureId s) i textureId) s) g)
  else st.

(** [rlSetUniformSampler(locIndex, textureId)]: the device calls made and
    the state afterwards. *)
Definition rlSetUniformSampler (locIndex textureId : Z) (g : rlGraphicsData)
  : list gl_call * rlGraphicsData :=
  if sampler_active textureId (State g) then ([], g)
  else
    let '(_, calls, g) :=
      for_loop 0 RL_DEFAULT_BATCH_MAX_TEXTURE_UNITS 1
        (register_sampler_body locIndex textureId) (false, [], g) in
    (calls, g).

(** The calls of a client that also registers sampler textures. *)
Inductive shader_op :=
| ShBatch (o : op)
| ShSetUniformSampler (locIndex textureId : Z).

Definition shader_step (o : shader_op) (st : list gl_call * rlGraphicsData)
  : list gl_call * rlGraphicsData :=
  match o with
  | ShBatch o => (fst st, step o (snd st))
  | ShSetUniformSampler loc t =>
      let '(calls, g) := rlSetUniformSampler loc t (snd st) in (fst st ++ calls, g)
  end.

Definition shader_run (ops : list shader_op) (st : list gl_call * rlGraphicsData)
  : list gl_call * rlGraphicsData :=
  fold_left (fun st o => shader_step o st) ops st.

(** No texture occupies two of the slots. *)
Definition distinct_samplers (slots : list rlTexture) : Prop :=
  forall (i j : nat) (t : rlTexture),
    slots !! i = Some t -> slots !! j = Some t -> t = 0 \/ i = j.

(** Slot [i] is the first one that is free. *)
Definition first_free (slots : list rlTexture) (i : nat) : Prop :=
  slots !! i = Some 0 /\ ~ In 0 (take i slots).

(** A context with the textures 7 and 8 registered. *)
Definition two_samplers : rlGraphicsData :=
  snd (rlSetUniformSampler 3 8 (snd (rlSetUniformSampler 2 7 (context 2)))).

(** A context with the four slots taken. *)
Definition four_samplers : rlGraphicsData :=
  snd (rlSetUniformSampler 5 11 (snd (rlSetUniformSampler 4 10 two_samplers))).

(** *** Blending *)

Definition RL_BLEND_ALPHA : Z := 0.
Definition RL_BLEND_ADDITIVE : Z := 1.
Definition RL_BLEND_MULTIPLIED : Z := 2.
Definition RL_BLEND_ADD_COLORS : Z := 3.
Definition RL_BLEND_SUBTRACT_COLORS : Z := 4.
Definition RL_BLEND_ALPHA_PREMULTIPLY : Z := 5.
Definition RL_BLEND_CUSTOM : Z := 6.
Definition RL_BLEND_CUSTOM_SEPARATE : Z := 7.

(** The blending variables of [RLGH.State].  They are kept in a record of
    their own: the three blending functions are the only code that reads
    or writes them. *)
Record rlBlendState := {
  currentBlendMode : Z;
  glBlendSrcFactor : Z;
  glBlendDstFactor : Z;
  glBlendEquation : Z;
  glBlendSrcFactorRGB : Z;
  glBlendDestFactorRGB : Z;
  glBlendSrcFactorAlpha : Z;
  glBlendDestFactorAlpha : Z;
  glBlendEquationRGB : Z;
  glBlendEquationAlpha : Z;
  glCustomBlendModeModified : bool
}.

(** The blending variables of [RLGH = { 0 }]. *)
Definition blend_zero : rlBlendState :=
  {| currentBlendMode := 0;
     glBlendSrcFactor := 0; glBlendDstFactor := 0; glBlendEquation := 0;
     glBlendSrcFactorRGB := 0; glBlendDestFactorRGB := 0;
     glBlendSrcFactorAlpha := 0; glBlendDestFactorAlpha := 0;
     glBlendEquationRGB := 0; glBlendEquationAlpha := 0;
     glCustomBlendModeModified := false |}.

(** The [switch (mode)] of [rlSetBlendMode]. *)
Definition blend_mode_calls (mode : Z) (bs : rlBlendState) : list gl_call :=
  if mode =? RL_BLEND_ALPHA then
    [GlBlendFunc GL_SRC_ALPHA GL_ONE_MINUS_SRC_ALPHA; GlBlendEquation GL_FUNC_ADD]
  else if mode =? RL_BLEND_ADDITIVE then
    [GlBlendFunc GL_SRC_ALPHA GL_ONE; GlBlendEquation GL_FUNC_ADD]
  else if mode =? RL_BLEND_MULTIPLIED then
    [GlBlendFunc GL_DST_COLOR GL_ONE_MINUS_SRC_ALPHA; GlBlendEquation GL_FUNC_ADD]
  else if mode =? RL_BLEND_ADD_COLORS then
    [GlBlendFunc GL_ONE GL_ONE; GlBlendEquation GL_FUNC_ADD]
  else if mode =? RL_BLEND_SUBTRACT_COLORS then
    [GlBlendFunc GL_ONE GL_ONE; GlBlendEquation GL_FUNC_SUBTRACT]
  else if mode =? RL_BLEND_ALPHA_PREMULTIPLY then
    [GlBlendFunc GL_ONE GL_ONE_MINUS_SRC_ALPHA; GlBlendEquation GL_FUNC_ADD]
  else if mode =? RL_BLEND_CUSTOM then
    [GlBlendFunc (GL_enum_of (glBlendSrcFactor bs)) (GL_enum_of (glBlendDstFactor bs));
     GlBlendEquation (GL_enum_of (glBlendEquation bs))]
  else if mode =? RL_BLEND_CUSTOM_SEPARATE then
    [GlBlendFuncSeparate
       (GL_enum_of (glBlendSrcFactorRGB bs)) (GL_enum_of (glBlendDestFactorRGB bs))
       (GL_enum_of (glBlendSrcFactorAlpha bs)) (GL_enum_of (glBlendDestFactorAlpha bs));
     GlBlendEquationSeparate
       (GL_enum_of (glBlendEquationRGB bs)) (GL_enum_of (glBlendEquationAlpha bs))]
  else [].

(** [rlSetBlendMode(mode)]: the device calls made, and the blending
    variables and the rest of [RLGH] afterwards. *)
Definition rlSetBlendMode (mode : Z) (st : rlBlendState * rlGraphicsData)
  : list gl_call * (rlBlendState * rlGraphicsData) :=
  let '(bs, g) := st in
  if negb (currentBlendMode bs =? mode)
     || (((mode =? RL_BLEND_CUSTOM) || (mode =? RL_BLEND_CUSTOM_SEPARATE))
         && glCustomBlendModeModified bs)
  then
    let g := flush_current g in
    let calls := blend_mode_calls mode bs in
    (calls,
     ({| currentBlendMode := mode;
         glBlendSrcFactor := glBlendSrcFactor bs;
         glBlendDstFactor := glBlendDstFactor bs;
         glBlendEquation := glBlendEquation bs;
         glBlendSrcFactorRGB := glBlendSrcFactorRGB bs;
         glBlendDestFactorRGB := glBlendDestFactorRGB bs;
         glBlendSrcFactorAlpha := glBlendSrcFactorAlpha bs;
         glBlendDestFactorAlpha := glBlendDestFactorAlpha bs;
         glBlendEquationRGB := glBlendEquationRGB bs;
         glBlendEquationAlpha := glBlendEquationAlpha bs;
         glCustomBlendModeModified := false |}, g))
  else ([], st).

Definition rlSetBlendFactors (glSrcFactor glDstFactor glEquation : Z)
    (bs : rlBlendState) : rlBlendState :=
  if negb (glBlendSrcFactor bs =? glSrcFactor)
     || negb (glBlendDstFactor bs =? glDstFactor)
     || negb (glBlendEquation bs =? glEquation)
  then
    {| currentBlendMode := currentBlendMode bs;
       glBlendSrcFactor := glSrcFactor;
       glBlendDstFactor := glDstFactor;
       glBlendEquation := glEquation;
       glBlendSrcFactorRGB := glBlendSrcFactorRGB bs;
       glBlendDestFactorRGB := glBlendDestFactorRGB bs;
       glBlendSrcFactorAlpha := glBlendSrcFactorAlpha bs;
       glBlendDestFactorAlpha := glBlendDestFactorAlpha bs;
       glBlendEquationRGB := glBlendEquationRGB bs;
       glBlendEquationAlpha := glBlendEquationAlpha bs;
       glCustomBlendModeModified := true |}
  else bs.

Definition rlSetBlendFactorsSeparate
    (glSrcRGB glDstRGB glSrcAlpha glDstAlpha glEqRGB glEqAlpha : Z)
    (bs : rlBlendState) : rlBlendState :=
  if negb (glBlendSrcFactorRGB bs =? glSrcRGB)
     || negb (glBlendDestFactorRGB bs =? glDstRGB)
     || negb (glBlendSrcFactorAlpha bs =? glSrcAlpha)
     || negb (glBlendDestFactorAlpha bs =? glDstAlpha)
     || negb (glBlendEquationRGB bs =? glEqRGB)
     || negb (glBlendEquationAlpha bs =? glEqAlpha)
  then
    {| currentBlendMode := currentBlendMode bs;
       glBlendSrcFactor := glBlendSrcFactor bs;
       glBlendDstFactor := glBlendDstFactor bs;
       glBlendEquation := glBlendEquation bs;
       glBlendSrcFactorRGB := glSrcRGB;
       glBlendDestFactorRGB := glDstRGB;
       glBlendSrcFactorAlpha := glSrcAlpha;
       glBlendDestFactorAlpha := glDstAlpha;
       glBlendEquationRGB := glEqRGB;
       glBlendEquationAlpha := glEqAlpha;
       glCustomBlendModeModified := true |}
  else bs.

(** The calls of a client that also configures blending; the state is
    the list of device calls made so far, the blending variables and the
    rest of [RLGH]. *)
Inductive blend_op :=
| BlBatch (o : op)
| BlSetBlendMode (mode : Z)
| BlSetBlendFactors (glSrcFactor glDstFactor glEquation : Z)
| BlSetBlendFactorsSeparate (glSrcRGB glDstRGB glSrcAlpha glDstAlpha glEqRGB glEqAlpha : Z).

Definition blend_step (o : blend_op)
    (st : list gl_call * (rlBlendState * rlGraphicsData))
  : list gl_call * (rlBlendState * rlGraphicsData) :=
  let '(calls, (bs, g)) := st in
  match o with
  | BlBatch o => (calls, (bs, step o g))
  | BlSetBlendMode mode =>
      let '(new, st') := rlSetBlendMode mode (bs, g) in (calls ++ new, st')
  | BlSetBlendFactors s d e => (calls, (rlSetBlendFactors s d e bs, g))
  | BlSetBlendFactorsSeparate a b c d e f =>
      (calls, (rlSetBlendFactorsSeparate a b c d e f bs, g))
  end.

Definition blend_run (ops : list blend_op)
    (st : list gl_call * (rlBlendState * rlGraphicsData))
  : list gl_call * (rlBlendState * rlGraphicsData) :=
  fold_left (fun st o => blend_step o st) ops st.

(** The last call that set the blend function, and the last one that
    set the blend equation. *)
Definition last_blend_func (calls : list gl_call) : option gl_call :=
  fold_left (fun acc c =>
    match c with
    | GlBlendFunc _ _ | GlBlendFuncSeparate _ _ _ _ => Some c
    | _ => acc
    end) calls None.

Definition last_blend_equation (calls : list gl_call) : option gl_call :=
  fold_left (fun acc c =>
    match c with
    | GlBlendEquation _ | GlBlendEquationSeparate _ _ => Some c
    | _ => acc
    end) calls None.

(** The custom factors and equations that the program holds are the ones
    the device was last given, whenever a custom mode is selected and not
    marked as modified. *)
Definition blend_synced (calls : list gl_call) (bs : rlBlendState) : Prop :=
  glCustomBlendModeModified bs = false ->
  (currentBlendMode bs = RL_BLEND_CUSTOM ->
   last_blend_func calls =
     Some (GlBlendFunc (GL_enum_of (glBlendSrcFactor bs))
                       (GL_enum_of (glBlendDstFactor bs))) /\
   last_blend_equation calls =
     Some (GlBlendEquation (GL_enum_of (glBlendEquation bs)))) /\
  (currentBlendMode bs = RL_BLEND_CUSTOM_SEPARATE ->
   last_blend_func calls =
     Some (GlBlendFuncSeparate
             (GL_enum_of (glBlendSrcFactorRGB bs)) (GL_enum_of (glBlendDestFactorRGB bs))
             (GL_enum_of (glBlendSrcFactorAlpha bs))
             (GL_enum_of (glBlendDestFactorAlpha bs))) /\
   last_blend_equation calls =
     Some (GlBlendEquationSeparate
             (GL_enum_of (glBlendEquationRGB bs))
             (GL_enum_of (glBlendEquationAlpha bs)))).

(* ------------------------------------------------------------------ *)
(** ** Pixel data *)

Definition RL_PIXELFORMAT_UNCOMPRESSED_GRAYSCALE : Z := 1.
Definition RL_PIXELFORMAT_UNCOMPRESSED_GRAY_ALPHA : Z := 2.
Definition RL_PIXELFORMAT_UNCOMPRESSED_R5G6B5 : Z := 3.
Definition RL_PIXELFORMAT_UNCOMPRESSED_R8G8B8 : Z := 4.
Definition RL_PIXELFORMAT_UNCOMPRESSED_R5G5B5A1 : Z := 5.
Definition RL_PIXELFORMAT_UNCOMPRESSED_R4G4B4A4 : Z := 6.
Definition RL_PIXELFORMAT_UNCOMPRESSED_R8G8B8A8 : Z := 7.
Definition RL_PIXELFORMAT_UNCOMPRESSED_R9G9B9E5 : Z := 8.
Definition RL_PIXELFORMAT_UNCOMPRESSED_R32 : Z := 9.
Definition RL_PIXELFORMAT_UNCOMPRESSED_R32G32B32 : Z := 10.
Definition RL_PIXELFORMAT_UNCOMPRESSED_R32G32B32A32 : Z := 11.
Definition RL_PIXELFORMAT_COMPRESSED_DXT1_RGB : Z := 12.
Definition RL_PIXELFORMAT_COMPRESSED_DXT1_RGBA : Z := 13.
Definition RL_PIXELFORMAT_COMPRESSED_DXT3_RGBA : Z := 14.
Definition RL_PIXELFORMAT_COMPRESSED_DXT5_RGBA : Z := 15.
Definition RL_PIXELFORMAT_COMPRESSED_ETC1_RGB : Z := 16.
Definition RL_PIXELFORMAT_COMPRESSED_ETC2_RGB : Z := 17.
Definition RL_PIXELFORMAT_COMPRESSED_ETC2_EAC_RGBA : Z := 18.
Definition RL_PIXELFORMAT_COMPRESSED_PVRT_RGB : Z := 19.
Definition RL_PIXELFORMAT_COMPRESSED_PVRT_RGBA : Z := 20.
Definition RL_PIXELFORMAT_COMPRESSED_ASTC_4x4_RGBA : Z := 21.
Definition RL_PIXELFORMAT_COMPRESSED_ASTC_8x8_RGBA : Z := 22.

(** The [switch (format)] of [rlGetPixelDataSize]: bits per pixel, 0 for
    a format without a case. *)
Definition bits_per_pixel (format : Z) : Z :=
  if format =? RL_PIXELFORMAT_UNCOMPRESSED_GRAYSCALE then 8
  else if (format =? RL_PIXELFORMAT_UNCOMPRESSED_GRAY_ALPHA)
          || (format =? RL_PIXELFORMAT_UNCOMPRESSED_R5G6B5)
          || (format =? RL_PIXELFORMAT_UNCOMPRESSED_R5G5B5A1)
          || (format =? RL_PIXELFORMAT_UNCOMPRESSED_R4G4B4A4) then 16
  else if format =? RL_PIXELFORMAT_UNCOMPRESSED_R8G8B8A8 then 32
  else if format =? RL_PIXELFORMAT_UNCOMPRESSED_R8G8B8 then 24
  else if format =? RL_PIXELFORMAT_UNCOMPRESSED_R32 then 32
  else if format =? RL_PIXELFORMAT_UNCOMPRESSED_R32G32B32 then 32 * 3
  else if format =? RL_PIXELFORMAT_UNCOMPRESSED_R32G32B32A32 then 32 * 4
  else if (format =? RL_PIXELFORMAT_COMPRESSED_DXT1_RGB)
          || (format =? RL_PIXELFORMAT_COMPRESSED_DXT1_RGBA)
          || (format =? RL_PIXELFORMAT_COMPRESSED_ETC1_RGB)
          || (format =? RL_PIXELFORMAT_COMPRESSED_ETC2_RGB)
          || (format =? RL_PIXELFORMAT_COMPRESSED_PVRT_RGB)
          || (format =? RL_PIXELFORMAT_COMPRESSED_PVRT_RGBA) then 4
  else if (format =? RL_PIXELFORMAT_COMPRESSED_DXT3_RGBA)
          || (format =? RL_PIXELFORMAT_COMPRESSED_DXT5_RGBA)
          || (format =? RL_PIXELFORMAT_COMPRESSED_ETC2_EAC_RGBA)
          || (format =? RL_PIXELFORMAT_COMPRESSED_ASTC_4x4_RGBA) then 8
  else if format =? RL_PIXELFORMAT_COMPRESSED_ASTC_8x8_RGBA then 2
  else 0.

(** [rlGetPixelDataSize(width, height, format)].  The expression
    [width*height*bpp/8] is evaluated in [int]: each product wraps
    around, the division truncates. *)
Definition rlGetPixelDataSize (width height format : Z) : Z :=
  let bpp := bits_per_pixel format in
  let dataSize := Z.quot (to_int (to_int (width * height) * bpp)) 8 in
  if (width <? 4) && (height <? 4) then
    if (format >=? RL_PIXELFORMAT_COMPRESSED_DXT1_RGB)
       && (format <? RL_PIXELFORMAT_COMPRESSED_DXT3_RGBA) then 8
    else if (format >=? RL_PIXELFORMAT_COMPRESSED_DXT3_RGBA)
            && (format <? RL_PIXELFORMAT_COMPRESSED_ASTC_8x8_RGBA) then 16
    else dataSize
  else dataSize.

(** [for (int j = hi; j >= 0; j--) body]. *)
Fixpoint for_down_fuel {S : Type} (fuel : nat) (j : Z) (body : Z -> S -> S) (s : S) : S :=
  match fuel with
  | O => s
  | Datatypes.S fuel' =>
      if j >=? 0 then for_down_fuel fuel' (j - 1) body (body j s) else s
  end.

Definition for_down {S : Type} (hi : Z) (body : Z -> S -> S) (s : S) : S :=
  for_down_fuel (Z.to_nat (hi + 1)) hi body s.

Arguments for_down : simpl never.

(** The body of the inner loop of [rlReadScreenPixels]. *)
Definition flip_line_body (width height : Z) (screenData : list Z) (y x : Z)
    (imgData : list Z) : list Z :=
  let imgData :=
    aset imgData (((height - 1) - y) * width * 4 + x)
      (aget 0 screenData ((y * width * 4) + x)) in
  if Z.rem (x + 1) 4 =? 0
  then aset imgData (((height - 1) - y) * width * 4 + x) 255
  else imgData.

(** [rlReadScreenPixels(width, height)].  [screenData] is the block of
    [width * height * 4] bytes as [glReadPixels] has filled it, [imgData]
    the block that [RL_MALLOC] returns; the result is [imgData] on
    return. *)
Definition rlReadScreenPixels (width height : Z) (screenData imgData : list Z) : list Z :=
  for_down (height - 1)
    (fun y imgData =>
       for_loop 0 (width * 4) 1 (flip_line_body width height screenData y) imgData)
    imgData.


(** A frame buffer of 2 x 3 pixels and the block it is copied to. *)
Definition sample_screen : list Z :=
  [ 10; 11; 12; 13;  20; 21; 22; 23;
    30; 31; 32; 33;  40; 41; 42; 43;
    50; 51; 52; 53;  60; 61; 62; 63 ].

Definition sample_block : list Z := replicate 24 7.

(* ------------------------------------------------------------------ *)
(** ** Vertex offsets of the draw calls *)


(** The vertices and alignment vertices of the entries [0 .. k-1]. *)
Fixpoint span (b : rlRenderBatch) (k : nat) : Z :=
  match k with
  | O => 0
  | Datatypes.S k' =>
      span b k' + (vertexCount (draw_at b (Z.of_nat k'))
                   + vertexAlignment (draw_at b (Z.of_nat k')))
  end.

(** The closed draw calls and the open one account for every vertex in
    the buffer. *)
Definition accounted (g : rlGraphicsData) : Prop :=
  span (currentBatch g) (Z.to_nat (drawCounter (currentBatch g) - 1))
  + vertexCount (current_draw (currentBatch g)) = vertexCounter (State g).

(* ------------------------------------------------------------------ *)
(** ** The vertex data of the buffers *)

(** The vertex, texture coordinate and colour arrays of every buffer have
    the sizes that [rlLoadRenderBatch] allocates for [capacity] quads. *)
Definition buffers_sized (capacity : Z) (g : rlGraphicsData) : Prop :=
  forall i, 0 <= i < bufferCount (currentBatch g) ->
    Z.of_nat (length (vertices (buffer_at (currentBatch g) i))) = 12 * capacity /\
    Z.of_nat (length (texcoords (buffer_at (currentBatch g) i))) = 8 * capacity /\
    Z.of_nat (length (colors (buffer_at (currentBatch g) i))) = 16 * capacity.

(** The position that [rlVertex3f(x, y, z)] computes in the state [s]. *)
Definition vertex_position (s : rlState) (x y z : float) : float * float * float :=
  (let m := transform s in
   if transformRequired s
   then (m0 m * x + m4 m * y + m8 m * z + m12 m,
         m1 m * x + m5 m * y + m9 m * z + m13 m,
         m2 m * x + m6 m * y + m10 m * z + m14 m)
   else (x, y, z))%f32.

(** Vertex [k] of a buffer: its position, texture coordinates and
    colour. *)
Definition position_at (vb : rlVertexBuffer) (k : Z) : option (float * float * float) :=
  match vertices vb !! Z.to_nat (3 * k + 0),
        vertices vb !! Z.to_nat (3 * k + 1),
        vertices vb !! Z.to_nat (3 * k + 2) with
  | Some a, Some b, Some c => Some (a, b, c)
  | _, _, _ => None
  end.

Definition texcoord_at (vb : rlVertexBuffer) (k : Z) : option (float * float) :=
  match texcoords vb !! Z.to_nat (2 * k + 0),
        texcoords vb !! Z.to_nat (2 * k + 1) with
  | Some a, Some b => Some (a, b)
  | _, _ => None
  end.

Definition color_at (vb : rlVertexBuffer) (k : Z) : option (Z * Z * Z * Z) :=
  match colors vb !! Z.to_nat (4 * k + 0),
        colors vb !! Z.to_nat (4 * k + 1),
        colors vb !! Z.to_nat (4 * k + 2),
        colors vb !! Z.to_nat (4 * k + 3) with
  | Some a, Some b, Some c, Some d => Some (a, b, c, d)
  | _, _, _, _ => None
  end.

(** The stores outside the arrays of the batch (vertex data and draw-call
    table) that a trace records. *)
Definition batch_overruns (tr : list event) : list (string * Z) :=
  flat_map (fun e =>
    match e with
    | EvStoreOutOfBounds array index =>
        if String.eqb array "RLGH.State.stack" then [] else [(array, index)]
    | _ => []
    end) tr.

(** [g'] records the overruns of the batch arrays that [g] records, and
    no other. *)
Definition quiet (g g' : rlGraphicsData) : Prop :=
  batch_overruns (trace g') = batch_overruns (trace g).

(** The events [g'] has recorded since [g] include a binding of the
    texture [t]. *)
Definition binds_since (t : rlTexture) (g g' : rlGraphicsData) : Prop :=
  exists evs, trace g' = trace g ++ evs /\ In (EvBindTexture t) evs.

(** [g'] has recorded the events of [g] and possibly more. *)
Definition extends (g g' : rlGraphicsData) : Prop :=
  exists evs, trace g' = trace g ++ evs.

(** Between [g] and [g'] no store outside an array has been recorded:
    the run from [g] to [g'] has stayed inside the matrix stack, the
    draw-call table and the vertex arrays. *)
Definition stores_in_bounds (g g' : rlGraphicsData) : Prop :=
  out_of_bounds_stores (trace g') = out_of_bounds_stores (trace g).

(** The two arrays of [RLGH.State] have the sizes of their
    declarations. *)
Definition state_arrays (g : rlGraphicsData) : Prop :=
  Z.of_nat (length (stack (State g))) = RL_MAX_MATRIX_STACK_SIZE /\
  Z.of_nat (length (activeTextureId (State g))) = RL_DEFAULT_BATCH_MAX_TEXTURE_UNITS.

(** *** Which calls draw the batch

    [draws_batch o g] tells whether the call [o] made in the state [g]
    reaches [rlDrawRenderBatch]: [rlCheckRenderBatchLimit] does when it
    returns [true]; [rlVertex3f], the block shared by [rlBegin] and
    [rlSetTexture], and the two tests of these functions on the length of
    the table and on the buffer do under the conditions of the source. *)
Definition rlVertex3f_draws (g : rlGraphicsData) : bool :=
  let b := currentBatch g in
  let drawcall := current_draw b in
  let vertex_counter := vertexCounter (State g) in
  let vertex_count := vertexCount drawcall in
  if vertex_counter >? elementCount (current_buffer b) * 4 - 4 then
    if (mode drawcall =? RL_LINES) && (Z.rem vertex_count 2 =? 0)
    then fst (rlCheckRenderBatchLimit (2 + 1) g)
    else if (mode drawcall =? RL_TRIANGLES) && (Z.rem vertex_count 3 =? 0)
    then fst (rlCheckRenderBatchLimit (3 + 1) g)
    else if (mode drawcall =? RL_QUADS) && (Z.rem vertex_count 4 =? 0)
    then fst (rlCheckRenderBatchLimit (4 + 1) g)
    else false
  else false.

Definition close_draw_draws (drawcall vertex_count : Z) (g : rlGraphicsData) : bool :=
  let align := alignment_for (mode (draw_at (currentBatch g) drawcall)) vertex_count in
  let g := store_draw drawcall (set_vertexAlignment align) g in
  fst (rlCheckRenderBatchLimit (vertexAlignment (draw_at (currentBatch g) drawcall)) g).

Definition rlBegin_draws (vertex_count_init : Z) (mode_ : Z) (g : rlGraphicsData) : bool :=
  let drawcall := drawCounter (currentBatch g) - 1 in
  if negb (mode (draw_at (currentBatch g) drawcall) =? mode_) then
    let vertex_count := vertex_count_init in
    if vertex_count >? 0 then
      close_draw_draws drawcall vertex_count g
      || (drawCounter (currentBatch (snd (close_draw drawcall vertex_count g)))
            >=? RL_DEFAULT_BATCH_DRAWCALLS)
    else drawCounter (currentBatch g) >=? RL_DEFAULT_BATCH_DRAWCALLS
  else false.

Definition rlSetTexture_draws (texture_ : option rlTexture) (g : rlGraphicsData) : bool :=
  match texture_ with
  | None =>
      vertexCounter (State g) >=? elementCount (current_buffer (currentBatch g)) * 4
  | Some t =>
      let drawcall := drawCounter (currentBatch g) - 1 in
      if negb (texture (draw_at (currentBatch g) drawcall) =? t) then
        let vertex_count := vertexCount (draw_at (currentBatch g) drawcall) in
        if vertex_count >? 0 then
          close_draw_draws drawcall vertex_count g
          || (drawCounter (currentBatch (snd (close_draw drawcall vertex_count g)))
                >=? RL_DEFAULT_BATCH_DRAWCALLS)
        else drawCounter (currentBatch g) >=? RL_DEFAULT_BATCH_DRAWCALLS
      else false
  end.

Definition draws_batch (o : op) (g : rlGraphicsData) : bool :=
  match o with
  | OpBegin i m => rlBegin_draws i m g
  | OpVertex3f _ _ _ => rlVertex3f_draws g
  | OpSetTexture t => rlSetTexture_draws t g
  | OpCheckRenderBatchLimit n => fst (rlCheckRenderBatchLimit n g)
  | OpDrawRenderBatchActive => true
  | _ => false
  end.

(** No call of the session [ops], started in [g], draws the batch. *)
Fixpoint no_flush (ops : list op) (g : rlGraphicsData) : Prop :=
  match ops with
  | [] => True
  | o :: ops' => draws_batch o g = false /\ no_flush ops' (step o g)
  end.

Definition is_rlEnd (o : op) : bool :=
  match o with OpEnd => true | _ => false end.

(** The number of calls of [rlEnd] in a session. *)
Fixpoint count_rlEnd (ops : list op) : nat :=
  match ops with
  | [] => O
  | o :: ops' => if is_rlEnd o then S (count_rlEnd ops') else count_rlEnd ops'
  end.

(** One buffer of four quads: two quads, the second with another
    texture, each closed by [rlEnd].  Nothing is drawn. *)
Definition two_quads : list op :=
  [OpBegin 1 RL_QUADS; a_vertex; a_vertex; a_vertex; a_vertex; OpEnd;
   OpSetTexture (Some 5); a_vertex; a_vertex; a_vertex; a_vertex; OpEnd].

(** A client that registers the textures 7 and 8, the first one twice,
    around drawing calls. *)
Definition sampler_session : list shader_op :=
  [ShSetUniformSampler 2 7; ShBatch a_vertex; ShSetUniformSampler 3 8;
   ShSetUniformSampler 4 7; ShBatch OpPushMatrix; ShBatch a_vertex;
   ShBatch OpPopMatrix; ShBatch OpDrawRenderBatchActive; ShSetUniformSampler 2 8].

(** Pops on the empty stack, then a push and its pop. *)
Definition pops_and_pushes : list op :=
  [OpPopMatrix; OpPushMatrix; OpTranslatef F32.one F32.two F32.zero; OpPushMatrix;
   OpPopMatrix; OpPopMatrix; OpPopMatrix].

(** A context with three vertices pending and the texture 7 registered
    as an additional sampler. *)
Definition sampler_pending : rlGraphicsData :=
  snd (rlSetUniformSampler 2 7 pending_context).

(* ================================================================== *)
(** * Properties *)

(* ------------------------------------------------------------------ *)
(** ** Loops *)

Lemma for_fuel_count {S : Type} (P : Z -> S -> Prop) (step n : Z)
    (body : Z -> S -> S) :
  0 < step ->
  (forall k s, 0 <= k < n -> P k s -> P (k + 1) (body (step * k) s)) ->
  forall (fuel : nat) (k : Z) (s : S),
    0 <= k <= n -> n - k <= Z.of_nat fuel -> P k s ->
    P n (for_fuel fuel (step * k) (step * n) step body s).
Proof.
  intros Hstep Hbody fuel.
  induction fuel as [|fuel IH]; intros k s Hk Hfuel HP.
  - simpl. replace n with k by lia. exact HP.
  - simpl. destruct (Z.ltb_spec (step * k) (step * n)) as [Hlt|Hge].
    + assert (k < n) by nia.
      replace (step * k + step) with (step * (k + 1)) by lia.
      apply IH; [lia | lia | apply Hbody; [lia | exact HP]].
    + assert (k = n) by nia. subst k. exact HP.
Qed.

(** The loop [for (j = 0; j < step*n; j += step)] runs its body for
    [j = 0, step, ..., step*(n-1)]: an invariant indexed by the number of
    completed iterations holds at [n] on exit. *)
Lemma for_loop_count {S : Type} (P : Z -> S -> Prop) (step n : Z)
    (body : Z -> S -> S) (s : S) :
  0 < step -> 0 <= n ->
  P 0 s ->
  (forall k s, 0 <= k < n -> P k s -> P (k + 1) (body (step * k) s)) ->
  P n (for_loop 0 (step * n) step body s).
Proof.
  intros Hstep Hn H0 Hbody. unfold for_loop.
  replace 0 with (step * 0) at 2 by lia.
  apply for_fuel_count; auto; try lia.
  rewrite Z2Nat.id; nia.
Qed.

Lemma for_loop_unit {S : Type} (P : Z -> S -> Prop) (n : Z)
    (body : Z -> S -> S) (s : S) :
  0 <= n ->
  P 0 s ->
  (forall k s, 0 <= k < n -> P k s -> P (k + 1) (body k s)) ->
  P n (for_loop 0 n 1 body s).
Proof.
  intros Hn H0 Hbody.
  replace n with (1 * n) at 2 by lia.
  apply for_loop_count; auto; try lia.
  intros k s' Hk HP. replace (1 * k) with k by lia. auto.
Qed.

(** A loop whose bound is not positive does nothing. *)
Lemma for_loop_skip {S : Type} (lim step : Z) (body : Z -> S -> S) (s : S) :
  lim <= 0 -> for_loop 0 lim step body s = s.
Proof.
  intros H. unfold for_loop. destruct (Z.to_nat (lim - 0)) eqn:E; simpl; auto.
  destruct (Z.ltb_spec 0 lim); [lia | reflexivity].
Qed.

(* ------------------------------------------------------------------ *)
(** ** Arrays *)

Lemma in_bounds_iff {A : Type} (l : list A) (i : Z) :
  in_bounds l i = true <-> 0 <= i < Z.of_nat (length l).
Proof. unfold in_bounds. rewrite andb_true_iff, Z.leb_le, Z.ltb_lt. tauto. Qed.

Lemma aset_length {A : Type} (l : list A) (i : Z) (v : A) :
  length (aset l i v) = length l.
Proof. unfold aset. destruct (in_bounds l i); [apply length_insert | reflexivity]. Qed.

Lemma aset_lookup_eq {A : Type} (l : list A) (i : Z) (v : A) :
  0 <= i < Z.of_nat (length l) -> aset l i v !! Z.to_nat i = Some v.
Proof.
  intros H. unfold aset. rewrite (proj2 (in_bounds_iff l i) H).
  apply list_lookup_insert_eq. lia.
Qed.

Lemma aset_lookup_ne {A : Type} (l : list A) (i : Z) (v : A) (j : nat) :
  j <> Z.to_nat i -> aset l i v !! j = l !! j.
Proof.
  intros H. unfold aset. destruct (in_bounds l i); [|reflexivity].
  apply list_lookup_insert_ne. congruence.
Qed.

Lemma aget_lookup {A : Type} (d : A) (l : list A) (i : Z) (v : A) :
  0 <= i -> l !! Z.to_nat i = Some v -> aget d l i = v.
Proof.
  intros Hi H. unfold aget.
  assert (Hlt : (Z.to_nat i < length l)%nat) by (eapply lookup_lt_Some; eauto).
  rewrite (proj2 (in_bounds_iff l i)) by lia.
  apply nth_lookup_Some with (d := d) in H. exact H.
Qed.

Lemma aget_aset_ne {A : Type} (d : A) (l : list A) (i j : Z) (v : A) :
  j <> i -> aget d (aset l i v) j = aget d l j.
Proof.
  intros Hj. destruct (in_bounds l i) eqn:Ei.
  - unfold aget.
    assert (Hb : in_bounds (aset l i v) j = in_bounds l j)
      by (unfold in_bounds; rewrite aset_length; reflexivity).
    rewrite Hb. destruct (in_bounds l j) eqn:E; [|reflexivity].
    apply in_bounds_iff in E. apply in_bounds_iff in Ei.
    rewrite !nth_lookup. rewrite aset_lookup_ne by lia. reflexivity.
  - unfold aset. rewrite Ei. reflexivity.
Qed.

Lemma aset_map_same {A B : Type} (f : A -> B) (d : A) (l : list A) (i : Z) (v : A) :
  f v = f (aget d l i) -> map f (aset l i v) = map f l.
Proof.
  intros H. unfold aset, aget in *. destruct (in_bounds l i) eqn:E; [|reflexivity].
  apply in_bounds_iff in E.
  apply list_eq. intros j. rewrite !list_lookup_fmap.
  destruct (decide (j = Z.to_nat i)) as [->|Hne].
  - rewrite list_lookup_insert_eq by lia.
    destruct (lookup_lt_is_Some_2 l (Z.to_nat i)) as [x Hx]; [lia|].
    rewrite Hx. simpl. f_equal. rewrite H.
    f_equal. apply nth_lookup_Some with (d := d) in Hx. exact Hx.
  - rewrite list_lookup_insert_ne by congruence. reflexivity.
Qed.

(* ------------------------------------------------------------------ *)
(** ** Matrix operations *)

Lemma deref_assign (m : Matrix) (s : rlState) :
  deref_currentMatrix (assign_currentMatrix m s) = m.
Proof.
  unfold deref_currentMatrix, assign_currentMatrix.
  destruct (currentMatrix s) eqn:E; simpl; rewrite E; reflexivity.
Qed.

Lemma currentMatrix_assign (m : Matrix) (s : rlState) :
  currentMatrix (assign_currentMatrix m s) = currentMatrix s.
Proof. unfold assign_currentMatrix. destruct (currentMatrix s) eqn:E; simpl; exact E. Qed.

Section MatrixOperations.
Variables sinf cosf : float -> float.

(** C9 (as the code has it): [rlTranslatef], [rlRotatef] and [rlScalef]
    replace the current matrix by [rlMatrixMultiply(X, current)], while
    [rlMultMatrixf], [rlFrustum] and [rlOrtho] all three replace it by
    [rlMatrixMultiply(current, X)]; none of them retargets the current
    matrix pointer. *)
Theorem multiplication_sides (g : rlGraphicsData) :
  (forall x y z, multiplies_left (rlTranslatef x y z) (matTranslation x y z) g) /\
  (forall a x y z,
      multiplies_left (rlRotatef sinf cosf a x y z) (matRotation sinf cosf a x y z) g) /\
  (forall x y z, multiplies_left (rlScalef x y z) (matScale x y z) g) /\
  (forall matf, multiplies_right (rlMultMatrixf matf) (matrix_of_array matf) g) /\
  (forall l r b t n f, multiplies_right (rlFrustum l r b t n f) (matFrustum l r b t n f) g) /\
  (forall l r b t n f, multiplies_right (rlOrtho l r b t n f) (matOrtho l r b t n f) g).
Proof.
  unfold multiplies_left, multiplies_right, current_matrix.
  repeat split; intros; simpl; apply deref_assign.
Qed.
End MatrixOperations.

(** C9 (as stated) fails: on the context reached by
    [rlTranslatef(1, 2, 0)], [rlFrustum(-1, 1, -1, 1, 1, 10)] and
    [rlOrtho(0, 4, 0, 4, 1, 10)] do not produce
    [rlMatrixMultiply(X, current)], the product that [rlTranslatef]
    forms. *)
Lemma frustum_ortho_not_left :
  let g := rlTranslatef F32.one F32.two F32.zero (context 1) in
  let d := F64.of_Z in
  ~ multiplies_left (rlFrustum (d (-1)) (d 1) (d (-1)) (d 1) (d 1) (d 10))
      (matFrustum (d (-1)) (d 1) (d (-1)) (d 1) (d 1) (d 10)) g /\
  ~ multiplies_left (rlOrtho (d 0) (d 4) (d 0) (d 4) (d 1) (d 10))
      (matOrtho (d 0) (d 4) (d 0) (d 4) (d 1) (d 10)) g.
Proof.
  split; intros H; unfold multiplies_left in H; vm_compute in H; discriminate H.
Qed.

(** [rlPushMatrix] on a full stack: the log and the store behind the
    array. *)
Lemma rlPushMatrix_full (g : rlGraphicsData) :
  stackCounter (State g) >= RL_MAX_MATRIX_STACK_SIZE ->
  Z.of_nat (length (stack (State g))) = RL_MAX_MATRIX_STACK_SIZE ->
  stack (State (rlPushMatrix g)) = stack (State g) /\
  trace (rlPushMatrix g) =
    trace g ++ [EvTraceLog RL_LOG_ERROR stack_overflow_message;
                EvStoreOutOfBounds "RLGH.State.stack" (stackCounter (State g))].
Proof.
  intros Hfull Hlen. unfold rlPushMatrix.
  destruct (Z.geb_spec (stackCounter (State g)) RL_MAX_MATRIX_STACK_SIZE) as [_|?];
    [|lia].
  assert (Hout : forall s, stack s = stack (State g) ->
                           stackCounter s = stackCounter (State g) ->
                           in_bounds (stack s) (stackCounter s) = false).
  { intros s Hs Hc. rewrite Hs, Hc. unfold in_bounds.
    destruct (Z.ltb_spec (stackCounter (State g))
                (Z.of_nat (length (stack (State g)))));
      [lia | apply andb_false_r]. }
  unfold store_stack, TRACELOG.
  destruct (currentMatrixMode (State (emit _ g)) =? RL_MODELVIEW);
    rewrite Hout by reflexivity; simpl; rewrite <- app_assoc; auto.
Qed.

Lemma out_of_bounds_app (tr1 tr2 : list event) :
  out_of_bounds_stores (tr1 ++ tr2) = out_of_bounds_stores tr1 ++ out_of_bounds_stores tr2.
Proof. unfold out_of_bounds_stores. apply flat_map_app. Qed.

Lemma rlPushMatrix_full_recorded (g : rlGraphicsData) :
  stackCounter (State g) >= RL_MAX_MATRIX_STACK_SIZE ->
  Z.of_nat (length (stack (State g))) = RL_MAX_MATRIX_STACK_SIZE ->
  ~ stores_in_bounds g (rlPushMatrix g).
Proof.
  intros Hfull Hlen. destruct (rlPushMatrix_full g Hfull Hlen) as [_ Ht].
  unfold stores_in_bounds. rewrite Ht, out_of_bounds_app. cbn.
  intros E. apply (f_equal (@length Z)) in E. rewrite length_app in E.
  cbn [length] in E. lia.
Qed.

(** C8 (what the code does instead): with the stack counter at or above
    [RL_MAX_MATRIX_STACK_SIZE], [rlPushMatrix] logs the overflow and then
    still performs the push: it stores the current matrix at
    [stack[stackCounter]], past the end of the array.  The 32 entries of
    the array are left as they were; the store falls behind them, where
    the structure keeps [stackCounter] itself, so that nothing is said
    here of the counter after the call. *)
Theorem push_at_full_stack (g : rlGraphicsData) :
  stackCounter (State g) >= RL_MAX_MATRIX_STACK_SIZE ->
  Z.of_nat (length (stack (State g))) = RL_MAX_MATRIX_STACK_SIZE ->
  stack (State (rlPushMatrix g)) = stack (State g) /\
  trace (rlPushMatrix g) =
    trace g ++ [EvTraceLog RL_LOG_ERROR stack_overflow_message;
                EvStoreOutOfBounds "RLGH.State.stack" (stackCounter (State g))] /\
  ~ stores_in_bounds g (rlPushMatrix g).
Proof.
  intros Hfull Hlen. destruct (rlPushMatrix_full g Hfull Hlen) as [Hs Ht].
  split; [exact Hs|]. split; [exact Ht|].
  apply rlPushMatrix_full_recorded; assumption.
Qed.

Lemma push_at_full_stack_witness :
  stackCounter (State full_stack_context) >= RL_MAX_MATRIX_STACK_SIZE /\
  Z.of_nat (length (stack (State full_stack_context))) = RL_MAX_MATRIX_STACK_SIZE /\
  stack (State (rlPushMatrix full_stack_context)) = stack (State full_stack_context) /\
  trace (rlPushMatrix full_stack_context) =
    trace full_stack_context ++
      [EvTraceLog RL_LOG_ERROR stack_overflow_message;
       EvStoreOutOfBounds "RLGH.State.stack" (stackCounter (State full_stack_context))] /\
  ~ stores_in_bounds full_stack_context (rlPushMatrix full_stack_context).
Proof.
  assert (H1 : stackCounter (State full_stack_context) >= RL_MAX_MATRIX_STACK_SIZE)
    by (vm_compute; discriminate).
  assert (H2 : Z.of_nat (length (stack (State full_stack_context)))
               = RL_MAX_MATRIX_STACK_SIZE) by reflexivity.
  exact (conj H1 (conj H2 (push_at_full_stack full_stack_context H1 H2))).
Defined.

(** The 32 pushes that fill the stack store inside the array; the one
    made on the full stack stores at index 32. *)
Example full_stack_sample :
  stackCounter (State full_stack_context) = 32 /\
  out_of_bounds_stores (trace full_stack_context) = [] /\
  out_of_bounds_stores (trace (rlPushMatrix full_stack_context)) = [32].
Proof. vm_compute. repeat split; reflexivity. Qed.

(* ------------------------------------------------------------------ *)
(** ** Drawing the batch: what changes and what does not *)

Lemma for_loop_invariant {S : Type} (P : S -> Prop) (lo lim step : Z)
    (body : Z -> S -> S) (s : S) :
  P s -> (forall j s, P s -> P (body j s)) -> P (for_loop lo lim step body s).
Proof.
  intros H0 Hbody. unfold for_loop.
  generalize (Z.to_nat (lim - lo)) as fuel. intros fuel.
  revert lo s H0. induction fuel as [|fuel IH]; intros lo s H0; simpl; auto.
  destruct (lo <? lim); auto.
Qed.

Lemma drawn_from_refl (g : rlGraphicsData) : drawn_from g g.
Proof.
  exists (Viewport (State g)), (modelview (State g)), (projection (State g)), (trace g).
  destruct g as [b s t]. destruct s. reflexivity.
Qed.

Lemma drawn_from_emit (e : event) (g g' : rlGraphicsData) :
  drawn_from g g' -> drawn_from g (emit e g').
Proof.
  intros (vp & mv & pj & tr & ->). exists vp, mv, pj, (tr ++ [e]). reflexivity.
Qed.

Lemma drawn_from_viewport (x y w h : Z) (g g' : rlGraphicsData) :
  drawn_from g g' -> drawn_from g (rlViewport x y w h g').
Proof.
  intros (vp & mv & pj & tr & ->).
  exists {| vp_x := x; vp_y := y; vp_width := w; vp_height := h |}, mv, pj, tr.
  reflexivity.
Qed.

Lemma drawn_from_modelview (m : Matrix) (g g' : rlGraphicsData) :
  drawn_from g g' -> drawn_from g (rlSetMatrixModelview m g').
Proof.
  intros (vp & mv & pj & tr & ->). exists vp, m, pj, tr. reflexivity.
Qed.

Lemma drawn_from_projection (m : Matrix) (g g' : rlGraphicsData) :
  drawn_from g g' -> drawn_from g (rlSetMatrixProjection m g').
Proof.
  intros (vp & mv & pj & tr & ->). exists vp, mv, m, tr. reflexivity.
Qed.

Lemma drawn_from_issue (batch : rlRenderBatch) (g g' : rlGraphicsData) (o : Z) :
  drawn_from g g' ->
  drawn_from g (snd (for_loop 0 (drawCounter batch) 1 (issue_draw_body batch) (o, g'))).
Proof.
  intros H.
  apply (for_loop_invariant (fun st => drawn_from g (snd st))); [exact H|].
  intros j [off g1] H1. unfold issue_draw_body. simpl in H1.
  destruct (_ || _); simpl; repeat apply drawn_from_emit; exact H1.
Qed.

Lemma drawn_from_eye (batch : rlRenderBatch) (eyeCount : Z) (mv : Matrix) (eye : Z)
    (g g' : rlGraphicsData) :
  drawn_from g g' -> drawn_from g (draw_eye_body batch eyeCount mv eye g').
Proof.
  intros H. unfold draw_eye_body.
  set (g1 := if eyeCount =? 2 then _ else g').
  assert (H1 : drawn_from g g1).
  { subst g1. destruct (eyeCount =? 2); [|exact H].
    apply drawn_from_projection, drawn_from_modelview, drawn_from_viewport, H. }
  clearbody g1.
  destruct (vertexCounter (State g1) >? 0); [|exact H1].
  apply drawn_from_emit, drawn_from_issue.
  apply (for_loop_invariant (drawn_from g)); [apply drawn_from_emit, H1|].
  intros j g2 H2. unfold bind_active_body.
  destruct (_ >? 0); [apply drawn_from_emit|]; exact H2.
Qed.

(** [rlDrawRenderBatch] resets the batch and the counters; apart from
    that it changes the viewport and the trace only. *)
Lemma flush_shape (batch : rlRenderBatch) (g : rlGraphicsData) :
  exists vp tr,
    rlDrawRenderBatch batch g =
    (reset_batch (defaultTexture (State g)) batch,
     set_trace tr (upd_State (reset_state vp) g)).
Proof.
  unfold rlDrawRenderBatch. cbv zeta.
  set (g1 := if vertexCounter (State g) >? 0 then _ else g).
  assert (H1 : drawn_from g g1).
  { subst g1. destruct (_ >? 0); [|apply drawn_from_refl].
    repeat apply drawn_from_emit. apply drawn_from_refl. }
  assert (Hp : projection (State g1) = projection (State g) /\
               modelview (State g1) = modelview (State g)).
  { subst g1. destruct (_ >? 0); split; reflexivity. }
  destruct Hp as [-> ->]. clearbody g1.
  set (eyeCount := if stereoRender (State g1) then 2 else 1).
  set (g2 := for_loop 0 eyeCount 1 _ g1).
  assert (H2 : drawn_from g g2).
  { subst g2. apply (for_loop_invariant (drawn_from g)); [exact H1|].
    intros j s Hs. apply drawn_from_eye, Hs. }
  clearbody g2 eyeCount.
  set (g3 := if eyeCount =? 2 then _ else g2).
  assert (H3 : drawn_from g g3).
  { subst g3. destruct (eyeCount =? 2); [apply drawn_from_viewport|]; exact H2. }
  clearbody g3. destruct H3 as (vp & mv & pj & tr & ->).
  exists vp, tr. apply pair_equal_spec. split.
  - unfold reset_batch.
    cbn [State upd_State set_State set_trace defaultTexture set_modelview
         set_projection set_vertexCounter set_Viewport].
    reflexivity.
  - destruct g as [b s t]. destruct s. vm_compute. reflexivity.
Qed.

Lemma flush_current_shape (g : rlGraphicsData) :
  exists vp tr,
    flush_current g =
    {| currentBatch := reset_batch (defaultTexture (State g)) (currentBatch g);
       State := reset_state vp (State g);
       trace := tr |}.
Proof.
  unfold flush_current.
  destruct (flush_shape (currentBatch g) g) as (vp & tr & ->).
  exists vp, tr. reflexivity.
Qed.

(** The loop that resets the draw calls. *)
Lemma reset_loop_spec (white : rlTexture) (b : rlRenderBatch) :
  let b' := for_loop 0 RL_DEFAULT_BATCH_DRAWCALLS 1
              (fun i b => set_draws (aset (draws b) i (reset_draw white (draw_at b i))) b) b in
  bufferCount b' = bufferCount b /\
  currentBuffer b' = currentBuffer b /\
  vertexBuffer b' = vertexBuffer b /\
  drawCounter b' = drawCounter b /\
  currentDepth b' = currentDepth b /\
  length (draws b') = length (draws b) /\
  forall (i : nat) d, draws b !! i = Some d ->
    draws b' !! i =
    Some (if Z.of_nat i <? RL_DEFAULT_BATCH_DRAWCALLS then reset_draw white d else d).
Proof.
  apply (for_loop_unit (fun k b' =>
    bufferCount b' = bufferCount b /\
    currentBuffer b' = currentBuffer b /\
    vertexBuffer b' = vertexBuffer b /\
    drawCounter b' = drawCounter b /\
    currentDepth b' = currentDepth b /\
    length (draws b') = length (draws b) /\
    forall (i : nat) d, draws b !! i = Some d ->
      draws b' !! i = Some (if Z.of_nat i <? k then reset_draw white d else d))).
  - unfold RL_DEFAULT_BATCH_DRAWCALLS. lia.
  - repeat split; auto. intros i d Hd.
    destruct (Z.ltb_spec (Z.of_nat i) 0); [lia | exact Hd].
  - intros k b1 Hk (H1 & H2 & H3 & H4 & H5 & H6 & H7).
    simpl. repeat split; auto.
    + rewrite aset_length. exact H6.
    + intros i d Hd. specialize (H7 i d Hd).
      destruct (decide (i = Z.to_nat k)) as [->|Hne].
      * assert (Hlt : (Z.to_nat k < length (draws b1))%nat)
          by (eapply lookup_lt_Some; eauto).
        rewrite aset_lookup_eq by lia.
        rewrite Z2Nat.id in * by lia.
        destruct (Z.ltb_spec k k); [lia|].
        destruct (Z.ltb_spec k (k + 1)); [|lia].
        unfold draw_at. erewrite aget_lookup; eauto. lia.
      * rewrite aset_lookup_ne by exact Hne. rewrite H7.
        f_equal.
        destruct (Z.ltb_spec (Z.of_nat i) k), (Z.ltb_spec (Z.of_nat i) (k + 1));
          auto; lia.
Qed.

Lemma reset_batch_spec (white : rlTexture) (b : rlRenderBatch) :
  let b' := reset_batch white b in
  bufferCount b' = bufferCount b /\
  vertexBuffer b' = vertexBuffer b /\
  drawCounter b' = 1 /\
  currentDepth b' = initialDepth /\
  currentBuffer b' =
    (if currentBuffer b + 1 >=? bufferCount b then 0 else currentBuffer b + 1) /\
  length (draws b') = length (draws b) /\
  forall (i : nat) d, draws b !! i = Some d ->
    draws b' !! i =
    Some (if Z.of_nat i <? RL_DEFAULT_BATCH_DRAWCALLS then reset_draw white d else d).
Proof.
  unfold reset_batch. cbv zeta.
  pose proof (reset_loop_spec white (set_currentDepth (F32.neg F32.one) b)) as H.
  cbv zeta in H.
  set (b1 := for_loop _ _ _ _ _) in *. clearbody b1.
  destruct H as (H1 & H2 & H3 & H4 & H5 & H6 & H7).
  cbn [bufferCount currentBuffer vertexBuffer drawCounter currentDepth draws
       set_currentDepth set_drawCounter set_currentBuffer] in *.
  rewrite H1, H2.
  destruct (currentBuffer b + 1 >=? bufferCount b);
    cbn [bufferCount currentBuffer vertexBuffer drawCounter currentDepth draws
         set_currentDepth set_drawCounter set_currentBuffer];
    repeat split; auto.
Qed.

(* ------------------------------------------------------------------ *)
(** ** Depth *)

Lemma reset_batch_depth (white : rlTexture) (b : rlRenderBatch) :
  currentDepth (reset_batch white b) = initialDepth.
Proof. apply (reset_batch_spec white b). Qed.

Lemma flush_current_depth (g : rlGraphicsData) :
  currentDepth (currentBatch (flush_current g)) = initialDepth.
Proof.
  destruct (flush_current_shape g) as (vp & tr & ->). apply reset_batch_depth.
Qed.

Lemma load_depth (n c : Z) (g : rlGraphicsData) :
  currentDepth (fst (rlLoadRenderBatch n c g)) = initialDepth.
Proof.
  unfold rlLoadRenderBatch.
  destruct (for_loop 0 n 1 (load_buffer_body c) (alloc n blank_buffer, g)) as [vbs g'].
  reflexivity.
Qed.

(** The stores to the draw-call table leave the depth alone. *)
Lemma store_draw_depth (i : Z) (f : rlDrawCall -> rlDrawCall) (g : rlGraphicsData) :
  currentDepth (currentBatch (store_draw i f g)) = currentDepth (currentBatch g).
Proof. unfold store_draw. destruct (in_bounds _ _); reflexivity. Qed.

(** [rlCheckRenderBatchLimit] resets the depth when it draws, and only
    then. *)
Lemma check_depth (n : Z) (g : rlGraphicsData) :
  currentDepth (currentBatch (snd (rlCheckRenderBatchLimit n g))) =
  if fst (rlCheckRenderBatchLimit n g) then initialDepth
  else currentDepth (currentBatch g).
Proof.
  unfold rlCheckRenderBatchLimit. cbv zeta.
  destruct (_ >=? _); cbn [fst snd]; [|reflexivity].
  rewrite !store_draw_depth. apply flush_current_depth.
Qed.

Lemma close_draw_depth (d cnt : Z) (g : rlGraphicsData) :
  currentDepth (currentBatch (snd (close_draw d cnt g))) =
  if close_draw_draws d cnt g then initialDepth else currentDepth (currentBatch g).
Proof.
  unfold close_draw, close_draw_draws. cbv zeta.
  set (g1 := store_draw d _ g).
  assert (H1 : currentDepth (currentBatch g1) = currentDepth (currentBatch g))
    by (subst g1; apply store_draw_depth).
  clearbody g1.
  pose proof (check_depth (vertexAlignment (draw_at (currentBatch g1) d)) g1) as H2.
  destruct (rlCheckRenderBatchLimit _ g1) as [o g2]. cbn [fst snd] in *.
  destruct o; cbn [negb snd]; [exact H2|].
  cbn [currentDepth currentBatch upd_batch upd_State set_State set_currentBatch
       set_drawCounter].
  rewrite H2. exact H1.
Qed.

(** The end shared by [rlBegin] and [rlSetTexture]: the test on the
    length of the table and the two stores. *)
Lemma table_test_depth (drew : bool) (d : Z) (f1 f2 : rlDrawCall -> rlDrawCall)
    (g g1 : rlGraphicsData) :
  currentDepth (currentBatch g1) =
    (if drew then initialDepth else currentDepth (currentBatch g)) ->
  currentDepth (currentBatch
    (store_draw d f2
       (store_draw d f1
          (if drawCounter (currentBatch g1) >=? RL_DEFAULT_BATCH_DRAWCALLS
           then flush_current g1 else g1)))) =
  if drew || (drawCounter (currentBatch g1) >=? RL_DEFAULT_BATCH_DRAWCALLS)
  then initialDepth else currentDepth (currentBatch g).
Proof.
  intros H. rewrite !store_draw_depth.
  destruct (_ >=? _); [rewrite orb_true_r; apply flush_current_depth|].
  rewrite orb_false_r. exact H.
Qed.

Lemma rlBegin_depth (i m : Z) (g : rlGraphicsData) :
  currentDepth (currentBatch (rlBegin i m g)) =
  if rlBegin_draws i m g then initialDepth else currentDepth (currentBatch g).
Proof.
  unfold rlBegin, rlBegin_draws. cbv zeta.
  destruct (negb _); [|reflexivity].
  destruct (i >? 0).
  - pose proof (close_draw_depth (drawCounter (currentBatch g) - 1) i g) as H.
    destruct (close_draw (drawCounter (currentBatch g) - 1) i g) as [d g1].
    cbn [snd] in *. apply table_test_depth, H.
  - apply (table_test_depth false). reflexivity.
Qed.

Lemma rlSetTexture_depth (t : option rlTexture) (g : rlGraphicsData) :
  currentDepth (currentBatch (rlSetTexture t g)) =
  if rlSetTexture_draws t g then initialDepth else currentDepth (currentBatch g).
Proof.
  unfold rlSetTexture, rlSetTexture_draws. destruct t as [t|].
  - cbv zeta. destruct (negb _); [|reflexivity].
    destruct (_ >? 0).
    + pose proof (close_draw_depth (drawCounter (currentBatch g) - 1)
                    (vertexCount (draw_at (currentBatch g)
                                    (drawCounter (currentBatch g) - 1))) g) as H.
      destruct (close_draw _ _ g) as [d g1].
      cbn [snd] in *. apply table_test_depth, H.
    + apply (table_test_depth false). reflexivity.
  - destruct (_ >=? _); [apply flush_current_depth | reflexivity].
Qed.

Lemma rlVertex3f_depth (x y z : float) (g : rlGraphicsData) :
  currentDepth (currentBatch (rlVertex3f x y z g)) =
  if rlVertex3f_draws g then initialDepth else currentDepth (currentBatch g).
Proof.
  unfold rlVertex3f. cbv zeta.
  assert (Hw : forall tx ty tz g1,
             currentDepth (currentBatch (rlVertex3f_write tx ty tz g1)) =
             currentDepth (currentBatch g1)).
  { intros tx ty tz g1. unfold rlVertex3f_write. cbv zeta.
    destruct (write_vertex _ _ _ _ _ _) as [vb evs].
    rewrite store_draw_depth. reflexivity. }
  rewrite Hw. unfold rlVertex3f_limit, rlVertex3f_draws. cbv zeta.
  destruct (_ >? _); [|reflexivity].
  destruct (_ && _); [apply check_depth|].
  destruct (_ && _); [apply check_depth|].
  destruct (_ && _); [apply check_depth | reflexivity].
Qed.

(** What a call does to the depth: a call that draws the batch leaves
    the initial depth, [rlEnd] adds the increment, and every other call
    leaves the depth alone. *)
Lemma depth_step (o : op) (g : rlGraphicsData) :
  currentDepth (currentBatch (step o g)) =
  if draws_batch o g then initialDepth
  else if is_rlEnd o then F32.add (currentDepth (currentBatch g)) depthIncrement
  else currentDepth (currentBatch g).
Proof.
  destruct o; cbn [step draws_batch is_rlEnd]; try reflexivity.
  - apply rlBegin_depth.
  - apply rlVertex3f_depth.
  - apply rlSetTexture_depth.
  - apply check_depth.
  - apply flush_current_depth.
  - unfold rlMatrixMode. cbv zeta.
    destruct (_ =? _); [|destruct (_ =? _)]; reflexivity.
  - unfold rlPushMatrix, store_stack, TRACELOG. cbv zeta.
    destruct (_ >=? _); destruct (_ =? _); destruct (in_bounds _ _); reflexivity.
  - unfold rlPopMatrix. cbv zeta.
    destruct (_ >? 0); destruct (_ && _); reflexivity.
Qed.

Lemma depth_run (ops : list op) (g : rlGraphicsData) :
  no_flush ops g ->
  currentDepth (currentBatch (run ops g)) =
  depth_after (count_rlEnd ops) (currentDepth (currentBatch g)).
Proof.
  revert g. induction ops as [|o ops IH]; intros g Hno; [reflexivity|].
  destruct Hno as [Ho Hno].
  change (run (o :: ops) g) with (run ops (step o g)).
  rewrite (IH _ Hno), depth_step, Ho.
  cbn [count_rlEnd]. destruct (is_rlEnd o); [|reflexivity].
  unfold depth_after. rewrite Nat.iter_succ_r. reflexivity.
Qed.

(** C7 (as the code has it): a loaded batch and a drawn batch have depth
    [-1.0f].  Through a session in which no call draws the batch (and no
    store leaves an array), the calls of [rlEnd] add the increment
    [1.0f/20000.0f] to the depth, once each, in single precision,
    rounding after every addition, and the other calls ([rlBegin],
    [rlVertex3f], [rlSetTexture], the matrix calls) leave it alone:
    after [N] calls of [rlEnd] the depth is the start depth with the
    increment added [N] times.  Drawing the batch, by
    [rlDrawRenderBatchActive] or from inside any call that draws it,
    brings the depth back to [-1.0f]. *)
Theorem depth_accumulates (ops : list op) (g : rlGraphicsData) :
  no_flush ops g -> stores_in_bounds g (run ops g) ->
  currentDepth (currentBatch (run ops g)) =
    depth_after (count_rlEnd ops) (currentDepth (currentBatch g)) /\
  currentDepth (currentBatch (flush_current (run ops g))) = initialDepth /\
  (forall o, draws_batch o (run ops g) = true ->
     currentDepth (currentBatch (step o (run ops g))) = initialDepth) /\
  (forall n c, currentDepth (fst (rlLoadRenderBatch n c (run ops g))) = initialDepth).
Proof.
  intros Hno _. split; [apply depth_run, Hno|].
  split; [apply flush_current_depth|]. split.
  - intros o Ho. rewrite depth_step, Ho. reflexivity.
  - intros. apply load_depth.
Qed.

(** A freshly loaded batch (depth [-1.0f]), two quads and two calls of
    [rlEnd] in a buffer of four quads. *)
Lemma depth_accumulates_witness :
  no_flush two_quads (context 4) /\
  stores_in_bounds (context 4) (run two_quads (context 4)) /\
  currentDepth (currentBatch (run two_quads (context 4))) =
    depth_after (count_rlEnd two_quads) (currentDepth (currentBatch (context 4))) /\
  currentDepth (currentBatch (flush_current (run two_quads (context 4)))) = initialDepth /\
  (forall o, draws_batch o (run two_quads (context 4)) = true ->
     currentDepth (currentBatch (step o (run two_quads (context 4)))) = initialDepth) /\
  (forall n c,
     currentDepth (fst (rlLoadRenderBatch n c (run two_quads (context 4)))) = initialDepth).
Proof.
  assert (H1 : no_flush two_quads (context 4))
    by (vm_compute; repeat split; reflexivity).
  assert (H2 : stores_in_bounds (context 4) (run two_quads (context 4)))
    by (vm_compute; reflexivity).
  exact (conj H1 (conj H2 (depth_accumulates two_quads (context 4) H1 H2))).
Defined.

(** In that session the depth starts at [-1.0f] and [rlEnd] is called
    twice; a ninth quad vertex in a buffer of two quads draws the batch
    and the depth is [-1.0f] again. *)
Example two_quads_depth :
  currentDepth (currentBatch (context 4)) = initialDepth /\
  count_rlEnd two_quads = 2%nat /\
  currentDepth (currentBatch (run two_quads (context 4))) =
    F32.add (F32.add initialDepth depthIncrement) depthIncrement /\
  draws_batch a_vertex (run two_quads (context 2)) = true /\
  currentDepth (currentBatch (step a_vertex (run two_quads (context 2)))) = initialDepth.
Proof. vm_compute. repeat split; reflexivity. Qed.

(** C7 (as stated) fails: after four calls of [rlEnd] on a fresh batch
    the depth is not [initialDepth + 4 * depthIncrement], neither when
    the right-hand side is computed in single precision nor as an exact
    rational number (both sides scaled by [2^40]). *)
Lemma depth_closed_form_fails :
  let d4 := currentDepth (currentBatch (Nat.iter 4 rlEnd (context 1))) in
  d4 <> F32.add initialDepth (F32.mul (F32.of_Z 4) depthIncrement) /\
  exact_scaled 40 d4 <>
    exact_scaled 40 initialDepth + 4 * exact_scaled 40 depthIncrement.
Proof. split; vm_compute; discriminate. Qed.

(* ------------------------------------------------------------------ *)
(** ** Postcondition of drawing the batch *)

Lemma cleared_slots_four (l : list rlTexture) :
  Z.of_nat (length l) = RL_DEFAULT_BATCH_MAX_TEXTURE_UNITS ->
  cleared_slots l = [0; 0; 0; 0].
Proof.
  intros H. destruct l as [|a [|b [|c [|d [|e l]]]]]; try discriminate H.
  - reflexivity.
  - exfalso. unfold RL_DEFAULT_BATCH_MAX_TEXTURE_UNITS in H. simpl length in H. lia.
Qed.

(** C5: after [rlDrawRenderBatch] the vertex counter is 0, the depth is
    the one a loaded batch starts with, one draw call is open and every
    entry of the table is a QUADS entry without vertices bound to the
    default texture, the additional texture slots are all 0, the current
    buffer index has advanced by one modulo the number of buffers, and
    modelview and projection are the matrices of before the call, stereo
    or not. *)
Theorem flush_postcondition (batch : rlRenderBatch) (g : rlGraphicsData) :
  Z.of_nat (length (draws batch)) = RL_DEFAULT_BATCH_DRAWCALLS ->
  0 <= currentBuffer batch < bufferCount batch ->
  Z.of_nat (length (activeTextureId (State g))) = RL_DEFAULT_BATCH_MAX_TEXTURE_UNITS ->
  is_reset batch g (fst (rlDrawRenderBatch batch g)) (snd (rlDrawRenderBatch batch g)).
Proof.
  unfold is_reset.
  intros Hlen Hcur Hslots.
  destruct (flush_shape batch g) as (vp & tr & ->). cbv zeta.
  cbn [fst snd State set_trace upd_State set_State].
  destruct (reset_batch_spec (defaultTexture (State g)) batch)
    as (Hbc & Hvb & Hdc & Hdepth & Hbuf & Hlen' & Hdraws).
  set (b' := reset_batch (defaultTexture (State g)) batch) in *. clearbody b'.
  assert (Hall : forall (i : nat) d, draws b' !! i = Some d ->
            mode d = RL_QUADS /\ vertexCount d = 0 /\
            texture d = defaultTexture (State g)).
  { intros i d Hd.
    assert (Hi : (i < length (draws batch))%nat)
      by (rewrite <- Hlen'; eapply lookup_lt_Some; eauto).
    destruct (lookup_lt_is_Some_2 (draws batch) i Hi) as [d0 Hd0].
    rewrite (Hdraws i d0 Hd0) in Hd.
    destruct (Z.ltb_spec (Z.of_nat i) RL_DEFAULT_BATCH_DRAWCALLS); [|lia].
    injection Hd as <-. repeat split; reflexivity. }
  assert (Hcd : exists d, draws b' !! 0%nat = Some d /\ current_draw b' = d).
  { destruct (lookup_lt_is_Some_2 (draws b') 0) as [d Hd].
    - rewrite Hlen'. unfold RL_DEFAULT_BATCH_DRAWCALLS in Hlen. lia.
    - exists d. split; [exact Hd|].
      unfold current_draw, draw_at. rewrite Hdc.
      apply aget_lookup; [lia | exact Hd]. }
  destruct Hcd as (d & Hd & ->). destruct (Hall 0%nat d Hd) as (Hm & Hc & Ht).
  unfold reset_state.
  cbn [vertexCounter activeTextureId modelview projection defaultTexture
       set_Viewport set_activeTextureId set_vertexCounter].
  split; [reflexivity|].
  split; [intros; rewrite load_depth; exact Hdepth|].
  split; [exact Hdc|].
  split; [exact Hm|].
  split; [exact Hc|].
  split; [exact Ht|].
  split; [exact Hall|].
  split; [apply cleared_slots_four, Hslots|].
  split; [|split; reflexivity].
  rewrite Hbuf.
  destruct (Z.geb_spec (currentBuffer batch + 1) (bufferCount batch)).
  - replace (currentBuffer batch + 1) with (bufferCount batch) by lia.
    rewrite Z_mod_same_full. reflexivity.
  - rewrite Z.mod_small by lia. reflexivity.
Qed.


Lemma flush_postcondition_witness :
  Z.of_nat (length (draws (currentBatch stereo_context))) = RL_DEFAULT_BATCH_DRAWCALLS /\
  0 <= currentBuffer (currentBatch stereo_context)
    < bufferCount (currentBatch stereo_context) /\
  Z.of_nat (length (activeTextureId (State stereo_context)))
    = RL_DEFAULT_BATCH_MAX_TEXTURE_UNITS /\
  is_reset (currentBatch stereo_context) stereo_context
    (fst (rlDrawRenderBatch (currentBatch stereo_context) stereo_context))
    (snd (rlDrawRenderBatch (currentBatch stereo_context) stereo_context)).
Proof.
  assert (H1 : Z.of_nat (length (draws (currentBatch stereo_context)))
               = RL_DEFAULT_BATCH_DRAWCALLS) by (vm_compute; reflexivity).
  assert (H2 : 0 <= currentBuffer (currentBatch stereo_context)
               < bufferCount (currentBatch stereo_context))
    by (split; [vm_compute; discriminate | vm_compute; reflexivity]).
  assert (H3 : Z.of_nat (length (activeTextureId (State stereo_context)))
               = RL_DEFAULT_BATCH_MAX_TEXTURE_UNITS) by (vm_compute; reflexivity).
  exact (conj H1 (conj H2 (conj H3
           (flush_postcondition (currentBatch stereo_context) stereo_context H1 H2 H3)))).
Defined.

(* ------------------------------------------------------------------ *)
(** ** Loading a batch *)

Lemma load_loop_spec (n c : Z) (g : rlGraphicsData) :
  let r := for_loop 0 n 1 (load_buffer_body c) (alloc n blank_buffer, g) in
  currentBatch (snd r) = currentBatch g /\
  trace (snd r) = trace g /\
  (1 <= n -> vertexCounter (State (snd r)) = 0) /\
  forall i, 0 <= i < n -> fst r !! Z.to_nat i = Some (new_vertex_buffer c).
Proof.
  destruct (Z.le_gt_cases 0 n) as [Hn|Hn].
  - cbv zeta.
    cut ((currentBatch (snd (for_loop 0 n 1 (load_buffer_body c) (alloc n blank_buffer, g)))
            = currentBatch g /\
          trace (snd (for_loop 0 n 1 (load_buffer_body c) (alloc n blank_buffer, g)))
            = trace g /\
          (1 <= n -> vertexCounter (State (snd (for_loop 0 n 1 (load_buffer_body c)
                                                  (alloc n blank_buffer, g)))) = 0) /\
          length (fst (for_loop 0 n 1 (load_buffer_body c) (alloc n blank_buffer, g)))
            = Z.to_nat n) /\
         forall i, 0 <= i < n ->
           fst (for_loop 0 n 1 (load_buffer_body c) (alloc n blank_buffer, g))
             !! Z.to_nat i = Some (new_vertex_buffer c)); [tauto|].
    apply (for_loop_unit (fun k (r : list rlVertexBuffer * rlGraphicsData) =>
      (currentBatch (snd r) = currentBatch g /\
       trace (snd r) = trace g /\
       (1 <= k -> vertexCounter (State (snd r)) = 0) /\
       length (fst r) = Z.to_nat n) /\
      forall i, 0 <= i < k -> fst r !! Z.to_nat i = Some (new_vertex_buffer c)));
      [exact Hn | |].
    + simpl. repeat split; auto; try lia.
      unfold alloc. apply length_replicate.
    + intros k [vbs g1] Hk ((H1 & H2 & H3 & H4) & H5). simpl in *.
      repeat split; auto.
      * rewrite aset_length. exact H4.
      * intros i Hi. destruct (Z.eq_dec i k) as [->|Hne].
        -- apply aset_lookup_eq. lia.
        -- rewrite aset_lookup_ne by lia. apply H5. lia.
  - rewrite for_loop_skip by lia. simpl. repeat split; auto; lia.
Qed.

(** C10: [rlLoadRenderBatch] called for at least one buffer leaves the
    global vertex counter at 0, whatever it was, and does not touch the
    current batch: the draw calls of the current batch keep the vertex
    counts they had. *)
Theorem load_resets_vertexCounter (numBuffers bufferElements : Z) (g : rlGraphicsData) :
  1 <= numBuffers ->
  vertexCounter (State (snd (rlLoadRenderBatch numBuffers bufferElements g))) = 0 /\
  currentBatch (snd (rlLoadRenderBatch numBuffers bufferElements g)) = currentBatch g.
Proof.
  intros Hn. unfold rlLoadRenderBatch.
  pose proof (load_loop_spec numBuffers bufferElements g) as H. cbv zeta in H.
  destruct (for_loop 0 numBuffers 1 (load_buffer_body bufferElements)
              (alloc numBuffers blank_buffer, g)) as [vbs g1].
  simpl in *. destruct H as (H1 & _ & H3 & _). auto.
Qed.

Lemma load_resets_vertexCounter_witness :
  1 <= 1 /\
  vertexCounter (State pending_context) = 3 /\
  vertexCount (current_draw (currentBatch pending_context)) = 3 /\
  vertexCounter (State (snd (rlLoadRenderBatch 1 1 pending_context))) = 0 /\
  vertexCount (current_draw
    (currentBatch (snd (rlLoadRenderBatch 1 1 pending_context)))) = 3.
Proof.
  assert (H1 : 1 <= 1) by lia.
  destruct (load_resets_vertexCounter 1 1 pending_context H1) as [H0 Hb].
  rewrite Hb.
  split; [exact H1|].
  split; [vm_compute; reflexivity|].
  split; [vm_compute; reflexivity|].
  split; [exact H0 | vm_compute; reflexivity].
Defined.

(* ------------------------------------------------------------------ *)
(** ** The quad indices *)

Lemma to_uint_small (z : Z) : 0 <= z < UINT_MODULUS -> to_uint z = z.
Proof. intros H. unfold to_uint. apply Z.mod_small. exact H. Qed.

Lemma init_indices_spec (C : Z) (a : list Z) :
  0 <= C -> 6 * C <= INT_MAX -> Z.of_nat (length a) = 6 * C ->
  length (init_indices C a) = length a /\
  forall k, 0 <= k < C -> quad_indices_at (init_indices C a) k.
Proof.
  intros HC Hmax Hlen. unfold init_indices.
  apply (for_loop_count (fun n (st : Z * list Z) =>
    fst st = n /\ length (snd st) = length a /\
    forall k, 0 <= k < n -> quad_indices_at (snd st) k)
    6 C init_indices_body (0, a)); [lia | exact HC | |].
  - simpl. split; [reflexivity|]. split; [reflexivity|]. intros k Hk. lia.
  - intros n [k0 a1] Hn (Hk0 & Hl & Hq). simpl in Hk0, Hl, Hq. subst k0.
    unfold init_indices_body. cbn [fst snd].
    split; [reflexivity|]. split; [rewrite !aset_length; exact Hl|].
    intros k Hk. unfold quad_indices_at.
    unfold INT_MAX, UINT_MODULUS in *.
    destruct (Z.eq_dec k n) as [->|Hne].
    + rewrite !to_uint_small by (unfold UINT_MODULUS; lia).
      repeat split.
      all: repeat first
        [ apply aset_lookup_eq; rewrite ?aset_length; lia
        | rewrite aset_lookup_ne by lia ].
    + assert (Hold : quad_indices_at a1 k) by (apply Hq; lia).
      unfold quad_indices_at in Hold.
      rewrite !aset_lookup_ne by lia. exact Hold.
Qed.

Lemma new_vertex_buffer_indices (C k : Z) :
  0 <= C -> 6 * C <= INT_MAX -> 0 <= k < C ->
  quad_indices_at (indices (new_vertex_buffer C)) k.
Proof.
  intros HC Hmax Hk. simpl.
  apply init_indices_spec; auto.
  unfold alloc. rewrite length_replicate. lia.
Qed.

(** *** No operation writes the index arrays *)

Lemma index_arrays_store_draw (i : Z) (f : rlDrawCall -> rlDrawCall) (g : rlGraphicsData) :
  index_arrays (store_draw i f g) = index_arrays g.
Proof. unfold store_draw. destruct (in_bounds _ _); reflexivity. Qed.

Lemma index_arrays_flush (g : rlGraphicsData) :
  index_arrays (flush_current g) = index_arrays g.
Proof.
  destruct (flush_current_shape g) as (vp & tr & ->). unfold index_arrays.
  cbn [currentBatch].
  destruct (reset_batch_spec (defaultTexture (State g)) (currentBatch g))
    as (_ & -> & _). reflexivity.
Qed.

Lemma index_arrays_check (n : Z) (g : rlGraphicsData) :
  index_arrays (snd (rlCheckRenderBatchLimit n g)) = index_arrays g.
Proof.
  unfold rlCheckRenderBatchLimit. destruct (_ >=? _); [|reflexivity].
  cbn [snd]. rewrite !index_arrays_store_draw. apply index_arrays_flush.
Qed.

Lemma index_arrays_close (d c : Z) (g : rlGraphicsData) :
  index_arrays (snd (close_draw d c g)) = index_arrays g.
Proof.
  unfold close_draw. cbv zeta.
  match goal with |- context [rlCheckRenderBatchLimit ?n ?g1] =>
    pose proof (index_arrays_check n g1) as H;
    destruct (rlCheckRenderBatchLimit n g1) as [overflow g2]
  end.
  cbn [snd] in H. rewrite index_arrays_store_draw in H.
  destruct overflow; cbn [negb snd]; exact H.
Qed.

Lemma index_arrays_rlBegin (i m : Z) (g : rlGraphicsData) :
  index_arrays (rlBegin i m g) = index_arrays g.
Proof.
  unfold rlBegin. destruct (negb _); [|reflexivity].
  cbv zeta.
  set (r := if i >? 0 then _ else _).
  assert (Hr : index_arrays (snd r) = index_arrays g).
  { subst r. destruct (i >? 0); [apply index_arrays_close | reflexivity]. }
  clearbody r. destruct r as [d g1]. cbn [snd] in Hr.
  rewrite !index_arrays_store_draw.
  destruct (_ >=? _); [rewrite index_arrays_flush|]; exact Hr.
Qed.

Lemma index_arrays_rlSetTexture (t : option rlTexture) (g : rlGraphicsData) :
  index_arrays (rlSetTexture t g) = index_arrays g.
Proof.
  unfold rlSetTexture. destruct t as [t|].
  - destruct (negb _); [|reflexivity].
    cbv zeta.
    set (r := if _ >? 0 then _ else _).
    assert (Hr : index_arrays (snd r) = index_arrays g).
    { subst r. destruct (_ >? 0); [apply index_arrays_close | reflexivity]. }
    clearbody r. destruct r as [d g1]. cbn [snd] in Hr.
    rewrite !index_arrays_store_draw.
    destruct (_ >=? _); [rewrite index_arrays_flush|]; exact Hr.
  - destruct (_ >=? _); [apply index_arrays_flush | reflexivity].
Qed.

Lemma index_arrays_limit (g : rlGraphicsData) :
  index_arrays (rlVertex3f_limit g) = index_arrays g.
Proof.
  unfold rlVertex3f_limit. cbv zeta.
  destruct (_ >? _); [|reflexivity].
  destruct (_ && _); [apply index_arrays_check|].
  destruct (_ && _); [apply index_arrays_check|].
  destruct (_ && _); [apply index_arrays_check | reflexivity].
Qed.

Lemma write_vertex_indices (s : rlState) (tx ty tz : float) (n : Z) (vb : rlVertexBuffer) :
  indices (fst (write_vertex s tx ty tz n vb)) = indices vb.
Proof.
  unfold write_vertex.
  repeat match goal with
  | |- context [store_checked ?n ?l ?i ?v] => destruct (store_checked n l i v)
  end.
  reflexivity.
Qed.

Lemma index_arrays_write (tx ty tz : float) (g : rlGraphicsData) :
  index_arrays (rlVertex3f_write tx ty tz g) = index_arrays g.
Proof.
  unfold rlVertex3f_write. cbv zeta.
  pose proof (write_vertex_indices (State g) tx ty tz (vertexCounter (State g))
                (current_buffer (currentBatch g))) as H.
  destruct (write_vertex _ _ _ _ _ _) as [vb evs]. cbn [fst] in H.
  rewrite index_arrays_store_draw. unfold index_arrays.
  cbn [currentBatch upd_State upd_batch set_State set_trace set_currentBatch
       set_vertexBuffer vertexBuffer].
  apply aset_map_same with (d := blank_buffer). exact H.
Qed.

Lemma index_arrays_upd_State (f : rlState -> rlState) (g : rlGraphicsData) :
  index_arrays (upd_State f g) = index_arrays g.
Proof. reflexivity. Qed.

Lemma index_arrays_step (o : op) (g : rlGraphicsData) :
  index_arrays (step o g) = index_arrays g.
Proof.
  destruct o; cbn [step]; try reflexivity.
  - apply index_arrays_rlBegin.
  - unfold rlVertex3f. cbv zeta. rewrite index_arrays_write. apply index_arrays_limit.
  - apply index_arrays_rlSetTexture.
  - apply index_arrays_check.
  - apply index_arrays_flush.
  - unfold rlMatrixMode. repeat (destruct (_ =? _)); reflexivity.
  - unfold rlPushMatrix, store_stack, TRACELOG. cbv zeta.
    destruct (_ >=? _); destruct (_ =? _); destruct (in_bounds _ _); reflexivity.
  - unfold rlPopMatrix. cbv zeta.
    destruct (_ >? _); destruct (_ && _); reflexivity.
Qed.

Lemma index_arrays_run (ops : list op) (g : rlGraphicsData) :
  index_arrays (run ops g) = index_arrays g.
Proof.
  revert g. induction ops as [|o ops IH]; intros g; [reflexivity|].
  simpl. unfold run in IH. rewrite IH. apply index_arrays_step.
Qed.

Lemma load_buffer_at (n C i : Z) (g : rlGraphicsData) :
  0 <= i < n ->
  vertexBuffer (fst (rlLoadRenderBatch n C g)) !! Z.to_nat i = Some (new_vertex_buffer C).
Proof.
  intros Hi. unfold rlLoadRenderBatch.
  pose proof (load_loop_spec n C g) as H. cbv zeta in H.
  destruct (for_loop 0 n 1 (load_buffer_body C) (alloc n blank_buffer, g)) as [vbs g1].
  cbn [fst snd] in *. destruct H as (_ & _ & _ & H). apply H, Hi.
Qed.

Lemma indices_of_lookup (l l' : list rlVertexBuffer) (i : Z) (vb : rlVertexBuffer) :
  0 <= i -> map indices l' = map indices l -> l !! Z.to_nat i = Some vb ->
  indices (aget blank_buffer l' i) = indices vb.
Proof.
  intros Hi Hmap Hl.
  assert (H : map indices l' !! Z.to_nat i = Some (indices vb)).
  { rewrite Hmap. change (map indices l) with (indices <$> l).
    rewrite list_lookup_fmap, Hl. reflexivity. }
  change (map indices l') with (indices <$> l') in H.
  rewrite list_lookup_fmap in H.
  destruct (l' !! Z.to_nat i) as [vb'|] eqn:E; [|discriminate H].
  simpl in H. injection H as H.
  rewrite (aget_lookup blank_buffer l' i vb' Hi E). exact H.
Qed.

(** C6: every buffer that [rlLoadRenderBatch] creates with capacity [C]
    holds, for each quad [k < C], the indices
    [4k, 4k+1, 4k+2, 4k, 4k+2, 4k+3] at positions [6k .. 6k+5], and
    they are still there after any sequence of calls made with that
    batch as the current one, as long as no call stores outside an
    array: no function assigns the index array after its creation, and
    only a store that runs past the end of another array could reach
    it.  ([16 * C <= INT_MAX]: the [int] expressions of the function do
    not overflow.) *)
Theorem quad_indices_invariant (numBuffers C : Z) (g : rlGraphicsData)
    (ops : list op) (i k : Z) :
  0 <= C -> 16 * C <= INT_MAX -> 0 <= i < numBuffers -> 0 <= k < C ->
  let batch := fst (rlLoadRenderBatch numBuffers C g) in
  let g1 := snd (rlLoadRenderBatch numBuffers C g) in
  quad_indices_at (indices (buffer_at batch i)) k /\
  (stores_in_bounds (set_currentBatch batch g1) (run ops (set_currentBatch batch g1)) ->
   quad_indices_at
     (indices (buffer_at (currentBatch (run ops (set_currentBatch batch g1))) i)) k).
Proof.
  intros HC Hmax Hi Hk batch g1.
  assert (Hb : vertexBuffer batch !! Z.to_nat i = Some (new_vertex_buffer C))
    by (apply load_buffer_at, Hi).
  assert (Hq : quad_indices_at (indices (new_vertex_buffer C)) k)
    by (apply new_vertex_buffer_indices; lia).
  split.
  - unfold buffer_at. rewrite (aget_lookup _ _ _ _ (proj1 Hi) Hb). exact Hq.
  - intros _. unfold buffer_at.
    rewrite (indices_of_lookup (vertexBuffer batch) _ i (new_vertex_buffer C));
      [exact Hq | lia | | exact Hb].
    apply (index_arrays_run ops (set_currentBatch batch g1)).
Qed.

Lemma quad_indices_invariant_witness :
  0 <= 3 /\ 16 * 3 <= INT_MAX /\ 0 <= 1 < 2 /\ 0 <= 2 < 3 /\
  stores_in_bounds
    (set_currentBatch (fst (rlLoadRenderBatch 2 3 (context 1)))
       (snd (rlLoadRenderBatch 2 3 (context 1))))
    (run sample_session
       (set_currentBatch (fst (rlLoadRenderBatch 2 3 (context 1)))
          (snd (rlLoadRenderBatch 2 3 (context 1))))) /\
  quad_indices_at
    (indices (buffer_at (fst (rlLoadRenderBatch 2 3 (context 1))) 1)) 2 /\
  quad_indices_at
    (indices (buffer_at
       (currentBatch
          (run sample_session
             (set_currentBatch (fst (rlLoadRenderBatch 2 3 (context 1)))
                (snd (rlLoadRenderBatch 2 3 (context 1)))))) 1)) 2.
Proof.
  assert (H1 : 0 <= 3) by lia.
  assert (H2 : 16 * 3 <= INT_MAX) by (unfold INT_MAX; lia).
  assert (H3 : 0 <= 1 < 2) by lia.
  assert (H4 : 0 <= 2 < 3) by lia.
  assert (H5 : stores_in_bounds
                 (set_currentBatch (fst (rlLoadRenderBatch 2 3 (context 1)))
                    (snd (rlLoadRenderBatch 2 3 (context 1))))
                 (run sample_session
                    (set_currentBatch (fst (rlLoadRenderBatch 2 3 (context 1)))
                       (snd (rlLoadRenderBatch 2 3 (context 1))))))
    by (vm_compute; reflexivity).
  exact (conj H1 (conj H2 (conj H3 (conj H4 (conj H5
    (conj
       (proj1 (quad_indices_invariant 2 3 (context 1) sample_session 1 2 H1 H2 H3 H4))
       (proj2 (quad_indices_invariant 2 3 (context 1) sample_session 1 2 H1 H2 H3 H4)
          H5))))))).
Defined.

Example quad_indices_sample :
  indices (buffer_at (fst (rlLoadRenderBatch 2 3 (context 1))) 1) =
  [0; 1; 2; 0; 2; 3; 4; 5; 6; 4; 6; 7; 8; 9; 10; 8; 10; 11].
Proof. vm_compute. reflexivity. Qed.

(* ------------------------------------------------------------------ *)
(** ** The draw call that a forced draw leaves open *)

Lemma store_draw_in (i : Z) (f : rlDrawCall -> rlDrawCall) (g : rlGraphicsData) :
  0 <= i < Z.of_nat (length (draws (currentBatch g))) ->
  store_draw i f g =
  set_currentBatch
    (set_draws (aset (draws (currentBatch g)) i (f (draw_at (currentBatch g) i)))
       (currentBatch g)) g.
Proof.
  intros H. unfold store_draw. rewrite (proj2 (in_bounds_iff _ _) H). reflexivity.
Qed.

Lemma draw_at_lookup (b : rlRenderBatch) (i : Z) (d : rlDrawCall) :
  0 <= i -> draws b !! Z.to_nat i = Some d -> draw_at b i = d.
Proof. intros. unfold draw_at. apply aget_lookup; assumption. Qed.

Lemma draw_at_in (b : rlRenderBatch) (i : Z) :
  0 <= i < Z.of_nat (length (draws b)) ->
  draws b !! Z.to_nat i = Some (draw_at b i).
Proof.
  intros H. destruct (lookup_lt_is_Some_2 (draws b) (Z.to_nat i)) as [d Hd]; [lia|].
  rewrite (draw_at_lookup b i d) by (lia || assumption). exact Hd.
Qed.

Lemma draw_at_aset_eq (b : rlRenderBatch) (i : Z) (d : rlDrawCall) :
  0 <= i < Z.of_nat (length (draws b)) ->
  draw_at (set_draws (aset (draws b) i d) b) i = d.
Proof.
  intros H. apply draw_at_lookup; [lia|]. cbn [draws set_draws].
  apply aset_lookup_eq. exact H.
Qed.

Lemma store_draw_spec (i : Z) (f : rlDrawCall -> rlDrawCall) (g : rlGraphicsData) :
  0 <= i < Z.of_nat (length (draws (currentBatch g))) ->
  State (store_draw i f g) = State g /\
  trace (store_draw i f g) = trace g /\
  drawCounter (currentBatch (store_draw i f g)) = drawCounter (currentBatch g) /\
  currentBuffer (currentBatch (store_draw i f g)) = currentBuffer (currentBatch g) /\
  bufferCount (currentBatch (store_draw i f g)) = bufferCount (currentBatch g) /\
  vertexBuffer (currentBatch (store_draw i f g)) = vertexBuffer (currentBatch g) /\
  length (draws (currentBatch (store_draw i f g))) = length (draws (currentBatch g)) /\
  draw_at (currentBatch (store_draw i f g)) i = f (draw_at (currentBatch g) i) /\
  forall j, j <> i ->
    draw_at (currentBatch (store_draw i f g)) j = draw_at (currentBatch g) j.
Proof.
  intros H. rewrite store_draw_in by exact H.
  cbn [State trace currentBatch set_currentBatch set_draws drawCounter currentBuffer
       bufferCount vertexBuffer draws].
  repeat split; try reflexivity.
  - apply aset_length.
  - apply draw_at_lookup; [lia|]. cbn [draws]. apply aset_lookup_eq. exact H.
  - intros j Hj. unfold draw_at. cbn [draws]. apply aget_aset_ne. exact Hj.
Qed.

Lemma flush_current_spec (g : rlGraphicsData) :
  Z.of_nat (length (draws (currentBatch g))) = RL_DEFAULT_BATCH_DRAWCALLS ->
  vertexCounter (State (flush_current g)) = 0 /\
  defaultTexture (State (flush_current g)) = defaultTexture (State g) /\
  drawCounter (currentBatch (flush_current g)) = 1 /\
  bufferCount (currentBatch (flush_current g)) = bufferCount (currentBatch g) /\
  vertexBuffer (currentBatch (flush_current g)) = vertexBuffer (currentBatch g) /\
  currentBuffer (currentBatch (flush_current g)) =
    (if currentBuffer (currentBatch g) + 1 >=? bufferCount (currentBatch g)
     then 0 else currentBuffer (currentBatch g) + 1) /\
  length (draws (currentBatch (flush_current g))) = length (draws (currentBatch g)) /\
  forall i, 0 <= i < RL_DEFAULT_BATCH_DRAWCALLS ->
    draw_at (currentBatch (flush_current g)) i =
    reset_draw (defaultTexture (State g)) (draw_at (currentBatch g) i).
Proof.
  intros Hlen.
  destruct (flush_current_shape g) as (vp & tr & ->).
  destruct (reset_batch_spec (defaultTexture (State g)) (currentBatch g))
    as (Hbc & Hvb & Hdc1 & Hdepth & Hbuf & Hlen1 & Hdraws).
  cbn [State currentBatch].
  set (b1 := reset_batch (defaultTexture (State g)) (currentBatch g)) in *.
  clearbody b1.
  repeat split; auto.
  intros i Hi. apply draw_at_lookup; [lia|].
  rewrite (Hdraws (Z.to_nat i) (draw_at (currentBatch g) i)).
  - rewrite Z2Nat.id by lia.
    destruct (Z.ltb_spec i RL_DEFAULT_BATCH_DRAWCALLS); [reflexivity | lia].
  - apply draw_at_in. lia.
Qed.

(** C1 (what the code does instead): when [rlCheckRenderBatchLimit]
    forces a draw while two or more draw calls are in use, the mode and
    the texture it saved are written back to the entry that was current
    before the draw, at index [drawCounter - 1 >= 1]; the entry that is
    current after the draw, entry 0, is the default one: QUADS, no
    vertices, default texture. *)
Theorem forced_draw_restores_stale_entry (vCount : Z) (g : rlGraphicsData) :
  Z.of_nat (length (draws (currentBatch g))) = RL_DEFAULT_BATCH_DRAWCALLS ->
  2 <= drawCounter (currentBatch g) <= RL_DEFAULT_BATCH_DRAWCALLS ->
  vertexCounter (State g) + vCount >= elementCount (current_buffer (currentBatch g)) * 4 ->
  restored_on_stale_entry vCount g.
Proof.
  unfold restored_on_stale_entry.
  intros Hlen Hdc Hov. unfold rlCheckRenderBatchLimit.
  destruct (Z.geb_spec (vertexCounter (State g) + vCount)
              (elementCount (current_buffer (currentBatch g)) * 4)) as [_|?]; [|lia].
  cbv zeta. cbn [snd]. unfold current_draw.
  set (idx := drawCounter (currentBatch g) - 1).
  set (m := mode (draw_at (currentBatch g) idx)).
  set (t := texture (draw_at (currentBatch g) idx)).
  clearbody m t.
  destruct (flush_current_spec g Hlen) as (_ & _ & Hc1 & _ & _ & _ & Hl1 & Hd1).
  set (g1 := flush_current g) in *. clearbody g1.
  unfold RL_DEFAULT_BATCH_DRAWCALLS in *.
  destruct (store_draw_spec idx (set_mode m) g1) as (_ & _ & Hc2 & _ & _ & _ & Hl2 & He2 & Hn2);
    [subst idx; lia|].
  set (g2 := store_draw idx (set_mode m) g1) in *. clearbody g2.
  destruct (store_draw_spec idx (set_texture t) g2) as (_ & _ & Hc3 & _ & _ & _ & Hl3 & He3 & Hn3);
    [subst idx; lia|].
  set (g3 := store_draw idx (set_texture t) g2) in *. clearbody g3.
  rewrite Hc3, Hc2, Hc1. change (1 - 1) with 0.
  rewrite (Hn3 0), (Hn2 0), (Hd1 0) by (subst idx; lia).
  rewrite He3, He2.
  repeat split; reflexivity.
Qed.

Lemma forced_draw_restores_stale_entry_witness :
  Z.of_nat (length (draws (currentBatch two_entries_full))) = RL_DEFAULT_BATCH_DRAWCALLS /\
  2 <= drawCounter (currentBatch two_entries_full) <= RL_DEFAULT_BATCH_DRAWCALLS /\
  vertexCounter (State two_entries_full) + 5
    >= elementCount (current_buffer (currentBatch two_entries_full)) * 4 /\
  restored_on_stale_entry 5 two_entries_full.
Proof.
  assert (H1 : Z.of_nat (length (draws (currentBatch two_entries_full)))
               = RL_DEFAULT_BATCH_DRAWCALLS) by (vm_compute; reflexivity).
  assert (H2 : 2 <= drawCounter (currentBatch two_entries_full)
               <= RL_DEFAULT_BATCH_DRAWCALLS)
    by (split; vm_compute; discriminate).
  assert (H3 : vertexCounter (State two_entries_full) + 5
               >= elementCount (current_buffer (currentBatch two_entries_full)) * 4)
    by (vm_compute; discriminate).
  exact (conj H1 (conj H2 (conj H3
           (forced_draw_restores_stale_entry 5 two_entries_full H1 H2 H3)))).
Defined.

(** The forced draw inside [rlVertex3f]: the ninth vertex of
    [two_entries_full] arrives with the buffer full and a whole quad in
    the open draw call, which is bound to texture [5].  After the draw
    the open draw call is bound to the default texture [9]; texture [5]
    is on entry 1, which is not in use. *)
Example forced_draw_in_rlVertex3f :
  let g := two_entries_full in
  let g' := rlVertex3f_limit g in
  vertexCounter (State g) = 8 /\
  elementCount (current_buffer (currentBatch g)) * 4 = 8 /\
  drawCounter (currentBatch g) = 2 /\
  current_draw (currentBatch g) =
    {| mode := RL_QUADS; vertexCount := 4; vertexAlignment := 0; texture := 5 |} /\
  g' = snd (rlCheckRenderBatchLimit (4 + 1) g) /\
  vertexCounter (State g') = 0 /\
  drawCounter (currentBatch g') = 1 /\
  current_draw (currentBatch g') =
    {| mode := RL_QUADS; vertexCount := 0; vertexAlignment := 0; texture := 9 |} /\
  draw_at (currentBatch g') 1 =
    {| mode := RL_QUADS; vertexCount := 0; vertexAlignment := 0; texture := 5 |}.
Proof. vm_compute. repeat split; reflexivity. Qed.

(* ------------------------------------------------------------------ *)
(** ** rlBegin and its indeterminate local *)

(** Only the sign of the indeterminate value matters when it is not
    positive. *)
Lemma rlBegin_read_nonpos (i m : Z) (g : rlGraphicsData) :
  i <= 0 -> rlBegin i m g = rlBegin 0 m g.
Proof.
  intros Hi. unfold rlBegin.
  destruct (Z.gtb_spec i 0); [lia|]. reflexivity.
Qed.

(** On a QUADS draw call the alignment is 0 whatever positive value is
    read. *)
Lemma rlBegin_read_pos_quads (i m : Z) (g : rlGraphicsData) :
  0 < i -> mode (current_draw (currentBatch g)) = RL_QUADS ->
  rlBegin i m g = rlBegin 1 m g.
Proof.
  intros Hi Hq. unfold rlBegin, close_draw. unfold current_draw in Hq.
  destruct (Z.gtb_spec i 0); [|lia].
  change (1 >? 0) with true. cbv iota. rewrite Hq.
  reflexivity.
Qed.

(** C3 (what the code does instead): [rlBegin(RL_LINES)] called on
    [two_entries_full], whose open draw call is a QUADS one, does not
    leave a LINES entry without vertices bound to the default texture
    open, whatever value its uninitialised local holds.  (For a
    positive value the batch is drawn and the new mode lands on entry
    1 while entry 0 is current; otherwise the open entry changes mode
    and keeps its four vertices.) *)
Theorem begin_leaves_wrong_entry (vertex_count_init : Z) :
  mode (current_draw (currentBatch two_entries_full)) <> RL_LINES /\
  ~ opens_fresh_entry RL_LINES (rlBegin vertex_count_init RL_LINES two_entries_full).
Proof.
  split; [vm_compute; discriminate|].
  destruct (Z_le_gt_dec vertex_count_init 0) as [H|H].
  - rewrite rlBegin_read_nonpos by exact H.
    intros (_ & Hc & _). vm_compute in Hc. discriminate Hc.
  - rewrite rlBegin_read_pos_quads by (lia || (vm_compute; reflexivity)).
    intros (Hm & _). vm_compute in Hm. discriminate Hm.
Qed.

Example begin_on_two_entries_full :
  current_draw (currentBatch (rlBegin 0 RL_LINES two_entries_full)) =
    {| mode := RL_LINES; vertexCount := 4; vertexAlignment := 0; texture := 9 |} /\
  drawCounter (currentBatch (rlBegin 1 RL_LINES two_entries_full)) = 1 /\
  current_draw (currentBatch (rlBegin 1 RL_LINES two_entries_full)) =
    {| mode := RL_QUADS; vertexCount := 0; vertexAlignment := 0; texture := 9 |} /\
  draw_at (currentBatch (rlBegin 1 RL_LINES two_entries_full)) 1 =
    {| mode := RL_LINES; vertexCount := 0; vertexAlignment := 0; texture := 9 |}.
Proof. vm_compute. repeat split; reflexivity. Qed.

(** *** The recorded alignment survives everything but its own store *)

Lemma alignment_store_draw (j : Z) (f : rlDrawCall -> rlDrawCall) (g : rlGraphicsData) :
  (forall d, vertexAlignment (f d) = vertexAlignment d) ->
  forall i, alignment_at (store_draw j f g) i = alignment_at g i.
Proof.
  intros Hf i. unfold alignment_at, store_draw.
  destruct (in_bounds (draws (currentBatch g)) j) eqn:E; [|reflexivity].
  apply in_bounds_iff in E. cbn [currentBatch set_currentBatch].
  destruct (Z.eq_dec i j) as [->|Hne].
  - rewrite draw_at_aset_eq by exact E. apply Hf.
  - unfold draw_at. cbn [draws set_draws]. rewrite aget_aset_ne by exact Hne. reflexivity.
Qed.

Lemma draw_at_out (b : rlRenderBatch) (i : Z) :
  ~ 0 <= i < Z.of_nat (length (draws b)) -> draw_at b i = blank_draw.
Proof.
  intros H. unfold draw_at, aget.
  destruct (in_bounds (draws b) i) eqn:E; [|reflexivity].
  apply in_bounds_iff in E. contradiction.
Qed.

Lemma alignment_flush (g : rlGraphicsData) (i : Z) :
  alignment_at (flush_current g) i = alignment_at g i.
Proof.
  destruct (flush_current_shape g) as (vp & tr & ->). unfold alignment_at.
  cbn [currentBatch].
  destruct (reset_batch_spec (defaultTexture (State g)) (currentBatch g))
    as (_ & _ & _ & _ & _ & Hlen & Hdraws).
  set (b1 := reset_batch (defaultTexture (State g)) (currentBatch g)) in *.
  clearbody b1.
  destruct (Z_le_gt_dec 0 i) as [H0|H0].
  - destruct (Z_lt_ge_dec i (Z.of_nat (length (draws (currentBatch g))))) as [H1|H1].
    + rewrite (draw_at_lookup b1 i _ H0
                 (Hdraws _ _ (draw_at_in (currentBatch g) i (conj H0 H1)))).
      destruct (_ <? _); reflexivity.
    + rewrite !draw_at_out by lia. reflexivity.
  - rewrite !draw_at_out by lia. reflexivity.
Qed.

Lemma alignment_check (n : Z) (g : rlGraphicsData) (i : Z) :
  alignment_at (snd (rlCheckRenderBatchLimit n g)) i = alignment_at g i.
Proof.
  unfold rlCheckRenderBatchLimit. destruct (_ >=? _); [|reflexivity].
  cbv zeta. cbn [snd].
  rewrite !alignment_store_draw by reflexivity. apply alignment_flush.
Qed.

(** The shared block records [alignment_for mode vertex_count] on the
    entry it closes. *)
Lemma alignment_close (vertex_count : Z) (g : rlGraphicsData) :
  1 <= drawCounter (currentBatch g) <= Z.of_nat (length (draws (currentBatch g))) ->
  alignment_at (snd (close_draw (drawCounter (currentBatch g) - 1) vertex_count g))
    (drawCounter (currentBatch g) - 1)
  = alignment_for (mode (current_draw (currentBatch g))) vertex_count.
Proof.
  intros Hdc. unfold close_draw. cbv zeta. fold (current_draw (currentBatch g)).
  set (idx := drawCounter (currentBatch g) - 1).
  set (a := alignment_for (mode (current_draw (currentBatch g))) vertex_count).
  destruct (store_draw_spec idx (set_vertexAlignment a) g) as (_ & _ & _ & _ & _ & _ & _ & He & _);
    [subst idx; lia|].
  assert (Ha : alignment_at (store_draw idx (set_vertexAlignment a) g) idx = a)
    by (unfold alignment_at; rewrite He; reflexivity).
  clear He. clearbody a.
  set (g1 := store_draw idx (set_vertexAlignment a) g) in *. clearbody g1.
  pose proof (alignment_check (vertexAlignment (draw_at (currentBatch g1) idx)) g1 idx) as Hc.
  destruct (rlCheckRenderBatchLimit (vertexAlignment (draw_at (currentBatch g1) idx)) g1)
    as [overflow g2].
  cbn [snd] in Hc. destruct overflow; cbn [negb snd]; rewrite <- Ha, <- Hc; reflexivity.
Qed.

(** C4 (what the code does instead, mode switch): when [rlBegin] is
    called with a mode different from the open draw call's, the
    alignment on that draw call afterwards is computed from the value of
    the uninitialised local [vertex_count] when that value is positive,
    and is left as it was otherwise; the number of vertices of the draw
    call plays no part. *)
Theorem begin_alignment_from_indeterminate (vertex_count_init mode_ : Z)
    (g : rlGraphicsData) :
  1 <= drawCounter (currentBatch g) <= Z.of_nat (length (draws (currentBatch g))) ->
  mode (current_draw (currentBatch g)) <> mode_ ->
  alignment_at (rlBegin vertex_count_init mode_ g) (drawCounter (currentBatch g) - 1) =
    if vertex_count_init >? 0
    then alignment_for (mode (current_draw (currentBatch g))) vertex_count_init
    else alignment_at g (drawCounter (currentBatch g) - 1).
Proof.
  intros Hdc Hmode. unfold rlBegin. fold (current_draw (currentBatch g)).
  destruct (Z.eqb_spec (mode (current_draw (currentBatch g))) mode_) as [?|_];
    [contradiction|].
  cbn [negb]. cbv zeta.
  set (idx := drawCounter (currentBatch g) - 1).
  set (r := if vertex_count_init >? 0 then _ else _).
  assert (Hr : alignment_at (snd r) idx =
               if vertex_count_init >? 0
               then alignment_for (mode (current_draw (currentBatch g))) vertex_count_init
               else alignment_at g idx).
  { subst r idx. destruct (vertex_count_init >? 0); [|reflexivity].
    apply alignment_close. exact Hdc. }
  clearbody r. destruct r as [d g1]. cbn [snd] in Hr.
  rewrite !alignment_store_draw by reflexivity.
  destruct (_ >=? _); [rewrite alignment_flush|]; exact Hr.
Qed.

Lemma begin_alignment_from_indeterminate_witness :
  1 <= drawCounter (currentBatch five_triangle_vertices)
    <= Z.of_nat (length (draws (currentBatch five_triangle_vertices))) /\
  mode (current_draw (currentBatch five_triangle_vertices)) <> RL_QUADS /\
  alignment_at (rlBegin 2 RL_QUADS five_triangle_vertices)
    (drawCounter (currentBatch five_triangle_vertices) - 1) =
    if 2 >? 0
    then alignment_for (mode (current_draw (currentBatch five_triangle_vertices))) 2
    else alignment_at five_triangle_vertices
           (drawCounter (currentBatch five_triangle_vertices) - 1).
Proof.
  assert (H1 : 1 <= drawCounter (currentBatch five_triangle_vertices)
               <= Z.of_nat (length (draws (currentBatch five_triangle_vertices))))
    by (split; vm_compute; discriminate).
  assert (H2 : mode (current_draw (currentBatch five_triangle_vertices)) <> RL_QUADS)
    by (vm_compute; discriminate).
  exact (conj H1 (conj H2
    (begin_alignment_from_indeterminate 2 RL_QUADS five_triangle_vertices H1 H2))).
Defined.

(** The sibling path: [rlSetTexture] reads the vertex count of the draw
    call and records the alignment the specification gives. *)
Lemma setTexture_alignment (t : rlTexture) (g : rlGraphicsData) :
  1 <= drawCounter (currentBatch g) <= Z.of_nat (length (draws (currentBatch g))) ->
  texture (current_draw (currentBatch g)) <> t ->
  0 < vertexCount (current_draw (currentBatch g)) ->
  alignment_at (rlSetTexture (Some t) g) (drawCounter (currentBatch g) - 1) =
    alignment_for (mode (current_draw (currentBatch g)))
      (vertexCount (current_draw (currentBatch g))).
Proof.
  intros Hdc Htex Hcount. unfold rlSetTexture. fold (current_draw (currentBatch g)).
  destruct (Z.eqb_spec (texture (current_draw (currentBatch g))) t) as [?|_];
    [contradiction|].
  cbn [negb]. cbv zeta.
  destruct (Z.gtb_spec (vertexCount (current_draw (currentBatch g))) 0); [|lia].
  pose proof (alignment_close (vertexCount (current_draw (currentBatch g))) g Hdc) as Hr.
  destruct (close_draw _ _ g) as [d g1]. cbn [snd] in Hr.
  rewrite !alignment_store_draw by reflexivity.
  destruct (_ >=? _); [rewrite alignment_flush|]; exact Hr.
Qed.

(** Closing the five-vertex TRIANGLES draw call and drawing one quad
    after it.  Through [rlSetTexture] the alignment is 3 and the quad is
    drawn from vertex 8, where it was written.  Through [rlBegin] with
    the local reading 2 the alignment is 1: the quad is written at
    vertices 6 to 9 and drawn from vertex 4.  With the local reading 0
    the draw call is not closed: it becomes a QUADS call of nine
    vertices. *)
Example closing_five_triangle_vertices :
  let quad := [a_vertex; a_vertex; a_vertex; a_vertex; OpDrawRenderBatchActive] in
  let g := five_triangle_vertices in
  alignment_at (rlSetTexture (Some 5) g) 0 = 3 /\
  vertexCounter (State (rlSetTexture (Some 5) g)) = 8 /\
  issued_draws (trace (run quad (rlSetTexture (Some 5) g)))
    = [(RL_TRIANGLES, 0, 5); (RL_QUADS, 8, 4)] /\
  alignment_at (rlBegin 2 RL_QUADS g) 0 = 1 /\
  vertexCounter (State (rlBegin 2 RL_QUADS g)) = 6 /\
  issued_draws (trace (run quad (rlBegin 2 RL_QUADS g)))
    = [(RL_TRIANGLES, 0, 5); (RL_QUADS, 4, 4)] /\
  current_draw (currentBatch (rlBegin 0 RL_QUADS g)) =
    {| mode := RL_QUADS; vertexCount := 5; vertexAlignment := 0; texture := 9 |} /\
  issued_draws (trace (run quad (rlBegin 0 RL_QUADS g))) = [(RL_QUADS, 0, 8)].
Proof. vm_compute. repeat split; reflexivity. Qed.

(* ------------------------------------------------------------------ *)
(** ** The vertex counter at the moment of a write *)

(** C2 (what the code does instead): after four QUADS vertices in a
    buffer of one quad, [rlBegin(RL_TRIANGLES)] whose uninitialised
    local holds a value that is not positive, and one more vertex, the
    next [rlVertex3f] reaches its stores with the vertex counter at 5,
    above the [4 * elementCount = 4] vertices of the buffer, and no draw
    has taken place since the batch was loaded: the test of
    [rlVertex3f] does not fire because the draw call is a TRIANGLES one
    that still counts the four QUADS vertices.  The nine stores of the
    vertex before (at position 4) and the nine stores of this one fall
    outside the arrays. *)
Theorem write_past_capacity (vertex_count_init : Z) :
  vertex_count_init <= 0 ->
  let g := triangle_after_quad vertex_count_init in
  let at_write := rlVertex3f_limit g in
  at_write = g /\
  elementCount (current_buffer (currentBatch at_write)) * 4 = 4 /\
  vertexCounter (State at_write) = 5 /\
  current_draw (currentBatch at_write) =
    {| mode := RL_TRIANGLES; vertexCount := 5; vertexAlignment := 0; texture := 9 |} /\
  issued_draws (trace at_write) = [] /\
  out_of_bounds_stores (trace at_write) = [12; 13; 14; 8; 9; 16; 17; 18; 19] /\
  out_of_bounds_stores (trace (rlVertex3f_write F32.one F32.two F32.zero at_write)) =
    [12; 13; 14; 8; 9; 16; 17; 18; 19; 15; 16; 17; 10; 11; 20; 21; 22; 23].
Proof.
  intros Hi. unfold triangle_after_quad.
  rewrite rlBegin_read_nonpos by exact Hi.
  vm_compute. repeat split; reflexivity.
Qed.

Lemma write_past_capacity_witness :
  0 <= 0 /\
  vertexCounter (State (rlVertex3f_limit (triangle_after_quad 0))) = 5 /\
  elementCount (current_buffer
    (currentBatch (rlVertex3f_limit (triangle_after_quad 0)))) * 4 = 4.
Proof.
  assert (H : 0 <= 0) by lia.
  destruct (write_past_capacity 0 H) as (_ & Hc & Hv & _).
  exact (conj H (conj Hv Hc)).
Defined.

(** With a positive value in the local the same calls draw the batch
    first and stay inside the buffer. *)
Example write_after_positive_read :
  let g := triangle_after_quad 1 in
  issued_draws (trace g) = [(RL_QUADS, 0, 4)] /\
  vertexCounter (State (rlVertex3f_limit g)) = 1 /\
  out_of_bounds_stores (trace (rlVertex3f_write F32.one F32.two F32.zero
                                 (rlVertex3f_limit g))) = [].
Proof. vm_compute. repeat split; reflexivity. Qed.

(* ------------------------------------------------------------------ *)
(** ** The invariant that keeps the writes inside the buffer *)

Lemma store_draw_frame (i : Z) (f : rlDrawCall -> rlDrawCall) (g : rlGraphicsData) :
  State (store_draw i f g) = State g /\
  drawCounter (currentBatch (store_draw i f g)) = drawCounter (currentBatch g) /\
  currentBuffer (currentBatch (store_draw i f g)) = currentBuffer (currentBatch g) /\
  bufferCount (currentBatch (store_draw i f g)) = bufferCount (currentBatch g) /\
  vertexBuffer (currentBatch (store_draw i f g)) = vertexBuffer (currentBatch g) /\
  length (draws (currentBatch (store_draw i f g))) = length (draws (currentBatch g)) /\
  forall j,
    draw_at (currentBatch (store_draw i f g)) j = draw_at (currentBatch g) j \/
    (j = i /\ 0 <= i < Z.of_nat (length (draws (currentBatch g))) /\
     draw_at (currentBatch (store_draw i f g)) j = f (draw_at (currentBatch g) j)).
Proof.
  destruct (in_bounds (draws (currentBatch g)) i) eqn:E.
  - apply in_bounds_iff in E.
    destruct (store_draw_spec i f g E) as (H1 & _ & H2 & H3 & H4 & H5 & H6 & H7 & H8).
    repeat split; auto.
    intros j. destruct (Z.eq_dec j i) as [->|Hne]; [right | left]; auto.
  - unfold store_draw. rewrite E. cbn.
    repeat split; auto.
Qed.

Lemma buffer_at_store_draw (i : Z) (f : rlDrawCall -> rlDrawCall) (g : rlGraphicsData) (k : Z) :
  buffer_at (currentBatch (store_draw i f g)) k = buffer_at (currentBatch g) k.
Proof.
  unfold buffer_at.
  destruct (store_draw_frame i f g) as (_ & _ & _ & _ & -> & _). reflexivity.
Qed.

Lemma layout_store (C i : Z) (f : rlDrawCall -> rlDrawCall) (g : rlGraphicsData) :
  (forall d, valid_mode (mode d) -> valid_mode (mode (f d))) ->
  layout C g -> layout C (store_draw i f g).
Proof.
  intros Hf (Hlen & Hcur & Hcap & Hmodes). unfold layout. cbv zeta.
  destruct (store_draw_frame i f g) as (_ & _ & Hcb & Hbc & Hvb & Hl & Hd).
  rewrite Hcb, Hbc, Hl.
  split; [exact Hlen|]. split; [exact Hcur|]. split.
  - intros k Hk. rewrite buffer_at_store_draw. apply Hcap, Hk.
  - intros j Hj. destruct (Hd j) as [->|(_ & _ & ->)]; [|apply Hf]; apply Hmodes, Hj.
Qed.

Lemma layout_flush (C : Z) (g : rlGraphicsData) :
  layout C g -> fresh C (flush_current g).
Proof.
  intros (Hlen & Hcur & Hcap & Hmodes).
  destruct (flush_current_spec g Hlen) as (Hvc & _ & Hdc & Hbc & Hvb & Hcb & Hl & Hd).
  unfold fresh, layout. cbv zeta. rewrite Hvc, Hdc, Hbc, Hl.
  assert (Hzero : forall j, vertexCount (draw_at (currentBatch (flush_current g)) j) = 0).
  { intros j.
    destruct (Z_le_gt_dec 0 j) as [H0|H0];
      [destruct (Z_lt_ge_dec j RL_DEFAULT_BATCH_DRAWCALLS) as [H1|H1]|].
    - rewrite Hd by lia. reflexivity.
    - rewrite draw_at_out by lia. reflexivity.
    - rewrite draw_at_out by lia. reflexivity. }
  repeat split; auto.
  - rewrite Hcb. destruct (_ >=? _); lia.
  - rewrite Hcb. destruct (Z.geb_spec (currentBuffer (currentBatch g) + 1)
                             (bufferCount (currentBatch g))); lia.
  - intros i Hi. unfold buffer_at. rewrite Hvb. apply Hcap, Hi.
  - intros j Hj. rewrite Hd by exact Hj. right. right. reflexivity.
Qed.

Lemma fresh_store (C i : Z) (f : rlDrawCall -> rlDrawCall) (g : rlGraphicsData) :
  (forall d, valid_mode (mode d) -> valid_mode (mode (f d))) ->
  (forall d, vertexCount d = 0 -> vertexCount (f d) = 0) ->
  fresh C g -> fresh C (store_draw i f g).
Proof.
  intros Hm Hz (Hlay & Hvc & Hdc & Hzero).
  destruct (store_draw_frame i f g) as (Hs & Hdc' & _ & _ & _ & _ & Hd).
  unfold fresh. rewrite Hs, Hdc'.
  split; [apply layout_store; assumption|].
  split; [exact Hvc|]. split; [exact Hdc|].
  intros j. destruct (Hd j) as [->|(_ & _ & ->)]; [|apply Hz]; apply Hzero.
Qed.

Lemma fresh_inv (C : Z) (g : rlGraphicsData) :
  0 <= C -> fresh C g -> batch_inv C g.
Proof.
  intros HC (Hlay & Hvc & Hdc & Hzero). unfold batch_inv. cbv zeta.
  unfold current_draw. rewrite Hvc, Hdc, !Hzero.
  unfold RL_DEFAULT_BATCH_DRAWCALLS.
  split; [exact Hlay|]. split; [lia|]. split; [auto|]. split; [lia|]. split; [lia|].
  intros Hr. rewrite Z.rem_0_l in Hr; [lia|].
  unfold group_size. destruct (_ =? _); [lia|]. destruct (_ =? _); lia.
Qed.

Lemma layout_same_view (C : Z) (g g' : rlGraphicsData) :
  draws (currentBatch g') = draws (currentBatch g) ->
  vertexBuffer (currentBatch g') = vertexBuffer (currentBatch g) ->
  currentBuffer (currentBatch g') = currentBuffer (currentBatch g) ->
  bufferCount (currentBatch g') = bufferCount (currentBatch g) ->
  layout C g -> layout C g'.
Proof.
  intros Hd Hv Hc Hb. unfold layout, draw_at, buffer_at. cbv zeta.
  rewrite Hd, Hv, Hc, Hb. tauto.
Qed.

Lemma batch_inv_same_view (C : Z) (g g' : rlGraphicsData) :
  same_view g g' -> batch_inv C g -> batch_inv C g'.
Proof.
  intros (Hd & Hdc & Hv & Hc & Hb & Hvc).
  unfold batch_inv, layout, current_draw, draw_at, buffer_at. cbv zeta.
  rewrite Hd, Hdc, Hv, Hc, Hb, Hvc. tauto.
Qed.

Lemma group_size_range (m : Z) : 2 <= group_size m <= 4.
Proof. unfold group_size. destruct (_ =? _); [lia|]. destruct (_ =? _); lia. Qed.

Lemma alignment_for_nonneg (m c : Z) : 0 < c -> 0 <= alignment_for m c.
Proof.
  intros Hc. unfold alignment_for.
  destruct (m =? RL_LINES); [destruct (c <? 4); [lia|]|].
  - pose proof (Z.rem_bound_pos c 4). lia.
  - destruct (m =? RL_TRIANGLES); [|lia].
    destruct (c <? 4); [lia|]. pose proof (Z.rem_bound_pos c 4). lia.
Qed.

(** A store through [drawcall] that keeps the mode and the count of the
    entry, or that hits an entry without vertices and leaves it so,
    keeps the invariant. *)
Lemma inv_store (C i : Z) (f : rlDrawCall -> rlDrawCall) (g : rlGraphicsData) :
  (forall d, valid_mode (mode d) -> valid_mode (mode (f d))) ->
  (mode (f (draw_at (currentBatch g) i)) = mode (draw_at (currentBatch g) i) /\
   vertexCount (f (draw_at (currentBatch g) i)) = vertexCount (draw_at (currentBatch g) i))
  \/ (vertexCount (draw_at (currentBatch g) i) = 0 /\
      vertexCount (f (draw_at (currentBatch g) i)) = 0) ->
  batch_inv C g -> batch_inv C (store_draw i f g).
Proof.
  intros Hm Hf (Hlay & Hdc & Hrest & Hvc & Hc & Hgrp).
  destruct (store_draw_frame i f g) as (Hs & Hdc' & _ & _ & _ & _ & Hd).
  unfold batch_inv. cbv zeta. unfold current_draw in *. rewrite Hs, Hdc'.
  split; [apply layout_store; assumption|]. split; [exact Hdc|].
  split.
  { intros j Hj. destruct (Hd j) as [->|(-> & _ & ->)]; [apply Hrest, Hj|].
    destruct Hf as [(_ & ->)|(_ & ->)]; [apply Hrest, Hj | reflexivity]. }
  split; [exact Hvc|].
  destruct (Hd (drawCounter (currentBatch g) - 1)) as [->|(Hi & _ & ->)];
    [split; assumption|].
  rewrite Hi in *.
  destruct Hf as [(-> & ->)|(_ & ->)]; [split; assumption|].
  split; [lia|]. intros Hr. rewrite Z.rem_0_l in Hr; [lia|].
  pose proof (group_size_range (mode (f (draw_at (currentBatch g) i)))). lia.
Qed.

Lemma current_buffer_capacity (C : Z) (g : rlGraphicsData) :
  layout C g -> elementCount (current_buffer (currentBatch g)) = C.
Proof. intros (_ & Hcur & Hcap & _). apply Hcap, Hcur. Qed.

(** [rlCheckRenderBatchLimit]: either the batch is drawn and nothing is
    pending, or nothing happens and [vCount] more vertices fit. *)
Lemma check_spec (C n : Z) (g : rlGraphicsData) :
  layout C g ->
  1 <= drawCounter (currentBatch g) <= RL_DEFAULT_BATCH_DRAWCALLS ->
  (fst (rlCheckRenderBatchLimit n g) = true /\
   fresh C (snd (rlCheckRenderBatchLimit n g)) /\
   vertexCounter (State g) + n >= 4 * C) \/
  (rlCheckRenderBatchLimit n g = (false, g) /\ vertexCounter (State g) + n < 4 * C).
Proof.
  intros Hlay Hdc. unfold rlCheckRenderBatchLimit.
  rewrite (current_buffer_capacity C g Hlay).
  destruct (Z.geb_spec (vertexCounter (State g) + n) (C * 4)) as [Hge|Hlt].
  - left. cbv zeta. cbn [fst snd]. split; [reflexivity|]. split; [|lia].
    assert (Hv : valid_mode (mode (draw_at (currentBatch g)
                                     (drawCounter (currentBatch g) - 1)))).
    { destruct Hlay as (_ & _ & _ & Hm). apply Hm. lia. }
    apply fresh_store; [auto | auto |].
    apply fresh_store; [intros; exact Hv | auto |].
    apply layout_flush, Hlay.
  - right. split; [reflexivity | lia].
Qed.

(** The block shared by [rlBegin] and [rlSetTexture], followed by the
    test on the length of the table: the draw call the stores after the
    block go to has no vertices. *)
Lemma close_block (C cnt : Z) (g : rlGraphicsData) :
  batch_inv C g -> 0 < cnt ->
  let r := close_draw (drawCounter (currentBatch g) - 1) cnt g in
  let g2 := if drawCounter (currentBatch (snd r)) >=? RL_DEFAULT_BATCH_DRAWCALLS
            then flush_current (snd r) else snd r in
  batch_inv C g2 /\
  0 <= fst r < RL_DEFAULT_BATCH_DRAWCALLS /\
  vertexCount (draw_at (currentBatch g2) (fst r)) = 0.
Proof.
  intros Hinv Hcnt.
  assert (HC : 0 <= C) by (destruct Hinv as (_ & _ & _ & ? & _); lia).
  assert (Hdc : 1 <= drawCounter (currentBatch g) < RL_DEFAULT_BATCH_DRAWCALLS)
    by (destruct Hinv as (_ & ? & _); assumption).
  assert (Hlen : Z.of_nat (length (draws (currentBatch g))) = RL_DEFAULT_BATCH_DRAWCALLS)
    by (destruct Hinv as ((? & _) & _); assumption).
  unfold close_draw. cbv zeta.
  set (idx := drawCounter (currentBatch g) - 1).
  set (a := alignment_for (mode (draw_at (currentBatch g) idx)) cnt).
  assert (Ha : 0 <= a) by (apply alignment_for_nonneg, Hcnt). clearbody a.
  assert (Hinv1 : batch_inv C (store_draw idx (set_vertexAlignment a) g))
    by (apply inv_store; [auto | left; split; reflexivity | exact Hinv]).
  destruct (store_draw_spec idx (set_vertexAlignment a) g)
    as (Hs & _ & Hdc1 & _ & _ & _ & _ & He & _); [subst idx; lia|].
  assert (Hal : vertexAlignment (draw_at (currentBatch (store_draw idx (set_vertexAlignment a) g)) idx) = a)
    by (rewrite He; reflexivity).
  clear He.
  set (g1 := store_draw idx (set_vertexAlignment a) g) in *. clearbody g1.
  rewrite Hal.
  assert (Hlay1 : layout C g1) by (destruct Hinv1 as (? & _); assumption).
  destruct (check_spec C a g1 Hlay1 ltac:(lia)) as [(Ho & Hfresh & _)|(Heq & Hfit)].
  - destruct (rlCheckRenderBatchLimit a g1) as [o g2]. cbn [fst snd] in *. subst o.
    cbn [negb fst snd].
    destruct Hfresh as (Hlay2 & Hvc2 & Hdc2 & Hz2).
    rewrite Hdc2. change (1 >=? RL_DEFAULT_BATCH_DRAWCALLS) with false. cbv iota.
    split; [apply fresh_inv;
            [exact HC | exact (conj Hlay2 (conj Hvc2 (conj Hdc2 Hz2)))]|].
    split; [subst idx; lia | apply Hz2].
  - rewrite Heq. cbn [negb fst snd].
    set (g2 := upd_batch _ (upd_State _ g1)).
    assert (Hd2 : draws (currentBatch g2) = draws (currentBatch g1)) by reflexivity.
    assert (Hdc2 : drawCounter (currentBatch g2) = drawCounter (currentBatch g1) + 1)
      by reflexivity.
    assert (Hvb2 : vertexBuffer (currentBatch g2) = vertexBuffer (currentBatch g1))
      by reflexivity.
    assert (Hcb2 : currentBuffer (currentBatch g2) = currentBuffer (currentBatch g1))
      by reflexivity.
    assert (Hbc2 : bufferCount (currentBatch g2) = bufferCount (currentBatch g1))
      by reflexivity.
    assert (Hvc2 : vertexCounter (State g2) = vertexCounter (State g1) + a)
      by (subst g2; cbn; rewrite Hal; reflexivity).
    clearbody g2.
    assert (Hlay2 : layout C g2) by (apply (layout_same_view C g1); assumption).
    destruct Hinv1 as (_ & _ & Hrest1 & Hvc1 & _).
    assert (Hz : vertexCount (draw_at (currentBatch g2) (drawCounter (currentBatch g2) - 1)) = 0).
    { unfold draw_at. rewrite Hd2, Hdc2. apply Hrest1. lia. }
    rewrite Hdc1 in Hdc2. rewrite Hdc2 in Hz |- *.
    destruct (Z.geb_spec (drawCounter (currentBatch g) + 1) RL_DEFAULT_BATCH_DRAWCALLS)
      as [Hfull|Hroom].
    + pose proof (layout_flush C g2 Hlay2) as Hf.
      split; [apply fresh_inv; assumption|].
      split; [lia|]. destruct Hf as (_ & _ & _ & Hz2). apply Hz2.
    + split; [|split; [lia | exact Hz]].
      unfold batch_inv. cbv zeta. unfold current_draw.
      rewrite Hdc2, Hvc2, Hz.
      split; [exact Hlay2|]. split; [lia|].
      split; [intros j Hj; unfold draw_at; rewrite Hd2; apply Hrest1; lia|].
      split; [lia|]. split; [lia|].
      intros Hr. rewrite Z.rem_0_l in Hr; [lia|].
      match goal with |- group_size ?m <> 0 => pose proof (group_size_range m) end. lia.
Qed.

Lemma inv_rlBegin (C i m : Z) (g : rlGraphicsData) :
  0 < i -> valid_mode m -> batch_inv C g -> batch_inv C (rlBegin i m g).
Proof.
  intros Hi Hm Hinv. unfold rlBegin.
  destruct (negb _); [|exact Hinv]. cbv zeta.
  destruct (Z.gtb_spec i 0) as [_|?]; [|lia].
  pose proof (close_block C i g Hinv Hi) as H. cbv zeta in H.
  destruct (close_draw (drawCounter (currentBatch g) - 1) i g) as [d g1].
  cbn [fst snd] in H. destruct H as (Hinv2 & Hd & Hz).
  set (g2 := if _ >=? _ then _ else g1) in *. clearbody g2.
  apply inv_store; [auto | left; split; reflexivity |].
  apply inv_store; [intros; exact Hm | right; split; [exact Hz | exact Hz] | exact Hinv2].
Qed.

Lemma inv_flush (C : Z) (g : rlGraphicsData) :
  batch_inv C g -> batch_inv C (flush_current g).
Proof.
  intros Hinv.
  assert (HC : 0 <= C) by (destruct Hinv as (_ & _ & _ & ? & _); lia).
  apply fresh_inv; [exact HC|]. apply layout_flush. destruct Hinv as (? & _). assumption.
Qed.

Lemma inv_rlSetTexture (C : Z) (t : option rlTexture) (g : rlGraphicsData) :
  batch_inv C g -> batch_inv C (rlSetTexture t g).
Proof.
  intros Hinv. unfold rlSetTexture. destruct t as [t|].
  - destruct (negb _); [|exact Hinv]. cbv zeta.
    fold (current_draw (currentBatch g)).
    assert (Hstores : forall d g2,
              batch_inv C g2 -> vertexCount (draw_at (currentBatch g2) d) = 0 ->
              batch_inv C (store_draw d (set_vertexCount 0) (store_draw d (set_texture t) g2))).
    { intros d g2 Hinv2 Hz.
      apply inv_store; [auto | | apply inv_store;
                                 [auto | left; split; reflexivity | exact Hinv2]].
      right. split; [|reflexivity].
      destruct (store_draw_frame d (set_texture t) g2) as (_ & _ & _ & _ & _ & _ & Hd).
      destruct (Hd d) as [->|(_ & _ & ->)]; exact Hz. }
    destruct (Z.gtb_spec (vertexCount (current_draw (currentBatch g))) 0) as [Hpos|Hzero].
    + pose proof (close_block C _ g Hinv Hpos) as H. cbv zeta in H.
      destruct (close_draw (drawCounter (currentBatch g) - 1)
                  (vertexCount (current_draw (currentBatch g))) g) as [d g1].
      cbn [fst snd] in H. destruct H as (Hinv2 & Hd & Hz).
      set (g2 := if _ >=? _ then _ else g1) in *. clearbody g2.
      apply Hstores; assumption.
    + destruct Hinv as (Hlay & Hdc & Hrest & Hvc & Hc & Hgrp).
      destruct (Z.geb_spec (drawCounter (currentBatch g)) RL_DEFAULT_BATCH_DRAWCALLS);
        [lia|].
      apply Hstores; [exact (conj Hlay (conj Hdc (conj Hrest (conj Hvc (conj Hc Hgrp)))))|].
      unfold current_draw in *. lia.
  - destruct (_ >=? _); [apply inv_flush|]; exact Hinv.
Qed.

Lemma inv_check (C n : Z) (g : rlGraphicsData) :
  batch_inv C g -> batch_inv C (snd (rlCheckRenderBatchLimit n g)).
Proof.
  intros Hinv.
  assert (HC : 0 <= C) by (destruct Hinv as (_ & _ & _ & ? & _); lia).
  destruct (check_spec C n g) as [(_ & Hf & _)|(-> & _)].
  - destruct Hinv as (? & _). assumption.
  - destruct Hinv as (_ & ? & _). lia.
  - apply fresh_inv; assumption.
  - exact Hinv.
Qed.

Lemma valid_mode_cases (m : Z) :
  valid_mode m ->
  (m = RL_LINES /\ group_size m = 2) \/
  (m = RL_TRIANGLES /\ group_size m = 3) \/
  (m = RL_QUADS /\ group_size m = 4).
Proof. intros [-> | [-> | ->]]; auto. Qed.

(** The test at the head of [rlVertex3f]: after it the vertex counter
    is inside the buffer, and a primitive is started only when four
    more vertices fit. *)
Lemma inv_limit (C : Z) (g : rlGraphicsData) :
  1 <= C -> batch_inv C g ->
  let g' := rlVertex3f_limit g in
  let d := current_draw (currentBatch g') in
  batch_inv C g' /\
  0 <= vertexCounter (State g') < 4 * C /\
  (Z.rem (vertexCount d) (group_size (mode d)) = 0 ->
   vertexCounter (State g') <= 4 * C - 4).
Proof.
  intros HC Hinv. cbv zeta. unfold rlVertex3f_limit. cbv zeta.
  pose proof Hinv as (Hlay & Hdc & Hrest & Hvc & Hc & Hgrp).
  rewrite (current_buffer_capacity C g Hlay).
  assert (Hmode : valid_mode (mode (current_draw (currentBatch g)))).
  { destruct Hlay as (_ & _ & _ & Hm). apply Hm. lia. }
  assert (Hdrawn : forall n, vertexCounter (State g) + n >= 4 * C ->
            let g' := snd (rlCheckRenderBatchLimit n g) in
            let d := current_draw (currentBatch g') in
            batch_inv C g' /\ 0 <= vertexCounter (State g') < 4 * C /\
            (Z.rem (vertexCount d) (group_size (mode d)) = 0 ->
             vertexCounter (State g') <= 4 * C - 4)).
  { intros n Hn. cbv zeta.
    destruct (check_spec C n g Hlay ltac:(lia)) as [(_ & Hf & _)|(_ & Hfit)]; [|lia].
    split; [apply fresh_inv; [lia | exact Hf]|].
    destruct Hf as (_ & -> & _). lia. }
  cbv zeta in Hdrawn.
  destruct (Z.gtb_spec (vertexCounter (State g)) (C * 4 - 4)) as [Hhigh|Hlow];
    [|split; [exact Hinv | lia]].
  pose proof (Z.rem_bound_pos (vertexCount (current_draw (currentBatch g)))
                (group_size (mode (current_draw (currentBatch g)))) Hc
                ltac:(pose proof (group_size_range (mode (current_draw (currentBatch g)))); lia))
    as Hrem.
  assert (Hstay : 0 < Z.rem (vertexCount (current_draw (currentBatch g)))
                          (group_size (mode (current_draw (currentBatch g)))) ->
                  batch_inv C g /\ 0 <= vertexCounter (State g) < 4 * C /\
                  (Z.rem (vertexCount (current_draw (currentBatch g)))
                     (group_size (mode (current_draw (currentBatch g)))) = 0 ->
                   vertexCounter (State g) <= 4 * C - 4)).
  { intros Hr. specialize (Hgrp Hr).
    pose proof (group_size_range (mode (current_draw (currentBatch g)))).
    split; [exact Hinv|]. split; lia. }
  destruct (valid_mode_cases _ Hmode) as [(Hm & Hk)|[(Hm & Hk)|(Hm & Hk)]];
    rewrite Hk in *; rewrite Hm; cbn [Z.eqb Pos.eqb RL_LINES RL_TRIANGLES RL_QUADS andb];
    match goal with
    | |- context [Z.rem ?c ?k =? 0] => destruct (Z.eqb_spec (Z.rem c k) 0) as [Hz|Hnz]
    end.
  all: cbv iota; rewrite ?Hm, ?Hk.
  all: try (apply Hdrawn; lia).
  all: apply Hstay; lia.
Qed.

Lemma write_vertex_elementCount (s : rlState) (tx ty tz : float) (n : Z)
    (vb : rlVertexBuffer) :
  elementCount (fst (write_vertex s tx ty tz n vb)) = elementCount vb.
Proof.
  unfold write_vertex.
  repeat match goal with
  | |- context [store_checked ?n ?l ?i ?v] => destruct (store_checked n l i v)
  end.
  reflexivity.
Qed.

Lemma aget_aset_cases {A : Type} (d : A) (l : list A) (i j : Z) (v : A) :
  aget d (aset l i v) j = v \/ aget d (aset l i v) j = aget d l j.
Proof.
  destruct (Z.eq_dec j i) as [->|Hne]; [|right; apply aget_aset_ne, Hne].
  destruct (in_bounds l i) eqn:E.
  - left. apply in_bounds_iff in E. apply aget_lookup; [lia|].
    apply aset_lookup_eq, E.
  - right. unfold aset. rewrite E. reflexivity.
Qed.

Lemma rem_succ (c k : Z) :
  0 <= c -> 2 <= k ->
  Z.rem (c + 1) k = if Z.rem c k + 1 =? k then 0 else Z.rem c k + 1.
Proof.
  intros Hc Hk.
  rewrite !Z.rem_mod_nonneg by lia.
  pose proof (Z.mod_pos_bound c k ltac:(lia)) as Hb.
  pose proof (Z.div_mod c k ltac:(lia)) as Hdm.
  destruct (Z.eqb_spec (c mod k + 1) k) as [He|Hne].
  - symmetry. apply (Z.mod_unique_pos (c + 1) k (c / k + 1)); lia.
  - symmetry. apply (Z.mod_unique_pos (c + 1) k (c / k)); lia.
Qed.

(** The stores of [rlVertex3f]. *)
Lemma inv_write (C : Z) (tx ty tz : float) (g : rlGraphicsData) :
  batch_inv C g ->
  0 <= vertexCounter (State g) < 4 * C ->
  (Z.rem (vertexCount (current_draw (currentBatch g)))
     (group_size (mode (current_draw (currentBatch g)))) = 0 ->
   vertexCounter (State g) <= 4 * C - 4) ->
  batch_inv C (rlVertex3f_write tx ty tz g).
Proof.
  intros (Hlay & Hdc & Hrest & Hvc & Hc & Hgrp) Hin Hstart.
  unfold rlVertex3f_write. cbv zeta.
  pose proof (write_vertex_elementCount (State g) tx ty tz (vertexCounter (State g))
                (current_buffer (currentBatch g))) as Hec.
  destruct (write_vertex _ _ _ _ _ _) as [vb evs]. cbn [fst] in Hec.
  rewrite (current_buffer_capacity C g Hlay) in Hec.
  set (g2 := upd_State _ (set_trace _ (upd_batch _ g))).
  assert (Hd2 : draws (currentBatch g2) = draws (currentBatch g)) by reflexivity.
  assert (Hdc2 : drawCounter (currentBatch g2) = drawCounter (currentBatch g)) by reflexivity.
  assert (Hvb2 : vertexBuffer (currentBatch g2) =
                 aset (vertexBuffer (currentBatch g)) (currentBuffer (currentBatch g)) vb)
    by reflexivity.
  assert (Hcb2 : currentBuffer (currentBatch g2) = currentBuffer (currentBatch g))
    by reflexivity.
  assert (Hbc2 : bufferCount (currentBatch g2) = bufferCount (currentBatch g)) by reflexivity.
  assert (Hvc2 : vertexCounter (State g2) = vertexCounter (State g) + 1) by reflexivity.
  clearbody g2.
  pose proof Hlay as (Hlen & Hcur & Hcap & Hmodes).
  set (idx := drawCounter (currentBatch g) - 1).
  destruct (store_draw_spec idx (fun d => set_vertexCount (vertexCount d + 1) d) g2)
    as (Hs & _ & Hdc3 & Hcb3 & Hbc3 & Hvb3 & Hl3 & He3 & Hn3);
    [rewrite Hd2; subst idx; lia|].
  set (g3 := store_draw idx _ g2) in *. clearbody g3.
  assert (Hat : forall j, draw_at (currentBatch g2) j = draw_at (currentBatch g) j)
    by (intros j; unfold draw_at; rewrite Hd2; reflexivity).
  unfold batch_inv, layout. cbv zeta. unfold current_draw.
  rewrite Hs, Hdc3, Hcb3, Hbc3, Hl3, Hd2, Hdc2, Hcb2, Hbc2, Hvc2.
  fold idx. rewrite He3, Hat. cbn [mode vertexCount set_vertexCount].
  fold (current_draw (currentBatch g)) in *.
  split; [split; [exact Hlen | split; [exact Hcur | split]]|].
  - intros i Hi. unfold buffer_at. rewrite Hvb3, Hvb2.
    destruct (aget_aset_cases blank_buffer (vertexBuffer (currentBatch g))
                (currentBuffer (currentBatch g)) i vb) as [->| ->];
      [exact Hec | apply Hcap, Hi].
  - intros j Hj. destruct (Z.eq_dec j idx) as [->|Hne].
    + rewrite He3, Hat. apply Hmodes. subst idx. lia.
    + rewrite Hn3, Hat by exact Hne. apply Hmodes, Hj.
  - split; [exact Hdc|]. split.
    { intros j Hj. rewrite Hn3, Hat by (subst idx; lia). apply Hrest, Hj. }
    change (draw_at (currentBatch g) idx) with (current_draw (currentBatch g)).
    split; [lia|]. split; [lia|].
    pose proof (group_size_range (mode (current_draw (currentBatch g)))) as Hk.
    rewrite rem_succ by lia.
    pose proof (Z.rem_bound_pos (vertexCount (current_draw (currentBatch g)))
                  (group_size (mode (current_draw (currentBatch g)))) Hc ltac:(lia)).
    destruct (Z.eqb_spec
                (Z.rem (vertexCount (current_draw (currentBatch g)))
                   (group_size (mode (current_draw (currentBatch g)))) + 1)
                (group_size (mode (current_draw (currentBatch g))))); [lia|].
    intros _.
    destruct (Z.eq_dec (Z.rem (vertexCount (current_draw (currentBatch g)))
                          (group_size (mode (current_draw (currentBatch g))))) 0)
      as [Hz|Hnz]; [specialize (Hstart Hz) | specialize (Hgrp ltac:(lia))]; lia.
Qed.

Lemma vertexCounter_assign (m : Matrix) (s : rlState) :
  vertexCounter (assign_currentMatrix m s) = vertexCounter s.
Proof. unfold assign_currentMatrix. destruct (currentMatrix s); reflexivity. Qed.

Lemma same_view_upd_State (f : rlState -> rlState) (g : rlGraphicsData) :
  vertexCounter (f (State g)) = vertexCounter (State g) -> same_view g (upd_State f g).
Proof. intros H. unfold same_view. cbn. auto 10. Qed.

Lemma same_view_refl (g : rlGraphicsData) : same_view g g.
Proof. unfold same_view. auto 10. Qed.

Lemma same_view_trans (g1 g2 g3 : rlGraphicsData) :
  same_view g1 g2 -> same_view g2 g3 -> same_view g1 g3.
Proof.
  unfold same_view.
  intros (A1 & A2 & A3 & A4 & A5 & A6) (B1 & B2 & B3 & B4 & B5 & B6).
  rewrite B1, B2, B3, B4, B5, B6. auto 10.
Qed.

Lemma same_view_matrix_op (o : op) (g : rlGraphicsData) :
  match o with
  | OpBegin _ _ | OpVertex3f _ _ _ | OpSetTexture _
  | OpCheckRenderBatchLimit _ | OpDrawRenderBatchActive => True
  | _ => same_view g (step o g)
  end.
Proof.
  destruct o; try exact I; cbn [step].
  - unfold same_view. cbn. auto 10.
  - apply same_view_upd_State. reflexivity.
  - apply same_view_upd_State. reflexivity.
  - unfold rlMatrixMode. cbv zeta.
    eapply same_view_trans; [|apply same_view_upd_State; reflexivity].
    destruct (_ =? _); [apply same_view_upd_State; reflexivity|].
    destruct (_ =? _); [apply same_view_upd_State; reflexivity | apply same_view_refl].
  - unfold rlPushMatrix, store_stack, TRACELOG. cbv zeta.
    destruct (_ >=? _); destruct (_ =? _); destruct (in_bounds _ _);
      unfold same_view; cbn; auto 10.
  - unfold rlPopMatrix. cbv zeta.
    set (g1 := if _ >? 0 then _ else g).
    assert (H1 : same_view g g1).
    { subst g1. destruct (_ >? 0); [|apply same_view_refl].
      apply same_view_upd_State. cbn. apply vertexCounter_assign. }
    clearbody g1.
    destruct (_ && _); [|exact H1].
    eapply same_view_trans; [exact H1 | apply same_view_upd_State; reflexivity].
  - apply same_view_upd_State, vertexCounter_assign.
  - apply same_view_upd_State, vertexCounter_assign.
  - apply same_view_upd_State, vertexCounter_assign.
  - apply same_view_upd_State, vertexCounter_assign.
  - apply same_view_upd_State, vertexCounter_assign.
  - apply same_view_upd_State, vertexCounter_assign.
Qed.

(** Every regular call keeps the invariant. *)
Lemma inv_step (C : Z) (o : op) (g : rlGraphicsData) :
  1 <= C -> regular o -> batch_inv C g -> batch_inv C (step o g).
Proof.
  intros HC Hreg Hinv.
  pose proof (same_view_matrix_op o g) as Hview.
  destruct o; cbn [step] in *;
    try (eapply batch_inv_same_view; [exact Hview | exact Hinv]).
  - destruct Hreg as [Hi Hm]. apply inv_rlBegin; assumption.
  - unfold rlVertex3f. cbv zeta.
    destruct (inv_limit C g HC Hinv) as (Hinv1 & Hvc1 & Hstart).
    apply inv_write; assumption.
  - apply inv_rlSetTexture, Hinv.
  - apply inv_check, Hinv.
  - apply inv_flush, Hinv.
Qed.

(** In a session of regular calls every vertex is stored inside the
    current buffer. *)
Lemma regular_writes_in_buffer (C : Z) (ops : list op) (g : rlGraphicsData) :
  1 <= C -> Forall regular ops -> batch_inv C g -> writes_in_buffer ops g.
Proof.
  intros HC Hreg. revert g.
  induction Hreg as [|o ops Ho Hops IH]; intros g Hinv; cbn [writes_in_buffer]; [exact I|].
  split; [|apply IH, inv_step; assumption].
  destruct o; try exact I.
  destruct (inv_limit C g HC Hinv) as (Hinv1 & Hvc1 & _).
  cbv zeta. rewrite (current_buffer_capacity C _ (proj1 Hinv1)). lia.
Qed.

(** *** The invariant holds after [rlglInit] *)

Lemma load_draws_spec (white : rlTexture) :
  let ds := for_loop 0 RL_DEFAULT_BATCH_DRAWCALLS 1
              (fun i ds => aset ds i
                 {| mode := RL_QUADS; vertexCount := 0; vertexAlignment := 0;
                    texture := white |})
              (alloc RL_DEFAULT_BATCH_DRAWCALLS blank_draw) in
  Z.of_nat (length ds) = RL_DEFAULT_BATCH_DRAWCALLS /\
  forall j, 0 <= j < RL_DEFAULT_BATCH_DRAWCALLS ->
    ds !! Z.to_nat j =
    Some {| mode := RL_QUADS; vertexCount := 0; vertexAlignment := 0; texture := white |}.
Proof.
  cbv zeta.
  apply (for_loop_unit (fun k (ds : list rlDrawCall) =>
    Z.of_nat (length ds) = RL_DEFAULT_BATCH_DRAWCALLS /\
    forall j, 0 <= j < k ->
      ds !! Z.to_nat j =
      Some {| mode := RL_QUADS; vertexCount := 0; vertexAlignment := 0; texture := white |})).
  - unfold RL_DEFAULT_BATCH_DRAWCALLS. lia.
  - split; [reflexivity | intros; lia].
  - intros k ds Hk (Hl & Hd). split; [rewrite aset_length; exact Hl|].
    intros j Hj. destruct (Z.eq_dec j k) as [->|Hne].
    + apply aset_lookup_eq. lia.
    + rewrite aset_lookup_ne by lia. apply Hd. lia.
Qed.

Lemma load_batch_fresh (n C : Z) (g : rlGraphicsData) :
  1 <= n ->
  fresh C (set_currentBatch (fst (rlLoadRenderBatch n C g))
             (snd (rlLoadRenderBatch n C g))).
Proof.
  intros Hn. unfold rlLoadRenderBatch.
  pose proof (load_loop_spec n C g) as H. cbv zeta in H.
  destruct (for_loop 0 n 1 (load_buffer_body C) (alloc n blank_buffer, g)) as [vbs g1].
  cbn [fst snd] in *. destruct H as (_ & _ & Hvc & Hvbs).
  match goal with |- context [for_loop 0 RL_DEFAULT_BATCH_DRAWCALLS 1 ?f ?a] =>
    pose proof (load_draws_spec
                  (defaultTexture (State (TRACELOG RL_LOG_INFO
                     "RLGH: Render batch vertex buffers loaded successfully in VRAM (GPU)"
                     (TRACELOG RL_LOG_INFO
                        "RLGH: Render batch vertex buffers loaded successfully in RAM (CPU)"
                        g1))))) as Hds;
    cbv zeta in Hds; set (ds := for_loop 0 RL_DEFAULT_BATCH_DRAWCALLS 1 f a) in *
  end.
  clearbody ds. destruct Hds as (Hlen & Hd).
  unfold fresh, layout. cbv zeta.
  cbn [currentBatch set_currentBatch State TRACELOG emit set_trace
       draws currentBuffer bufferCount drawCounter].
  split; [split; [exact Hlen | split; [lia | split]]|].
  - intros i Hi. unfold buffer_at. cbn [vertexBuffer].
    rewrite (aget_lookup _ _ _ _ (proj1 Hi) (Hvbs i Hi)). reflexivity.
  - intros j Hj. unfold draw_at. cbn [draws].
    rewrite (aget_lookup _ _ _ _ (proj1 Hj) (Hd j Hj)). right. right. reflexivity.
  - split; [apply Hvc, Hn|]. split; [reflexivity|].
    intros j. unfold draw_at. cbn [draws].
    destruct (Z_le_gt_dec 0 j) as [H0|H0];
      [destruct (Z_lt_ge_dec j RL_DEFAULT_BATCH_DRAWCALLS) as [H1|H1]|].
    + rewrite (aget_lookup _ _ _ _ H0 (Hd j (conj H0 H1))). reflexivity.
    + unfold aget. destruct (in_bounds ds j) eqn:E; [|reflexivity].
      apply in_bounds_iff in E. lia.
    + unfold aget. destruct (in_bounds ds j) eqn:E; [|reflexivity].
      apply in_bounds_iff in E. lia.
Qed.

(** [rlLoadRenderBatch] changes one field of [RLGH.State], and only when
    it creates a buffer. *)
Lemma load_State (n c : Z) (g : rlGraphicsData) :
  State (snd (rlLoadRenderBatch n c g)) =
  set_vertexCounter (if 1 <=? n then 0 else vertexCounter (State g)) (State g).
Proof.
  unfold rlLoadRenderBatch. cbv zeta.
  assert (H : State (snd (for_loop 0 n 1 (load_buffer_body c) (alloc n blank_buffer, g)))
              = set_vertexCounter (if 1 <=? n then 0 else vertexCounter (State g))
                  (State g)).
  { destruct (Z.le_gt_cases 0 n) as [Hn|Hn].
    - apply (for_loop_unit (fun k (r : list rlVertexBuffer * rlGraphicsData) =>
               State (snd r) =
               set_vertexCounter (if 1 <=? k then 0 else vertexCounter (State g))
                 (State g))); [exact Hn | |].
      + cbn [snd]. destruct (State g). reflexivity.
      + intros k [vbs g1] Hk H1. cbn [snd] in *.
        unfold load_buffer_body. cbn [snd State upd_State set_State]. rewrite H1.
        destruct (Z.leb_spec 1 (k + 1)); [reflexivity | lia].
    - rewrite for_loop_skip by lia. cbn [snd].
      destruct (Z.leb_spec 1 n); [lia|]. destruct (State g). reflexivity. }
  destruct (for_loop 0 n 1 _ _) as [vbs g1]. cbn [snd] in *. exact H.
Qed.

Lemma load_trace (n c : Z) (g : rlGraphicsData) :
  trace (snd (rlLoadRenderBatch n c g)) =
  trace g ++
    [EvTraceLog RL_LOG_INFO
       "RLGH: Render batch vertex buffers loaded successfully in RAM (CPU)";
     EvTraceLog RL_LOG_INFO
       "RLGH: Render batch vertex buffers loaded successfully in VRAM (GPU)"].
Proof.
  unfold rlLoadRenderBatch. cbv zeta.
  pose proof (load_loop_spec n c g) as H. cbv zeta in H.
  destruct (for_loop 0 n 1 (load_buffer_body c) (alloc n blank_buffer, g)) as [vbs g1].
  cbn [fst snd] in *. destruct H as (_ & Htr & _).
  cbn [trace TRACELOG emit set_trace]. rewrite Htr, <- app_assoc. reflexivity.
Qed.

Lemma rlglInit_texture_spec (white : rlTexture) (g : rlGraphicsData) :
  State (rlglInit_texture white g) = set_defaultTexture white (State g) /\
  currentBatch (rlglInit_texture white g) = currentBatch g /\
  trace (rlglInit_texture white g) = trace g ++ [texture_log white].
Proof.
  unfold rlglInit_texture, texture_log. cbv zeta.
  cbn [State upd_State set_State defaultTexture set_defaultTexture].
  destruct (white =? 0); cbn [negb]; repeat split; reflexivity.
Qed.

(** The fields of [RLGH.State] after [rlglInit]: the assignments of the
    function applied to the state it was called on. *)
Lemma rlglInit_State (n C white width height : Z) (g : rlGraphicsData) :
  State (rlglInit n C white width height g) =
  set_framebufferHeight height
    (set_framebufferWidth width
       (set_currentMatrix PtrModelview
          (set_modelview rlMatrixIdentity
             (set_projection rlMatrixIdentity
                (set_transform rlMatrixIdentity
                   (set_stack
                      (for_loop 0 RL_MAX_MATRIX_STACK_SIZE 1
                         (fun i st => aset st i rlMatrixIdentity) (stack (State g)))
                      (set_vertexCounter
                         (if 1 <=? n then 0 else vertexCounter (State g))
                         (set_defaultTexture white (State g))))))))).
Proof.
  unfold rlglInit. cbv zeta.
  pose proof (load_State n C (rlglInit_texture white g)) as H.
  destruct (rlLoadRenderBatch n C (rlglInit_texture white g)) as [batch g1].
  cbn [snd] in H.
  cbn [State upd_State set_State set_currentBatch TRACELOG emit set_trace].
  rewrite H. destruct (rlglInit_texture_spec white g) as (-> & _ & _).
  reflexivity.
Qed.

Lemma rlglInit_trace (n C white width height : Z) (g : rlGraphicsData) :
  trace (rlglInit n C white width height g) =
  trace g ++
    [texture_log white;
     EvTraceLog RL_LOG_INFO
       "RLGH: Render batch vertex buffers loaded successfully in RAM (CPU)";
     EvTraceLog RL_LOG_INFO
       "RLGH: Render batch vertex buffers loaded successfully in VRAM (GPU)";
     EvTraceLog RL_LOG_INFO "RLGH: Default OpenGL state initialized successfully"].
Proof.
  unfold rlglInit. cbv zeta.
  pose proof (load_trace n C (rlglInit_texture white g)) as H.
  destruct (rlLoadRenderBatch n C (rlglInit_texture white g)) as [batch g1].
  cbn [snd] in H.
  cbn [trace upd_State set_State set_currentBatch TRACELOG emit set_trace].
  rewrite H. destruct (rlglInit_texture_spec white g) as (_ & _ & ->).
  rewrite <- !app_assoc. reflexivity.
Qed.

(** What the invariant looks at is, after [rlglInit], what
    [rlLoadRenderBatch] has set up. *)
Lemma rlglInit_view (n C white width height : Z) (g : rlGraphicsData) :
  same_view
    (set_currentBatch (fst (rlLoadRenderBatch n C (rlglInit_texture white g)))
       (snd (rlLoadRenderBatch n C (rlglInit_texture white g))))
    (rlglInit n C white width height g).
Proof.
  unfold rlglInit. cbv zeta.
  destruct (rlLoadRenderBatch n C (rlglInit_texture white g)) as [batch g1].
  unfold same_view. cbn. auto 10.
Qed.

Lemma rlglInit_inv (n C white width height : Z) (g : rlGraphicsData) :
  1 <= n -> 0 <= C -> batch_inv C (rlglInit n C white width height g).
Proof.
  intros Hn HC.
  eapply batch_inv_same_view; [apply rlglInit_view|].
  apply fresh_inv; [exact HC | apply load_batch_fresh, Hn].
Qed.

(** C2, for the sessions in which [rlBegin] behaves: after [rlglInit]
    with at least one buffer of at least one quad, whatever sequence of
    calls follows, in which every [rlBegin] is given LINES, TRIANGLES or
    QUADS and finds a positive value in its uninitialised local, each
    vertex is stored at a position [vertexCounter] with
    [0 <= vertexCounter < 4 * elementCount]. *)
Theorem regular_sessions_stay_in_buffer (n C white width height : Z) (ops : list op)
    (g : rlGraphicsData) :
  1 <= n -> 1 <= C -> Forall regular ops ->
  writes_in_buffer ops (rlglInit n C white width height g).
Proof.
  intros Hn HC Hreg.
  apply (regular_writes_in_buffer C); [exact HC | exact Hreg |].
  apply rlglInit_inv; lia.
Qed.

Example sample_session_stays_in_buffer :
  Forall regular sample_session /\ writes_in_buffer sample_session (context 2).
Proof.
  assert (H : Forall regular sample_session).
  { repeat constructor; cbn; unfold valid_mode; auto. }
  split; [exact H|].
  apply regular_sessions_stay_in_buffer; [lia | lia | exact H].
Qed.

(* ================================================================== *)
(** * Further properties *)

(* ------------------------------------------------------------------ *)
(** ** What the drawing calls leave alone *)

Lemma store_draw_State (i : Z) (f : rlDrawCall -> rlDrawCall) (g : rlGraphicsData) :
  State (store_draw i f g) = State g.
Proof. unfold store_draw. cbv zeta. destruct (in_bounds _ _); reflexivity. Qed.

Lemma drawing_state_refl (g : rlGraphicsData) : drawing_state g g.
Proof.
  exists (vertexCounter (State g)), (activeTextureId (State g)), (Viewport (State g)).
  destruct (State g). reflexivity.
Qed.

Lemma drawing_state_trans (g1 g2 g3 : rlGraphicsData) :
  drawing_state g1 g2 -> drawing_state g2 g3 -> drawing_state g1 g3.
Proof.
  intros (v1 & s1 & p1 & H1) (v2 & s2 & p2 & H2).
  exists v2, s2, p2. rewrite H2, H1. destruct (State g1). reflexivity.
Qed.

Lemma buffers_kept_refl (g : rlGraphicsData) : buffers_kept g g.
Proof. split; reflexivity. Qed.

Lemma buffers_kept_trans (g1 g2 g3 : rlGraphicsData) :
  buffers_kept g1 g2 -> buffers_kept g2 g3 -> buffers_kept g1 g3.
Proof. intros [A1 A2] [B1 B2]. split; congruence. Qed.

Lemma kept_store (i : Z) (f : rlDrawCall -> rlDrawCall) (g : rlGraphicsData) :
  buffers_kept g (store_draw i f g) /\ drawing_state g (store_draw i f g).
Proof.
  destruct (store_draw_frame i f g) as (Hs & _ & _ & Hbc & Hvb & _).
  split; [split; assumption|].
  destruct (drawing_state_refl g) as (v & s & p & H).
  exists v, s, p. rewrite Hs. exact H.
Qed.

Lemma kept_flush (g : rlGraphicsData) :
  buffers_kept g (flush_current g) /\ drawing_state g (flush_current g).
Proof.
  destruct (flush_current_shape g) as (vp & tr & ->).
  destruct (reset_batch_spec (defaultTexture (State g)) (currentBatch g))
    as (Hbc & Hvb & _).
  split; [split; assumption|].
  exists 0, (cleared_slots (activeTextureId (State g))), vp. reflexivity.
Qed.

Lemma kept_trans (g1 g2 g3 : rlGraphicsData) :
  buffers_kept g1 g2 /\ drawing_state g1 g2 ->
  buffers_kept g2 g3 /\ drawing_state g2 g3 ->
  buffers_kept g1 g3 /\ drawing_state g1 g3.
Proof.
  intros [A1 A2] [B1 B2].
  split; [eapply buffers_kept_trans | eapply drawing_state_trans]; eassumption.
Qed.

Lemma kept_check (n : Z) (g : rlGraphicsData) :
  buffers_kept g (snd (rlCheckRenderBatchLimit n g)) /\
  drawing_state g (snd (rlCheckRenderBatchLimit n g)).
Proof.
  unfold rlCheckRenderBatchLimit. cbv zeta.
  destruct (_ >=? _); cbn [snd];
    [|split; [apply buffers_kept_refl | apply drawing_state_refl]].
  eapply kept_trans; [|apply kept_store].
  eapply kept_trans; [|apply kept_store].
  apply kept_flush.
Qed.

Lemma kept_limit (g : rlGraphicsData) :
  buffers_kept g (rlVertex3f_limit g) /\ drawing_state g (rlVertex3f_limit g).
Proof.
  unfold rlVertex3f_limit. cbv zeta.
  assert (Hrefl : buffers_kept g g /\ drawing_state g g)
    by (split; [apply buffers_kept_refl | apply drawing_state_refl]).
  destruct (_ >? _); [|exact Hrefl].
  destruct (_ && _); [apply kept_check|].
  destruct (_ && _); [apply kept_check|].
  destruct (_ && _); [apply kept_check | exact Hrefl].
Qed.

Lemma kept_close (d c : Z) (g : rlGraphicsData) :
  buffers_kept g (snd (close_draw d c g)) /\ drawing_state g (snd (close_draw d c g)).
Proof.
  unfold close_draw. cbv zeta.
  set (g1 := store_draw d _ g).
  assert (H1 : buffers_kept g g1 /\ drawing_state g g1) by (subst g1; apply kept_store).
  clearbody g1.
  pose proof (kept_check (vertexAlignment (draw_at (currentBatch g1) d)) g1) as H2.
  destruct (rlCheckRenderBatchLimit _ g1) as [overflow g2]. cbn [snd] in H2.
  pose proof (kept_trans _ _ _ H1 H2) as H3.
  destruct overflow; cbn [negb snd]; [exact H3|].
  eapply kept_trans; [exact H3|].
  split; [split; reflexivity|].
  destruct (drawing_state_refl g2) as (v & s & p & H).
  exists (vertexCounter (State g2) + vertexAlignment (draw_at (currentBatch g2) d)), s, p.
  cbn [State upd_State upd_batch set_State set_currentBatch].
  rewrite H at 2. destruct (State g2). reflexivity.
Qed.

Lemma kept_rlBegin (i m : Z) (g : rlGraphicsData) :
  buffers_kept g (rlBegin i m g) /\ drawing_state g (rlBegin i m g).
Proof.
  assert (Hrefl : buffers_kept g g /\ drawing_state g g)
    by (split; [apply buffers_kept_refl | apply drawing_state_refl]).
  unfold rlBegin. cbv zeta.
  destruct (negb _); [|exact Hrefl].
  set (p := if i >? 0 then _ else _).
  assert (H1 : buffers_kept g (snd p) /\ drawing_state g (snd p)).
  { subst p. destruct (i >? 0); [apply kept_close | exact Hrefl]. }
  destruct p as [d g1]. cbn [snd] in H1.
  eapply kept_trans; [|apply kept_store].
  eapply kept_trans; [|apply kept_store].
  destruct (_ >=? _); [|exact H1].
  eapply kept_trans; [exact H1 | apply kept_flush].
Qed.

Lemma kept_rlSetTexture (t : option rlTexture) (g : rlGraphicsData) :
  buffers_kept g (rlSetTexture t g) /\ drawing_state g (rlSetTexture t g).
Proof.
  assert (Hrefl : buffers_kept g g /\ drawing_state g g)
    by (split; [apply buffers_kept_refl | apply drawing_state_refl]).
  unfold rlSetTexture. destruct t as [t|].
  - cbv zeta. destruct (negb _); [|exact Hrefl].
    set (p := if _ >? 0 then _ else _).
    assert (H1 : buffers_kept g (snd p) /\ drawing_state g (snd p)).
    { subst p. destruct (_ >? 0); [apply kept_close | exact Hrefl]. }
    destruct p as [d g1]. cbn [snd] in H1.
    eapply kept_trans; [|apply kept_store].
    eapply kept_trans; [|apply kept_store].
    destruct (_ >=? _); [|exact H1].
    eapply kept_trans; [exact H1 | apply kept_flush].
  - destruct (_ >=? _); [apply kept_flush | exact Hrefl].
Qed.

Lemma kept_write (tx ty tz : float) (g : rlGraphicsData) :
  drawing_state g (rlVertex3f_write tx ty tz g).
Proof.
  unfold rlVertex3f_write. cbv zeta.
  destruct (write_vertex _ _ _ _ _ _) as [vb evs].
  destruct (drawing_state_refl g) as (v & s & p & H).
  exists (vertexCounter (State g) + 1), s, p.
  rewrite store_draw_State. cbn [State upd_State upd_batch set_State set_trace set_currentBatch].
  rewrite H at 2. destruct (State g). reflexivity.
Qed.

Lemma kept_rlVertex3f (x y z : float) (g : rlGraphicsData) :
  drawing_state g (rlVertex3f x y z g).
Proof.
  unfold rlVertex3f. cbv zeta.
  eapply drawing_state_trans; [apply kept_limit | apply kept_write].
Qed.

(** The calls that neither edit a matrix nor move the matrix stack. *)
Lemma drawing_step (o : op) (g : rlGraphicsData) :
  match o with
  | OpBegin _ _ | OpEnd | OpVertex3f _ _ _ | OpTexCoord2f _ _ | OpColor4ub _ _ _ _
  | OpSetTexture _ | OpCheckRenderBatchLimit _ | OpDrawRenderBatchActive =>
      matrix_part (State (step o g)) = matrix_part (State g)
  | _ => True
  end.
Proof.
  assert (H : forall g', drawing_state g g' ->
                matrix_part (State g') = matrix_part (State g)).
  { intros g' (v & s & p & ->). reflexivity. }
  destruct o; try exact I; cbn [step]; try reflexivity; apply H.
  - apply kept_rlBegin.
  - apply kept_rlVertex3f.
  - apply kept_rlSetTexture.
  - apply kept_check.
  - apply kept_flush.
Qed.

(* ------------------------------------------------------------------ *)
(** ** The matrix stack *)

Lemma stack_kept_refl (g : rlGraphicsData) : stack_kept g g.
Proof. unfold stack_kept. auto 10. Qed.

Lemma stack_kept_of_part (g g' : rlGraphicsData) :
  matrix_part (State g') = matrix_part (State g) -> stack_kept g g'.
Proof.
  unfold matrix_part, stack_kept. intros H. injection H as H1 H2 H3 H4 H5 H6 H7 H8.
  repeat (split; [assumption|]).
  intros [] _; assumption.
Qed.

Lemma stack_kept_assign (m : Matrix) (g : rlGraphicsData) :
  stack_kept g (upd_State (assign_currentMatrix m) g).
Proof.
  unfold stack_kept, assign_currentMatrix. cbn [State upd_State set_State].
  destruct (currentMatrix (State g)) eqn:E; cbn; rewrite ?E;
    repeat (split; [reflexivity|]); intros [] Hp; try reflexivity; congruence.
Qed.

Lemma plain_step_kept (o : op) (g : rlGraphicsData) :
  match o with
  | OpPushMatrix | OpPopMatrix | OpMatrixMode _ => True
  | _ => stack_kept g (step o g)
  end.
Proof.
  pose proof (drawing_step o g) as D.
  destruct o; try exact I; cbn [step] in *;
    try apply stack_kept_assign; apply stack_kept_of_part, D.
Qed.

(** [rlPushMatrix] below the capacity of the stack. *)
Lemma rlPushMatrix_spec (g : rlGraphicsData) :
  Z.of_nat (length (stack (State g))) = RL_MAX_MATRIX_STACK_SIZE ->
  0 <= stackCounter (State g) < RL_MAX_MATRIX_STACK_SIZE ->
  let p := if currentMatrixMode (State g) =? RL_MODELVIEW
           then PtrTransform else currentMatrix (State g) in
  let g' := rlPushMatrix g in
  stackCounter (State g') = stackCounter (State g) + 1 /\
  currentMatrixMode (State g') = currentMatrixMode (State g) /\
  currentMatrix (State g') = p /\
  stack (State g') =
    <[Z.to_nat (stackCounter (State g)) := matrix_at p (State g)]> (stack (State g)) /\
  modelview (State g') = modelview (State g) /\
  projection (State g') = projection (State g) /\
  transform (State g') = transform (State g) /\
  transformRequired (State g') =
    (if currentMatrixMode (State g) =? RL_MODELVIEW
     then true else transformRequired (State g)) /\
  trace g' = trace g.
Proof.
  intros Hlen Hc. unfold rlPushMatrix. cbv zeta.
  destruct (Z.geb_spec (stackCounter (State g)) RL_MAX_MATRIX_STACK_SIZE) as [?|_]; [lia|].
  set (g1 := if currentMatrixMode (State g) =? RL_MODELVIEW then _ else g).
  assert (H1 : stack (State g1) = stack (State g) /\
               stackCounter (State g1) = stackCounter (State g) /\
               currentMatrixMode (State g1) = currentMatrixMode (State g) /\
               currentMatrix (State g1) =
                 (if currentMatrixMode (State g) =? RL_MODELVIEW
                  then PtrTransform else currentMatrix (State g)) /\
               modelview (State g1) = modelview (State g) /\
               projection (State g1) = projection (State g) /\
               transform (State g1) = transform (State g) /\
               transformRequired (State g1) =
                 (if currentMatrixMode (State g) =? RL_MODELVIEW
                  then true else transformRequired (State g)) /\
               trace g1 = trace g).
  { subst g1. destruct (_ =? _); cbn; auto 12. }
  destruct H1 as (Hs & Hk & Hm & Hp & Hmv & Hpj & Htr & Htq & Htrace). clearbody g1.
  unfold store_stack. rewrite Hs, Hk.
  assert (Hin : in_bounds (stack (State g)) (stackCounter (State g)) = true)
    by (apply in_bounds_iff; lia).
  rewrite Hin.
  assert (Hd : deref_currentMatrix (State g1) =
               matrix_at (if currentMatrixMode (State g) =? RL_MODELVIEW
                          then PtrTransform else currentMatrix (State g)) (State g)).
  { unfold deref_currentMatrix. rewrite Hp.
    destruct (if _ =? _ then _ else _); cbn [matrix_at]; congruence. }
  rewrite Hd.
  cbn [State upd_State set_State set_stack set_stackCounter stackCounter
       currentMatrixMode currentMatrix stack modelview projection transform
       transformRequired trace].
  rewrite Hs, Hk. unfold aset. rewrite Hin.
  repeat (split; [first [reflexivity | assumption]|]). assumption.
Qed.

(** [rlPopMatrix] on a stack that is not empty. *)
Lemma rlPopMatrix_spec (g : rlGraphicsData) :
  0 < stackCounter (State g) ->
  let top := aget rlMatrixIdentity (stack (State g)) (stackCounter (State g) - 1) in
  let g' := rlPopMatrix g in
  stackCounter (State g') = stackCounter (State g) - 1 /\
  currentMatrixMode (State g') = currentMatrixMode (State g) /\
  currentMatrix (State g') =
    (if (stackCounter (State g) - 1 =? 0) && (currentMatrixMode (State g) =? RL_MODELVIEW)
     then PtrModelview else currentMatrix (State g)) /\
  stack (State g') = stack (State g) /\
  matrix_at (currentMatrix (State g)) (State g') = top /\
  (forall p, p <> currentMatrix (State g) ->
     matrix_at p (State g') = matrix_at p (State g)) /\
  transformRequired (State g') =
    (if (stackCounter (State g) - 1 =? 0) && (currentMatrixMode (State g) =? RL_MODELVIEW)
     then false else transformRequired (State g)) /\
  trace g' = trace g.
Proof.
  intros Hc. unfold rlPopMatrix. cbv zeta.
  destruct (Z.gtb_spec (stackCounter (State g)) 0) as [_|?]; [|lia].
  set (g1 := upd_State _ g).
  assert (H1 : stackCounter (State g1) = stackCounter (State g) - 1 /\
               currentMatrixMode (State g1) = currentMatrixMode (State g) /\
               currentMatrix (State g1) = currentMatrix (State g) /\
               stack (State g1) = stack (State g) /\
               matrix_at (currentMatrix (State g)) (State g1) =
                 aget rlMatrixIdentity (stack (State g)) (stackCounter (State g) - 1) /\
               (forall p, p <> currentMatrix (State g) ->
                  matrix_at p (State g1) = matrix_at p (State g)) /\
               transformRequired (State g1) = transformRequired (State g) /\
               trace g1 = trace g).
  { subst g1. unfold assign_currentMatrix. cbn [State upd_State set_State].
    destruct (currentMatrix (State g)) eqn:E; cbn; rewrite ?E;
      repeat (split; [reflexivity|]); (split; [|split; reflexivity]);
      intros [] Hp; try reflexivity; congruence. }
  destruct H1 as (Hk & Hm & Hp & Hs & Htop & Hoth & Htq & Htrace).
  rewrite Hk, Hm. clearbody g1.
  destruct (_ && _); cbn; auto 10.
Qed.
Lemma nesting_run (ops : list op) :
  forall (room depth : nat) (g : rlGraphicsData),
  nesting room depth ops = true ->
  Z.of_nat (length (stack (State g))) = RL_MAX_MATRIX_STACK_SIZE ->
  1 <= stackCounter (State g) - Z.of_nat depth ->
  stackCounter (State g) + Z.of_nat room <= RL_MAX_MATRIX_STACK_SIZE ->
  (currentMatrixMode (State g) = RL_MODELVIEW ->
   currentMatrix (State g) = PtrTransform /\ transformRequired (State g) = true) ->
  stackCounter (State (run ops g)) = stackCounter (State g) - Z.of_nat depth /\
  currentMatrixMode (State (run ops g)) = currentMatrixMode (State g) /\
  currentMatrix (State (run ops g)) = currentMatrix (State g) /\
  transformRequired (State (run ops g)) = transformRequired (State g) /\
  length (stack (State (run ops g))) = length (stack (State g)) /\
  (forall i : nat, Z.of_nat i < stackCounter (State g) - Z.of_nat depth ->
     stack (State (run ops g)) !! i = stack (State g) !! i) /\
  (forall p, p <> currentMatrix (State g) ->
     matrix_at p (State (run ops g)) = matrix_at p (State g)).
Proof.
  induction ops as [|o ops IH]; intros room depth g Hn Hlen Hd Hroom Hmode.
  - cbn in Hn. apply Nat.eqb_eq in Hn. subst depth. cbn [run fold_left].
    rewrite Z.sub_0_r. auto 10.
  - change (run (o :: ops) g) with (run ops (step o g)).
    assert (Hplain : stack_kept g (step o g) -> nesting room depth ops = true ->
      stackCounter (State (run ops (step o g))) = stackCounter (State g) - Z.of_nat depth /\
      currentMatrixMode (State (run ops (step o g))) = currentMatrixMode (State g) /\
      currentMatrix (State (run ops (step o g))) = currentMatrix (State g) /\
      transformRequired (State (run ops (step o g))) = transformRequired (State g) /\
      length (stack (State (run ops (step o g)))) = length (stack (State g)) /\
      (forall i : nat, Z.of_nat i < stackCounter (State g) - Z.of_nat depth ->
         stack (State (run ops (step o g))) !! i = stack (State g) !! i) /\
      (forall p, p <> currentMatrix (State g) ->
         matrix_at p (State (run ops (step o g))) = matrix_at p (State g))).
    { intros (Ks & Kc & Km & Kp & Kt & Ko) Hn'.
      destruct (IH room depth (step o g) Hn') as (R1 & R2 & R3 & Rt & R4 & R5 & R6).
      - rewrite Ks. exact Hlen.
      - rewrite Kc. exact Hd.
      - rewrite Kc. exact Hroom.
      - rewrite Km, Kp, Kt. exact Hmode.
      - rewrite R1, R2, R3, Rt, R4, Kc, Km, Kp, Kt, Ks.
        repeat (split; [reflexivity|]). split.
        + intros i Hi. rewrite R5 by (rewrite Kc; exact Hi). rewrite Ks. reflexivity.
        + intros p Hp. rewrite R6 by (rewrite Kp; exact Hp). apply Ko, Hp. }
    pose proof (plain_step_kept o g) as K.
    destruct o; cbn [nesting] in Hn; try (apply Hplain; [exact K | exact Hn]);
      try discriminate.
    + (* rlPushMatrix *)
      destruct room as [|r]; [discriminate|].
      destruct (rlPushMatrix_spec g Hlen)
        as (P1 & P2 & P3 & P4 & P5 & P6 & P7 & Pt & P8); [lia|].
      cbn [step].
      assert (Hptr : currentMatrix (State (rlPushMatrix g)) = currentMatrix (State g) /\
                     transformRequired (State (rlPushMatrix g))
                       = transformRequired (State g)).
      { rewrite P3, Pt.
        destruct (Z.eqb_spec (currentMatrixMode (State g)) RL_MODELVIEW) as [E|_];
          [|split; reflexivity].
        destruct (Hmode E) as [-> ->]. split; reflexivity. }
      destruct Hptr as [Hptr Htq].
      destruct (IH r (Datatypes.S depth) (rlPushMatrix g) Hn)
        as (R1 & R2 & R3 & Rt & R4 & R5 & R6).
      * rewrite P4, length_insert. exact Hlen.
      * rewrite P1. lia.
      * rewrite P1. lia.
      * rewrite P2, Hptr, Htq. exact Hmode.
      * rewrite R1, R2, R3, Rt, R4, P1, P2, Hptr, Htq, P4, length_insert.
        split; [lia|]. repeat (split; [reflexivity|]). split.
        -- intros i Hi. rewrite R5 by (rewrite P1; lia). rewrite P4.
           apply list_lookup_insert_ne. lia.
        -- intros p Hp. rewrite R6 by (rewrite Hptr; exact Hp).
           destruct p; cbn [matrix_at]; assumption.
    + (* rlPopMatrix *)
      destruct depth as [|d]; [discriminate|].
      destruct (rlPopMatrix_spec g) as (P1 & P2 & P3 & P4 & P5 & P6 & Pt & P7); [lia|].
      cbn [step].
      assert (Hptr : currentMatrix (State (rlPopMatrix g)) = currentMatrix (State g) /\
                     transformRequired (State (rlPopMatrix g))
                       = transformRequired (State g)).
      { rewrite P3, Pt. destruct (Z.eqb_spec (stackCounter (State g) - 1) 0) as [?|_];
          [lia | split; reflexivity]. }
      destruct Hptr as [Hptr Htq].
      destruct (IH (Datatypes.S room) d (rlPopMatrix g) Hn)
        as (R1 & R2 & R3 & Rt & R4 & R5 & R6).
      * rewrite P4. exact Hlen.
      * rewrite P1. lia.
      * rewrite P1. lia.
      * rewrite P2, Hptr, Htq. exact Hmode.
      * rewrite R1, R2, R3, Rt, R4, P1, P2, Hptr, Htq, P4.
        split; [lia|]. repeat (split; [reflexivity|]). split.
        -- intros i Hi. rewrite R5 by (rewrite P1; lia). rewrite P4. reflexivity.
        -- intros p Hp. rewrite R6 by (rewrite Hptr; exact Hp). apply P6, Hp.
Qed.

(** X1.  The matrix stack is a stack: a call of [rlPushMatrix] below the
    capacity of the stack, any well-nested sequence of drawing calls,
    matrix edits and inner push/pop pairs that fits in the stack, and the
    closing [rlPopMatrix] leave the three matrices (modelview, projection,
    transform), the stack counter, the matrix mode and the stack entries
    of the outer pushes as they were before the push. *)
Theorem push_pop_restores (room : nat) (ops : list op) (g : rlGraphicsData) :
  Z.of_nat (length (stack (State g))) = RL_MAX_MATRIX_STACK_SIZE ->
  0 <= stackCounter (State g) ->
  stackCounter (State g) + 1 + Z.of_nat room <= RL_MAX_MATRIX_STACK_SIZE ->
  well_nested room ops ->
  matrices_restored g (rlPopMatrix (run ops (rlPushMatrix g))).
Proof.
  intros Hlen Hc Hroom Hn. unfold matrices_restored.
  destruct (rlPushMatrix_spec g Hlen)
    as (P1 & P2 & P3 & P4 & P5 & P6 & P7 & Pt & P8); [lia|].
  destruct (nesting_run ops room 0 (rlPushMatrix g) Hn)
    as (R1 & R2 & R3 & Rt & R4 & R5 & R6).
  { rewrite P4, length_insert. exact Hlen. }
  { rewrite P1. lia. }
  { rewrite P1. lia. }
  { rewrite P2, P3, Pt. intros E. rewrite E. split; reflexivity. }
  set (g2 := run ops (rlPushMatrix g)) in *.
  destruct (rlPopMatrix_spec g2) as (Q1 & Q2 & Q3 & Q4 & Q5 & Q6 & Qt & Q7).
  { rewrite R1, P1. lia. }
  set (p := if currentMatrixMode (State g) =? RL_MODELVIEW
            then PtrTransform else currentMatrix (State g)) in *.
  assert (Htop : aget rlMatrixIdentity (stack (State g2)) (stackCounter (State g2) - 1)
                 = matrix_at p (State g)).
  { rewrite R1, P1.
    replace (stackCounter (State g) + 1 - Z.of_nat 0 - 1) with (stackCounter (State g))
      by lia.
    apply aget_lookup; [exact Hc|].
    rewrite R5 by (rewrite P1; lia). rewrite P4.
    apply list_lookup_insert_eq. lia. }
  rewrite Htop in Q5. rewrite R3, P3 in Q5, Q6.
  assert (Hall : forall q, matrix_at q (State (rlPopMatrix g2)) = matrix_at q (State g)).
  { clearbody p. intros q.
    assert (Hdec : q = p \/ q <> p)
      by (destruct q, p; first [left; reflexivity | right; discriminate]).
    destruct Hdec as [->|Hq]; [exact Q5|].
    rewrite Q6 by exact Hq. rewrite R6 by (rewrite P3; exact Hq).
    destruct q; cbn [matrix_at]; assumption. }
  split; [exact (Hall PtrModelview)|].
  split; [exact (Hall PtrProjection)|].
  split; [exact (Hall PtrTransform)|].
  split; [rewrite Q1, R1, P1; lia|].
  split; [rewrite Q2, R2, P2; reflexivity|].
  intros i Hi. rewrite Q4, R5 by (rewrite P1; lia). rewrite P4.
  apply list_lookup_insert_ne. lia.
Qed.

Lemma push_pop_restores_witness :
  let g := rlMatrixMode RL_MODELVIEW (context 2) in
  Z.of_nat (length (stack (State g))) = RL_MAX_MATRIX_STACK_SIZE /\
  0 <= stackCounter (State g) /\
  stackCounter (State g) + 1 + Z.of_nat 1 <= RL_MAX_MATRIX_STACK_SIZE /\
  well_nested 1 pushed_scene /\
  matrices_restored g (rlPopMatrix (run pushed_scene (rlPushMatrix g))).
Proof.
  cbv zeta.
  assert (H1 : Z.of_nat (length (stack (State (rlMatrixMode RL_MODELVIEW (context 2)))))
               = RL_MAX_MATRIX_STACK_SIZE) by (vm_compute; reflexivity).
  assert (H2 : 0 <= stackCounter (State (rlMatrixMode RL_MODELVIEW (context 2))))
    by (vm_compute; discriminate).
  assert (H3 : stackCounter (State (rlMatrixMode RL_MODELVIEW (context 2))) + 1
               + Z.of_nat 1 <= RL_MAX_MATRIX_STACK_SIZE)
    by (vm_compute; discriminate).
  assert (H4 : well_nested 1 pushed_scene) by (vm_compute; reflexivity).
  split; [exact H1|]. split; [exact H2|]. split; [exact H3|]. split; [exact H4|].
  exact (push_pop_restores 1 pushed_scene (rlMatrixMode RL_MODELVIEW (context 2))
           H1 H2 H3 H4).
Defined.

Lemma rlPopMatrix_empty (g : rlGraphicsData) :
  stackCounter (State g) <= 0 ->
  stackCounter (State (rlPopMatrix g)) = stackCounter (State g) /\
  stack (State (rlPopMatrix g)) = stack (State g) /\
  modelview (State (rlPopMatrix g)) = modelview (State g) /\
  projection (State (rlPopMatrix g)) = projection (State g) /\
  transform (State (rlPopMatrix g)) = transform (State g) /\
  trace (rlPopMatrix g) = trace g.
Proof.
  intros Hc. unfold rlPopMatrix. cbv zeta.
  destruct (Z.gtb_spec (stackCounter (State g)) 0) as [?|_]; [lia|].
  destruct (_ && _); cbn; auto 10.
Qed.

(* ------------------------------------------------------------------ *)
(** ** Traces only grow *)

Lemma extends_refl (g : rlGraphicsData) : extends g g.
Proof. exists []. symmetry. apply app_nil_r. Qed.

Lemma extends_trans (g1 g2 g3 : rlGraphicsData) :
  extends g1 g2 -> extends g2 g3 -> extends g1 g3.
Proof.
  intros [e1 H1] [e2 H2]. exists (e1 ++ e2). rewrite H2, H1. symmetry. apply app_assoc.
Qed.

Lemma extends_emit (e : event) (g g' : rlGraphicsData) :
  extends g g' -> extends g (emit e g').
Proof.
  intros [evs H]. exists (evs ++ [e]). unfold emit. cbn [trace set_trace].
  rewrite H. symmetry. apply app_assoc.
Qed.

Lemma extends_of_trace (g g1 g2 : rlGraphicsData) :
  trace g2 = trace g1 -> extends g g1 -> extends g g2.
Proof. intros E [evs H]. exists evs. rewrite E. exact H. Qed.

Lemma eye_extends (batch : rlRenderBatch) (eyeCount : Z) (mv : Matrix) (eye : Z)
    (g : rlGraphicsData) :
  extends g (draw_eye_body batch eyeCount mv eye g).
Proof.
  unfold draw_eye_body.
  set (g1 := if eyeCount =? 2 then _ else g).
  assert (H1 : extends g g1).
  { subst g1. destruct (eyeCount =? 2); [|apply extends_refl].
    exists []. cbn. symmetry. apply app_nil_r. }
  clearbody g1.
  destruct (vertexCounter (State g1) >? 0); [|exact H1].
  apply extends_emit.
  assert (H2 : extends g (for_loop 0 RL_DEFAULT_BATCH_MAX_TEXTURE_UNITS 1 bind_active_body
                            (emit (EvUniformMatrix
                                     (rlMatrixMultiply (modelview (State g1))
                                        (projection (State g1)))) g1))).
  { apply (for_loop_invariant (extends g)); [apply extends_emit, H1|].
    intros j g2 H2. unfold bind_active_body.
    destruct (_ >? 0); [apply extends_emit|]; exact H2. }
  set (g3 := for_loop 0 RL_DEFAULT_BATCH_MAX_TEXTURE_UNITS 1 bind_active_body _) in *.
  clearbody g3.
  apply (for_loop_invariant (fun st : Z * rlGraphicsData => extends g (snd st)));
    [exact H2|].
  intros j [off g4] H4. unfold issue_draw_body. cbn [snd] in H4.
  destruct (_ || _); cbn [snd]; repeat apply extends_emit; exact H4.
Qed.

Lemma extends_upd_State (g0 : rlGraphicsData) (f : rlState -> rlState)
    (g : rlGraphicsData) :
  extends g0 g -> extends g0 (upd_State f g).
Proof. intros H. exact H. Qed.

Lemma extends_store (g0 : rlGraphicsData) (i : Z) (f : rlDrawCall -> rlDrawCall)
    (g : rlGraphicsData) :
  extends g0 g -> extends g0 (store_draw i f g).
Proof.
  intros H. unfold store_draw.
  destruct (in_bounds _ _); [exact H | apply extends_emit, H].
Qed.

Lemma extends_draw (g0 : rlGraphicsData) (batch : rlRenderBatch) (g : rlGraphicsData) :
  extends g0 g -> extends g0 (snd (rlDrawRenderBatch batch g)).
Proof.
  intros H. unfold rlDrawRenderBatch. cbv zeta.
  set (g1 := if vertexCounter (State g) >? 0 then _ else g).
  assert (H1 : extends g0 g1).
  { subst g1. destruct (_ >? 0); [|exact H]. repeat apply extends_emit. exact H. }
  assert (Hp : projection (State g1) = projection (State g) /\
               modelview (State g1) = modelview (State g)).
  { subst g1. destruct (_ >? 0); split; reflexivity. }
  destruct Hp as [-> ->]. clearbody g1.
  set (eyeCount := if stereoRender (State g1) then 2 else 1).
  set (g2 := for_loop 0 eyeCount 1 _ g1).
  assert (H2 : extends g0 g2).
  { subst g2. apply (for_loop_invariant (extends g0)); [exact H1|].
    intros j s Hs. eapply extends_trans; [exact Hs | apply eye_extends]. }
  clearbody g2 eyeCount.
  set (g3 := if eyeCount =? 2 then _ else g2).
  assert (H3 : extends g0 g3) by (subst g3; destruct (eyeCount =? 2); exact H2).
  clearbody g3. cbn [snd].
  apply (for_loop_invariant (extends g0)); [exact H3|].
  intros j g4 H4. exact H4.
Qed.

Lemma extends_flush (g0 g : rlGraphicsData) :
  extends g0 g -> extends g0 (flush_current g).
Proof.
  intros H. unfold flush_current.
  pose proof (extends_draw g0 (currentBatch g) g H) as Hd.
  destruct (rlDrawRenderBatch (currentBatch g) g) as [b g']. exact Hd.
Qed.

Lemma extends_check (g0 : rlGraphicsData) (n : Z) (g : rlGraphicsData) :
  extends g0 g -> extends g0 (snd (rlCheckRenderBatchLimit n g)).
Proof.
  intros H. unfold rlCheckRenderBatchLimit. cbv zeta.
  destruct (_ >=? _); cbn [snd]; [|exact H].
  apply extends_store, extends_store, extends_flush, H.
Qed.

Lemma extends_close (g0 : rlGraphicsData) (d cnt : Z) (g : rlGraphicsData) :
  extends g0 g -> extends g0 (snd (close_draw d cnt g)).
Proof.
  intros H. unfold close_draw. cbv zeta.
  set (g1 := store_draw d _ g).
  assert (H1 : extends g0 g1) by (subst g1; apply extends_store, H).
  clearbody g1.
  pose proof (extends_check g0 (vertexAlignment (draw_at (currentBatch g1) d)) g1 H1) as H2.
  destruct (rlCheckRenderBatchLimit _ g1) as [o g2]. cbn [snd] in H2.
  destruct o; cbn [negb snd]; exact H2.
Qed.

Lemma extends_rlBegin (g0 : rlGraphicsData) (i m : Z) (g : rlGraphicsData) :
  extends g0 g -> extends g0 (rlBegin i m g).
Proof.
  intros H. unfold rlBegin. destruct (negb _); [|exact H]. cbv zeta.
  set (r := if i >? 0 then close_draw _ i g else (_, g)).
  assert (Hr : extends g0 (snd r))
    by (subst r; destruct (i >? 0); [apply extends_close|]; exact H).
  clearbody r. destruct r as [d g1]. cbn [snd] in Hr.
  apply extends_store, extends_store.
  destruct (_ >=? _); [apply extends_flush|]; exact Hr.
Qed.

Lemma extends_rlSetTexture (g0 : rlGraphicsData) (t : option rlTexture)
    (g : rlGraphicsData) :
  extends g0 g -> extends g0 (rlSetTexture t g).
Proof.
  intros H. unfold rlSetTexture. destruct t as [t|].
  - destruct (negb _); [|exact H]. cbv zeta.
    set (r := if _ >? 0 then close_draw _ _ g else (_, g)).
    assert (Hr : extends g0 (snd r))
      by (subst r; destruct (_ >? 0); [apply extends_close|]; exact H).
    clearbody r. destruct r as [d g1]. cbn [snd] in Hr.
    apply extends_store, extends_store.
    destruct (_ >=? _); [apply extends_flush|]; exact Hr.
  - destruct (_ >=? _); [apply extends_flush|]; exact H.
Qed.

Lemma extends_limit (g0 g : rlGraphicsData) :
  extends g0 g -> extends g0 (rlVertex3f_limit g).
Proof.
  intros H. unfold rlVertex3f_limit. cbv zeta.
  destruct (_ >? _); [|exact H].
  destruct (_ && _); [apply extends_check, H|].
  destruct (_ && _); [apply extends_check, H|].
  destruct (_ && _); [apply extends_check, H | exact H].
Qed.

Lemma extends_write (g0 : rlGraphicsData) (tx ty tz : float) (g : rlGraphicsData) :
  extends g0 g -> extends g0 (rlVertex3f_write tx ty tz g).
Proof.
  intros [e H]. unfold rlVertex3f_write. cbv zeta.
  destruct (write_vertex _ _ _ _ _ _) as [vb evs].
  apply extends_store. exists (e ++ evs).
  cbn [trace upd_State set_State set_trace upd_batch set_currentBatch].
  rewrite H. symmetry. apply app_assoc.
Qed.

Lemma extends_step (o : op) (g : rlGraphicsData) : extends g (step o g).
Proof.
  destruct o; cbn [step];
    try (exists []; rewrite app_nil_r; reflexivity).
  - apply extends_rlBegin, extends_refl.
  - unfold rlVertex3f. cbv zeta. apply extends_write, extends_limit, extends_refl.
  - apply extends_rlSetTexture, extends_refl.
  - apply extends_check, extends_refl.
  - apply extends_flush, extends_refl.
  - unfold rlMatrixMode. cbv zeta.
    destruct (_ =? _); [|destruct (_ =? _)]; exists []; rewrite app_nil_r; reflexivity.
  - unfold rlPushMatrix, store_stack, TRACELOG. cbv zeta.
    destruct (_ >=? _); destruct (_ =? _); destruct (in_bounds _ _);
      repeat first [apply extends_refl | apply extends_emit | apply extends_upd_State].
  - unfold rlPopMatrix. cbv zeta.
    destruct (_ >? 0); destruct (_ && _); exists []; rewrite app_nil_r; reflexivity.
Qed.

Lemma extends_run (ops : list op) (g : rlGraphicsData) : extends g (run ops g).
Proof.
  revert g. induction ops as [|o ops IH]; intros g; [apply extends_refl|].
  change (run (o :: ops) g) with (run ops (step o g)).
  eapply extends_trans; [apply extends_step | apply IH].
Qed.

(** A run that has stored nothing out of bounds has not done so in its
    first part, nor in the rest. *)
Lemma stores_in_bounds_mid (g g1 g2 : rlGraphicsData) :
  extends g g1 -> extends g1 g2 -> stores_in_bounds g g2 ->
  stores_in_bounds g g1 /\ stores_in_bounds g1 g2.
Proof.
  unfold stores_in_bounds. intros [e1 H1] [e2 H2] H.
  rewrite H2, H1, !out_of_bounds_app in H. rewrite H2, H1, !out_of_bounds_app.
  rewrite <- app_assoc in H.
  rewrite <- (app_nil_r (out_of_bounds_stores (trace g))) in H at 2.
  apply app_inv_head in H. apply app_eq_nil in H. destruct H as [-> ->].
  rewrite !app_nil_r. split; reflexivity.
Qed.

Lemma stores_in_bounds_head (o : op) (ops : list op) (g : rlGraphicsData) :
  stores_in_bounds g (run (o :: ops) g) ->
  stores_in_bounds g (step o g) /\ stores_in_bounds (step o g) (run ops (step o g)).
Proof.
  change (run (o :: ops) g) with (run ops (step o g)).
  apply stores_in_bounds_mid; [apply extends_step | apply extends_run].
Qed.

(* ------------------------------------------------------------------ *)
(** ** The stack counter stays in range *)

(** A push that stores inside the array found the stack not full. *)
Lemma push_in_bounds (g : rlGraphicsData) :
  Z.of_nat (length (stack (State g))) = RL_MAX_MATRIX_STACK_SIZE ->
  stores_in_bounds g (rlPushMatrix g) ->
  stackCounter (State g) < RL_MAX_MATRIX_STACK_SIZE.
Proof.
  intros Hlen Hin.
  destruct (Z.lt_ge_cases (stackCounter (State g)) RL_MAX_MATRIX_STACK_SIZE) as [H|H];
    [exact H|].
  exfalso. apply (rlPushMatrix_full_recorded g); [lia | exact Hlen | exact Hin].
Qed.

Lemma counter_in_range_step (o : op) (g : rlGraphicsData) :
  Z.of_nat (length (stack (State g))) = RL_MAX_MATRIX_STACK_SIZE ->
  0 <= stackCounter (State g) <= RL_MAX_MATRIX_STACK_SIZE ->
  stores_in_bounds g (step o g) ->
  Z.of_nat (length (stack (State (step o g)))) = RL_MAX_MATRIX_STACK_SIZE /\
  0 <= stackCounter (State (step o g)) <= RL_MAX_MATRIX_STACK_SIZE.
Proof.
  intros Hlen Hc Hin. pose proof (plain_step_kept o g) as K.
  destruct o; cbn [step] in K, Hin |- *;
    try (destruct K as (-> & -> & _); split; assumption).
  - unfold rlMatrixMode. cbv zeta.
    destruct (_ =? _); [|destruct (_ =? _)]; split; assumption.
  - pose proof (push_in_bounds g Hlen Hin) as Hroom.
    destruct (rlPushMatrix_spec g Hlen) as (-> & _ & _ & -> & _); [lia|].
    rewrite length_insert. split; [exact Hlen | lia].
  - destruct (Z.le_gt_cases (stackCounter (State g)) 0) as [H0|H0].
    + destruct (rlPopMatrix_empty g H0) as (-> & -> & _). split; assumption.
    + destruct (rlPopMatrix_spec g) as (-> & _ & _ & -> & _); [lia|].
      split; [exact Hlen | lia].
Qed.

Lemma counter_in_range_run (ops : list op) (g : rlGraphicsData) :
  Z.of_nat (length (stack (State g))) = RL_MAX_MATRIX_STACK_SIZE ->
  0 <= stackCounter (State g) <= RL_MAX_MATRIX_STACK_SIZE ->
  stores_in_bounds g (run ops g) ->
  Z.of_nat (length (stack (State (run ops g)))) = RL_MAX_MATRIX_STACK_SIZE /\
  0 <= stackCounter (State (run ops g)) <= RL_MAX_MATRIX_STACK_SIZE.
Proof.
  revert g. induction ops as [|o ops IH]; intros g Hlen Hc Hin; [split; assumption|].
  destruct (stores_in_bounds_head o ops g Hin) as [H1 H2].
  destruct (counter_in_range_step o g Hlen Hc H1) as [Hlen1 Hc1].
  change (run (o :: ops) g) with (run ops (step o g)).
  apply IH; assumption.
Qed.

Lemma init_stack_length (l : list Matrix) :
  length (for_loop 0 RL_MAX_MATRIX_STACK_SIZE 1
            (fun i st => aset st i rlMatrixIdentity) l) = length l.
Proof.
  apply (for_loop_invariant (fun st : list Matrix => length st = length l));
    [reflexivity|].
  intros j st Hst. rewrite aset_length. exact Hst.
Qed.

(** [rlglInit] assigns neither the stack counter nor the sampler slots,
    and keeps the sizes of the two arrays. *)
Lemma rlglInit_kept (n C white width height : Z) (g : rlGraphicsData) :
  stackCounter (State (rlglInit n C white width height g)) = stackCounter (State g) /\
  length (stack (State (rlglInit n C white width height g))) = length (stack (State g)) /\
  activeTextureId (State (rlglInit n C white width height g)) = activeTextureId (State g).
Proof.
  rewrite rlglInit_State.
  cbn [stackCounter stack activeTextureId set_framebufferHeight set_framebufferWidth
       set_currentMatrix set_modelview set_projection set_transform set_stack
       set_vertexCounter set_defaultTexture].
  rewrite init_stack_length. repeat split; reflexivity.
Qed.

(** X2.  The matrix stack neither underflows nor overflows unnoticed.
    [rlglInit] leaves the stack counter as it finds it (0 in the state a
    program starts with).  If it is between 0 and 32 then, through any
    session that stores nothing outside an array, it stays between 0
    and 32: [rlPopMatrix] never reads below [stack[0]] nor above
    [stack[31]].  An [rlPopMatrix] on the empty stack leaves the counter
    at 0, pops nothing and changes no matrix. *)
Theorem pop_never_underflows (n C white width height : Z) (g0 : rlGraphicsData)
    (ops : list op) :
  state_arrays g0 ->
  0 <= stackCounter (State g0) <= RL_MAX_MATRIX_STACK_SIZE ->
  stores_in_bounds (rlglInit n C white width height g0)
    (run ops (rlglInit n C white width height g0)) ->
  let g := run ops (rlglInit n C white width height g0) in
  0 <= stackCounter (State g) <= RL_MAX_MATRIX_STACK_SIZE /\
  (stackCounter (State g) = 0 ->
   stackCounter (State (rlPopMatrix g)) = 0 /\
   stack (State (rlPopMatrix g)) = stack (State g) /\
   modelview (State (rlPopMatrix g)) = modelview (State g) /\
   projection (State (rlPopMatrix g)) = projection (State g) /\
   transform (State (rlPopMatrix g)) = transform (State g) /\
   trace (rlPopMatrix g) = trace g).
Proof.
  intros [Hlen _] Hc Hin. cbv zeta.
  destruct (rlglInit_kept n C white width height g0) as (Ek & El & _).
  split.
  - apply counter_in_range_run; [rewrite El; exact Hlen | rewrite Ek; exact Hc | exact Hin].
  - intros H0.
    destruct (rlPopMatrix_empty (run ops (rlglInit n C white width height g0)))
      as (E1 & E2 & E3 & E4 & E5 & E6); [lia|].
    rewrite E1, H0. auto 10.
Qed.

Lemma pop_never_underflows_witness :
  state_arrays RLGH_zero /\
  0 <= stackCounter (State RLGH_zero) <= RL_MAX_MATRIX_STACK_SIZE /\
  stores_in_bounds (rlglInit 1 1 9 640 480 RLGH_zero)
    (run pops_and_pushes (rlglInit 1 1 9 640 480 RLGH_zero)) /\
  let g := run pops_and_pushes (rlglInit 1 1 9 640 480 RLGH_zero) in
  0 <= stackCounter (State g) <= RL_MAX_MATRIX_STACK_SIZE /\
  (stackCounter (State g) = 0 ->
   stackCounter (State (rlPopMatrix g)) = 0 /\
   stack (State (rlPopMatrix g)) = stack (State g) /\
   modelview (State (rlPopMatrix g)) = modelview (State g) /\
   projection (State (rlPopMatrix g)) = projection (State g) /\
   transform (State (rlPopMatrix g)) = transform (State g) /\
   trace (rlPopMatrix g) = trace g).
Proof.
  assert (H1 : state_arrays RLGH_zero) by (split; reflexivity).
  assert (H2 : 0 <= stackCounter (State RLGH_zero) <= RL_MAX_MATRIX_STACK_SIZE)
    by (split; vm_compute; discriminate).
  assert (H3 : stores_in_bounds (rlglInit 1 1 9 640 480 RLGH_zero)
                 (run pops_and_pushes (rlglInit 1 1 9 640 480 RLGH_zero)))
    by (vm_compute; reflexivity).
  exact (conj H1 (conj H2 (conj H3
    (pop_never_underflows 1 1 9 640 480 RLGH_zero pops_and_pushes H1 H2 H3)))).
Defined.

(** In that session the first pop finds the stack empty, and the last
    one too. *)
Example pops_and_pushes_sample :
  stackCounter (State (run pops_and_pushes (context 1))) = 0 /\
  stackCounter (State (run [OpPopMatrix; OpPushMatrix] (context 1))) = 1.
Proof. vm_compute. split; reflexivity. Qed.

(** X3.  While a push is open in RL_MODELVIEW mode, the matrix edits do
    not touch the modelview matrix (nor the projection matrix): the
    current matrix is the transform matrix and [transformRequired] is
    set, so that [rlVertex3f] multiplies every vertex by it.  This holds
    after [rlPushMatrix] and any well-nested sequence of drawing calls,
    matrix edits and inner push/pop pairs.  The [rlPopMatrix] that empties
    the stack makes the modelview matrix current again and clears
    [transformRequired]. *)
Theorem pushed_edits_go_to_transform (room : nat) (ops : list op) (g : rlGraphicsData) :
  Z.of_nat (length (stack (State g))) = RL_MAX_MATRIX_STACK_SIZE ->
  0 <= stackCounter (State g) ->
  stackCounter (State g) + 1 + Z.of_nat room <= RL_MAX_MATRIX_STACK_SIZE ->
  currentMatrixMode (State g) = RL_MODELVIEW ->
  well_nested room ops ->
  let g1 := run ops (rlPushMatrix g) in
  (modelview (State g1) = modelview (State g) /\
   projection (State g1) = projection (State g) /\
   currentMatrix (State g1) = PtrTransform /\
   transformRequired (State g1) = true) /\
  (stackCounter (State g) = 0 ->
   currentMatrix (State (rlPopMatrix g1)) = PtrModelview /\
   transformRequired (State (rlPopMatrix g1)) = false).
Proof.
  intros Hlen Hc Hroom Hmode Hn. cbv zeta.
  destruct (rlPushMatrix_spec g Hlen)
    as (P1 & P2 & P3 & P4 & P5 & P6 & P7 & Pt & P8); [lia|].
  rewrite Hmode, Z.eqb_refl in P3, Pt.
  destruct (nesting_run ops room 0 (rlPushMatrix g) Hn)
    as (R1 & R2 & R3 & Rt & R4 & R5 & R6).
  { rewrite P4, length_insert. exact Hlen. }
  { rewrite P1. lia. }
  { rewrite P1. lia. }
  { intros _. split; assumption. }
  set (g1 := run ops (rlPushMatrix g)) in *.
  split.
  - rewrite R3, Rt, P3, Pt.
    pose proof (R6 PtrModelview) as Hmv. pose proof (R6 PtrProjection) as Hpj.
    cbn [matrix_at] in Hmv, Hpj. rewrite P3 in Hmv, Hpj.
    rewrite Hmv, Hpj by discriminate. auto.
  - intros H0.
    destruct (rlPopMatrix_spec g1) as (Q1 & Q2 & Q3 & Q4 & Q5 & Q6 & Qt & Q7).
    { rewrite R1, P1. lia. }
    rewrite Q3, Qt, R1, R2, P1, P2, Hmode, H0. split; reflexivity.
Qed.

Lemma pushed_edits_go_to_transform_witness :
  let g := rlMatrixMode RL_MODELVIEW (context 2) in
  Z.of_nat (length (stack (State g))) = RL_MAX_MATRIX_STACK_SIZE /\
  0 <= stackCounter (State g) /\
  stackCounter (State g) + 1 + Z.of_nat 1 <= RL_MAX_MATRIX_STACK_SIZE /\
  currentMatrixMode (State g) = RL_MODELVIEW /\
  well_nested 1 pushed_scene /\
  let g1 := run pushed_scene (rlPushMatrix g) in
  (modelview (State g1) = modelview (State g) /\
   projection (State g1) = projection (State g) /\
   currentMatrix (State g1) = PtrTransform /\
   transformRequired (State g1) = true) /\
  (stackCounter (State g) = 0 ->
   currentMatrix (State (rlPopMatrix g1)) = PtrModelview /\
   transformRequired (State (rlPopMatrix g1)) = false).
Proof.
  cbv zeta.
  assert (H1 : Z.of_nat (length (stack (State (rlMatrixMode RL_MODELVIEW (context 2)))))
               = RL_MAX_MATRIX_STACK_SIZE) by (vm_compute; reflexivity).
  assert (H2 : 0 <= stackCounter (State (rlMatrixMode RL_MODELVIEW (context 2))))
    by (vm_compute; discriminate).
  assert (H3 : stackCounter (State (rlMatrixMode RL_MODELVIEW (context 2))) + 1
               + Z.of_nat 1 <= RL_MAX_MATRIX_STACK_SIZE)
    by (vm_compute; discriminate).
  assert (H4 : currentMatrixMode (State (rlMatrixMode RL_MODELVIEW (context 2)))
               = RL_MODELVIEW) by (vm_compute; reflexivity).
  assert (H5 : well_nested 1 pushed_scene) by (vm_compute; reflexivity).
  exact (conj H1 (conj H2 (conj H3 (conj H4 (conj H5
    (pushed_edits_go_to_transform 1 pushed_scene
       (rlMatrixMode RL_MODELVIEW (context 2)) H1 H2 H3 H4 H5)))))).
Defined.

(* ------------------------------------------------------------------ *)
(** ** Shader uniforms *)

(** X4.  The array that [rlSetUniformMatrix] hands to the device has the
    layout [rlMultMatrixf] reads: multiplying the current matrix by that
    array with [rlMultMatrixf] is multiplying it (on the right) by the
    matrix itself. *)
Theorem uniform_array_round_trip (locIndex : Z) (mat : Matrix) (g : rlGraphicsData) :
  Forall (fun c => matrix_of_array (uploaded_array c) = mat)
    (rlSetUniformMatrix locIndex mat) /\
  multiplies_right (rlMultMatrixf (matfloat mat)) mat g.
Proof.
  assert (H : matrix_of_array (matfloat mat) = mat) by (destruct mat; reflexivity).
  split.
  - repeat constructor. exact H.
  - unfold multiplies_right, current_matrix, rlMultMatrixf.
    cbn [State upd_State set_State]. rewrite deref_assign, H. reflexivity.
Qed.

(** *** Sampler slots *)

Lemma four_slots (l : list rlTexture) :
  Z.of_nat (length l) = RL_DEFAULT_BATCH_MAX_TEXTURE_UNITS ->
  exists a b c d, l = [a; b; c; d].
Proof.
  intros H. unfold RL_DEFAULT_BATCH_MAX_TEXTURE_UNITS in H.
  destruct l as [|a [|b [|c [|d [|e l]]]]]; cbn in H; try lia.
  exists a, b, c, d. reflexivity.
Qed.

(** [rlSetUniformSampler] on the four slots, case by case. *)
Lemma rlSetUniformSampler_cases (loc t a b c d : Z) (g : rlGraphicsData) :
  activeTextureId (State g) = [a; b; c; d] ->
  rlSetUniformSampler loc t g =
    if (a =? t) || (b =? t) || (c =? t) || (d =? t) then ([], g)
    else if a =? 0 then
      ([GlUniform1i loc (1 + 0)], upd_State (set_activeTextureId [t; b; c; d]) g)
    else if b =? 0 then
      ([GlUniform1i loc (1 + 1)], upd_State (set_activeTextureId [a; t; c; d]) g)
    else if c =? 0 then
      ([GlUniform1i loc (1 + 2)], upd_State (set_activeTextureId [a; b; t; d]) g)
    else if d =? 0 then
      ([GlUniform1i loc (1 + 3)], upd_State (set_activeTextureId [a; b; c; t]) g)
    else ([], g).
Proof.
  intros H. unfold rlSetUniformSampler, sampler_active, for_loop.
  rewrite H.
  change (Z.to_nat (RL_DEFAULT_BATCH_MAX_TEXTURE_UNITS - 0)) with 4%nat.
  cbn [for_fuel]. change (0 <? RL_DEFAULT_BATCH_MAX_TEXTURE_UNITS) with true.
  change (0 + 1 <? RL_DEFAULT_BATCH_MAX_TEXTURE_UNITS) with true.
  change (0 + 1 + 1 <? RL_DEFAULT_BATCH_MAX_TEXTURE_UNITS) with true.
  change (0 + 1 + 1 + 1 <? RL_DEFAULT_BATCH_MAX_TEXTURE_UNITS) with true.
  cbv iota.
  change (aget 0 [a; b; c; d] 0) with a.
  change (aget 0 [a; b; c; d] (0 + 1)) with b.
  change (aget 0 [a; b; c; d] (0 + 1 + 1)) with c.
  change (aget 0 [a; b; c; d] (0 + 1 + 1 + 1)) with d.
  cbn [orb].
  destruct (a =? t); [reflexivity|]. destruct (b =? t); [reflexivity|].
  destruct (c =? t); [reflexivity|]. destruct (d =? t); [reflexivity|].
  cbn [orb]. unfold register_sampler_body.
  rewrite H.
  change (aget 0 [a; b; c; d] 0) with a.
  destruct (a =? 0) eqn:Ea.
  { unfold upd_State. rewrite H. reflexivity. }
  rewrite H. change (aget 0 [a; b; c; d] (0 + 1)) with b.
  destruct (b =? 0) eqn:Eb.
  { unfold upd_State. rewrite H. reflexivity. }
  rewrite H. change (aget 0 [a; b; c; d] (0 + 1 + 1)) with c.
  destruct (c =? 0) eqn:Ec.
  { unfold upd_State. rewrite H. reflexivity. }
  rewrite H. change (aget 0 [a; b; c; d] (0 + 1 + 1 + 1)) with d.
  destruct (d =? 0) eqn:Ed.
  { unfold upd_State. rewrite H. reflexivity. }
  reflexivity.
Qed.

(** X5.  A texture that is in none of the four slots is registered in the
    first slot that is free (holds 0): that slot receives the texture,
    the other slots are untouched, and the one device call made is
    [glUniform1i(locIndex, 1 + slot)]. *)
Theorem sampler_takes_first_free_slot (locIndex textureId : Z) (i : nat)
    (g : rlGraphicsData) :
  Z.of_nat (length (activeTextureId (State g))) = RL_DEFAULT_BATCH_MAX_TEXTURE_UNITS ->
  ~ In textureId (activeTextureId (State g)) ->
  first_free (activeTextureId (State g)) i ->
  rlSetUniformSampler locIndex textureId g =
    ([GlUniform1i locIndex (1 + Z.of_nat i)],
     upd_State (set_activeTextureId (<[i := textureId]> (activeTextureId (State g)))) g).
Proof.
  intros Hlen Hnot [Hfree Hfirst].
  destruct (four_slots _ Hlen) as (a & b & c & d & E).
  rewrite (rlSetUniformSampler_cases locIndex textureId a b c d g E).
  rewrite E in *. cbn [In] in Hnot.
  destruct (Z.eqb_spec a textureId) as [?|_]; [tauto|].
  destruct (Z.eqb_spec b textureId) as [?|_]; [tauto|].
  destruct (Z.eqb_spec c textureId) as [?|_]; [tauto|].
  destruct (Z.eqb_spec d textureId) as [?|_]; [tauto|].
  cbn [orb].
  destruct i as [|[|[|[|i]]]]; cbn in Hfree, Hfirst; try discriminate Hfree;
    injection Hfree as ->; cbn [Z.eqb].
  - reflexivity.
  - destruct (Z.eqb_spec a 0) as [?|_]; [tauto | reflexivity].
  - destruct (Z.eqb_spec a 0) as [?|_]; [tauto|].
    destruct (Z.eqb_spec b 0) as [?|_]; [tauto | reflexivity].
  - destruct (Z.eqb_spec a 0) as [?|_]; [tauto|].
    destruct (Z.eqb_spec b 0) as [?|_]; [tauto|].
    destruct (Z.eqb_spec c 0) as [?|_]; [tauto | reflexivity].
Qed.

Lemma sampler_takes_first_free_slot_witness :
  Z.of_nat (length (activeTextureId (State two_samplers)))
    = RL_DEFAULT_BATCH_MAX_TEXTURE_UNITS /\
  ~ In 12 (activeTextureId (State two_samplers)) /\
  first_free (activeTextureId (State two_samplers)) 2 /\
  rlSetUniformSampler 6 12 two_samplers =
    ([GlUniform1i 6 (1 + Z.of_nat 2)],
     upd_State (set_activeTextureId
                  (<[2%nat := 12]> (activeTextureId (State two_samplers))))
       two_samplers).
Proof.
  assert (H1 : Z.of_nat (length (activeTextureId (State two_samplers)))
               = RL_DEFAULT_BATCH_MAX_TEXTURE_UNITS) by (vm_compute; reflexivity).
  assert (H2 : ~ In 12 (activeTextureId (State two_samplers)))
    by (vm_compute; intuition discriminate).
  assert (H3 : first_free (activeTextureId (State two_samplers)) 2)
    by (split; [vm_compute; reflexivity | vm_compute; intuition discriminate]).
  exact (conj H1 (conj H2 (conj H3
    (sampler_takes_first_free_slot 6 12 2 two_samplers H1 H2 H3)))).
Defined.

(** X6.  [rlSetUniformSampler] registers nothing, makes no device call and
    reports nothing when the texture is in a slot already, and also when
    all four slots are taken by other textures: in that case the texture
    is dropped silently.  (Texture 0 counts as present as soon as a slot
    is free.) *)
Theorem sampler_not_registered (locIndex textureId : Z) (g : rlGraphicsData) :
  Z.of_nat (length (activeTextureId (State g))) = RL_DEFAULT_BATCH_MAX_TEXTURE_UNITS ->
  In textureId (activeTextureId (State g)) \/ ~ In 0 (activeTextureId (State g)) ->
  rlSetUniformSampler locIndex textureId g = ([], g).
Proof.
  intros Hlen Hcase.
  destruct (four_slots _ Hlen) as (a & b & c & d & E).
  rewrite (rlSetUniformSampler_cases locIndex textureId a b c d g E).
  rewrite E in Hcase. cbn [In] in Hcase.
  destruct (Z.eqb_spec a textureId); [reflexivity|].
  destruct (Z.eqb_spec b textureId); [reflexivity|].
  destruct (Z.eqb_spec c textureId); [reflexivity|].
  destruct (Z.eqb_spec d textureId); [reflexivity|].
  cbn [orb]. destruct Hcase as [Hin|Hfull]; [tauto|].
  destruct (Z.eqb_spec a 0); [tauto|]. destruct (Z.eqb_spec b 0); [tauto|].
  destruct (Z.eqb_spec c 0); [tauto|]. destruct (Z.eqb_spec d 0); [tauto|].
  reflexivity.
Qed.

Lemma sampler_not_registered_witness :
  Z.of_nat (length (activeTextureId (State four_samplers)))
    = RL_DEFAULT_BATCH_MAX_TEXTURE_UNITS /\
  (In 12 (activeTextureId (State four_samplers)) \/
   ~ In 0 (activeTextureId (State four_samplers))) /\
  rlSetUniformSampler 6 12 four_samplers = ([], four_samplers).
Proof.
  assert (H1 : Z.of_nat (length (activeTextureId (State four_samplers)))
               = RL_DEFAULT_BATCH_MAX_TEXTURE_UNITS) by (vm_compute; reflexivity).
  assert (H2 : In 12 (activeTextureId (State four_samplers)) \/
               ~ In 0 (activeTextureId (State four_samplers)))
    by (right; vm_compute; intuition discriminate).
  exact (conj H1 (conj H2 (sampler_not_registered 6 12 four_samplers H1 H2))).
Defined.

Section SlotInvariant.

Variable P : list rlTexture -> Prop.
Hypothesis P_cleared : forall l, P l -> P (cleared_slots l).

Lemma slots_flush (g : rlGraphicsData) :
  P (activeTextureId (State g)) -> P (activeTextureId (State (flush_current g))).
Proof.
  intros H. destruct (flush_current_shape g) as (vp & tr & ->).
  apply P_cleared, H.
Qed.

Lemma slots_check (n : Z) (g : rlGraphicsData) :
  P (activeTextureId (State g)) ->
  P (activeTextureId (State (snd (rlCheckRenderBatchLimit n g)))).
Proof.
  intros H. unfold rlCheckRenderBatchLimit. cbv zeta.
  destruct (_ >=? _); [|exact H].
  cbn [snd]. rewrite !store_draw_State. apply slots_flush, H.
Qed.

Lemma slots_close (d c : Z) (g : rlGraphicsData) :
  P (activeTextureId (State g)) ->
  P (activeTextureId (State (snd (close_draw d c g)))).
Proof.
  intros H. unfold close_draw. cbv zeta.
  set (g1 := store_draw d _ g).
  assert (H1 : P (activeTextureId (State g1)))
    by (subst g1; rewrite store_draw_State; exact H).
  clearbody g1.
  pose proof (slots_check (vertexAlignment (draw_at (currentBatch g1) d)) g1 H1) as H2.
  destruct (rlCheckRenderBatchLimit _ g1) as [overflow g2]. cbn [snd] in H2.
  destruct overflow; cbn [negb snd]; exact H2.
Qed.

Lemma slots_rlBegin (i m : Z) (g : rlGraphicsData) :
  P (activeTextureId (State g)) -> P (activeTextureId (State (rlBegin i m g))).
Proof.
  intros H. unfold rlBegin. cbv zeta.
  destruct (negb _); [|exact H].
  set (p := if i >? 0 then _ else _).
  assert (H1 : P (activeTextureId (State (snd p)))).
  { subst p. destruct (i >? 0); [apply slots_close, H | exact H]. }
  destruct p as [d g1]. cbn [snd] in H1.
  rewrite !store_draw_State.
  destruct (_ >=? _); [apply slots_flush|]; exact H1.
Qed.

Lemma slots_rlSetTexture (t : option rlTexture) (g : rlGraphicsData) :
  P (activeTextureId (State g)) -> P (activeTextureId (State (rlSetTexture t g))).
Proof.
  intros H. unfold rlSetTexture. destruct t as [t|].
  - cbv zeta. destruct (negb _); [|exact H].
    set (p := if _ >? 0 then _ else _).
    assert (H1 : P (activeTextureId (State (snd p)))).
    { subst p. destruct (_ >? 0); [apply slots_close, H | exact H]. }
    destruct p as [d g1]. cbn [snd] in H1.
    rewrite !store_draw_State.
    destruct (_ >=? _); [apply slots_flush|]; exact H1.
  - destruct (_ >=? _); [apply slots_flush|]; exact H.
Qed.

Lemma slots_rlVertex3f (x y z : float) (g : rlGraphicsData) :
  P (activeTextureId (State g)) -> P (activeTextureId (State (rlVertex3f x y z g))).
Proof.
  intros H. unfold rlVertex3f. cbv zeta.
  set (g1 := rlVertex3f_limit g).
  assert (H1 : P (activeTextureId (State g1))).
  { subst g1. unfold rlVertex3f_limit. cbv zeta.
    destruct (_ >? _); [|exact H].
    destruct (_ && _); [apply slots_check, H|].
    destruct (_ && _); [apply slots_check, H|].
    destruct (_ && _); [apply slots_check, H | exact H]. }
  clearbody g1.
  unfold rlVertex3f_write. cbv zeta.
  destruct (write_vertex _ _ _ _ _ _) as [vb evs].
  rewrite store_draw_State. exact H1.
Qed.

Lemma slots_assign (m : Matrix) (s : rlState) :
  activeTextureId (assign_currentMatrix m s) = activeTextureId s.
Proof. unfold assign_currentMatrix. destruct (currentMatrix s); reflexivity. Qed.

Lemma slots_step (o : op) (g : rlGraphicsData) :
  P (activeTextureId (State g)) -> P (activeTextureId (State (step o g))).
Proof.
  intros H. destruct o; cbn [step];
    try (unfold rlLoadIdentity, rlTranslatef, rlScalef, rlMultMatrixf, rlFrustum, rlOrtho;
         cbn [State upd_State set_State]; rewrite slots_assign; exact H).
  - apply slots_rlBegin, H.
  - exact H.
  - apply slots_rlVertex3f, H.
  - exact H.
  - exact H.
  - apply slots_rlSetTexture, H.
  - apply slots_check, H.
  - apply slots_flush, H.
  - unfold rlMatrixMode. cbv zeta.
    destruct (_ =? _); [exact H|]. destruct (_ =? _); exact H.
  - unfold rlPushMatrix, store_stack, TRACELOG. cbv zeta.
    destruct (_ >=? _); destruct (_ =? _); destruct (in_bounds _ _); exact H.
  - unfold rlPopMatrix. cbv zeta.
    set (g1 := if _ >? 0 then _ else g).
    assert (H1 : activeTextureId (State g1) = activeTextureId (State g)).
    { subst g1. destruct (_ >? 0); [|reflexivity].
      cbn [State upd_State set_State set_stackCounter activeTextureId].
      apply slots_assign. }
    clearbody g1. destruct (_ && _); cbn; rewrite H1; exact H.
Qed.

End SlotInvariant.

Lemma distinct_four (a b c d : Z) :
  distinct_samplers [a; b; c; d] <->
  (a = b -> a = 0) /\ (a = c -> a = 0) /\ (a = d -> a = 0) /\
  (b = c -> b = 0) /\ (b = d -> b = 0) /\ (c = d -> c = 0).
Proof.
  unfold distinct_samplers. split.
  - intros H.
    pose proof (H 0%nat 1%nat a) as H01. pose proof (H 0%nat 2%nat a) as H02.
    pose proof (H 0%nat 3%nat a) as H03. pose proof (H 1%nat 2%nat b) as H12.
    pose proof (H 1%nat 3%nat b) as H13. pose proof (H 2%nat 3%nat c) as H23.
    cbn in *.
    repeat split; intros E;
      [ destruct H01 as [?|?] | destruct H02 as [?|?] | destruct H03 as [?|?]
      | destruct H12 as [?|?] | destruct H13 as [?|?] | destruct H23 as [?|?] ];
      try congruence; try discriminate; auto.
  - intros (H1 & H2 & H3 & H4 & H5 & H6) i j t Hi Hj.
    destruct i as [|[|[|[|i]]]]; cbn in Hi; try discriminate Hi;
      destruct j as [|[|[|[|j]]]]; cbn in Hj; try discriminate Hj;
      injection Hi as Hi; injection Hj as Hj; subst;
      first [right; reflexivity | left; auto; symmetry; auto].
Qed.

Lemma sampler_keeps_distinct (loc t : Z) (g : rlGraphicsData) :
  Z.of_nat (length (activeTextureId (State g))) = RL_DEFAULT_BATCH_MAX_TEXTURE_UNITS /\
  distinct_samplers (activeTextureId (State g)) ->
  Z.of_nat (length (activeTextureId (State (snd (rlSetUniformSampler loc t g)))))
    = RL_DEFAULT_BATCH_MAX_TEXTURE_UNITS /\
  distinct_samplers (activeTextureId (State (snd (rlSetUniformSampler loc t g)))).
Proof.
  intros [Hlen Hd].
  destruct (four_slots _ Hlen) as (a & b & c & d & E).
  rewrite (rlSetUniformSampler_cases loc t a b c d g E).
  rewrite E in Hd. apply distinct_four in Hd.
  destruct (Z.eqb_spec a t); [cbn; rewrite E; split; [reflexivity | apply distinct_four, Hd]|].
  destruct (Z.eqb_spec b t); [cbn; rewrite E; split; [reflexivity | apply distinct_four, Hd]|].
  destruct (Z.eqb_spec c t); [cbn; rewrite E; split; [reflexivity | apply distinct_four, Hd]|].
  destruct (Z.eqb_spec d t); [cbn; rewrite E; split; [reflexivity | apply distinct_four, Hd]|].
  cbn [orb].
  destruct (Z.eqb_spec a 0);
    [cbn; split; [reflexivity | apply distinct_four; intuition congruence]|].
  destruct (Z.eqb_spec b 0);
    [cbn; split; [reflexivity | apply distinct_four; intuition congruence]|].
  destruct (Z.eqb_spec c 0);
    [cbn; split; [reflexivity | apply distinct_four; intuition congruence]|].
  destruct (Z.eqb_spec d 0);
    [cbn; split; [reflexivity | apply distinct_four; intuition congruence]|].
  cbn; rewrite E; split; [reflexivity | apply distinct_four, Hd].
Qed.

(** X7.  No texture is ever registered twice.  [rlglInit] leaves the
    sampler slots as it finds them (all 0 in the state a program starts
    with).  If no texture other than 0 occupies two of them then,
    through any session of drawing, matrix and [rlSetUniformSampler]
    calls that stores nothing outside an array, there are four slots
    and no texture other than 0 occupies two of them. *)
Theorem samplers_stay_distinct (n C white width height : Z) (g0 : rlGraphicsData)
    (ops : list shader_op) :
  state_arrays g0 ->
  distinct_samplers (activeTextureId (State g0)) ->
  stores_in_bounds (rlglInit n C white width height g0)
    (snd (shader_run ops ([], rlglInit n C white width height g0))) ->
  let g := snd (shader_run ops ([], rlglInit n C white width height g0)) in
  Z.of_nat (length (activeTextureId (State g))) = RL_DEFAULT_BATCH_MAX_TEXTURE_UNITS /\
  distinct_samplers (activeTextureId (State g)).
Proof.
  intros [_ Hlen] Hd _. cbv zeta.
  set (P := fun l : list rlTexture =>
              Z.of_nat (length l) = RL_DEFAULT_BATCH_MAX_TEXTURE_UNITS /\
              distinct_samplers l).
  assert (Hclear : forall l, P l -> P (cleared_slots l)).
  { intros l [Hl _]. rewrite (cleared_slots_four l Hl). split; [reflexivity|].
    apply distinct_four. tauto. }
  assert (Hrun : forall l st, P (activeTextureId (State (snd st))) ->
                   P (activeTextureId (State (snd (shader_run l st))))).
  { induction l as [|o l IH]; intros st Hst; [exact Hst|].
    change (shader_run (o :: l) st) with (shader_run l (shader_step o st)).
    apply IH. destruct o as [o|loc t]; cbn [shader_step].
    - cbn [snd]. apply (slots_step P Hclear), Hst.
    - pose proof (sampler_keeps_distinct loc t (snd st) Hst) as H.
      destruct (rlSetUniformSampler loc t (snd st)) as [calls g']. exact H. }
  apply (Hrun ops). cbn [snd].
  destruct (rlglInit_kept n C white width height g0) as (_ & _ & ->).
  split; assumption.
Qed.

Lemma samplers_stay_distinct_witness :
  state_arrays RLGH_zero /\
  distinct_samplers (activeTextureId (State RLGH_zero)) /\
  stores_in_bounds (rlglInit 1 2 9 640 480 RLGH_zero)
    (snd (shader_run sampler_session ([], rlglInit 1 2 9 640 480 RLGH_zero))) /\
  let g := snd (shader_run sampler_session ([], rlglInit 1 2 9 640 480 RLGH_zero)) in
  Z.of_nat (length (activeTextureId (State g))) = RL_DEFAULT_BATCH_MAX_TEXTURE_UNITS /\
  distinct_samplers (activeTextureId (State g)).
Proof.
  assert (H1 : state_arrays RLGH_zero) by (split; reflexivity).
  assert (H2 : distinct_samplers (activeTextureId (State RLGH_zero)))
    by (apply distinct_four; tauto).
  assert (H3 : stores_in_bounds (rlglInit 1 2 9 640 480 RLGH_zero)
                 (snd (shader_run sampler_session ([], rlglInit 1 2 9 640 480 RLGH_zero))))
    by (vm_compute; reflexivity).
  exact (conj H1 (conj H2 (conj H3
    (samplers_stay_distinct 1 2 9 640 480 RLGH_zero sampler_session H1 H2 H3)))).
Defined.

(** In that session the second registration of the texture 7 changes
    nothing, the draw clears the slots, and 8 then takes the first one. *)
Example sampler_session_sample :
  activeTextureId (State (snd (shader_run (take 4 sampler_session)
                                 ([], rlglInit 1 2 9 640 480 RLGH_zero)))) = [7; 8; 0; 0] /\
  activeTextureId (State (snd (shader_run sampler_session
                                 ([], rlglInit 1 2 9 640 480 RLGH_zero)))) = [8; 0; 0; 0].
Proof. vm_compute. split; reflexivity. Qed.

(* ------------------------------------------------------------------ *)
(** ** Blending *)

Lemma last_blend_func_app (calls new : list gl_call) :
  last_blend_func (calls ++ new) =
    match last_blend_func new with
    | Some c => Some c
    | None => last_blend_func calls
    end.
Proof.
  unfold last_blend_func. rewrite fold_left_app.
  generalize (fold_left (fun acc c => match c with
                                      | GlBlendFunc _ _ | GlBlendFuncSeparate _ _ _ _ => Some c
                                      | _ => acc end) calls None) as a.
  assert (H : forall l (a : option gl_call),
    fold_left (fun acc c => match c with
                            | GlBlendFunc _ _ | GlBlendFuncSeparate _ _ _ _ => Some c
                            | _ => acc end) l a =
    match fold_left (fun acc c => match c with
                                  | GlBlendFunc _ _ | GlBlendFuncSeparate _ _ _ _ => Some c
                                  | _ => acc end) l None with
    | Some c => Some c
    | None => a
    end).
  { induction l as [|c l IH]; intros a; [reflexivity|].
    cbn [fold_left]. rewrite IH. symmetry. rewrite IH. destruct c; reflexivity || (destruct (fold_left _ l None); reflexivity). }
  intros a. apply H.
Qed.

Lemma last_blend_equation_app (calls new : list gl_call) :
  last_blend_equation (calls ++ new) =
    match last_blend_equation new with
    | Some c => Some c
    | None => last_blend_equation calls
    end.
Proof.
  unfold last_blend_equation. rewrite fold_left_app.
  generalize (fold_left (fun acc c => match c with
                                      | GlBlendEquation _ | GlBlendEquationSeparate _ _ => Some c
                                      | _ => acc end) calls None) as a.
  assert (H : forall l (a : option gl_call),
    fold_left (fun acc c => match c with
                            | GlBlendEquation _ | GlBlendEquationSeparate _ _ => Some c
                            | _ => acc end) l a =
    match fold_left (fun acc c => match c with
                                  | GlBlendEquation _ | GlBlendEquationSeparate _ _ => Some c
                                  | _ => acc end) l None with
    | Some c => Some c
    | None => a
    end).
  { induction l as [|c l IH]; intros a; [reflexivity|].
    cbn [fold_left]. rewrite IH. symmetry. rewrite IH. destruct c; reflexivity || (destruct (fold_left _ l None); reflexivity). }
  intros a. apply H.
Qed.

Lemma synced_rlSetBlendMode (mode : Z) (calls : list gl_call)
    (bs : rlBlendState) (g : rlGraphicsData) :
  blend_synced calls bs ->
  blend_synced (calls ++ fst (rlSetBlendMode mode (bs, g)))
    (fst (snd (rlSetBlendMode mode (bs, g)))).
Proof.
  intros H. unfold rlSetBlendMode.
  destruct (negb _ || _).
  - cbv zeta. cbn [fst snd]. unfold blend_synced.
    cbn [currentBlendMode glBlendSrcFactor glBlendDstFactor glBlendEquation
         glBlendSrcFactorRGB glBlendDestFactorRGB glBlendSrcFactorAlpha
         glBlendDestFactorAlpha glBlendEquationRGB glBlendEquationAlpha
         glCustomBlendModeModified].
    intros _. rewrite last_blend_func_app, last_blend_equation_app.
    split; intros ->; split; reflexivity.
  - cbn [fst snd]. rewrite app_nil_r. exact H.
Qed.

Lemma synced_rlSetBlendFactors (s d e : Z) (calls : list gl_call) (bs : rlBlendState) :
  blend_synced calls bs -> blend_synced calls (rlSetBlendFactors s d e bs).
Proof.
  intros H. unfold rlSetBlendFactors.
  destruct (_ || _); [|exact H].
  unfold blend_synced. cbn [glCustomBlendModeModified]. discriminate.
Qed.

Lemma synced_rlSetBlendFactorsSeparate (a b c d e f : Z) (calls : list gl_call)
    (bs : rlBlendState) :
  blend_synced calls bs -> blend_synced calls (rlSetBlendFactorsSeparate a b c d e f bs).
Proof.
  intros H. unfold rlSetBlendFactorsSeparate.
  destruct (_ || _); [|exact H].
  unfold blend_synced. cbn [glCustomBlendModeModified]. discriminate.
Qed.

(** X9.  Custom blend factors are never stale.  From the zeroed blending
    variables, whatever device calls were made before and whatever
    sequence of [rlSetBlendMode], [rlSetBlendFactors],
    [rlSetBlendFactorsSeparate] and drawing calls follows: whenever the
    selected mode is RL_BLEND_CUSTOM (resp. RL_BLEND_CUSTOM_SEPARATE) and
    the factors are not marked as modified, the last blend function and
    the last blend equation handed to the device are exactly the factors
    and equation(s) stored in the state. *)
Theorem custom_blend_in_sync (before : list gl_call) (ops : list blend_op)
    (g : rlGraphicsData) :
  let r := blend_run ops (before, (blend_zero, g)) in
  blend_synced (fst r) (fst (snd r)).
Proof.
  cbv zeta.
  assert (Hrun : forall l st, blend_synced (fst st) (fst (snd st)) ->
                   blend_synced (fst (blend_run l st)) (fst (snd (blend_run l st)))).
  { induction l as [|o l IH]; intros st Hst; [exact Hst|].
    change (blend_run (o :: l) st) with (blend_run l (blend_step o st)).
    apply IH. destruct st as [calls [bs g0]]. cbn [fst snd] in Hst.
    destruct o as [o|mode|s d e|a b c d e f]; cbn [blend_step fst snd].
    - exact Hst.
    - pose proof (synced_rlSetBlendMode mode calls bs g0 Hst) as H.
      destruct (rlSetBlendMode mode (bs, g0)) as [new [bs' g']]. exact H.
    - apply synced_rlSetBlendFactors, Hst.
    - apply synced_rlSetBlendFactorsSeparate, Hst. }
  apply Hrun. cbn [fst snd]. unfold blend_synced. cbn. split; discriminate.
Qed.

(** X10.  [rlSetBlendMode] is idempotent: a second call with the same mode
    right after the first draws nothing, makes no device call and leaves
    the blending variables and the batch as they are. *)
Theorem blend_mode_idempotent (mode : Z) (st : rlBlendState * rlGraphicsData) :
  rlSetBlendMode mode (snd (rlSetBlendMode mode st)) = ([], snd (rlSetBlendMode mode st)).
Proof.
  destruct st as [bs g]. unfold rlSetBlendMode at 2 3.
  destruct (negb _ || _) eqn:E; cbv zeta; cbn [snd].
  - unfold rlSetBlendMode. cbn [currentBlendMode glCustomBlendModeModified].
    rewrite Z.eqb_refl, andb_false_r. reflexivity.
  - unfold rlSetBlendMode. rewrite E. reflexivity.
Qed.

(* ------------------------------------------------------------------ *)
(** ** Pixel data *)

Lemma bits_per_pixel_uncompressed (format : Z) :
  format < RL_PIXELFORMAT_COMPRESSED_DXT1_RGB ->
  exists bytes, 0 <= bytes /\ bits_per_pixel format = bytes * 8.
Proof.
  intros H. unfold bits_per_pixel, RL_PIXELFORMAT_COMPRESSED_DXT1_RGB in *.
  destruct (Z.eqb_spec format RL_PIXELFORMAT_UNCOMPRESSED_GRAYSCALE);
    [exists 1; lia|].
  destruct (_ || _); [exists 2; lia|].
  destruct (_ =? _); [exists 4; lia|].
  destruct (_ =? _); [exists 3; lia|].
  destruct (_ =? _); [exists 4; lia|].
  destruct (_ =? _); [exists 12; lia|].
  destruct (_ =? _); [exists 16; lia|].
  unfold RL_PIXELFORMAT_COMPRESSED_DXT1_RGBA, RL_PIXELFORMAT_COMPRESSED_ETC1_RGB,
    RL_PIXELFORMAT_COMPRESSED_ETC2_RGB, RL_PIXELFORMAT_COMPRESSED_PVRT_RGB,
    RL_PIXELFORMAT_COMPRESSED_PVRT_RGBA, RL_PIXELFORMAT_COMPRESSED_DXT3_RGBA,
    RL_PIXELFORMAT_COMPRESSED_DXT5_RGBA, RL_PIXELFORMAT_COMPRESSED_ETC2_EAC_RGBA,
    RL_PIXELFORMAT_COMPRESSED_ASTC_4x4_RGBA, RL_PIXELFORMAT_COMPRESSED_ASTC_8x8_RGBA.
  repeat match goal with
         | |- context [?a =? ?b] => destruct (Z.eqb_spec a b); [lia|]
         end.
  cbn [orb]. exists 0. lia.
Qed.

Lemma to_int_small (z : Z) : - INT_MAX - 1 <= z <= INT_MAX -> to_int z = z.
Proof.
  unfold to_int, INT_MAX, UINT_MODULUS. intros H.
  rewrite Z.mod_small by lia. lia.
Qed.

(** X11.  For the uncompressed formats (every format below
    RL_PIXELFORMAT_COMPRESSED_DXT1_RGB) and an image whose size in bits
    is an [int] (non-negative sides, [width * height * bpp <= INT_MAX]),
    the data size is the number of pixels times the size of one pixel:
    the division by 8 never truncates and small images get no minimum
    size. *)
Theorem uncompressed_size_is_linear (width height format : Z) :
  format < RL_PIXELFORMAT_COMPRESSED_DXT1_RGB ->
  0 <= width -> 0 <= height ->
  width * height <= INT_MAX ->
  width * height * bits_per_pixel format <= INT_MAX ->
  rlGetPixelDataSize width height format =
    width * height * rlGetPixelDataSize 1 1 format.
Proof.
  intros H Hw Hh Hwh Hbits.
  destruct (bits_per_pixel_uncompressed format H) as (bytes & Hb & E).
  assert (Hp : 0 <= width * height) by (apply Z.mul_nonneg_nonneg; assumption).
  assert (Hs : bytes <= 16).
  { unfold bits_per_pixel in E.
    repeat match type of E with
           | (if ?c then _ else _) = _ => destruct c; [lia|]
           end. lia. }
  unfold rlGetPixelDataSize. cbv zeta. rewrite E in *.
  assert (Hc1 : (format >=? RL_PIXELFORMAT_COMPRESSED_DXT1_RGB) = false).
  { destruct (Z.geb_spec format RL_PIXELFORMAT_COMPRESSED_DXT1_RGB); [lia | reflexivity]. }
  assert (Hc2 : (format >=? RL_PIXELFORMAT_COMPRESSED_DXT3_RGBA) = false).
  { unfold RL_PIXELFORMAT_COMPRESSED_DXT1_RGB, RL_PIXELFORMAT_COMPRESSED_DXT3_RGBA in *.
    destruct (Z.geb_spec format 14); [lia | reflexivity]. }
  rewrite Hc1, Hc2. cbn [andb].
  rewrite (to_int_small (width * height)) by (unfold INT_MAX in *; lia).
  rewrite (to_int_small (width * height * (bytes * 8)))
    by (unfold INT_MAX in *; split; [|exact Hbits];
        assert (0 <= width * height * (bytes * 8))
          by (apply Z.mul_nonneg_nonneg; lia); lia).
  rewrite (to_int_small (1 * 1)) by (unfold INT_MAX; lia).
  rewrite (to_int_small (1 * 1 * (bytes * 8))) by (unfold INT_MAX; lia).
  replace (width * height * (bytes * 8)) with (width * height * bytes * 8) by ring.
  replace (1 * 1 * (bytes * 8)) with (bytes * 8) by ring.
  rewrite !Z.quot_mul by lia.
  destruct (_ && _); destruct (_ && _); ring.
Qed.

Lemma uncompressed_size_is_linear_witness :
  RL_PIXELFORMAT_UNCOMPRESSED_R8G8B8 < RL_PIXELFORMAT_COMPRESSED_DXT1_RGB /\
  0 <= 3 /\ 0 <= 5 /\ 3 * 5 <= INT_MAX /\
  3 * 5 * bits_per_pixel RL_PIXELFORMAT_UNCOMPRESSED_R8G8B8 <= INT_MAX /\
  rlGetPixelDataSize 3 5 RL_PIXELFORMAT_UNCOMPRESSED_R8G8B8 =
    3 * 5 * rlGetPixelDataSize 1 1 RL_PIXELFORMAT_UNCOMPRESSED_R8G8B8.
Proof.
  assert (H1 : RL_PIXELFORMAT_UNCOMPRESSED_R8G8B8 < RL_PIXELFORMAT_COMPRESSED_DXT1_RGB)
    by (vm_compute; reflexivity).
  assert (H2 : 0 <= 3) by lia.
  assert (H3 : 0 <= 5) by lia.
  assert (H4 : 3 * 5 <= INT_MAX) by (vm_compute; discriminate).
  assert (H5 : 3 * 5 * bits_per_pixel RL_PIXELFORMAT_UNCOMPRESSED_R8G8B8 <= INT_MAX)
    by (vm_compute; discriminate).
  exact (conj H1 (conj H2 (conj H3 (conj H4 (conj H5
    (uncompressed_size_is_linear 3 5 RL_PIXELFORMAT_UNCOMPRESSED_R8G8B8
       H1 H2 H3 H4 H5)))))).
Defined.

(** Beyond that range the [int] product wraps around: a 32768 x 32768
    image of 32 bits per pixel gets the size 0. *)
Example pixel_size_wraps :
  rlGetPixelDataSize 32768 32768 RL_PIXELFORMAT_UNCOMPRESSED_R8G8B8A8 = 0 /\
  rlGetPixelDataSize 1 1 RL_PIXELFORMAT_UNCOMPRESSED_R8G8B8A8 = 4.
Proof. vm_compute. split; reflexivity. Qed.

(** X12.  The formats for which every image has size 0 are exactly the
    ones without a case in the switch: the values below 1 and above 22
    and RL_PIXELFORMAT_UNCOMPRESSED_R9G9B9E5, which is declared in the
    enumeration (32 bpp) but not handled. *)
Theorem size_zero_formats (format : Z) :
  (forall width height, rlGetPixelDataSize width height format = 0) <->
  (format < RL_PIXELFORMAT_UNCOMPRESSED_GRAYSCALE \/
   format = RL_PIXELFORMAT_UNCOMPRESSED_R9G9B9E5 \/
   RL_PIXELFORMAT_COMPRESSED_ASTC_8x8_RGBA < format).
Proof.
  unfold RL_PIXELFORMAT_UNCOMPRESSED_GRAYSCALE, RL_PIXELFORMAT_UNCOMPRESSED_R9G9B9E5,
    RL_PIXELFORMAT_COMPRESSED_ASTC_8x8_RGBA.
  split.
  - intros H.
    destruct (Z.lt_ge_cases format 1) as [?|H1]; [lia|].
    destruct (Z.lt_ge_cases 22 format) as [?|H2]; [lia|].
    destruct (Z.eq_dec format 8) as [?|H8]; [lia|].
    exfalso. specialize (H 4 4).
    assert (Hf : format = 1 \/ format = 2 \/ format = 3 \/ format = 4 \/ format = 5 \/
                 format = 6 \/ format = 7 \/ format = 9 \/ format = 10 \/ format = 11 \/
                 format = 12 \/ format = 13 \/ format = 14 \/ format = 15 \/
                 format = 16 \/ format = 17 \/ format = 18 \/ format = 19 \/
                 format = 20 \/ format = 21 \/ format = 22) by lia.
    repeat (destruct Hf as [->|Hf]; [vm_compute in H; discriminate H|]).
    subst format. vm_compute in H. discriminate H.
  - intros H width height.
    assert (Hb : bits_per_pixel format = 0).
    { unfold bits_per_pixel,
        RL_PIXELFORMAT_UNCOMPRESSED_GRAYSCALE, RL_PIXELFORMAT_UNCOMPRESSED_GRAY_ALPHA,
        RL_PIXELFORMAT_UNCOMPRESSED_R5G6B5, RL_PIXELFORMAT_UNCOMPRESSED_R8G8B8,
        RL_PIXELFORMAT_UNCOMPRESSED_R5G5B5A1, RL_PIXELFORMAT_UNCOMPRESSED_R4G4B4A4,
        RL_PIXELFORMAT_UNCOMPRESSED_R8G8B8A8, RL_PIXELFORMAT_UNCOMPRESSED_R32,
        RL_PIXELFORMAT_UNCOMPRESSED_R32G32B32, RL_PIXELFORMAT_UNCOMPRESSED_R32G32B32A32,
        RL_PIXELFORMAT_COMPRESSED_DXT1_RGB,
        RL_PIXELFORMAT_COMPRESSED_DXT1_RGBA, RL_PIXELFORMAT_COMPRESSED_ETC1_RGB,
        RL_PIXELFORMAT_COMPRESSED_ETC2_RGB, RL_PIXELFORMAT_COMPRESSED_PVRT_RGB,
        RL_PIXELFORMAT_COMPRESSED_PVRT_RGBA, RL_PIXELFORMAT_COMPRESSED_DXT3_RGBA,
        RL_PIXELFORMAT_COMPRESSED_DXT5_RGBA, RL_PIXELFORMAT_COMPRESSED_ETC2_EAC_RGBA,
        RL_PIXELFORMAT_COMPRESSED_ASTC_4x4_RGBA, RL_PIXELFORMAT_COMPRESSED_ASTC_8x8_RGBA.
      repeat match goal with
             | |- context [?a =? ?b] => destruct (Z.eqb_spec a b); [lia|]
             end.
      reflexivity. }
    unfold rlGetPixelDataSize. cbv zeta. rewrite Hb, Z.mul_0_r.
    change (Z.quot (to_int 0) 8) with 0.
    unfold RL_PIXELFORMAT_COMPRESSED_DXT1_RGB, RL_PIXELFORMAT_COMPRESSED_DXT3_RGBA,
      RL_PIXELFORMAT_COMPRESSED_ASTC_8x8_RGBA.
    destruct (_ && _); [|reflexivity].
    destruct (Z.geb_spec format 12), (Z.ltb_spec format 14),
             (Z.geb_spec format 14), (Z.ltb_spec format 22); cbn [andb]; lia.
Qed.

(* ------------------------------------------------------------------ *)
(** ** Reading the screen *)









Example screen_flip_sample :
  rlReadScreenPixels 2 3 sample_screen sample_block =
  [ 50; 51; 52; 255;  60; 61; 62; 255;
    30; 31; 32; 255;  40; 41; 42; 255;
    10; 11; 12; 255;  20; 21; 22; 255 ].
Proof. vm_compute. reflexivity. Qed.

(* ------------------------------------------------------------------ *)
(** ** Vertex offsets of the draw calls *)

Lemma span_ext (b b' : rlRenderBatch) (k : nat) :
  (forall j, 0 <= j < Z.of_nat k ->
     vertexCount (draw_at b' j) = vertexCount (draw_at b j) /\
     vertexAlignment (draw_at b' j) = vertexAlignment (draw_at b j)) ->
  span b' k = span b k.
Proof.
  induction k as [|k IH]; intros H; cbn [span]; [reflexivity|].
  rewrite IH by (intros j Hj; apply H; lia).
  destruct (H (Z.of_nat k)) as [-> ->]; [lia | reflexivity].
Qed.


Lemma accounted_same_view (g g' : rlGraphicsData) :
  same_view g g' -> accounted g -> accounted g'.
Proof.
  intros (Hd & Hdc & _ & _ & _ & Hvc) H. unfold accounted, current_draw in *.
  rewrite Hdc, Hvc, <- H. f_equal.
  - apply span_ext. intros j _. unfold draw_at. rewrite Hd. auto.
  - unfold draw_at. rewrite Hd. reflexivity.
Qed.

(** A store to an entry that keeps its vertex count, and its alignment
    unless the entry is the open one or one above it. *)
Lemma accounted_store (i : Z) (f : rlDrawCall -> rlDrawCall) (g : rlGraphicsData) :
  vertexCount (f (draw_at (currentBatch g) i)) = vertexCount (draw_at (currentBatch g) i) ->
  (i < drawCounter (currentBatch g) - 1 ->
   vertexAlignment (f (draw_at (currentBatch g) i))
     = vertexAlignment (draw_at (currentBatch g) i)) ->
  accounted g -> accounted (store_draw i f g).
Proof.
  intros Hc Ha H.
  destruct (store_draw_frame i f g) as (Hs & Hdc & _ & _ & _ & _ & Hd).
  unfold accounted, current_draw in *. rewrite Hs, Hdc, <- H. f_equal.
  - apply span_ext. intros j Hj.
    destruct (Hd j) as [->|(-> & _ & ->)]; [auto|].
    split; [exact Hc | apply Ha; lia].
  - destruct (Hd (drawCounter (currentBatch g) - 1)) as [->|(<- & _ & ->)];
      [reflexivity | exact Hc].
Qed.

Lemma accounted_flush (g : rlGraphicsData) :
  Z.of_nat (length (draws (currentBatch g))) = RL_DEFAULT_BATCH_DRAWCALLS ->
  accounted (flush_current g).
Proof.
  intros Hlen.
  destruct (flush_current_spec g Hlen) as (Hvc & _ & Hdc & _ & _ & _ & _ & Hd).
  unfold accounted, current_draw. rewrite Hvc, Hdc.
  change (Z.to_nat (1 - 1)) with 0%nat. cbn [span].
  rewrite Hd by (unfold RL_DEFAULT_BATCH_DRAWCALLS; lia). reflexivity.
Qed.

Lemma accounted_fresh (C : Z) (g : rlGraphicsData) : fresh C g -> accounted g.
Proof.
  intros (_ & Hvc & Hdc & Hz). unfold accounted, current_draw.
  rewrite Hvc, Hdc, Hz. reflexivity.
Qed.

Lemma accounted_check (C n : Z) (g : rlGraphicsData) :
  batch_inv C g -> accounted g -> accounted (snd (rlCheckRenderBatchLimit n g)).
Proof.
  intros (Hlay & Hdc & _) H.
  destruct (check_spec C n g Hlay ltac:(lia)) as [(_ & Hf & _)|(-> & _)].
  - apply (accounted_fresh C), Hf.
  - exact H.
Qed.

(** The block shared by [rlBegin] and [rlSetTexture], followed by the
    test on the length of the table. *)
Lemma accounted_close (C cnt : Z) (g : rlGraphicsData) :
  batch_inv C g -> accounted g -> 0 < cnt ->
  let r := close_draw (drawCounter (currentBatch g) - 1) cnt g in
  let g2 := if drawCounter (currentBatch (snd r)) >=? RL_DEFAULT_BATCH_DRAWCALLS
            then flush_current (snd r) else snd r in
  accounted g2.
Proof.
  intros Hinv Hacc Hcnt.
  assert (Hdc : 1 <= drawCounter (currentBatch g) < RL_DEFAULT_BATCH_DRAWCALLS)
    by (destruct Hinv as (_ & ? & _); assumption).
  assert (Hlen : Z.of_nat (length (draws (currentBatch g))) = RL_DEFAULT_BATCH_DRAWCALLS)
    by (destruct Hinv as ((? & _) & _); assumption).
  unfold close_draw. cbv zeta.
  set (idx := drawCounter (currentBatch g) - 1).
  set (a := alignment_for (mode (draw_at (currentBatch g) idx)) cnt).
  assert (Ha : 0 <= a) by (apply alignment_for_nonneg, Hcnt). clearbody a.
  assert (Hinv1 : batch_inv C (store_draw idx (set_vertexAlignment a) g))
    by (apply inv_store; [auto | left; split; reflexivity | exact Hinv]).
  assert (Hacc1 : accounted (store_draw idx (set_vertexAlignment a) g)).
  { apply accounted_store; [reflexivity | subst idx; lia | exact Hacc]. }
  destruct (store_draw_spec idx (set_vertexAlignment a) g)
    as (Hs & _ & Hdc1 & _ & _ & _ & Hl1 & He & _); [subst idx; lia|].
  assert (Hal : vertexAlignment (draw_at (currentBatch (store_draw idx (set_vertexAlignment a) g)) idx) = a)
    by (rewrite He; reflexivity).
  clear He.
  set (g1 := store_draw idx (set_vertexAlignment a) g) in *. clearbody g1.
  rewrite Hal.
  assert (Hlay1 : layout C g1) by (destruct Hinv1 as (? & _); assumption).
  destruct (check_spec C a g1 Hlay1 ltac:(lia)) as [(Ho & Hfresh & _)|(Heq & Hfit)].
  - destruct (rlCheckRenderBatchLimit a g1) as [o g2]. cbn [fst snd] in *. subst o.
    cbn [negb fst snd].
    pose proof Hfresh as (Hlay2 & Hvc2 & Hdc2 & Hz2).
    rewrite Hdc2. change (1 >=? RL_DEFAULT_BATCH_DRAWCALLS) with false. cbv iota.
    apply (accounted_fresh C), Hfresh.
  - rewrite Heq. cbn [negb fst snd].
    set (g2 := upd_batch _ (upd_State _ g1)).
    assert (Hd2 : draws (currentBatch g2) = draws (currentBatch g1)) by reflexivity.
    assert (Hdc2 : drawCounter (currentBatch g2) = drawCounter (currentBatch g1) + 1)
      by reflexivity.
    assert (Hvc2 : vertexCounter (State g2) = vertexCounter (State g1) + a)
      by (subst g2; cbn; rewrite Hal; reflexivity).
    clearbody g2.
    destruct (Z.geb_spec (drawCounter (currentBatch g2)) RL_DEFAULT_BATCH_DRAWCALLS)
      as [Hfull|Hroom].
    + apply accounted_flush. rewrite Hd2, Hl1. exact Hlen.
    + destruct Hinv1 as (_ & _ & Hrest1 & _).
      unfold accounted, current_draw in *.
      rewrite Hdc2, Hvc2, <- Hacc1.
      replace (drawCounter (currentBatch g1) + 1 - 1) with (drawCounter (currentBatch g1))
        by lia.
      replace (Z.to_nat (drawCounter (currentBatch g1)))
        with (Datatypes.S (Z.to_nat (drawCounter (currentBatch g1) - 1))) by lia.
      cbn [span]. rewrite Z2Nat.id by lia.
      assert (Hat : forall j, draw_at (currentBatch g2) j = draw_at (currentBatch g1) j)
        by (intros j; unfold draw_at; rewrite Hd2; reflexivity).
      rewrite (span_ext (currentBatch g1) (currentBatch g2))
        by (intros j _; rewrite Hat; auto).
      rewrite !Hat. rewrite (Hrest1 (drawCounter (currentBatch g1))) by lia.
      rewrite Hdc1. fold idx. rewrite Hal. lia.
Qed.

Lemma accounted_rlBegin (C i m : Z) (g : rlGraphicsData) :
  0 < i -> batch_inv C g -> accounted g -> accounted (rlBegin i m g).
Proof.
  intros Hi Hinv Hacc. unfold rlBegin.
  destruct (negb _); [|exact Hacc]. cbv zeta.
  destruct (Z.gtb_spec i 0) as [_|?]; [|lia].
  pose proof (accounted_close C i g Hinv Hacc Hi) as H. cbv zeta in H.
  destruct (close_draw (drawCounter (currentBatch g) - 1) i g) as [d g1].
  cbn [fst snd] in H.
  set (g2 := if _ >=? _ then _ else g1) in *. clearbody g2.
  apply accounted_store; [reflexivity | reflexivity |].
  apply accounted_store; [reflexivity | reflexivity | exact H].
Qed.

Lemma accounted_rlSetTexture (C : Z) (t : option rlTexture) (g : rlGraphicsData) :
  batch_inv C g -> accounted g -> accounted (rlSetTexture t g).
Proof.
  intros Hinv Hacc. unfold rlSetTexture. destruct t as [t|].
  - destruct (negb _); [|exact Hacc]. cbv zeta.
    fold (current_draw (currentBatch g)).
    assert (Hstores : forall d g2,
              accounted g2 -> vertexCount (draw_at (currentBatch g2) d) = 0 ->
              accounted (store_draw d (set_vertexCount 0) (store_draw d (set_texture t) g2))).
    { intros d g2 Hacc2 Hz.
      assert (Hz1 : vertexCount (draw_at (currentBatch (store_draw d (set_texture t) g2)) d)
                    = 0).
      { destruct (store_draw_frame d (set_texture t) g2) as (_ & _ & _ & _ & _ & _ & Hd).
        destruct (Hd d) as [->|(_ & _ & ->)]; exact Hz. }
      apply accounted_store; [cbn; symmetry; exact Hz1 | reflexivity |].
      apply accounted_store; [reflexivity | reflexivity | exact Hacc2]. }
    destruct (Z.gtb_spec (vertexCount (current_draw (currentBatch g))) 0) as [Hpos|Hzero].
    + pose proof (close_block C _ g Hinv Hpos) as H. cbv zeta in H.
      pose proof (accounted_close C _ g Hinv Hacc Hpos) as H'. cbv zeta in H'.
      destruct (close_draw (drawCounter (currentBatch g) - 1)
                  (vertexCount (current_draw (currentBatch g))) g) as [d g1].
      cbn [fst snd] in H, H'. destruct H as (_ & _ & Hz).
      set (g2 := if _ >=? _ then _ else g1) in *. clearbody g2.
      apply Hstores; assumption.
    + destruct Hinv as (Hlay & Hdc & Hrest & Hvc & Hc & Hgrp).
      destruct (Z.geb_spec (drawCounter (currentBatch g)) RL_DEFAULT_BATCH_DRAWCALLS);
        [lia|].
      apply Hstores; [exact Hacc|]. unfold current_draw in *. lia.
  - destruct (_ >=? _); [|exact Hacc].
    apply accounted_flush. destruct Hinv as ((? & _) & _). assumption.
Qed.

Lemma accounted_limit (C : Z) (g : rlGraphicsData) :
  batch_inv C g -> accounted g -> accounted (rlVertex3f_limit g).
Proof.
  intros Hinv Hacc. unfold rlVertex3f_limit. cbv zeta.
  destruct (_ >? _); [|exact Hacc].
  destruct (_ && _); [apply (accounted_check C); assumption|].
  destruct (_ && _); [apply (accounted_check C); assumption|].
  destruct (_ && _); [apply (accounted_check C); assumption | exact Hacc].
Qed.

Lemma accounted_write (C : Z) (tx ty tz : float) (g : rlGraphicsData) :
  batch_inv C g -> accounted g -> accounted (rlVertex3f_write tx ty tz g).
Proof.
  intros (Hlay & Hdc & _) Hacc.
  unfold rlVertex3f_write. cbv zeta.
  destruct (write_vertex _ _ _ _ _ _) as [vb evs].
  set (g2 := upd_State _ (set_trace _ (upd_batch _ g))).
  assert (Hd2 : draws (currentBatch g2) = draws (currentBatch g)) by reflexivity.
  assert (Hdc2 : drawCounter (currentBatch g2) = drawCounter (currentBatch g)) by reflexivity.
  assert (Hvc2 : vertexCounter (State g2) = vertexCounter (State g) + 1) by reflexivity.
  clearbody g2.
  destruct Hlay as (Hlen & _).
  set (idx := drawCounter (currentBatch g) - 1).
  destruct (store_draw_spec idx (fun d => set_vertexCount (vertexCount d + 1) d) g2)
    as (Hs & _ & Hdc3 & _ & _ & _ & _ & He3 & Hn3);
    [rewrite Hd2; subst idx; lia|].
  set (g3 := store_draw idx _ g2) in *. clearbody g3.
  assert (Hat : forall j, draw_at (currentBatch g2) j = draw_at (currentBatch g) j)
    by (intros j; unfold draw_at; rewrite Hd2; reflexivity).
  unfold accounted, current_draw in *.
  rewrite Hs, Hdc3, Hdc2, Hvc2, <- Hacc. fold idx.
  rewrite He3, Hat. cbn [vertexCount set_vertexCount].
  rewrite (span_ext (currentBatch g) (currentBatch g3)); [lia|].
  intros j Hj. rewrite Hn3, Hat by (subst idx; lia). auto.
Qed.

Lemma accounted_step (C : Z) (o : op) (g : rlGraphicsData) :
  1 <= C -> regular o -> batch_inv C g -> accounted g -> accounted (step o g).
Proof.
  intros HC Hreg Hinv Hacc.
  pose proof (same_view_matrix_op o g) as Hview.
  destruct o; cbn [step] in *;
    try (eapply accounted_same_view; [exact Hview | exact Hacc]).
  - destruct Hreg as [Hi Hm]. apply (accounted_rlBegin C); assumption.
  - unfold rlVertex3f. cbv zeta.
    destruct (inv_limit C g HC Hinv) as (Hinv1 & _ & _).
    apply (accounted_write C); [exact Hinv1|].
    apply (accounted_limit C); assumption.
  - apply (accounted_rlSetTexture C); assumption.
  - apply (accounted_check C); assumption.
  - apply accounted_flush. destruct Hinv as ((? & _) & _). assumption.
Qed.

(** The invariants after a session of regular calls. *)
Lemma regular_run (C : Z) (ops : list op) (g : rlGraphicsData) :
  1 <= C -> Forall regular ops -> batch_inv C g -> accounted g ->
  batch_inv C (run ops g) /\ accounted (run ops g).
Proof.
  intros HC Hreg. revert g.
  induction Hreg as [|o ops Ho Hops IH]; intros g Hinv Hacc; [split; assumption|].
  change (run (o :: ops) g) with (run ops (step o g)).
  apply IH; [apply inv_step | apply (accounted_step C)]; assumption.
Qed.

Lemma rlglInit_accounted (n C white width height : Z) (g : rlGraphicsData) :
  1 <= n -> accounted (rlglInit n C white width height g).
Proof.
  intros Hn.
  eapply accounted_same_view; [apply rlglInit_view|].
  apply (accounted_fresh C), load_batch_fresh, Hn.
Qed.

(** X14.  The counters of the batch stay in range.  After [rlglInit] with
    at least one buffer of at least one quad, whatever regular calls
    follow (every [rlBegin] is given LINES, TRIANGLES or QUADS and finds a
    positive value in its local): the draw-call table keeps its 256
    entries and the draw counter stays between 1 and 255, so that the
    open entry [draws[drawCounter - 1]] is always inside the table; the
    vertex counter stays between 0 and [4 * elementCount]; and the
    current buffer is one of the buffers of the batch. *)
Theorem regular_session_bounds (n C white width height : Z) (g0 : rlGraphicsData)
    (ops : list op) :
  1 <= n -> 1 <= C -> Forall regular ops ->
  let g := run ops (rlglInit n C white width height g0) in
  Z.of_nat (length (draws (currentBatch g))) = RL_DEFAULT_BATCH_DRAWCALLS /\
  1 <= drawCounter (currentBatch g) < RL_DEFAULT_BATCH_DRAWCALLS /\
  0 <= vertexCounter (State g) <= 4 * elementCount (current_buffer (currentBatch g)) /\
  0 <= currentBuffer (currentBatch g) < bufferCount (currentBatch g).
Proof.
  intros Hn HC Hreg. cbv zeta.
  destruct (regular_run C ops (rlglInit n C white width height g0) HC Hreg)
    as [Hinv _]; [apply rlglInit_inv; lia | apply rlglInit_accounted, Hn|].
  destruct Hinv as (Hlay & Hdc & _ & Hvc & _).
  rewrite (current_buffer_capacity C _ Hlay).
  destruct Hlay as (Hlen & Hcur & _).
  auto.
Qed.

Lemma regular_session_bounds_witness :
  1 <= 1 /\ 1 <= 2 /\ Forall regular sample_session /\
  let g := run sample_session (rlglInit 1 2 9 640 480 RLGH_zero) in
  Z.of_nat (length (draws (currentBatch g))) = RL_DEFAULT_BATCH_DRAWCALLS /\
  1 <= drawCounter (currentBatch g) < RL_DEFAULT_BATCH_DRAWCALLS /\
  0 <= vertexCounter (State g) <= 4 * elementCount (current_buffer (currentBatch g)) /\
  0 <= currentBuffer (currentBatch g) < bufferCount (currentBatch g).
Proof.
  assert (H1 : 1 <= 1) by lia.
  assert (H2 : 1 <= 2) by lia.
  assert (H3 : Forall regular sample_session)
    by (repeat constructor; cbn; unfold valid_mode; auto).
  exact (conj H1 (conj H2 (conj H3
    (regular_session_bounds 1 2 9 640 480 RLGH_zero sample_session H1 H2 H3)))).
Defined.



(* ------------------------------------------------------------------ *)
(** ** Changing the texture of a draw call that holds vertices *)

(** The ordinary path of [rlSetTexture]: the aligned vertices fit in the
    buffer and the table is not full. *)
Lemma rlSetTexture_opens (C : Z) (t : rlTexture) (g : rlGraphicsData) :
  batch_inv C g ->
  texture (current_draw (currentBatch g)) <> t ->
  0 < vertexCount (current_draw (currentBatch g)) ->
  vertexCounter (State g)
  + alignment_for (mode (current_draw (currentBatch g)))
      (vertexCount (current_draw (currentBatch g))) < 4 * C ->
  drawCounter (currentBatch g) + 1 < RL_DEFAULT_BATCH_DRAWCALLS ->
  let g' := rlSetTexture (Some t) g in
  trace g' = trace g /\
  drawCounter (currentBatch g') = drawCounter (currentBatch g) + 1 /\
  vertexCounter (State g') =
    vertexCounter (State g)
    + alignment_for (mode (current_draw (currentBatch g)))
        (vertexCount (current_draw (currentBatch g))) /\
  texture (current_draw (currentBatch g')) = t /\
  vertexCount (current_draw (currentBatch g')) = 0.
Proof.
  intros Hinv Htex Hcount Hfit Hroom. cbv zeta.
  assert (Hdc : 1 <= drawCounter (currentBatch g) < RL_DEFAULT_BATCH_DRAWCALLS)
    by (destruct Hinv as (_ & ? & _); assumption).
  assert (Hlen : Z.of_nat (length (draws (currentBatch g))) = RL_DEFAULT_BATCH_DRAWCALLS)
    by (destruct Hinv as ((? & _) & _); assumption).
  unfold rlSetTexture. fold (current_draw (currentBatch g)).
  destruct (Z.eqb_spec (texture (current_draw (currentBatch g))) t) as [?|_];
    [contradiction|].
  cbn [negb]. cbv zeta.
  destruct (Z.gtb_spec (vertexCount (current_draw (currentBatch g))) 0); [|lia].
  unfold close_draw. cbv zeta. fold (current_draw (currentBatch g)).
  set (idx := drawCounter (currentBatch g) - 1).
  set (a := alignment_for (mode (current_draw (currentBatch g)))
              (vertexCount (current_draw (currentBatch g)))) in *.
  assert (Hinv1 : batch_inv C (store_draw idx (set_vertexAlignment a) g))
    by (apply inv_store; [auto | left; split; reflexivity | exact Hinv]).
  destruct (store_draw_spec idx (set_vertexAlignment a) g)
    as (Hs & Htr & Hdc1 & _ & _ & _ & Hlen1 & He & _); [subst idx; lia|].
  assert (Hal : vertexAlignment
                  (draw_at (currentBatch (store_draw idx (set_vertexAlignment a) g)) idx) = a)
    by (rewrite He; reflexivity).
  clear He. clearbody a.
  set (g1 := store_draw idx (set_vertexAlignment a) g) in *. clearbody g1.
  rewrite Hal.
  assert (Hlay1 : layout C g1) by (destruct Hinv1 as (? & _); assumption).
  destruct (check_spec C a g1 Hlay1 ltac:(lia)) as [(_ & _ & Hge)|(Heq & _)];
    [rewrite Hs in Hge; lia|].
  rewrite Heq. cbn [negb].
  cbn [upd_batch upd_State currentBatch set_currentBatch set_State drawCounter
       set_drawCounter State].
  rewrite Hdc1.
  destruct (Z.geb_spec (drawCounter (currentBatch g) + 1) RL_DEFAULT_BATCH_DRAWCALLS);
    [lia|].
  replace (drawCounter (currentBatch g) + 1 - 1) with (drawCounter (currentBatch g))
    by lia.
  set (g2 := upd_batch _ (upd_State _ g1)).
  assert (H2 : State g2 = set_vertexCounter (vertexCounter (State g1) + a) (State g1) /\
               trace g2 = trace g1 /\
               drawCounter (currentBatch g2) = drawCounter (currentBatch g) + 1 /\
               length (draws (currentBatch g2)) = length (draws (currentBatch g1))).
  { subst g2. unfold upd_batch, upd_State.
    cbn [currentBatch set_currentBatch set_State drawCounter set_drawCounter State
         trace draws].
    rewrite Hal, Hdc1. repeat split; reflexivity. }
  clearbody g2. destruct H2 as (Hs2 & Htr2 & Hdc2 & Hlen2).
  destruct (store_draw_spec (drawCounter (currentBatch g)) (set_texture t) g2)
    as (Hs3 & Htr3 & Hdc3 & _ & _ & _ & Hlen3 & He3 & _); [lia|].
  set (g3 := store_draw (drawCounter (currentBatch g)) (set_texture t) g2) in *.
  clearbody g3.
  destruct (store_draw_spec (drawCounter (currentBatch g)) (set_vertexCount 0) g3)
    as (Hs4 & Htr4 & Hdc4 & _ & _ & _ & _ & He4 & _); [lia|].
  unfold current_draw. rewrite Hs4, Htr4, Hdc4, Hs3, Htr3, Hdc3, Hs2, Htr2, Hdc2, Hs, Htr.
  replace (drawCounter (currentBatch g) + 1 - 1) with (drawCounter (currentBatch g))
    by lia.
  rewrite He4, He3.
  repeat split; reflexivity.
Qed.

(** X15.  Changing the texture in the middle of a batch.  At any point
    of a regular session, [rlSetTexture] with a texture other than the
    one of the open draw call, when that draw call holds vertices,
    records on it the alignment computed from its own vertex count (for
    LINES the count below 4 and the count modulo 4 otherwise, for
    TRIANGLES 1 below 4 and 4 minus the count modulo 4 otherwise, 0 for
    QUADS), whether the batch has to be drawn or not.  When the aligned
    vertices fit in the buffer and the table is not full, nothing is
    drawn: the next entry is opened with the new texture and no vertex,
    and the vertex counter advances by the alignment. *)
Theorem texture_switch_opens_draw (n C white width height : Z) (g0 : rlGraphicsData)
    (ops : list op) (t : rlTexture) :
  1 <= n -> 1 <= C -> Forall regular ops ->
  texture (current_draw (currentBatch
    (run ops (rlglInit n C white width height g0)))) <> t ->
  0 < vertexCount (current_draw (currentBatch
    (run ops (rlglInit n C white width height g0)))) ->
  let g := run ops (rlglInit n C white width height g0) in
  let a := alignment_for (mode (current_draw (currentBatch g)))
             (vertexCount (current_draw (currentBatch g))) in
  let g' := rlSetTexture (Some t) g in
  alignment_at g' (drawCounter (currentBatch g) - 1) = a /\
  (vertexCounter (State g) + a < 4 * C ->
   drawCounter (currentBatch g) + 1 < RL_DEFAULT_BATCH_DRAWCALLS ->
   trace g' = trace g /\
   drawCounter (currentBatch g') = drawCounter (currentBatch g) + 1 /\
   vertexCounter (State g') = vertexCounter (State g) + a /\
   texture (current_draw (currentBatch g')) = t /\
   vertexCount (current_draw (currentBatch g')) = 0).
Proof.
  intros Hn HC Hreg Htex Hcount. cbv zeta.
  destruct (regular_run C ops (rlglInit n C white width height g0) HC Hreg)
    as [Hinv _]; [apply rlglInit_inv; lia | apply rlglInit_accounted, Hn|].
  split.
  - apply setTexture_alignment; [|exact Htex | exact Hcount].
    destruct Hinv as ((Hlen & _) & Hdc & _). lia.
  - intros Hfit Hroom.
    exact (rlSetTexture_opens C t _ Hinv Htex Hcount Hfit Hroom).
Qed.

Lemma texture_switch_opens_draw_witness :
  1 <= 1 /\ 1 <= 4 /\
  Forall regular [OpBegin 1 RL_TRIANGLES; a_vertex; a_vertex; a_vertex; a_vertex; a_vertex] /\
  texture (current_draw (currentBatch
    (run [OpBegin 1 RL_TRIANGLES; a_vertex; a_vertex; a_vertex; a_vertex; a_vertex]
       (rlglInit 1 4 9 640 480 RLGH_zero)))) <> 5 /\
  0 < vertexCount (current_draw (currentBatch
    (run [OpBegin 1 RL_TRIANGLES; a_vertex; a_vertex; a_vertex; a_vertex; a_vertex]
       (rlglInit 1 4 9 640 480 RLGH_zero)))) /\
  let g := run [OpBegin 1 RL_TRIANGLES; a_vertex; a_vertex; a_vertex; a_vertex; a_vertex]
             (rlglInit 1 4 9 640 480 RLGH_zero) in
  let a := alignment_for (mode (current_draw (currentBatch g)))
             (vertexCount (current_draw (currentBatch g))) in
  let g' := rlSetTexture (Some 5) g in
  alignment_at g' (drawCounter (currentBatch g) - 1) = a /\
  (vertexCounter (State g) + a < 4 * 4 ->
   drawCounter (currentBatch g) + 1 < RL_DEFAULT_BATCH_DRAWCALLS ->
   trace g' = trace g /\
   drawCounter (currentBatch g') = drawCounter (currentBatch g) + 1 /\
   vertexCounter (State g') = vertexCounter (State g) + a /\
   texture (current_draw (currentBatch g')) = 5 /\
   vertexCount (current_draw (currentBatch g')) = 0).
Proof.
  assert (H1 : 1 <= 1) by lia.
  assert (H2 : 1 <= 4) by lia.
  assert (H3 : Forall regular
                 [OpBegin 1 RL_TRIANGLES; a_vertex; a_vertex; a_vertex; a_vertex; a_vertex])
    by (repeat constructor; cbn; unfold valid_mode; auto).
  assert (H4 : texture (current_draw (currentBatch
                 (run [OpBegin 1 RL_TRIANGLES; a_vertex; a_vertex; a_vertex; a_vertex;
                       a_vertex] (rlglInit 1 4 9 640 480 RLGH_zero)))) <> 5)
    by (vm_compute; discriminate).
  assert (H5 : 0 < vertexCount (current_draw (currentBatch
                 (run [OpBegin 1 RL_TRIANGLES; a_vertex; a_vertex; a_vertex; a_vertex;
                       a_vertex] (rlglInit 1 4 9 640 480 RLGH_zero)))))
    by (vm_compute; reflexivity).
  exact (conj H1 (conj H2 (conj H3 (conj H4 (conj H5
    (texture_switch_opens_draw 1 4 9 640 480 RLGH_zero
       [OpBegin 1 RL_TRIANGLES; a_vertex; a_vertex; a_vertex; a_vertex; a_vertex]
       5 H1 H2 H3 H4 H5)))))).
Defined.

(** In that session [rlBegin], finding 1 in its local, has opened the
    second entry for the triangles; the five triangle vertices get the
    alignment 3 and the third entry is opened at vertex 8. *)
Example texture_switch_sample :
  let g := run [OpBegin 1 RL_TRIANGLES; a_vertex; a_vertex; a_vertex; a_vertex; a_vertex]
             (rlglInit 1 4 9 640 480 RLGH_zero) in
  let g' := rlSetTexture (Some 5) g in
  (vertexCounter (State g), drawCounter (currentBatch g)) = (5, 2) /\
  alignment_at g' 1 = 3 /\
  (vertexCounter (State g'), drawCounter (currentBatch g')) = (8, 3) /\
  texture (current_draw (currentBatch g')) = 5.
Proof. vm_compute. repeat split; reflexivity. Qed.


(* ------------------------------------------------------------------ *)
(** ** Drawing an empty batch *)

Lemma draw_eye_body_idle (batch : rlRenderBatch) (eyeCount : Z) (mv : Matrix) (eye : Z)
    (g : rlGraphicsData) :
  vertexCounter (State g) <= 0 ->
  trace (draw_eye_body batch eyeCount mv eye g) = trace g /\
  vertexCounter (State (draw_eye_body batch eyeCount mv eye g)) = vertexCounter (State g).
Proof.
  intros Hvc. unfold draw_eye_body.
  set (g1 := if eyeCount =? 2 then _ else g).
  assert (H1 : trace g1 = trace g /\ vertexCounter (State g1) = vertexCounter (State g))
    by (subst g1; destruct (eyeCount =? 2); split; reflexivity).
  clearbody g1. destruct H1 as [Ht Hv].
  destruct (Z.gtb_spec (vertexCounter (State g1)) 0) as [?|_]; [lia|].
  split; assumption.
Qed.

(** X17.  Drawing a batch in which no vertex is pending is silent: no
    buffer is uploaded, no matrix is sent, no texture is bound and no
    draw call is issued, with stereo rendering on or off.  The batch is
    reset all the same, and its current buffer still advances to the
    next one (back to 0 after the last). *)
Theorem empty_draw_is_silent (batch : rlRenderBatch) (g : rlGraphicsData) :
  vertexCounter (State g) <= 0 ->
  trace (snd (rlDrawRenderBatch batch g)) = trace g /\
  currentBuffer (fst (rlDrawRenderBatch batch g)) =
    (if currentBuffer batch + 1 >=? bufferCount batch then 0 else currentBuffer batch + 1).
Proof.
  intros Hvc. split.
  - unfold rlDrawRenderBatch. cbv zeta.
    destruct (Z.gtb_spec (vertexCounter (State g)) 0) as [?|_]; [lia|].
    set (eyeCount := if stereoRender (State g) then 2 else 1). clearbody eyeCount.
    set (mv := modelview (State g)). set (pj := projection (State g)).
    clearbody mv pj.
    set (g2 := for_loop 0 eyeCount 1 _ g).
    assert (H2 : trace g2 = trace g /\ vertexCounter (State g2) <= 0).
    { subst g2.
      apply (for_loop_invariant
               (fun g1 => trace g1 = trace g /\ vertexCounter (State g1) <= 0));
        [split; [reflexivity | exact Hvc]|].
      intros j g1 [Ht Hv].
      destruct (draw_eye_body_idle batch eyeCount mv j g1 Hv) as [-> ->].
      split; assumption. }
    clearbody g2. destruct H2 as [Ht2 _].
    set (g3 := if eyeCount =? 2 then _ else g2).
    assert (H3 : trace g3 = trace g)
      by (subst g3; destruct (eyeCount =? 2); exact Ht2).
    clearbody g3. cbn [snd].
    apply (for_loop_invariant (fun g1 => trace g1 = trace g)); [exact H3|].
    intros j g1 H1. exact H1.
  - destruct (flush_shape batch g) as (vp & tr & ->). cbn [fst].
    destruct (reset_batch_spec (defaultTexture (State g)) batch)
      as (_ & _ & _ & _ & Hcb & _).
    exact Hcb.
Qed.

Lemma empty_draw_is_silent_witness :
  vertexCounter (State (rlEnableStereoRender (context 2))) <= 0 /\
  trace (snd (rlDrawRenderBatch (currentBatch (context 2))
                (rlEnableStereoRender (context 2))))
    = trace (rlEnableStereoRender (context 2)) /\
  currentBuffer (fst (rlDrawRenderBatch (currentBatch (context 2))
                        (rlEnableStereoRender (context 2)))) =
    (if currentBuffer (currentBatch (context 2)) + 1
          >=? bufferCount (currentBatch (context 2))
     then 0 else currentBuffer (currentBatch (context 2)) + 1).
Proof.
  assert (H : vertexCounter (State (rlEnableStereoRender (context 2))) <= 0)
    by (vm_compute; discriminate).
  exact (conj H (empty_draw_is_silent (currentBatch (context 2))
                   (rlEnableStereoRender (context 2)) H)).
Defined.

(* ------------------------------------------------------------------ *)
(** ** The state after [rlglInit] *)

Lemma load_batch (n c : Z) (g : rlGraphicsData) :
  fst (rlLoadRenderBatch n c g) =
  {| bufferCount := n; currentBuffer := 0;
     vertexBuffer := vertexBuffer (fst (rlLoadRenderBatch n c g));
     draws := replicate 256 {| mode := RL_QUADS; vertexCount := 0; vertexAlignment := 0;
                               texture := defaultTexture (State g) |};
     drawCounter := 1; currentDepth := initialDepth |}.
Proof.
  pose proof (load_State n c g) as Hs.
  unfold rlLoadRenderBatch in *. cbv zeta in *.
  destruct (for_loop 0 n 1 (load_buffer_body c) (alloc n blank_buffer, g)) as [vbs g1].
  cbn [fst snd State TRACELOG emit set_trace vertexBuffer] in *.
  rewrite Hs. cbn [defaultTexture set_vertexCounter].
  generalize (defaultTexture (State g)) as w. intros w.
  f_equal; vm_compute; reflexivity.
Qed.

Lemma rlglInit_batch (n C white width height : Z) (g : rlGraphicsData) :
  currentBatch (rlglInit n C white width height g) =
  fst (rlLoadRenderBatch n C (rlglInit_texture white g)).
Proof.
  unfold rlglInit. cbv zeta.
  destruct (rlLoadRenderBatch n C (rlglInit_texture white g)) as [batch g1].
  reflexivity.
Qed.

(** The loop of [rlglInit] over the stack. *)
Lemma init_stack_spec (l : list Matrix) :
  Z.of_nat (length l) = RL_MAX_MATRIX_STACK_SIZE ->
  for_loop 0 RL_MAX_MATRIX_STACK_SIZE 1 (fun i st => aset st i rlMatrixIdentity) l =
  replicate 32 rlMatrixIdentity.
Proof.
  intros Hl.
  assert (H : Z.of_nat (length (for_loop 0 RL_MAX_MATRIX_STACK_SIZE 1
                                  (fun i st => aset st i rlMatrixIdentity) l))
              = RL_MAX_MATRIX_STACK_SIZE /\
              forall j, 0 <= j < RL_MAX_MATRIX_STACK_SIZE ->
                for_loop 0 RL_MAX_MATRIX_STACK_SIZE 1
                  (fun i st => aset st i rlMatrixIdentity) l !! Z.to_nat j
                = Some rlMatrixIdentity).
  { apply (for_loop_unit (fun k (st : list Matrix) =>
             Z.of_nat (length st) = RL_MAX_MATRIX_STACK_SIZE /\
             forall j, 0 <= j < k -> st !! Z.to_nat j = Some rlMatrixIdentity));
      [unfold RL_MAX_MATRIX_STACK_SIZE; lia | split; [exact Hl | intros; lia] |].
    intros k st Hk (Hlen & Hd). split; [rewrite aset_length; exact Hlen|].
    intros j Hj. destruct (Z.eq_dec j k) as [->|Hne].
    - apply aset_lookup_eq. lia.
    - rewrite aset_lookup_ne by lia. apply Hd. lia. }
  destruct H as [Hlen Hd]. unfold RL_MAX_MATRIX_STACK_SIZE in *.
  apply list_eq. intros i.
  destruct (decide (i < 32)%nat) as [Hi|Hi].
  - rewrite lookup_replicate_2 by exact Hi.
    specialize (Hd (Z.of_nat i)). rewrite Nat2Z.id in Hd. apply Hd. lia.
  - rewrite lookup_ge_None_2 by lia.
    symmetry. apply lookup_ge_None_2. rewrite length_replicate. lia.
Qed.

(** X18.  What [rlglInit] establishes and what it leaves as it finds it,
    whatever state of [RLGH] it is called on and for any number and size
    of buffers.  Established: the three matrices and the 32 entries of
    the matrix stack are the identity, the current matrix is the
    modelview matrix, the default texture and the framebuffer size are
    the ones given, and the default batch is current with one draw call
    open at depth -1, all 256 entries of its table being empty QUADS
    entries bound to the default texture; the vertex counter is 0 when
    at least one buffer is created.  Left alone: the stack counter, the
    matrix mode, the transform flag and the sampler slots, which
    [rlglInit] does not assign (and the vertex counter when no buffer is
    created).  Logged, among the events the call adds to the trace: the
    result of loading the default texture and the end of the
    initialisation. *)
Theorem rlglInit_postcondition (n C white width height : Z) (g0 : rlGraphicsData) :
  state_arrays g0 ->
  let g := rlglInit n C white width height g0 in
  (modelview (State g) = rlMatrixIdentity /\
   projection (State g) = rlMatrixIdentity /\
   transform (State g) = rlMatrixIdentity /\
   stack (State g) = replicate 32 rlMatrixIdentity /\
   currentMatrix (State g) = PtrModelview /\
   defaultTexture (State g) = white /\
   framebufferWidth (State g) = width /\
   framebufferHeight (State g) = height /\
   vertexCounter (State g) = (if 1 <=? n then 0 else vertexCounter (State g0))) /\
  (stackCounter (State g) = stackCounter (State g0) /\
   currentMatrixMode (State g) = currentMatrixMode (State g0) /\
   transformRequired (State g) = transformRequired (State g0) /\
   activeTextureId (State g) = activeTextureId (State g0)) /\
  (bufferCount (currentBatch g) = n /\
   currentBuffer (currentBatch g) = 0 /\
   drawCounter (currentBatch g) = 1 /\
   currentDepth (currentBatch g) = initialDepth /\
   draws (currentBatch g) =
     replicate 256 {| mode := RL_QUADS; vertexCount := 0; vertexAlignment := 0;
                      texture := white |}) /\
  (exists evs, trace g = trace g0 ++ evs /\
     In (texture_log white) evs /\
     In (EvTraceLog RL_LOG_INFO "RLGH: Default OpenGL state initialized successfully")
       evs).
Proof.
  intros [Hstack _]. cbv zeta.
  rewrite rlglInit_State, rlglInit_batch, load_batch, rlglInit_trace.
  destruct (rlglInit_texture_spec white g0) as (-> & _ & _).
  cbn [modelview projection transform stack currentMatrix defaultTexture
       framebufferWidth framebufferHeight vertexCounter stackCounter currentMatrixMode
       transformRequired activeTextureId
       set_framebufferHeight set_framebufferWidth set_currentMatrix set_modelview
       set_projection set_transform set_stack set_vertexCounter set_defaultTexture
       bufferCount currentBuffer drawCounter currentDepth draws].
  rewrite (init_stack_spec _ Hstack).
  split; [repeat split; reflexivity|].
  split; [repeat split; reflexivity|].
  split; [repeat split; reflexivity|].
  eexists. split; [reflexivity|].
  split; [left; reflexivity | right; right; right; left; reflexivity].
Qed.

(** A second initialisation, made while a push is open in RL_MODELVIEW
    mode. *)
Lemma rlglInit_postcondition_witness :
  state_arrays (rlPushMatrix (rlMatrixMode RL_MODELVIEW (context 1))) /\
  let g0 := rlPushMatrix (rlMatrixMode RL_MODELVIEW (context 1)) in
  let g := rlglInit 1 2 9 640 480 g0 in
  (modelview (State g) = rlMatrixIdentity /\
   projection (State g) = rlMatrixIdentity /\
   transform (State g) = rlMatrixIdentity /\
   stack (State g) = replicate 32 rlMatrixIdentity /\
   currentMatrix (State g) = PtrModelview /\
   defaultTexture (State g) = 9 /\
   framebufferWidth (State g) = 640 /\
   framebufferHeight (State g) = 480 /\
   vertexCounter (State g) = (if 1 <=? 1 then 0 else vertexCounter (State g0))) /\
  (stackCounter (State g) = stackCounter (State g0) /\
   currentMatrixMode (State g) = currentMatrixMode (State g0) /\
   transformRequired (State g) = transformRequired (State g0) /\
   activeTextureId (State g) = activeTextureId (State g0)) /\
  (bufferCount (currentBatch g) = 1 /\
   currentBuffer (currentBatch g) = 0 /\
   drawCounter (currentBatch g) = 1 /\
   currentDepth (currentBatch g) = initialDepth /\
   draws (currentBatch g) =
     replicate 256 {| mode := RL_QUADS; vertexCount := 0; vertexAlignment := 0;
                      texture := 9 |}) /\
  (exists evs, trace g = trace g0 ++ evs /\
     In (texture_log 9) evs /\
     In (EvTraceLog RL_LOG_INFO "RLGH: Default OpenGL state initialized successfully")
       evs).
Proof.
  assert (H : state_arrays (rlPushMatrix (rlMatrixMode RL_MODELVIEW (context 1))))
    by (split; reflexivity).
  exact (conj H (rlglInit_postcondition 1 2 9 640 480
                   (rlPushMatrix (rlMatrixMode RL_MODELVIEW (context 1))) H)).
Defined.

(** The first initialisation of a program leaves the matrix mode at 0,
    which is neither RL_MODELVIEW nor RL_PROJECTION; a second one, made
    while a push is open, leaves the stack counter at 1 and the
    transform flag set although the current matrix is the modelview
    matrix again. *)
Example rlglInit_sample :
  let g1 := rlglInit 1 2 9 640 480 RLGH_zero in
  let g2 := rlglInit 1 2 9 640 480 (rlPushMatrix (rlMatrixMode RL_MODELVIEW g1)) in
  (currentMatrixMode (State g1), stackCounter (State g1), transformRequired (State g1))
    = (0, 0, false) /\
  (currentMatrixMode (State g2), stackCounter (State g2), transformRequired (State g2),
   currentMatrix (State g2)) = (RL_MODELVIEW, 1, true, PtrModelview).
Proof. vm_compute. split; reflexivity. Qed.

(* ------------------------------------------------------------------ *)
(** ** The vertex data of the buffers *)

Lemma store_checked_in {A : Type} (name : string) (l : list A) (i : Z) (v : A) :
  0 <= i < Z.of_nat (length l) ->
  store_checked name l i v = (<[Z.to_nat i := v]> l, []).
Proof.
  intros H. unfold store_checked, aset.
  rewrite (proj2 (in_bounds_iff l i) H). reflexivity.
Qed.

(** The nine stores of [rlVertex3f], all inside the arrays. *)
Lemma write_vertex_in (s : rlState) (tx ty tz : float) (k : Z) (vb : rlVertexBuffer) :
  0 <= k ->
  3 * k + 2 < Z.of_nat (length (vertices vb)) ->
  2 * k + 1 < Z.of_nat (length (texcoords vb)) ->
  4 * k + 3 < Z.of_nat (length (colors vb)) ->
  let vb' := fst (write_vertex s tx ty tz k vb) in
  snd (write_vertex s tx ty tz k vb) = [] /\
  length (vertices vb') = length (vertices vb) /\
  length (texcoords vb') = length (texcoords vb) /\
  length (colors vb') = length (colors vb) /\
  position_at vb' k = Some (tx, ty, tz) /\
  texcoord_at vb' k = Some (texcoordx s, texcoordy s) /\
  color_at vb' k = Some (colorr s, colorg s, colorb s, colora s).
Proof.
  intros Hk Hv Ht Hc. cbv zeta. unfold write_vertex.
  rewrite !store_checked_in by (rewrite ?length_insert; lia).
  cbn [fst snd app vertices texcoords colors set_colors set_texcoords set_vertices].
  rewrite !length_insert.
  repeat (split; [reflexivity|]).
  unfold position_at, texcoord_at, color_at.
  cbn [vertices texcoords colors set_colors set_texcoords set_vertices].
  split; [|split].
  - rewrite (list_lookup_insert_ne _ (Z.to_nat (3 * k + 2)) (Z.to_nat (3 * k + 0))) by lia.
    rewrite (list_lookup_insert_ne _ (Z.to_nat (3 * k + 1)) (Z.to_nat (3 * k + 0))) by lia.
    rewrite list_lookup_insert_eq by lia.
    rewrite (list_lookup_insert_ne _ (Z.to_nat (3 * k + 2)) (Z.to_nat (3 * k + 1))) by lia.
    rewrite list_lookup_insert_eq by (rewrite ?length_insert; lia).
    rewrite list_lookup_insert_eq by (rewrite ?length_insert; lia).
    reflexivity.
  - rewrite (list_lookup_insert_ne _ (Z.to_nat (2 * k + 1)) (Z.to_nat (2 * k + 0))) by lia.
    rewrite list_lookup_insert_eq by lia.
    rewrite list_lookup_insert_eq by (rewrite ?length_insert; lia).
    reflexivity.
  - rewrite (list_lookup_insert_ne _ (Z.to_nat (4 * k + 3)) (Z.to_nat (4 * k + 0))) by lia.
    rewrite (list_lookup_insert_ne _ (Z.to_nat (4 * k + 2)) (Z.to_nat (4 * k + 0))) by lia.
    rewrite (list_lookup_insert_ne _ (Z.to_nat (4 * k + 1)) (Z.to_nat (4 * k + 0))) by lia.
    rewrite list_lookup_insert_eq by lia.
    rewrite (list_lookup_insert_ne _ (Z.to_nat (4 * k + 3)) (Z.to_nat (4 * k + 1))) by lia.
    rewrite (list_lookup_insert_ne _ (Z.to_nat (4 * k + 2)) (Z.to_nat (4 * k + 1))) by lia.
    rewrite list_lookup_insert_eq by (rewrite ?length_insert; lia).
    rewrite (list_lookup_insert_ne _ (Z.to_nat (4 * k + 3)) (Z.to_nat (4 * k + 2))) by lia.
    rewrite list_lookup_insert_eq by (rewrite ?length_insert; lia).
    rewrite list_lookup_insert_eq by (rewrite ?length_insert; lia).
    reflexivity.
Qed.

Lemma write_vertex_lengths (s : rlState) (tx ty tz : float) (k : Z) (vb : rlVertexBuffer) :
  length (vertices (fst (write_vertex s tx ty tz k vb))) = length (vertices vb) /\
  length (texcoords (fst (write_vertex s tx ty tz k vb))) = length (texcoords vb) /\
  length (colors (fst (write_vertex s tx ty tz k vb))) = length (colors vb).
Proof.
  assert (H : forall (A : Type) (name : string) (l : list A) (i : Z) (v : A),
             length (fst (store_checked name l i v)) = length l).
  { intros A name l i v. unfold store_checked.
    destruct (in_bounds l i); [apply aset_length | reflexivity]. }
  unfold write_vertex.
  repeat match goal with
  | |- context [store_checked ?n ?l ?i ?v] =>
      let Hl := fresh "Hl" in
      pose proof (H _ n l i v) as Hl; destruct (store_checked n l i v); cbn [fst] in Hl
  end.
  cbn [fst vertices texcoords colors set_colors set_texcoords set_vertices].
  repeat split; congruence.
Qed.

(** *** The sizes of the arrays *)

Lemma sized_kept (C : Z) (g g' : rlGraphicsData) :
  buffers_kept g g' -> buffers_sized C g -> buffers_sized C g'.
Proof.
  intros [Hvb Hbc] H i Hi. unfold buffer_at. rewrite Hvb. apply H. rewrite <- Hbc. exact Hi.
Qed.

Lemma sized_write (C : Z) (tx ty tz : float) (g : rlGraphicsData) :
  layout C g -> buffers_sized C g -> buffers_sized C (rlVertex3f_write tx ty tz g).
Proof.
  intros (_ & Hcur & _) Hsz. unfold rlVertex3f_write. cbv zeta.
  pose proof (write_vertex_lengths (State g) tx ty tz (vertexCounter (State g))
                (current_buffer (currentBatch g))) as Hl.
  destruct (write_vertex _ _ _ _ _ _) as [vb evs]. cbn [fst] in Hl.
  set (g2 := upd_State _ (set_trace _ (upd_batch _ g))).
  assert (Hvb2 : vertexBuffer (currentBatch g2) =
                 aset (vertexBuffer (currentBatch g)) (currentBuffer (currentBatch g)) vb)
    by reflexivity.
  assert (Hbc2 : bufferCount (currentBatch g2) = bufferCount (currentBatch g)) by reflexivity.
  clearbody g2.
  apply (sized_kept C g2); [apply kept_store|].
  intros i Hi. unfold buffer_at. rewrite Hvb2. rewrite Hbc2 in Hi.
  destruct (Z.eq_dec i (currentBuffer (currentBatch g))) as [->|Hne].
  - destruct (Hsz _ Hcur) as (S1 & S2 & S3). destruct Hl as (L1 & L2 & L3).
    unfold current_buffer in L1, L2, L3.
    destruct (in_bounds (vertexBuffer (currentBatch g)) (currentBuffer (currentBatch g)))
      eqn:E.
    + apply in_bounds_iff in E.
      rewrite (aget_lookup blank_buffer _ _ vb) by (try lia; apply aset_lookup_eq, E).
      rewrite L1, L2, L3. auto.
    + unfold aset. rewrite E. apply Hsz, Hcur.
  - rewrite aget_aset_ne by exact Hne. apply Hsz, Hi.
Qed.

Lemma sized_step (C : Z) (o : op) (g : rlGraphicsData) :
  1 <= C -> batch_inv C g -> buffers_sized C g -> buffers_sized C (step o g).
Proof.
  intros HC Hinv Hsz.
  pose proof (same_view_matrix_op o g) as Hview.
  destruct o; cbn [step] in *;
    try (destruct Hview as (_ & _ & Hvb & _ & Hbc & _);
         apply (sized_kept C g); [split; assumption | exact Hsz]).
  - apply (sized_kept C g); [apply kept_rlBegin | exact Hsz].
  - unfold rlVertex3f. cbv zeta.
    destruct (inv_limit C g HC Hinv) as ((Hlay1 & _) & _).
    apply sized_write; [exact Hlay1|].
    apply (sized_kept C g); [apply kept_limit | exact Hsz].
  - apply (sized_kept C g); [apply kept_rlSetTexture | exact Hsz].
  - apply (sized_kept C g); [apply kept_check | exact Hsz].
  - apply (sized_kept C g); [apply kept_flush | exact Hsz].
Qed.

Lemma zero_fill_length {A : Type} (n : Z) (z : A) (a : list A) :
  length (zero_fill n z a) = length a.
Proof.
  unfold zero_fill.
  apply (for_loop_invariant (fun l : list A => length l = length a)); [reflexivity|].
  intros j l Hl. rewrite aset_length. exact Hl.
Qed.

Lemma rlglInit_sized (n C white width height : Z) (g : rlGraphicsData) :
  0 <= C -> buffers_sized C (rlglInit n C white width height g).
Proof.
  intros HC i Hi. rewrite rlglInit_batch in *.
  rewrite load_batch in Hi. cbn [bufferCount] in Hi.
  unfold buffer_at.
  rewrite (aget_lookup blank_buffer _ i (new_vertex_buffer C))
    by (try lia; apply load_buffer_at, Hi).
  unfold new_vertex_buffer. cbn [vertices texcoords colors].
  rewrite !zero_fill_length. unfold alloc. rewrite !length_replicate. lia.
Qed.

(** What [rlVertex3f] stores, in a state that satisfies the invariants. *)
Lemma rlVertex3f_stores (C : Z) (x y z : float) (g : rlGraphicsData) :
  1 <= C -> batch_inv C g -> buffers_sized C g ->
  let g' := rlVertex3f x y z g in
  let k := vertexCounter (State g') - 1 in
  let vb := current_buffer (currentBatch g') in
  0 <= k < 4 * C /\
  position_at vb k = Some (vertex_position (State g) x y z) /\
  texcoord_at vb k = Some (texcoordx (State g), texcoordy (State g)) /\
  color_at vb k =
    Some (colorr (State g), colorg (State g), colorb (State g), colora (State g)).
Proof.
  intros HC Hinv Hsz. cbv zeta.
  destruct (inv_limit C g HC Hinv) as (Hinv1 & Hvc1 & _).
  destruct (kept_limit g) as (Hkept & (v & s & p & Hst)).
  pose proof (sized_kept C g _ Hkept Hsz) as Hsz1.
  assert (E : rlVertex3f x y z g =
              rlVertex3f_write (fst (fst (vertex_position (State g) x y z)))
                (snd (fst (vertex_position (State g) x y z)))
                (snd (vertex_position (State g) x y z)) (rlVertex3f_limit g)).
  { unfold rlVertex3f, vertex_position. cbv zeta.
    destruct (transformRequired (State g)); reflexivity. }
  rewrite E.
  destruct (vertex_position (State g) x y z) as [[tx ty] tz]. cbn [fst snd].
  assert (Ht : texcoordx (State (rlVertex3f_limit g)) = texcoordx (State g) /\
               texcoordy (State (rlVertex3f_limit g)) = texcoordy (State g) /\
               colorr (State (rlVertex3f_limit g)) = colorr (State g) /\
               colorg (State (rlVertex3f_limit g)) = colorg (State g) /\
               colorb (State (rlVertex3f_limit g)) = colorb (State g) /\
               colora (State (rlVertex3f_limit g)) = colora (State g)).
  { rewrite Hst. repeat split; reflexivity. }
  destruct Ht as (T1 & T2 & T3 & T4 & T5 & T6).
  rewrite <- T1, <- T2, <- T3, <- T4, <- T5, <- T6.
  set (g1 := rlVertex3f_limit g) in *. clearbody g1. clear E Hst Hkept.
  pose proof Hinv1 as ((Hlen & Hcur & Hcap & _) & Hdc & _).
  destruct (Hsz1 _ Hcur) as (S1 & S2 & S3).
  fold (current_buffer (currentBatch g1)) in S1, S2, S3.
  destruct (write_vertex_in (State g1) tx ty tz (vertexCounter (State g1))
              (current_buffer (currentBatch g1)))
    as (Hev & _ & _ & _ & Hp & Htc & Hcol); try lia.
  unfold rlVertex3f_write. cbv zeta.
  destruct (write_vertex _ _ _ _ _ _) as [vb evs]. cbn [fst snd] in *.
  set (g2 := upd_State _ (set_trace _ (upd_batch _ g1))).
  assert (Hvb2 : vertexBuffer (currentBatch g2) =
                 aset (vertexBuffer (currentBatch g1)) (currentBuffer (currentBatch g1)) vb)
    by reflexivity.
  assert (Hcb2 : currentBuffer (currentBatch g2) = currentBuffer (currentBatch g1))
    by reflexivity.
  assert (Hvc2 : vertexCounter (State g2) = vertexCounter (State g1) + 1) by reflexivity.
  clearbody g2.
  destruct (store_draw_frame (drawCounter (currentBatch g1) - 1)
              (fun d => set_vertexCount (vertexCount d + 1) d) g2)
    as (Hs3 & _ & Hcb3 & _ & Hvb3 & _).
  rewrite Hs3, Hvc2.
  replace (vertexCounter (State g1) + 1 - 1) with (vertexCounter (State g1)) by lia.
  split; [lia|].
  assert (Hcurbuf : current_buffer (currentBatch (store_draw (drawCounter (currentBatch g1) - 1)
                       (fun d => set_vertexCount (vertexCount d + 1) d) g2)) = vb).
  { unfold current_buffer, buffer_at. rewrite Hvb3, Hcb3, Hvb2, Hcb2.
    apply aget_lookup; [lia|]. apply aset_lookup_eq.
    destruct (in_bounds (vertexBuffer (currentBatch g1)) (currentBuffer (currentBatch g1)))
      eqn:Ein; [apply in_bounds_iff, Ein|].
    exfalso. unfold current_buffer, buffer_at, aget in S1. rewrite Ein in S1.
    cbn in S1. lia. }
  rewrite Hcurbuf. auto.
Qed.

Lemma sized_run (C : Z) (ops : list op) (g : rlGraphicsData) :
  1 <= C -> Forall regular ops -> batch_inv C g -> buffers_sized C g ->
  batch_inv C (run ops g) /\ buffers_sized C (run ops g).
Proof.
  intros HC Hreg. revert g.
  induction Hreg as [|o ops Ho Hops IH]; intros g Hinv Hsz; [split; assumption|].
  change (run (o :: ops) g) with (run ops (step o g)).
  apply IH; [apply inv_step | apply sized_step]; assumption.
Qed.

(** X19.  What [rlVertex3f] stores.  At any point of a regular session,
    [rlVertex3f(x, y, z)] adds one vertex to the current buffer, at the
    position [k] the vertex counter had when the stores were made (after
    the batch was drawn, if it had to be), with [0 <= k < 4 * elementCount]:
    its position is [(x, y, z)], multiplied by the transform matrix when
    [transformRequired] is set, its texture coordinates and its colour
    are the current ones of the state, and the vertex counter is [k + 1]
    afterwards. *)
Theorem vertex_is_stored (n C white width height : Z) (g0 : rlGraphicsData)
    (ops : list op) (x y z : float) :
  1 <= n -> 1 <= C -> Forall regular ops ->
  let g := run ops (rlglInit n C white width height g0) in
  let g' := rlVertex3f x y z g in
  let k := vertexCounter (State g') - 1 in
  let vb := current_buffer (currentBatch g') in
  0 <= k < 4 * C /\
  position_at vb k = Some (vertex_position (State g) x y z) /\
  texcoord_at vb k = Some (texcoordx (State g), texcoordy (State g)) /\
  color_at vb k =
    Some (colorr (State g), colorg (State g), colorb (State g), colora (State g)).
Proof.
  intros Hn HC Hreg.
  destruct (sized_run C ops (rlglInit n C white width height g0) HC Hreg)
    as [Hinv Hsz]; [apply rlglInit_inv; lia | apply rlglInit_sized; lia|].
  apply (rlVertex3f_stores C); assumption.
Qed.

Lemma vertex_is_stored_witness :
  1 <= 1 /\ 1 <= 2 /\ Forall regular (OpColor4ub 1 2 3 4 :: pushed_scene) /\
  let g := run (OpColor4ub 1 2 3 4 :: pushed_scene) (rlglInit 1 2 9 640 480 RLGH_zero) in
  let g' := rlVertex3f F32.two F32.one F32.zero g in
  let k := vertexCounter (State g') - 1 in
  let vb := current_buffer (currentBatch g') in
  0 <= k < 4 * 2 /\
  position_at vb k = Some (vertex_position (State g) F32.two F32.one F32.zero) /\
  texcoord_at vb k = Some (texcoordx (State g), texcoordy (State g)) /\
  color_at vb k =
    Some (colorr (State g), colorg (State g), colorb (State g), colora (State g)).
Proof.
  assert (H1 : 1 <= 1) by lia.
  assert (H2 : 1 <= 2) by lia.
  assert (H3 : Forall regular (OpColor4ub 1 2 3 4 :: pushed_scene))
    by (repeat constructor).
  exact (conj H1 (conj H2 (conj H3
    (vertex_is_stored 1 2 9 640 480 RLGH_zero (OpColor4ub 1 2 3 4 :: pushed_scene)
       F32.two F32.one F32.zero H1 H2 H3)))).
Defined.

(** *** No store outside the arrays of the batch *)

Lemma overruns_app (tr1 tr2 : list event) :
  batch_overruns (tr1 ++ tr2) = batch_overruns tr1 ++ batch_overruns tr2.
Proof. unfold batch_overruns. apply flat_map_app. Qed.

Lemma quiet_refl (g : rlGraphicsData) : quiet g g.
Proof. reflexivity. Qed.

Lemma quiet_trans (g1 g2 g3 : rlGraphicsData) : quiet g1 g2 -> quiet g2 g3 -> quiet g1 g3.
Proof. unfold quiet. congruence. Qed.

Lemma quiet_emit (e : event) (g g' : rlGraphicsData) :
  batch_overruns [e] = [] -> quiet g g' -> quiet g (emit e g').
Proof.
  unfold quiet, emit. intros He H. cbn [trace set_trace].
  rewrite overruns_app, He, app_nil_r. exact H.
Qed.

Lemma quiet_upd_State (f : rlState -> rlState) (g g' : rlGraphicsData) :
  quiet g g' -> quiet g (upd_State f g').
Proof. intros H. exact H. Qed.

Lemma quiet_eye (batch : rlRenderBatch) (eyeCount : Z) (mv : Matrix) (eye : Z)
    (g g' : rlGraphicsData) :
  quiet g g' -> quiet g (draw_eye_body batch eyeCount mv eye g').
Proof.
  intros H. unfold draw_eye_body.
  set (g1 := if eyeCount =? 2 then _ else g').
  assert (H1 : quiet g g1) by (subst g1; destruct (eyeCount =? 2); exact H).
  clearbody g1.
  destruct (vertexCounter (State g1) >? 0); [|exact H1].
  apply quiet_emit; [reflexivity|].
  assert (H2 : quiet g (for_loop 0 RL_DEFAULT_BATCH_MAX_TEXTURE_UNITS 1 bind_active_body
                          (emit (EvUniformMatrix
                                   (rlMatrixMultiply (modelview (State g1))
                                      (projection (State g1)))) g1))).
  { apply (for_loop_invariant (quiet g)); [apply quiet_emit; [reflexivity | exact H1]|].
    intros j g2 H2. unfold bind_active_body.
    destruct (_ >? 0); [apply quiet_emit; [reflexivity|]|]; exact H2. }
  set (g3 := for_loop 0 RL_DEFAULT_BATCH_MAX_TEXTURE_UNITS 1 bind_active_body _) in *.
  clearbody g3.
  apply (for_loop_invariant (fun st : Z * rlGraphicsData => quiet g (snd st)));
    [exact H2|].
  intros j [off g4] H4. unfold issue_draw_body. cbn [snd] in H4.
  destruct (_ || _); cbn [snd]; repeat (apply quiet_emit; [reflexivity|]); exact H4.
Qed.

Lemma quiet_flush (g : rlGraphicsData) : quiet g (flush_current g).
Proof.
  unfold flush_current.
  assert (H : quiet g (snd (rlDrawRenderBatch (currentBatch g) g))).
  { generalize (currentBatch g) as batch. intros batch.
    unfold rlDrawRenderBatch. cbv zeta.
    set (g1 := if vertexCounter (State g) >? 0 then _ else g).
    assert (H1 : quiet g g1).
    { subst g1. destruct (_ >? 0); [|apply quiet_refl].
      repeat (apply quiet_emit; [reflexivity|]). apply quiet_refl. }
    assert (Hp : projection (State g1) = projection (State g) /\
                 modelview (State g1) = modelview (State g)).
    { subst g1. destruct (_ >? 0); split; reflexivity. }
    destruct Hp as [-> ->]. clearbody g1.
    set (eyeCount := if stereoRender (State g1) then 2 else 1).
    set (g2 := for_loop 0 eyeCount 1 _ g1).
    assert (H2 : quiet g g2).
    { subst g2. apply (for_loop_invariant (quiet g)); [exact H1|].
      intros j s Hs. apply quiet_eye, Hs. }
    clearbody g2 eyeCount.
    set (g3 := if eyeCount =? 2 then _ else g2).
    assert (H3 : quiet g g3) by (subst g3; destruct (eyeCount =? 2); exact H2).
    clearbody g3. cbn [snd].
    apply (for_loop_invariant (quiet g)); [exact H3|].
    intros j g4 H4. exact H4. }
  destruct (rlDrawRenderBatch (currentBatch g) g) as [b g']. exact H.
Qed.

Lemma quiet_store (i : Z) (f : rlDrawCall -> rlDrawCall) (g : rlGraphicsData) :
  0 <= i < Z.of_nat (length (draws (currentBatch g))) -> quiet g (store_draw i f g).
Proof.
  intros H. destruct (store_draw_spec i f g H) as (_ & Ht & _).
  unfold quiet. rewrite Ht. reflexivity.
Qed.

Lemma quiet_check (C n : Z) (g : rlGraphicsData) :
  batch_inv C g -> quiet g (snd (rlCheckRenderBatchLimit n g)).
Proof.
  intros ((Hlen & _) & Hdc & _). unfold rlCheckRenderBatchLimit. cbv zeta.
  destruct (_ >=? _); cbn [snd]; [|apply quiet_refl].
  destruct (flush_current_spec g Hlen) as (_ & _ & _ & _ & _ & _ & Hl & _).
  eapply quiet_trans; [apply quiet_flush|].
  eapply quiet_trans; [|apply quiet_store].
  - apply quiet_store. rewrite Hl. lia.
  - destruct (store_draw_frame (drawCounter (currentBatch g) - 1)
                (set_mode (mode (draw_at (currentBatch g) (drawCounter (currentBatch g) - 1))))
                (flush_current g)) as (_ & _ & _ & _ & _ & Hl2 & _).
    rewrite Hl2, Hl. lia.
Qed.

Lemma quiet_close (C cnt : Z) (g : rlGraphicsData) :
  batch_inv C g -> 0 < cnt ->
  quiet g (snd (close_draw (drawCounter (currentBatch g) - 1) cnt g)).
Proof.
  intros Hinv Hcnt.
  pose proof Hinv as ((Hlen & _) & Hdc & _).
  unfold close_draw. cbv zeta.
  set (idx := drawCounter (currentBatch g) - 1).
  set (a := alignment_for (mode (draw_at (currentBatch g) idx)) cnt).
  assert (Ha : 0 <= a) by (apply alignment_for_nonneg, Hcnt). clearbody a.
  assert (Hinv1 : batch_inv C (store_draw idx (set_vertexAlignment a) g))
    by (apply inv_store; [auto | left; split; reflexivity | exact Hinv]).
  assert (Hq1 : quiet g (store_draw idx (set_vertexAlignment a) g))
    by (apply quiet_store; subst idx; lia).
  set (g1 := store_draw idx (set_vertexAlignment a) g) in *. clearbody g1.
  pose proof (quiet_check C (vertexAlignment (draw_at (currentBatch g1) idx)) g1 Hinv1) as Hq2.
  destruct (rlCheckRenderBatchLimit _ g1) as [o g2]. cbn [snd] in Hq2.
  pose proof (quiet_trans _ _ _ Hq1 Hq2) as Hq.
  destruct o; cbn [negb snd]; exact Hq.
Qed.

Lemma quiet_rlBegin (C i m : Z) (g : rlGraphicsData) :
  0 < i -> batch_inv C g -> quiet g (rlBegin i m g).
Proof.
  intros Hi Hinv. unfold rlBegin.
  destruct (negb _); [|apply quiet_refl]. cbv zeta.
  destruct (Z.gtb_spec i 0) as [_|?]; [|lia].
  pose proof (close_block C i g Hinv Hi) as H. cbv zeta in H.
  pose proof (quiet_close C i g Hinv Hi) as Hq.
  destruct (close_draw (drawCounter (currentBatch g) - 1) i g) as [d g1].
  cbn [fst snd] in H, Hq. destruct H as (Hinv2 & Hd & Hz).
  assert (Hq2 : quiet g (if drawCounter (currentBatch g1) >=? RL_DEFAULT_BATCH_DRAWCALLS
                         then flush_current g1 else g1)).
  { destruct (_ >=? _); [eapply quiet_trans; [exact Hq | apply quiet_flush] | exact Hq]. }
  set (g2 := if _ >=? _ then _ else g1) in *. clearbody g2.
  destruct Hinv2 as ((Hlen2 & _) & _).
  eapply quiet_trans; [exact Hq2|].
  eapply quiet_trans; [|apply quiet_store].
  - apply quiet_store. lia.
  - destruct (store_draw_frame d (set_mode m) g2) as (_ & _ & _ & _ & _ & Hl & _).
    rewrite Hl. lia.
Qed.

Lemma quiet_rlSetTexture (C : Z) (t : option rlTexture) (g : rlGraphicsData) :
  batch_inv C g -> quiet g (rlSetTexture t g).
Proof.
  intros Hinv. unfold rlSetTexture. destruct t as [t|].
  - destruct (negb _); [|apply quiet_refl]. cbv zeta.
    fold (current_draw (currentBatch g)).
    assert (Hstores : forall d g2,
              Z.of_nat (length (draws (currentBatch g2))) = RL_DEFAULT_BATCH_DRAWCALLS ->
              0 <= d < RL_DEFAULT_BATCH_DRAWCALLS ->
              quiet g g2 ->
              quiet g (store_draw d (set_vertexCount 0) (store_draw d (set_texture t) g2))).
    { intros d g2 Hlen2 Hd Hq2.
      eapply quiet_trans; [exact Hq2|].
      eapply quiet_trans; [|apply quiet_store].
      - apply quiet_store. lia.
      - destruct (store_draw_frame d (set_texture t) g2) as (_ & _ & _ & _ & _ & Hl & _).
        rewrite Hl. lia. }
    destruct (Z.gtb_spec (vertexCount (current_draw (currentBatch g))) 0) as [Hpos|Hzero].
    + pose proof (close_block C _ g Hinv Hpos) as H. cbv zeta in H.
      pose proof (quiet_close C _ g Hinv Hpos) as Hq.
      destruct (close_draw (drawCounter (currentBatch g) - 1)
                  (vertexCount (current_draw (currentBatch g))) g) as [d g1].
      cbn [fst snd] in H, Hq. destruct H as (Hinv2 & Hd & Hz).
      assert (Hq2 : quiet g (if drawCounter (currentBatch g1) >=? RL_DEFAULT_BATCH_DRAWCALLS
                             then flush_current g1 else g1)).
      { destruct (_ >=? _); [eapply quiet_trans; [exact Hq | apply quiet_flush] | exact Hq]. }
      set (g2 := if _ >=? _ then _ else g1) in *. clearbody g2.
      destruct Hinv2 as ((Hlen2 & _) & _).
      apply Hstores; assumption.
    + destruct Hinv as ((Hlen & _) & Hdc & _).
      destruct (Z.geb_spec (drawCounter (currentBatch g)) RL_DEFAULT_BATCH_DRAWCALLS);
        [lia|].
      apply Hstores; [exact Hlen | lia | apply quiet_refl].
  - destruct (_ >=? _); [apply quiet_flush | apply quiet_refl].
Qed.

Lemma quiet_limit (C : Z) (g : rlGraphicsData) :
  batch_inv C g -> quiet g (rlVertex3f_limit g).
Proof.
  intros Hinv. unfold rlVertex3f_limit. cbv zeta.
  destruct (_ >? _); [|apply quiet_refl].
  destruct (_ && _); [apply (quiet_check C), Hinv|].
  destruct (_ && _); [apply (quiet_check C), Hinv|].
  destruct (_ && _); [apply (quiet_check C), Hinv | apply quiet_refl].
Qed.

Lemma quiet_write (C : Z) (tx ty tz : float) (g : rlGraphicsData) :
  batch_inv C g -> buffers_sized C g -> 0 <= vertexCounter (State g) < 4 * C ->
  quiet g (rlVertex3f_write tx ty tz g).
Proof.
  intros ((Hlen & Hcur & _) & Hdc & _) Hsz Hvc.
  destruct (Hsz _ Hcur) as (S1 & S2 & S3).
  fold (current_buffer (currentBatch g)) in S1, S2, S3.
  destruct (write_vertex_in (State g) tx ty tz (vertexCounter (State g))
              (current_buffer (currentBatch g))) as (Hev & _); try lia.
  unfold rlVertex3f_write. cbv zeta.
  destruct (write_vertex _ _ _ _ _ _) as [vb evs]. cbn [snd] in Hev. subst evs.
  set (g2 := upd_State _ (set_trace _ (upd_batch _ g))).
  assert (Hd2 : draws (currentBatch g2) = draws (currentBatch g)) by reflexivity.
  assert (Ht2 : trace g2 = trace g ++ []) by reflexivity.
  clearbody g2.
  eapply quiet_trans; [|apply quiet_store; rewrite Hd2; lia].
  unfold quiet. rewrite Ht2, app_nil_r. reflexivity.
Qed.

Lemma quiet_step (C : Z) (o : op) (g : rlGraphicsData) :
  1 <= C -> regular o -> batch_inv C g -> buffers_sized C g -> quiet g (step o g).
Proof.
  intros HC Hreg Hinv Hsz.
  destruct o; cbn [step] in *; try (unfold quiet; reflexivity).
  - destruct Hreg as [Hi Hm]. apply (quiet_rlBegin C); assumption.
  - unfold rlVertex3f. cbv zeta.
    destruct (inv_limit C g HC Hinv) as (Hinv1 & Hvc1 & _).
    eapply quiet_trans; [apply (quiet_limit C), Hinv|].
    apply (quiet_write C); [exact Hinv1 | | exact Hvc1].
    apply (sized_kept C g); [apply kept_limit | exact Hsz].
  - apply (quiet_rlSetTexture C), Hinv.
  - apply (quiet_check C), Hinv.
  - apply quiet_flush.
  - unfold rlMatrixMode. cbv zeta.
    destruct (_ =? _); [reflexivity|]. destruct (_ =? _); reflexivity.
  - unfold rlPushMatrix, store_stack, TRACELOG. cbv zeta.
    destruct (_ >=? _); destruct (_ =? _); destruct (in_bounds _ _);
      unfold quiet; cbn [trace upd_State set_State emit set_trace];
      rewrite ?overruns_app; cbn; rewrite ?app_nil_r; reflexivity.
  - unfold rlPopMatrix. cbv zeta.
    destruct (_ >? 0); destruct (_ && _); reflexivity.
Qed.

(** X20.  A regular session never stores outside the arrays of the
    batch.  After [rlglInit] with at least one buffer of at least one
    quad, whatever regular calls follow, no store has gone past the end
    of the vertex, texture coordinate or colour arrays, nor of the
    draw-call table: the trace records the overruns it recorded before
    [rlglInit] (none in the state a program starts with) and no other.
    (Stores past the end of the matrix stack, which [rlPushMatrix] makes
    when the stack is full, are not counted.) *)
Theorem regular_sessions_never_overrun (n C white width height : Z)
    (g0 : rlGraphicsData) (ops : list op) :
  1 <= n -> 1 <= C -> Forall regular ops ->
  batch_overruns (trace (run ops (rlglInit n C white width height g0))) =
  batch_overruns (trace g0).
Proof.
  intros Hn HC Hreg.
  assert (Hrun : forall l g, Forall regular l -> batch_inv C g -> buffers_sized C g ->
                   quiet g (run l g)).
  { induction l as [|o l IH]; intros g Hl Hinv Hsz; [apply quiet_refl|].
    change (run (o :: l) g) with (run l (step o g)).
    pose proof (Forall_inv Hl) as Ho. pose proof (Forall_inv_tail Hl) as Hl'.
    eapply quiet_trans; [apply (quiet_step C o g HC Ho Hinv Hsz)|].
    apply IH; [exact Hl' | apply inv_step; assumption | apply sized_step; assumption]. }
  rewrite (Hrun ops (rlglInit n C white width height g0) Hreg);
    [|apply rlglInit_inv; lia | apply rlglInit_sized; lia].
  rewrite rlglInit_trace, overruns_app. unfold texture_log.
  destruct (white =? 0); cbn; apply app_nil_r.
Qed.

Lemma regular_sessions_never_overrun_witness :
  1 <= 1 /\ 1 <= 2 /\ Forall regular sample_session /\
  batch_overruns (trace (run sample_session (rlglInit 1 2 9 640 480 RLGH_zero))) =
  batch_overruns (trace RLGH_zero).
Proof.
  assert (H1 : 1 <= 1) by lia.
  assert (H2 : 1 <= 2) by lia.
  assert (H3 : Forall regular sample_session)
    by (repeat constructor; cbn; unfold valid_mode; auto).
  exact (conj H1 (conj H2 (conj H3
    (regular_sessions_never_overrun 1 2 9 640 480 RLGH_zero sample_session H1 H2 H3)))).
Defined.

(* ------------------------------------------------------------------ *)
(** ** Sampler textures at the draw *)

Lemma binds_extends (t : rlTexture) (g1 g2 g3 : rlGraphicsData) :
  binds_since t g1 g2 -> extends g2 g3 -> binds_since t g1 g3.
Proof.
  intros (e1 & H1 & Hin) [e2 H2]. exists (e1 ++ e2). split.
  - rewrite H2, H1. symmetry. apply app_assoc.
  - apply in_or_app. left. exact Hin.
Qed.

Lemma extends_binds (t : rlTexture) (g1 g2 g3 : rlGraphicsData) :
  extends g1 g2 -> binds_since t g2 g3 -> binds_since t g1 g3.
Proof.
  intros [e1 H1] (e2 & H2 & Hin). exists (e1 ++ e2). split.
  - rewrite H2, H1. symmetry. apply app_assoc.
  - apply in_or_app. right. exact Hin.
Qed.

(** The loop that binds the additional sampler textures. *)
Lemma bind_loop_binds (t : rlTexture) (i : Z) (g : rlGraphicsData) :
  0 <= i < RL_DEFAULT_BATCH_MAX_TEXTURE_UNITS ->
  activeTextureId (State g) !! Z.to_nat i = Some t -> 0 < t ->
  let g' := for_loop 0 RL_DEFAULT_BATCH_MAX_TEXTURE_UNITS 1 bind_active_body g in
  binds_since t g g' /\ State g' = State g.
Proof.
  intros Hi Hslot Ht. cbv zeta.
  cut (extends g (for_loop 0 RL_DEFAULT_BATCH_MAX_TEXTURE_UNITS 1 bind_active_body g) /\
       State (for_loop 0 RL_DEFAULT_BATCH_MAX_TEXTURE_UNITS 1 bind_active_body g) = State g /\
       (i < RL_DEFAULT_BATCH_MAX_TEXTURE_UNITS ->
        binds_since t g (for_loop 0 RL_DEFAULT_BATCH_MAX_TEXTURE_UNITS 1 bind_active_body g))).
  { intros (_ & Hs & Hb). split; [apply Hb; lia | exact Hs]. }
  apply (for_loop_unit (fun k g' =>
           extends g g' /\ State g' = State g /\ (i < k -> binds_since t g g')));
    [unfold RL_DEFAULT_BATCH_MAX_TEXTURE_UNITS; lia | |].
  - split; [apply extends_refl|]. split; [reflexivity | lia].
  - intros k g1 Hk (He & Hs & Hb). unfold bind_active_body. rewrite Hs.
    destruct (Z.gtb_spec (aget 0 (activeTextureId (State g)) k) 0) as [Hpos|Hnon].
    + split; [apply extends_emit, He|]. split; [exact Hs|].
      intros Hik. destruct (Z.eq_dec i k) as [->|Hne].
      * rewrite (aget_lookup 0 _ k t) by (try lia; exact Hslot).
        apply (extends_binds t g g1); [exact He|].
        exists [EvBindTexture t]. split; [reflexivity | left; reflexivity].
      * apply (binds_extends t g g1); [apply Hb; lia|].
        apply extends_emit, extends_refl.
    + split; [exact He|]. split; [exact Hs|].
      intros Hik. destruct (Z.eq_dec i k) as [->|Hne]; [|apply Hb; lia].
      rewrite (aget_lookup 0 _ k t) in Hnon by (try lia; exact Hslot). lia.
Qed.

Lemma eye_binds (t : rlTexture) (i : Z) (batch : rlRenderBatch) (eyeCount : Z)
    (mv : Matrix) (eye : Z) (g : rlGraphicsData) :
  0 <= i < RL_DEFAULT_BATCH_MAX_TEXTURE_UNITS ->
  activeTextureId (State g) !! Z.to_nat i = Some t -> 0 < t ->
  0 < vertexCounter (State g) ->
  binds_since t g (draw_eye_body batch eyeCount mv eye g).
Proof.
  intros Hi Hslot Ht Hvc. unfold draw_eye_body.
  set (g1 := if eyeCount =? 2 then _ else g).
  assert (H1 : extends g g1 /\ vertexCounter (State g1) = vertexCounter (State g) /\
               activeTextureId (State g1) = activeTextureId (State g)).
  { subst g1. destruct (eyeCount =? 2);
      [|split; [apply extends_refl | split; reflexivity]].
    split; [|split; reflexivity]. exists []. cbn. symmetry. apply app_nil_r. }
  clearbody g1. destruct H1 as (He & Hv & Hs).
  destruct (Z.gtb_spec (vertexCounter (State g1)) 0) as [_|?]; [|lia].
  set (g2 := emit _ g1).
  assert (He2 : extends g g2) by (subst g2; apply extends_emit, He).
  assert (Hs2 : activeTextureId (State g2) = activeTextureId (State g)) by exact Hs.
  clearbody g2.
  destruct (bind_loop_binds t i g2 Hi) as [Hb Hst]; [rewrite Hs2; exact Hslot | exact Ht|].
  set (g3 := for_loop 0 RL_DEFAULT_BATCH_MAX_TEXTURE_UNITS 1 bind_active_body g2) in *.
  clearbody g3.
  apply (binds_extends t g g3); [apply (extends_binds t g g2); assumption|].
  apply extends_emit.
  apply (for_loop_invariant (fun st : Z * rlGraphicsData => extends g3 (snd st)));
    [apply extends_refl|].
  intros j [off g4] H4. unfold issue_draw_body. cbn [snd] in H4.
  destruct (_ || _); cbn [snd]; repeat apply extends_emit; exact H4.
Qed.

(** X8.  A texture registered as an additional sampler is bound when the
    batch is drawn, and forgotten afterwards: if slot [i] holds the
    texture [t > 0] and at least one vertex is pending,
    [rlDrawRenderBatch] binds [t] among the device calls it makes, and
    leaves the four slots at 0. *)
Theorem registered_sampler_is_bound (t : rlTexture) (i : Z) (batch : rlRenderBatch)
    (g : rlGraphicsData) :
  Z.of_nat (length (activeTextureId (State g))) = RL_DEFAULT_BATCH_MAX_TEXTURE_UNITS ->
  0 <= i < RL_DEFAULT_BATCH_MAX_TEXTURE_UNITS ->
  activeTextureId (State g) !! Z.to_nat i = Some t -> 0 < t ->
  0 < vertexCounter (State g) ->
  binds_since t g (snd (rlDrawRenderBatch batch g)) /\
  activeTextureId (State (snd (rlDrawRenderBatch batch g))) = [0; 0; 0; 0].
Proof.
  intros Hlen Hi Hslot Ht Hvc. split.
  - unfold rlDrawRenderBatch. cbv zeta.
    set (g1 := if vertexCounter (State g) >? 0 then _ else g).
    assert (H1 : extends g g1 /\ State g1 = State g).
    { subst g1. destruct (_ >? 0); [|split; [apply extends_refl | reflexivity]].
      split; [|reflexivity]. repeat apply extends_emit. apply extends_refl. }
    destruct H1 as [He1 Hs1]. clearbody g1. rewrite Hs1.
    set (eyeCount := if stereoRender (State g) then 2 else 1).
    assert (Heye : 1 <= eyeCount) by (subst eyeCount; destruct (stereoRender _); lia).
    clearbody eyeCount.
    set (mv := modelview (State g)). set (pj := projection (State g)). clearbody mv pj.
    set (g2 := for_loop 0 eyeCount 1 _ g1).
    assert (H2 : binds_since t g1 g2).
    { subst g2.
      cut (extends g1 (for_loop 0 eyeCount 1 (draw_eye_body batch eyeCount mv) g1) /\
           (vertexCounter (State (for_loop 0 eyeCount 1 (draw_eye_body batch eyeCount mv) g1))
              = vertexCounter (State g1) /\
            activeTextureId (State (for_loop 0 eyeCount 1
                                      (draw_eye_body batch eyeCount mv) g1))
              = activeTextureId (State g1)) /\
           (0 < eyeCount ->
            binds_since t g1 (for_loop 0 eyeCount 1 (draw_eye_body batch eyeCount mv) g1))).
      { intros (_ & _ & Hb). apply Hb. lia. }
      apply (for_loop_unit (fun k g' =>
               extends g1 g' /\
               (vertexCounter (State g') = vertexCounter (State g1) /\
                activeTextureId (State g') = activeTextureId (State g1)) /\
               (0 < k -> binds_since t g1 g'))); [lia | |].
      - split; [apply extends_refl|]. split; [split; reflexivity | lia].
      - intros k g' Hk (He & (Hv & Hs) & Hb).
        split; [eapply extends_trans; [exact He | apply eye_extends]|].
        split.
        + destruct (drawn_from_eye batch eyeCount mv k g' g' (drawn_from_refl g'))
            as (vp & m1 & m2 & tr & ->).
          split; [exact Hv | exact Hs].
        + intros _. destruct (Z.eq_dec k 0) as [->|Hne].
          * apply (extends_binds t g1 g'); [exact He|].
            apply (eye_binds t i); [exact Hi | | exact Ht |].
            -- rewrite Hs, Hs1. exact Hslot.
            -- rewrite Hv, Hs1. exact Hvc.
          * apply (binds_extends t g1 g'); [apply Hb; lia | apply eye_extends]. }
    clearbody g2.
    set (g3 := if eyeCount =? 2 then _ else g2).
    assert (H3 : extends g2 g3).
    { subst g3. destruct (eyeCount =? 2); [|apply extends_refl].
      exists []. cbn. symmetry. apply app_nil_r. }
    clearbody g3. cbn [snd].
    apply (extends_binds t g g1); [exact He1|].
    apply (binds_extends t g1 g2); [exact H2|].
    eapply extends_trans; [exact H3|].
    apply (for_loop_invariant (extends g3)); [exists []; cbn; symmetry; apply app_nil_r|].
    intros j g4 H4. exact H4.
  - destruct (flush_shape batch g) as (vp & tr & ->). cbn [snd].
    cbn [State set_trace upd_State set_State reset_state activeTextureId
         set_Viewport set_activeTextureId].
    apply cleared_slots_four, Hlen.
Qed.

Lemma registered_sampler_is_bound_witness :
  Z.of_nat (length (activeTextureId (State sampler_pending)))
    = RL_DEFAULT_BATCH_MAX_TEXTURE_UNITS /\
  0 <= 0 < RL_DEFAULT_BATCH_MAX_TEXTURE_UNITS /\
  activeTextureId (State sampler_pending) !! Z.to_nat 0 = Some 7 /\
  0 < 7 /\
  0 < vertexCounter (State sampler_pending) /\
  binds_since 7 sampler_pending
    (snd (rlDrawRenderBatch (currentBatch sampler_pending) sampler_pending)) /\
  activeTextureId
    (State (snd (rlDrawRenderBatch (currentBatch sampler_pending) sampler_pending)))
    = [0; 0; 0; 0].
Proof.
  assert (H1 : Z.of_nat (length (activeTextureId (State sampler_pending)))
               = RL_DEFAULT_BATCH_MAX_TEXTURE_UNITS) by (vm_compute; reflexivity).
  assert (H2 : 0 <= 0 < RL_DEFAULT_BATCH_MAX_TEXTURE_UNITS)
    by (split; [vm_compute; discriminate | vm_compute; reflexivity]).
  assert (H3 : activeTextureId (State sampler_pending) !! Z.to_nat 0 = Some 7)
    by (vm_compute; reflexivity).
  assert (H4 : 0 < 7) by lia.
  assert (H5 : 0 < vertexCounter (State sampler_pending)) by (vm_compute; reflexivity).
  exact (conj H1 (conj H2 (conj H3 (conj H4 (conj H5
    (registered_sampler_is_bound 7 0 (currentBatch sampler_pending) sampler_pending
       H1 H2 H3 H4 H5)))))).
Defined.

(* ------------------------------------------------------------------ *)
(** ** Loading a batch without buffers *)

(** X21.  [rlLoadRenderBatch] resets the vertex counter only when it
    creates a buffer: called for no buffer ([numBuffers <= 0]) it leaves
    the whole state, vertex counter included, as it was, and returns a
    batch without any vertex buffer (its draw-call table is set up all
    the same, with one draw call open). *)
Theorem load_without_buffers (numBuffers bufferElements : Z) (g : rlGraphicsData) :
  numBuffers <= 0 ->
  State (snd (rlLoadRenderBatch numBuffers bufferElements g)) = State g /\
  vertexBuffer (fst (rlLoadRenderBatch numBuffers bufferElements g)) = [] /\
  bufferCount (fst (rlLoadRenderBatch numBuffers bufferElements g)) = numBuffers /\
  drawCounter (fst (rlLoadRenderBatch numBuffers bufferElements g)) = 1.
Proof.
  intros Hn. unfold rlLoadRenderBatch. cbv zeta.
  rewrite for_loop_skip by exact Hn.
  cbn [fst snd State TRACELOG emit set_trace vertexBuffer bufferCount drawCounter].
  repeat split. unfold alloc.
  replace (Z.to_nat numBuffers) with 0%nat by lia. reflexivity.
Qed.

Lemma load_without_buffers_witness :
  0 <= 0 /\
  State (snd (rlLoadRenderBatch 0 2 pending_context)) = State pending_context /\
  vertexBuffer (fst (rlLoadRenderBatch 0 2 pending_context)) = [] /\
  bufferCount (fst (rlLoadRenderBatch 0 2 pending_context)) = 0 /\
  drawCounter (fst (rlLoadRenderBatch 0 2 pending_context)) = 1.
Proof.
  assert (H : 0 <= 0) by lia.
  exact (conj H (load_without_buffers 0 2 pending_context H)).
Defined.
